(** * Dependency graph and task-splitting engine: a shallow embedding

    The development follows the Python sources:
    - [src/models/task.py], [src/models/task_splitting.py]  (data model),
    - [src/storage/networkx_graph.py], [src/storage/duckdb_table.py],
    - [src/services/task_service.py], [src/services/task_splitting_service.py].

    Python exceptions are values of [exn]; a method that mutates its
    object is a function from the object to a result and the object
    afterwards.  A mutation made before an exception is raised stays in
    the state, as it does in Python. *)

From Stdlib Require Import String Ascii List Bool Arith ZArith Lia Permutation DecimalString.
Import ListNotations.
Open Scope string_scope.
Open Scope list_scope.
Open Scope nat_scope.

(** ** Exceptions and results *)

Inductive exn : Type :=
| ValueError (msg : string)
| AttributeError (msg : string)
| ValidationError (msg : string)
| NetworkXError
| NetworkXUnfeasible
| NetworkXNoPath
| NodeNotFound
| RuntimeError
| OutOfFuel    (* never produced by a run: see [topological_sort_spec] *)
| Unmodelled.  (* a statement whose SQL text is outside the part modelled:
                  see [DuckDBTableStorage.query] *)

Inductive res (A : Type) : Type :=
| Ok (a : A)
| Raise (e : exn).
Arguments Ok {A} a.
Arguments Raise {A} e.

Definition is_ok {A} (r : res A) : bool :=
  match r with Ok _ => true | Raise _ => false end.

(** ** Identifiers

    A [uuid.UUID] is represented by its canonical text: [str(u)] is
    [uuid_text u], and [uuid.UUID(s)] on canonical text is [mkUUID s]. *)

Record UUID : Type := mkUUID { uuid_text : string }.

Definition uuid_eqb (a b : UUID) : bool := String.eqb (uuid_text a) (uuid_text b).

Definition mem (x : UUID) (l : list UUID) : bool := existsb (uuid_eqb x) l.

(** ** The part of networkx the storage layer calls

    [nx.DiGraph] keeps its nodes and, per node, its successors and
    predecessors in insertion-ordered dicts.  The node list and the
    edge list below are in insertion order; successors and predecessors
    are read off the edge list, which keeps the order of each adjacency
    dict.  An edge carries its [relationship] attribute. *)

Module Nx.

Record DiGraph : Type := mkDiGraph {
nodes : list UUID;
edges : list (UUID * UUID * string)
}.

Definition empty : DiGraph := mkDiGraph [] [].

Definition edge_is (u v : UUID) (e : UUID * UUID * string) : bool :=
uuid_eqb u (fst (fst e)) && uuid_eqb v (snd (fst e)).

Definition touches (n : UUID) (e : UUID * UUID * string) : bool :=
uuid_eqb n (fst (fst e)) || uuid_eqb n (snd (fst e)).

(* [n in G] *)
Definition has_node (g : DiGraph) (n : UUID) : bool := mem n (nodes g).

Definition has_edge (g : DiGraph) (u v : UUID) : bool := existsb (edge_is u v) (edges g).

Definition add_node (g : DiGraph) (n : UUID) : DiGraph :=
if has_node g n then g else mkDiGraph (nodes g ++ [n]) (edges g).

(* [G.add_edge(u, v, relationship=rel)]: missing endpoints become nodes;
 an edge already present keeps its place and gets the new attribute. *)
Definition add_edge (g : DiGraph) (u v : UUID) (rel : string) : DiGraph :=
let g1 := add_node (add_node g u) v in
mkDiGraph (nodes g1)
  (if has_edge g u v
   then map (fun e => if edge_is u v e then (u, v, rel) else e) (edges g)
   else edges g ++ [(u, v, rel)]).

Definition remove_edge (g : DiGraph) (u v : UUID) : res DiGraph :=
if has_edge g u v
then Ok (mkDiGraph (nodes g) (filter (fun e => negb (edge_is u v e)) (edges g)))
else Raise NetworkXError.

Definition remove_node (g : DiGraph) (n : UUID) : res DiGraph :=
if has_node g n
then Ok (mkDiGraph (filter (fun x => negb (uuid_eqb n x)) (nodes g))
                   (filter (fun e => negb (touches n e)) (edges g)))
else Raise NetworkXError.

Definition get_edge_data (g : DiGraph) (u v : UUID) : option string :=
option_map snd (find (edge_is u v) (edges g)).

Definition successors (g : DiGraph) (n : UUID) : list UUID :=
map (fun e => snd (fst e)) (filter (fun e => uuid_eqb n (fst (fst e))) (edges g)).

Definition predecessors (g : DiGraph) (n : UUID) : list UUID :=
map (fun e => fst (fst e)) (filter (fun e => uuid_eqb n (snd (fst e))) (edges g)).

Definition in_degree (g : DiGraph) (v : UUID) : nat := length (predecessors g v).

(* [G.edges(data=True)]: by node, then by successor. *)
Definition edges_view (g : DiGraph) : list (UUID * UUID * string) :=
flat_map (fun n => filter (fun e => uuid_eqb n (fst (fst e))) (edges g)) (nodes g).

(** *** [topological_generations] and [topological_sort]

  [indegree_map] is a dict from node to remaining in-degree. *)

Definition imap : Type := list (UUID * nat).

Fixpoint lookup (k : UUID) (m : imap) : option nat :=
match m with
| [] => None
| (k', d) :: m' => if uuid_eqb k k' then Some d else lookup k m'
end.

Fixpoint update (k : UUID) (d : nat) (m : imap) : imap :=
match m with
| [] => []
| (k', d') :: m' => if uuid_eqb k k' then (k', d) :: m' else (k', d') :: update k d m'
end.

Fixpoint delete (k : UUID) (m : imap) : imap :=
match m with
| [] => []
| (k', d') :: m' => if uuid_eqb k k' then m' else (k', d') :: delete k m'
end.

(* for child in G.neighbors(node): indegree_map[child] -= 1; ... *)
Fixpoint relax (children : list UUID) (indegree_map : imap) (zero_indegree : list UUID)
: res (imap * list UUID) :=
match children with
| [] => Ok (indegree_map, zero_indegree)
| child :: rest =>
    match lookup child indegree_map with
    | None => Raise RuntimeError          (* KeyError: graph changed during iteration *)
    | Some d =>
        if d - 1 =? 0
        then relax rest (delete child indegree_map) (zero_indegree ++ [child])
        else relax rest (update child (d - 1) indegree_map) zero_indegree
    end
end.

(* for node in this_generation: ... *)
Fixpoint process_generation (g : DiGraph) (this_generation : list UUID)
  (indegree_map : imap) (zero_indegree : list UUID) : res (imap * list UUID) :=
match this_generation with
| [] => Ok (indegree_map, zero_indegree)
| node :: rest =>
    if negb (has_node g node) then Raise RuntimeError
    else match relax (successors g node) indegree_map zero_indegree with
         | Raise e => Raise e
         | Ok (indegree_map', zero_indegree') =>
             process_generation g rest indegree_map' zero_indegree'
         end
end.

(* while zero_indegree: ...; the generations are yielded in turn, [acc]
 collects them as [topological_sort] does. *)
Fixpoint generations (fuel : nat) (g : DiGraph) (indegree_map : imap)
  (zero_indegree : list UUID) (acc : list UUID) : res (list UUID) :=
match zero_indegree with
| [] => match indegree_map with
        | [] => Ok acc
        | _ :: _ => Raise NetworkXUnfeasible
        end
| _ :: _ =>
    match fuel with
    | 0 => Raise OutOfFuel
    | S fuel' =>
        match process_generation g zero_indegree indegree_map [] with
        | Raise e => Raise e
        | Ok (indegree_map', zero_indegree') =>
            generations fuel' g indegree_map' zero_indegree' (acc ++ zero_indegree)
        end
    end
end.

Definition indegree_map0 (g : DiGraph) : imap :=
map (fun v => (v, in_degree g v)) (filter (fun v => negb (in_degree g v =? 0)) (nodes g)).

Definition zero_indegree0 (g : DiGraph) : list UUID :=
filter (fun v => in_degree g v =? 0) (nodes g).

Definition topological_sort (g : DiGraph) : res (list UUID) :=
generations (S (length (nodes g))) g (indegree_map0 g) (zero_indegree0 g) [].

(* has_cycle catches NetworkXUnfeasible only. *)
Definition is_directed_acyclic_graph (g : DiGraph) : res bool :=
match topological_sort g with
| Ok _ => Ok true
| Raise NetworkXUnfeasible => Ok false
| Raise e => Raise e
end.

(** *** Breadth-first search: [descendants], [ancestors], [shortest_path] *)

Fixpoint add_new (cands seen : list UUID) : list UUID :=
match cands with
| [] => []
| c :: cs => if mem c seen then add_new cs seen else c :: add_new cs (seen ++ [c])
end.

Fixpoint bfs (fuel : nat) (next : UUID -> list UUID) (frontier seen : list UUID) : list UUID :=
match fuel with
| 0 => seen
| S fuel' =>
    match add_new (flat_map next frontier) seen with
    | [] => seen
    | fresh => bfs fuel' next fresh (seen ++ fresh)
    end
end.

Definition descendants (g : DiGraph) (source : UUID) : res (list UUID) :=
if has_node g source
then Ok (tl (bfs (length (nodes g)) (successors g) [source] [source]))
else Raise NetworkXError.

Definition ancestors (g : DiGraph) (source : UUID) : res (list UUID) :=
if has_node g source
then Ok (tl (bfs (length (nodes g)) (predecessors g) [source] [source]))
else Raise NetworkXError.

(* paths are kept reversed, head = last node reached *)
Fixpoint extend (next : UUID -> list UUID) (paths : list (list UUID)) (seen : list UUID)
: list (list UUID) :=
match paths with
| [] => []
| p :: ps =>
    let fresh := add_new (match p with [] => [] | h :: _ => next h end) seen in
    map (fun c => c :: p) fresh ++ extend next ps (seen ++ fresh)
end.

Definition ends_at (target : UUID) (p : list UUID) : bool :=
match p with [] => false | h :: _ => uuid_eqb target h end.

Fixpoint bfs_path (fuel : nat) (next : UUID -> list UUID) (target : UUID)
  (paths : list (list UUID)) (seen : list UUID) : option (list UUID) :=
match find (ends_at target) paths with
| Some p => Some (rev p)
| None =>
    match fuel with
    | 0 => None
    | S fuel' =>
        match extend next paths seen with
        | [] => None
        | paths' => bfs_path fuel' next target paths' (seen ++ flat_map (firstn 1) paths')
        end
    end
end.

(* nx.shortest_path(G, source, target), unweighted *)
Definition shortest_path (g : DiGraph) (source target : UUID) : res (list UUID) :=
if negb (has_node g source) || negb (has_node g target) then Raise NodeNotFound
else match bfs_path (length (nodes g)) (successors g) target [[source]] [source] with
     | Some p => Ok p
     | None => Raise NetworkXNoPath
     end.

(* nx.has_path: try shortest_path; except NetworkXNoPath: return False *)
Definition has_path (g : DiGraph) (source target : UUID) : res bool :=
match shortest_path g source target with
| Ok _ => Ok true
| Raise NetworkXNoPath => Ok false
| Raise e => Raise e
end.

(** Representation invariant of a [DiGraph]: nodes are distinct, there
  is one entry per ordered pair, and the endpoints of an edge are nodes. *)
Definition wf (g : DiGraph) : Prop :=
NoDup (nodes g) /\
NoDup (map fst (edges g)) /\
(forall u v r, In (u, v, r) (edges g) -> In u (nodes g) /\ In v (nodes g)).

(** [ordered g l]: every node of [l] comes after all its predecessors. *)
Inductive ordered (g : DiGraph) : list UUID -> Prop :=
| ordered_nil : ordered g []
| ordered_snoc l v :
  ordered g l -> incl (predecessors g v) l -> ordered g (l ++ [v]).

(* number of predecessors of [v] outside [done] *)
Definition pending (g : DiGraph) (done : list UUID) (v : UUID) : nat :=
length (filter (fun u => negb (mem u done)) (predecessors g v)).

(* what [relax] moves to the next generation: in-degree 1 before the visit *)
Definition last_one (m : imap) (c : UUID) : bool :=
match lookup c m with Some d => d - 1 =? 0 | None => false end.

(** Loop invariant of [generations]: [X] are the nodes whose out-edges
  have been relaxed, [W] the nodes with no pending predecessor that
  wait for their turn, [m] the in-degree dict. *)
Definition kahn_inv (g : DiGraph) (X W : list UUID) (m : imap) : Prop :=
NoDup (X ++ W) /\
incl (X ++ W) (nodes g) /\
NoDup (map fst m) /\
(forall v, In v (nodes g) -> (lookup v m = None <-> In v (X ++ W))) /\
(forall v d, lookup v m = Some d -> In v (nodes g) /\ d = pending g X v /\ 1 <= d) /\
(forall v, In v W -> pending g X v = 0) /\
ordered g X.

End Nx.

(** [before l a b]: [a] occurs in [l] at a position before an occurrence of [b]. *)
Definition before {A : Type} (l : list A) (a b : A) : Prop :=
  exists l1 l2 l3, l = l1 ++ a :: l2 ++ b :: l3.

(** ** Strings *)

(* the ASCII characters [str.isspace] accepts *)
Definition is_space (c : ascii) : bool :=
  let n := nat_of_ascii c in
  ((9 <=? n) && (n <=? 13)) || ((28 <=? n) && (n <=? 32)).

Fixpoint lstrip (l : list ascii) : list ascii :=
  match l with
  | [] => []
  | c :: l' => if is_space c then lstrip l' else l
  end.

(* [s.strip()] *)
Definition strip (s : string) : string :=
  string_of_list_ascii (rev (lstrip (rev (lstrip (list_ascii_of_string s))))).

(* [len(s)] *)
Definition len (s : string) : Z := Z.of_nat (String.length s).

Definition str_of_nat (n : nat) : string := NilZero.string_of_uint (Nat.to_uint n).

Definition str_of_Z (z : Z) : string := NilZero.string_of_int (Z.to_int z).

Definition mem_str (x : string) (l : list string) : bool := existsb (String.eqb x) l.

(** ** JSON documents, as [json.loads] returns them *)

Unset Elimination Schemes.
Inductive Json : Type :=
| JNull
| JNum (z : Z)
| JStr (s : string)
| JArr (items : list Json)
| JObj (fields : list (string * Json)).
Set Elimination Schemes.

Fixpoint assoc (k : string) (fields : list (string * Json)) : option Json :=
  match fields with
  | [] => None
  | (k', v) :: rest => if String.eqb k k' then Some v else assoc k rest
  end.

Definition field (k : string) (j : Json) : option Json :=
  match j with JObj fields => assoc k fields | _ => None end.

Definition bind_opt {A B} (o : option A) (f : A -> option B) : option B :=
  match o with Some a => f a | None => None end.

Notation "x <-? o ;; k" := (bind_opt o (fun x => k))
  (at level 61, o at next level, right associativity).

Definition as_str (j : Json) : option string :=
  match j with JStr s => Some s | _ => None end.

Definition as_opt_str (j : Json) : option (option string) :=
  match j with JNull => Some None | JStr s => Some (Some s) | _ => None end.

Definition as_opt_int (j : Json) : option (option Z) :=
  match j with JNull => Some None | JNum z => Some (Some z) | _ => None end.

Definition as_arr (j : Json) : option (list Json) :=
  match j with JArr l => Some l | _ => None end.

Fixpoint traverse {A B} (f : A -> option B) (l : list A) : option (list B) :=
  match l with
  | [] => Some []
  | a :: l' => b <-? f a ;; bs <-? traverse f l' ;; Some (b :: bs)
  end.

Definition of_opt_str (o : option string) : Json :=
  match o with Some s => JStr s | None => JNull end.

Definition of_opt_int (o : option Z) : Json :=
  match o with Some z => JNum z | None => JNull end.

(* [data ->> 'k'] cast to VARCHAR, for the scalar fields the services filter on *)
Definition json_text (k : string) (doc : Json) : option string :=
  match field k doc with
  | Some (JStr s) => Some s
  | Some (JNum z) => Some (str_of_Z z)
  | _ => None
  end.

(** ** src/models/task.py *)

Inductive TaskStatus : Type := PENDING | IN_PROGRESS | COMPLETED | BLOCKED.
Inductive Priority : Type := P0 | P1 | P2 | P3.
Inductive ComplexityLevel : Type := SIMPLE | MODERATE | COMPLEX | EPIC.
Inductive RelatedFileType : Type := TO_MODIFY | REFERENCE | CREATE | DEPENDENCY | OTHER.

Definition status_value (s : TaskStatus) : string :=
  match s with
  | PENDING => "PENDING" | IN_PROGRESS => "IN_PROGRESS"
  | COMPLETED => "COMPLETED" | BLOCKED => "BLOCKED"
  end.

Definition status_of_value (s : string) : option TaskStatus :=
  if String.eqb s "PENDING" then Some PENDING
  else if String.eqb s "IN_PROGRESS" then Some IN_PROGRESS
  else if String.eqb s "COMPLETED" then Some COMPLETED
  else if String.eqb s "BLOCKED" then Some BLOCKED
  else None.

Definition status_eqb (a b : TaskStatus) : bool :=
  String.eqb (status_value a) (status_value b).

Definition priority_value (p : Priority) : string :=
  match p with P0 => "P0" | P1 => "P1" | P2 => "P2" | P3 => "P3" end.

Definition priority_of_value (s : string) : option Priority :=
  if String.eqb s "P0" then Some P0
  else if String.eqb s "P1" then Some P1
  else if String.eqb s "P2" then Some P2
  else if String.eqb s "P3" then Some P3
  else None.

Definition complexity_value (c : ComplexityLevel) : string :=
  match c with
  | SIMPLE => "SIMPLE" | MODERATE => "MODERATE" | COMPLEX => "COMPLEX" | EPIC => "EPIC"
  end.

Definition complexity_of_value (s : string) : option ComplexityLevel :=
  if String.eqb s "SIMPLE" then Some SIMPLE
  else if String.eqb s "MODERATE" then Some MODERATE
  else if String.eqb s "COMPLEX" then Some COMPLEX
  else if String.eqb s "EPIC" then Some EPIC
  else None.

Definition file_type_value (t : RelatedFileType) : string :=
  match t with
  | TO_MODIFY => "TO_MODIFY" | REFERENCE => "REFERENCE" | CREATE => "CREATE"
  | DEPENDENCY => "DEPENDENCY" | OTHER => "OTHER"
  end.

Definition file_type_of_value (s : string) : option RelatedFileType :=
  if String.eqb s "TO_MODIFY" then Some TO_MODIFY
  else if String.eqb s "REFERENCE" then Some REFERENCE
  else if String.eqb s "CREATE" then Some CREATE
  else if String.eqb s "DEPENDENCY" then Some DEPENDENCY
  else if String.eqb s "OTHER" then Some OTHER
  else None.

(* a [datetime] is represented by its ISO-8601 text *)
Record datetime : Type := mkDatetime { isoformat : string }.

Module GraphNode.
Record t : Type := mk { id : UUID; data : list (string * Json) }.
End GraphNode.

Module GraphEdge.
Record t : Type := mk { from_id : UUID; to_id : UUID; relationship : string }.
Definition depends_on (from_id to_id : UUID) : t := mk from_id to_id "depends_on".
End GraphEdge.

Module RelatedFile.
Record t : Type := mk {
  path : string;
  type : RelatedFileType;
  description : string;
  line_start : option Z;
  line_end : option Z
}.

Definition positive (o : option Z) : bool :=
  match o with Some z => (0 <? z)%Z | None => true end.

Definition valid (f : t) : bool :=
  (1 <=? len (path f))%Z && (1 <=? len (description f))%Z &&
  positive (line_start f) && positive (line_end f) &&
  match line_start f, line_end f with
  | Some a, Some b => (a <=? b)%Z
  | _, _ => true
  end.

Definition model_dump (f : t) : Json :=
  JObj [("path", JStr (path f));
        ("type", JStr (file_type_value (type f)));
        ("description", JStr (description f));
        ("line_start", of_opt_int (line_start f));
        ("line_end", of_opt_int (line_end f))].

Definition model_validate (j : Json) : option t :=
  p <-? bind_opt (field "path" j) as_str ;;
  ty <-? bind_opt (bind_opt (field "type" j) as_str) file_type_of_value ;;
  d <-? bind_opt (field "description" j) as_str ;;
  ls <-? bind_opt (field "line_start" j) as_opt_int ;;
  le <-? bind_opt (field "line_end" j) as_opt_int ;;
  let f := mk p ty d ls le in
  if valid f then Some f else None.
End RelatedFile.

Module TaskDependency.
Record t : Type := mk { task_id : UUID }.

Definition model_dump (d : t) : Json := JObj [("task_id", JStr (uuid_text (task_id d)))].

Definition model_validate (j : Json) : option t :=
  s <-? bind_opt (field "task_id" j) as_str ;; Some (mk (mkUUID s)).
End TaskDependency.

Module Task.
Record t : Type := mk {
  id : UUID;
  name : string;
  description : string;
  implementation_guide : string;
  verification_criteria : option string;
  status : TaskStatus;
  priority : Priority;
  complexity : option ComplexityLevel;
  estimated_hours : option Z;
  dependencies : list TaskDependency.t;
  related_files : list RelatedFile.t;
  category : option string;
  notes : option string;
  created_at : datetime;
  updated_at : datetime
}.

(* Field(gt=0, le=40) and validate_complexity_hours_alignment *)
Definition hours_ok (c : option ComplexityLevel) (h : option Z) : bool :=
  match h with
  | None => true
  | Some v =>
      (0 <? v)%Z && (v <=? 40)%Z &&
      match c with
      | Some SIMPLE => (v <=? 4)%Z
      | Some MODERATE => (4 <? v)%Z && (v <=? 8)%Z
      | Some COMPLEX => (8 <? v)%Z && (v <=? 16)%Z
      | Some EPIC => (16 <? v)%Z
      | None => true
      end
  end.

Definition category_ok (c : option string) : bool :=
  match c with Some s => (len s <=? 50)%Z | None => true end.

Definition fields_ok (x : t) : bool :=
  (1 <=? len (name x))%Z && (len (name x) <=? 100)%Z &&
  negb (String.eqb (strip (name x)) "") &&
  (10 <=? len (description x))%Z &&
  (10 <=? len (implementation_guide x))%Z &&
  hours_ok (complexity x) (estimated_hours x) &&
  forallb RelatedFile.valid (related_files x) &&
  category_ok (category x).

Definition with_name (x : t) (n : string) : t :=
  mk (id x) n (description x) (implementation_guide x) (verification_criteria x)
     (status x) (priority x) (complexity x) (estimated_hours x) (dependencies x)
     (related_files x) (category x) (notes x) (created_at x) (updated_at x).

Definition with_dependencies (x : t) (deps : list TaskDependency.t) : t :=
  mk (id x) (name x) (description x) (implementation_guide x) (verification_criteria x)
     (status x) (priority x) (complexity x) (estimated_hours x) deps
     (related_files x) (category x) (notes x) (created_at x) (updated_at x).

(* what pydantic does with the fields given to [Task(...)]: check the
   constraints, run the validators; [validate_name_format] strips the name *)
Definition validate (x : t) : res t :=
  if fields_ok x then Ok (with_name x (strip (name x)))
  else Raise (ValidationError "Task").

(* a task object as the constructor leaves it *)
Definition valid (x : t) : Prop := validate x = Ok x.

Definition model_dump (x : t) : Json :=
  JObj [("id", JStr (uuid_text (id x)));
        ("name", JStr (name x));
        ("description", JStr (description x));
        ("implementation_guide", JStr (implementation_guide x));
        ("verification_criteria", of_opt_str (verification_criteria x));
        ("status", JStr (status_value (status x)));
        ("priority", JStr (priority_value (priority x)));
        ("complexity", of_opt_str (option_map complexity_value (complexity x)));
        ("estimated_hours", of_opt_int (estimated_hours x));
        ("dependencies", JArr (map TaskDependency.model_dump (dependencies x)));
        ("related_files", JArr (map RelatedFile.model_dump (related_files x)));
        ("category", of_opt_str (category x));
        ("notes", of_opt_str (notes x));
        ("created_at", JStr (isoformat (created_at x)));
        ("updated_at", JStr (isoformat (updated_at x)))].

Definition opt_complexity (o : option string) : option (option ComplexityLevel) :=
  match o with
  | None => Some None
  | Some s => option_map Some (complexity_of_value s)
  end.

(* the fields of a stored document; a document in the table always
   comes from [model_dump], which writes every field *)
Definition parse (j : Json) : option t :=
  i <-? bind_opt (field "id" j) as_str ;;
  n <-? bind_opt (field "name" j) as_str ;;
  d <-? bind_opt (field "description" j) as_str ;;
  g <-? bind_opt (field "implementation_guide" j) as_str ;;
  v <-? bind_opt (field "verification_criteria" j) as_opt_str ;;
  st <-? bind_opt (bind_opt (field "status" j) as_str) status_of_value ;;
  p <-? bind_opt (bind_opt (field "priority" j) as_str) priority_of_value ;;
  c <-? bind_opt (bind_opt (field "complexity" j) as_opt_str) opt_complexity ;;
  h <-? bind_opt (field "estimated_hours" j) as_opt_int ;;
  deps <-? bind_opt (bind_opt (field "dependencies" j) as_arr)
             (traverse TaskDependency.model_validate) ;;
  files <-? bind_opt (bind_opt (field "related_files" j) as_arr)
             (traverse RelatedFile.model_validate) ;;
  cat <-? bind_opt (field "category" j) as_opt_str ;;
  no <-? bind_opt (field "notes" j) as_opt_str ;;
  ca <-? bind_opt (field "created_at" j) as_str ;;
  ua <-? bind_opt (field "updated_at" j) as_str ;;
  Some (mk (mkUUID i) n d g v st p c h deps files cat no (mkDatetime ca) (mkDatetime ua)).

Definition model_validate (j : Json) : res t :=
  match parse j with
  | Some x => validate x
  | None => Raise (ValidationError "Task")
  end.
End Task.

(** ** src/storage/networkx_graph.py *)

Module NetworkXGraphStorage.

Record t : Type := mk {
  _graph : Nx.DiGraph;
  _nodes : list (UUID * GraphNode.t)      (* dict[UUID, GraphNode] *)
}.

Definition init : t := mk Nx.empty [].

Definition in_nodes (s : t) (k : UUID) : bool := mem k (map fst (_nodes s)).

Fixpoint dict_get (k : UUID) (d : list (UUID * GraphNode.t)) : option GraphNode.t :=
  match d with
  | [] => None
  | (k', v) :: d' => if uuid_eqb k k' then Some v else dict_get k d'
  end.

Definition dict_del (k : UUID) (d : list (UUID * GraphNode.t)) : list (UUID * GraphNode.t) :=
  filter (fun kv => negb (uuid_eqb k (fst kv))) d.

Definition add_node (node : GraphNode.t) (s : t) : res bool * t :=
  if in_nodes s (GraphNode.id node) then (Ok false, s)
  else (Ok true, mk (Nx.add_node (_graph s) (GraphNode.id node))
                    (_nodes s ++ [(GraphNode.id node, node)])).

Definition _would_create_cycle (new_edge : GraphEdge.t) (s : t) : res bool * t :=
  (* Temporarily add edge *)
  let g1 := Nx.add_edge (_graph s) (GraphEdge.from_id new_edge) (GraphEdge.to_id new_edge)
              (GraphEdge.relationship new_edge) in
  (* Check for cycles *)
  match Nx.is_directed_acyclic_graph g1 with
  | Raise e => (Raise e, mk g1 (_nodes s))
  | Ok dag =>
      let has_cycle := negb dag in
      (* Remove temporary edge *)
      match Nx.remove_edge g1 (GraphEdge.from_id new_edge) (GraphEdge.to_id new_edge) with
      | Raise e => (Raise e, mk g1 (_nodes s))
      | Ok g2 => (Ok has_cycle, mk g2 (_nodes s))
      end
  end.

Definition add_edge (edge : GraphEdge.t) (s : t) : res bool * t :=
  (* Check if nodes exist *)
  if negb (in_nodes s (GraphEdge.from_id edge)) || negb (in_nodes s (GraphEdge.to_id edge))
  then (Ok false, s)
  else
    (* Check if would create cycle *)
    match _would_create_cycle edge s with
    | (Raise e, s1) => (Raise e, s1)
    | (Ok true, s1) => (Ok false, s1)
    | (Ok false, s1) =>
        (Ok true,
         mk (Nx.add_edge (_graph s1) (GraphEdge.from_id edge) (GraphEdge.to_id edge)
               (GraphEdge.relationship edge))
            (_nodes s1))
    end.

Definition get_node (node_id : UUID) (s : t) : option GraphNode.t :=
  dict_get node_id (_nodes s).

Definition remove_node (node_id : UUID) (s : t) : res bool * t :=
  if negb (in_nodes s node_id) then (Ok false, s)
  else match Nx.remove_node (_graph s) node_id with
       | Raise e => (Raise e, s)
       | Ok g' => (Ok true, mk g' (dict_del node_id (_nodes s)))
       end.

Definition remove_edge (edge : GraphEdge.t) (s : t) : res bool * t :=
  if negb (Nx.has_edge (_graph s) (GraphEdge.from_id edge) (GraphEdge.to_id edge))
  then (Ok false, s)
  else
    match Nx.get_edge_data (_graph s) (GraphEdge.from_id edge) (GraphEdge.to_id edge) with
    | Some rel =>
        if String.eqb rel (GraphEdge.relationship edge)
        then match Nx.remove_edge (_graph s) (GraphEdge.from_id edge) (GraphEdge.to_id edge) with
             | Raise e => (Raise e, s)
             | Ok g' => (Ok true, mk g' (_nodes s))
             end
        else (Ok false, s)
    | None => (Ok false, s)
    end.

Definition get_dependencies (node_id : UUID) (s : t) : list UUID :=
  if negb (Nx.has_node (_graph s) node_id) then []
  else Nx.successors (_graph s) node_id.

Definition get_dependents (node_id : UUID) (s : t) : list UUID :=
  if negb (Nx.has_node (_graph s) node_id) then []
  else Nx.predecessors (_graph s) node_id.

Definition has_cycle (s : t) : res bool :=
  match Nx.is_directed_acyclic_graph (_graph s) with
  | Ok dag => Ok (negb dag)
  | Raise e => Raise e
  end.

Definition topological_sort (s : t) : res (list UUID) :=
  match has_cycle s with
  | Raise e => Raise e
  | Ok true => Raise (ValueError "Graph contains cycles")
  | Ok false =>
      match Nx.topological_sort (_graph s) with
      | Raise NetworkXError => Raise (ValueError "Topological sort failed")
      | r => r
      end
  end.

Definition get_all_nodes (s : t) : list GraphNode.t := map snd (_nodes s).

Definition get_all_edges (s : t) : list GraphEdge.t :=
  map (fun e => GraphEdge.mk (fst (fst e)) (snd (fst e)) (snd e)) (Nx.edges_view (_graph s)).

Definition clear (s : t) : t := mk Nx.empty [].

Definition get_shortest_path (from_id to_id : UUID) (s : t) : res (option (list UUID)) :=
  match Nx.shortest_path (_graph s) from_id to_id with
  | Ok p => Ok (Some p)
  | Raise NetworkXNoPath => Ok None
  | Raise NodeNotFound => Ok None
  | Raise e => Raise e
  end.

Definition get_descendants (node_id : UUID) (s : t) : res (list UUID) :=
  if negb (Nx.has_node (_graph s) node_id) then Ok []
  else Nx.descendants (_graph s) node_id.

Definition get_ancestors (node_id : UUID) (s : t) : res (list UUID) :=
  if negb (Nx.has_node (_graph s) node_id) then Ok []
  else Nx.ancestors (_graph s) node_id.

Definition is_reachable (from_id to_id : UUID) (s : t) : res bool :=
  Nx.has_path (_graph s) from_id to_id.

(** The two halves of the store agree: the keys of [_nodes] are the
    nodes of [_graph], and [_graph] is a well-formed [DiGraph]. *)
Definition wf (s : t) : Prop :=
  Nx.wf (_graph s) /\
  NoDup (map fst (_nodes s)) /\
  (forall k, In k (map fst (_nodes s)) <-> In k (Nx.nodes (_graph s))).

(* a run of add_edge calls, results dropped *)
Fixpoint add_edges (es : list GraphEdge.t) (s : t) : t :=
  match es with
  | [] => s
  | e :: es' => add_edges es' (snd (add_edge e s))
  end.

End NetworkXGraphStorage.

(** A path of one or more edges. *)
Inductive path (g : Nx.DiGraph) : UUID -> UUID -> Prop :=
| path_edge u v : In v (Nx.successors g u) -> path g u v
| path_step u v w : In v (Nx.successors g u) -> path g v w -> path g u w.

(** Two graphs with the same nodes and the same ordered pairs as edges. *)
Definition same_shape (g g' : Nx.DiGraph) : Prop :=
  (forall n, In n (Nx.nodes g) <-> In n (Nx.nodes g')) /\
  (forall p, In p (map fst (Nx.edges g)) <-> In p (map fst (Nx.edges g'))).

(** ** src/storage/duckdb_table.py

    One row per item: the [id] column holds [str(item.id)], the [data]
    column the JSON document.  Rows are kept in insertion order, which
    is the order of [created_at].  The [created_at] and [updated_at]
    columns themselves are not carried: of the methods below only
    ORDER BY reads them, so a table here is its [id] and [data]
    columns, and an equation between two tables says nothing of the
    time [update] writes into [updated_at]. *)

Module DuckDBTableStorage.

Record row : Type := mkRow { row_id : string; row_data : Json }.

Record t : Type := mk { rows : list row }.

Definition init : t := mk [].

Definition has_id (item_id : UUID) (r : row) : bool :=
  String.eqb (row_id r) (uuid_text item_id).

Definition exists_ (item_id : UUID) (s : t) : bool := existsb (has_id item_id) (rows s).

Definition create (item : Task.t) (s : t) : res Task.t * t :=
  if exists_ (Task.id item) s
  then (Raise (ValueError ("Item with ID " ++ uuid_text (Task.id item) ++ " already exists")), s)
  else (Ok item, mk (rows s ++ [mkRow (uuid_text (Task.id item)) (Task.model_dump item)])).

Definition get_by_id (item_id : UUID) (s : t) : res (option Task.t) :=
  match find (has_id item_id) (rows s) with
  | None => Ok None
  | Some r =>
      match Task.model_validate (row_data r) with
      | Ok x => Ok (Some x)
      | Raise e => Raise e
      end
  end.

Fixpoint validate_all (docs : list Json) : res (list Task.t) :=
  match docs with
  | [] => Ok []
  | d :: ds =>
      match Task.model_validate d with
      | Raise e => Raise e
      | Ok x => match validate_all ds with
                | Raise e => Raise e
                | Ok xs => Ok (x :: xs)
                end
      end
  end.

Definition list_all (s : t) : res (list Task.t) := validate_all (map row_data (rows s)).

(* UPDATE ... SET data = ?, updated_at = CURRENT_TIMESTAMP WHERE id = ?:
   the document of the row is replaced where the row stands; the time
   written into updated_at is not carried (see the head of this section) *)
Definition update (item : Task.t) (s : t) : res Task.t * t :=
  if negb (exists_ (Task.id item) s)
  then (Raise (ValueError ("Item with ID " ++ uuid_text (Task.id item) ++ " doesn't exist")), s)
  else (Ok item,
        mk (map (fun r => if has_id (Task.id item) r
                          then mkRow (row_id r) (Task.model_dump item) else r) (rows s))).

Definition delete (item_id : UUID) (s : t) : bool * t :=
  if negb (exists_ item_id s) then (false, s)
  else (true, mk (filter (fun r => negb (has_id item_id r)) (rows s))).

(* a letter, a digit or an underscore *)
Definition is_word (c : ascii) : bool :=
  let n := nat_of_ascii c in
  ((65 <=? n) && (n <=? 90)) || ((97 <=? n) && (n <=? 122)) ||
  ((48 <=? n) && (n <=? 57)) || (n =? 95).

(* [query] writes the filter's field into the text of its statement,
   [data ->> '{field}'], without escaping it.  For a field that is a
   plain name (word characters, not starting with a digit) the text
   is the JSON key; a quote in the field changes the statement, and a
   leading $ or / makes the text a path *)
Definition plain_key (k : string) : bool :=
  match list_ascii_of_string k with
  | [] => false
  | c :: _ as cs =>
      forallb is_word cs && negb ((48 <=? nat_of_ascii c) && (nat_of_ascii c <=? 57))
  end.

(* WHERE CAST(data ->> 'field' AS VARCHAR) = ? AND ...; a None parameter matches no row *)
Definition matches (filters : list (string * option string)) (r : row) : bool :=
  forallb (fun f => match snd f, json_text (fst f) (row_data r) with
                    | Some expected, Some actual => String.eqb actual expected
                    | _, _ => false
                    end) filters.

(* the statement is modelled for plain field names only: with any
   other field its result is [Unmodelled], about which nothing is
   proved *)
Definition query (filters : list (string * option string)) (s : t) : res (list Task.t) :=
  match filters with
  | [] => list_all s
  | _ :: _ =>
      if forallb (fun f => plain_key (fst f)) filters
      then validate_all (map row_data (filter (matches filters) (rows s)))
      else Raise Unmodelled
  end.

Definition count (s : t) : nat := length (rows s).

Definition clear (s : t) : t := mk [].

Fixpoint bulk_check (items : list Task.t) (s : t) : res (list row) :=
  match items with
  | [] => Ok []
  | item :: rest =>
      if exists_ (Task.id item) s
      then Raise (ValueError ("Item with ID " ++ uuid_text (Task.id item) ++ " already exists"))
      else match bulk_check rest s with
           | Raise e => Raise e
           | Ok rs => Ok (mkRow (uuid_text (Task.id item)) (Task.model_dump item) :: rs)
           end
  end.

End DuckDBTableStorage.

(** ** src/services/task_service.py *)

Module TaskService.

Record t : Type := mk {
  table_storage : DuckDBTableStorage.t;
  graph_storage : NetworkXGraphStorage.t
}.

(* a method: the service before, the result and the service after *)
Definition M (A : Type) : Type := t -> res A * t.

Definition ret {A} (a : A) : M A := fun s => (Ok a, s).
Definition raise {A} (e : exn) : M A := fun s => (Raise e, s).
Definition bind {A B} (m : M A) (k : A -> M B) : M B :=
  fun s => match m s with
           | (Ok a, s') => k a s'
           | (Raise e, s') => (Raise e, s')
           end.

Definition on_table {A} (f : DuckDBTableStorage.t -> res A * DuckDBTableStorage.t) : M A :=
  fun s => let (r, tb) := f (table_storage s) in (r, mk tb (graph_storage s)).

Definition on_graph {A} (f : NetworkXGraphStorage.t -> res A * NetworkXGraphStorage.t) : M A :=
  fun s => let (r, gr) := f (graph_storage s) in (r, mk (table_storage s) gr).

Definition read_table {A} (f : DuckDBTableStorage.t -> res A) : M A :=
  fun s => (f (table_storage s), s).

Definition read_graph {A} (f : NetworkXGraphStorage.t -> res A) : M A :=
  fun s => (f (graph_storage s), s).

End TaskService.

Notation "x <- m ;; k" := (TaskService.bind m (fun x => k))
  (at level 61, m at next level, right associativity).
Notation "m ;;; k" := (TaskService.bind m (fun _ => k))
  (at level 61, right associativity).

Module TaskServiceImpl.
Import TaskService.

(* the display snapshot: name, status, priority, complexity, category *)
Definition graph_node_of (task : Task.t) : GraphNode.t :=
  GraphNode.mk (Task.id task)
    [("name", JStr (Task.name task));
     ("status", JStr (status_value (Task.status task)));
     ("priority", JStr (priority_value (Task.priority task)));
     ("complexity", of_opt_str (option_map complexity_value (Task.complexity task)));
     ("category", of_opt_str (Task.category task))].

Fixpoint _add_task_dependencies (task_id : UUID) (dependencies : list TaskDependency.t)
  : M unit :=
  match dependencies with
  | [] => ret tt
  | dep :: rest =>
      (* Verify dependency task exists *)
      dep_task <- read_table (DuckDBTableStorage.get_by_id (TaskDependency.task_id dep)) ;;
      match dep_task with
      | None =>
          raise (ValueError ("Dependency task " ++ uuid_text (TaskDependency.task_id dep)
                             ++ " not found"))
      | Some _ =>
          (* Create edge in graph storage *)
          edge_added <- on_graph (NetworkXGraphStorage.add_edge
                          (GraphEdge.depends_on task_id (TaskDependency.task_id dep))) ;;
          if negb edge_added
          then raise (ValueError ("Failed to add dependency: " ++ uuid_text task_id ++ " -> "
                                  ++ uuid_text (TaskDependency.task_id dep)
                                  ++ " (would create cycle)"))
          else _add_task_dependencies task_id rest
      end
  end.

Definition add_dependencies_if_any (task : Task.t) : M unit :=
  match Task.dependencies task with
  | [] => ret tt
  | _ :: _ => _add_task_dependencies (Task.id task) (Task.dependencies task)
  end.

Definition create_task (task : Task.t) : M Task.t :=
  (* Create task in table storage first *)
  created_task <- on_table (DuckDBTableStorage.create task) ;;
  (* Create corresponding graph node *)
  node_created <- on_graph (NetworkXGraphStorage.add_node (graph_node_of task)) ;;
  if negb node_created
  then
    (* Rollback table creation if graph node creation fails *)
    _ <- on_table (fun tb => let (b, tb') := DuckDBTableStorage.delete (Task.id task) tb in
                             (Ok b, tb')) ;;
    raise (ValueError ("Failed to create graph node for task " ++ uuid_text (Task.id task)))
  else
    (* Add dependency edges if specified *)
    add_dependencies_if_any task ;;;
    ret created_task.

Definition get_task (task_id : UUID) : M (option Task.t) :=
  read_table (DuckDBTableStorage.get_by_id task_id).

Definition update_task (task : Task.t) : M Task.t :=
  (* Update task in table storage *)
  updated_task <- on_table (DuckDBTableStorage.update task) ;;
  (* Remove existing node and add updated one *)
  _ <- on_graph (NetworkXGraphStorage.remove_node (Task.id task)) ;;
  _ <- on_graph (NetworkXGraphStorage.add_node (graph_node_of task)) ;;
  (* Update dependencies *)
  add_dependencies_if_any task ;;;
  ret updated_task.

Definition delete_task (task_id : UUID) : M bool :=
  table_deleted <- on_table (fun tb => let (b, tb') := DuckDBTableStorage.delete task_id tb in
                                       (Ok b, tb')) ;;
  graph_deleted <- on_graph (NetworkXGraphStorage.remove_node task_id) ;;
  ret (table_deleted && graph_deleted).

(* tasks[:limit] *)
Definition slice_to {A} (l : list A) (limit : Z) : list A :=
  if (limit <? 0)%Z then firstn (length l - Z.to_nat (- limit)) l
  else firstn (Z.to_nat limit) l.

Definition list_tasks (filters : list (string * option string)) (limit : option Z)
  : M (list Task.t) :=
  tasks <- read_table (match filters with
                       | [] => DuckDBTableStorage.list_all
                       | _ :: _ => DuckDBTableStorage.query filters
                       end) ;;
  match limit with
  | None => ret tasks
  | Some n => if (n =? 0)%Z then ret tasks else ret (slice_to tasks n)
  end.

(* for dep_id in ids: task = get_by_id(dep_id); if task: tasks.append(task) *)
Fixpoint fetch_tasks (ids : list UUID) : M (list Task.t) :=
  match ids with
  | [] => ret []
  | i :: rest =>
      task <- read_table (DuckDBTableStorage.get_by_id i) ;;
      tasks <- fetch_tasks rest ;;
      match task with
      | Some x => ret (x :: tasks)
      | None => ret tasks
      end
  end.

Definition get_task_dependencies (task_id : UUID) : M (list Task.t) :=
  dependency_ids <- read_graph (fun g => Ok (NetworkXGraphStorage.get_dependencies task_id g)) ;;
  fetch_tasks dependency_ids.

Definition get_task_dependents (task_id : UUID) : M (list Task.t) :=
  dependent_ids <- read_graph (fun g => Ok (NetworkXGraphStorage.get_dependents task_id g)) ;;
  fetch_tasks dependent_ids.

Definition get_execution_order : M (list Task.t) :=
  (* Get topological sort from graph storage *)
  sorted_ids <- read_graph NetworkXGraphStorage.topological_sort ;;
  (* Reverse the order for proper execution sequence *)
  fetch_tasks (rev sorted_ids).

Definition detect_circular_dependencies : M bool :=
  read_graph NetworkXGraphStorage.has_cycle.

Definition is_completed (dep : Task.t) : bool := status_eqb (Task.status dep) COMPLETED.

Fixpoint ready_loop (all_tasks : list Task.t) : M (list Task.t) :=
  match all_tasks with
  | [] => ret []
  | task :: rest =>
      dependencies <- get_task_dependencies (Task.id task) ;;
      ready_tasks <- ready_loop rest ;;
      match dependencies with
      | [] => ret (task :: ready_tasks)                     (* No dependencies *)
      | _ :: _ =>
          if forallb is_completed dependencies
          then ret (task :: ready_tasks)
          else ret ready_tasks
      end
  end.

Definition get_ready_tasks (status_filter : option TaskStatus) : M (list Task.t) :=
  let filters := match status_filter with
                 | Some st => [("status", Some (status_value st))]
                 | None => []
                 end in
  all_tasks <- list_tasks filters None ;;
  ready_loop all_tasks.

Definition add_dependency (task_id depends_on_id : UUID) : M bool :=
  task <- read_table (DuckDBTableStorage.get_by_id task_id) ;;
  depends_on_task <- read_table (DuckDBTableStorage.get_by_id depends_on_id) ;;
  match task, depends_on_task with
  | None, _ => raise (ValueError ("Task " ++ uuid_text task_id ++ " not found"))
  | Some _, None =>
      raise (ValueError ("Dependency task " ++ uuid_text depends_on_id ++ " not found"))
  | Some tk, Some _ =>
      edge_added <- on_graph (NetworkXGraphStorage.add_edge
                                (GraphEdge.depends_on task_id depends_on_id)) ;;
      if edge_added
      then
        _ <- on_table (DuckDBTableStorage.update
               (Task.with_dependencies tk
                  (Task.dependencies tk ++ [TaskDependency.mk depends_on_id]))) ;;
        ret edge_added
      else ret edge_added
  end.

Definition remove_dependency (task_id depends_on_id : UUID) : M bool :=
  edge_removed <- on_graph (NetworkXGraphStorage.remove_edge
                              (GraphEdge.depends_on task_id depends_on_id)) ;;
  if edge_removed
  then
    task <- read_table (DuckDBTableStorage.get_by_id task_id) ;;
    match task with
    | Some tk =>
        _ <- on_table (DuckDBTableStorage.update
               (Task.with_dependencies tk
                  (filter (fun dep => negb (uuid_eqb (TaskDependency.task_id dep) depends_on_id))
                     (Task.dependencies tk)))) ;;
        ret edge_removed
    | None => ret edge_removed
    end
  else ret edge_removed.

Definition clear_all_data : M unit :=
  fun s => (Ok tt, mk (DuckDBTableStorage.clear (table_storage s))
                      (NetworkXGraphStorage.clear (graph_storage s))).

End TaskServiceImpl.

(** ** src/models/task_splitting.py *)

Inductive UpdateMode : Type := APPEND | OVERWRITE | SELECTIVE | CLEAR_ALL_TASKS.

Definition update_mode_value (m : UpdateMode) : string :=
  match m with
  | APPEND => "append" | OVERWRITE => "overwrite"
  | SELECTIVE => "selective" | CLEAR_ALL_TASKS => "clearAllTasks"
  end.

Module GranularityRules.
Record t : Type := mk {
  min_task_duration_hours : Z;
  max_task_duration_hours : Z;
  max_subtasks_per_split : Z;
  max_task_raw_length : Z;
  max_task_name_length : Z;
  min_description_length : Z;
  max_depth_levels : Z
}.

Definition default : t := mk 1 16 10 5000 100 10 3.

Definition validate_task_count (r : t) (count : Z) : bool :=
  (1 <=? count)%Z && (count <=? max_subtasks_per_split r)%Z.

Definition validate_task_name_length (r : t) (name : string) : bool :=
  (1 <=? len (strip name))%Z && (len (strip name) <=? max_task_name_length r)%Z.

Definition validate_description_length (r : t) (description : string) : bool :=
  (min_description_length r <=? len (strip description))%Z.
End GranularityRules.

Module TaskTemplate.
Record t : Type := mk {
  name : string;
  description : string;
  implementation_guide : string;
  dependencies : list string;
  notes : option string;
  related_files : list RelatedFile.t;
  verification_criteria : option string;
  priority : Priority;
  complexity : option ComplexityLevel;
  estimated_hours : option Z;
  category : option string
}.

(* [Task(...)] draws the identifier and the two timestamps from their
   default factories; they are arguments here *)
Definition to_task (self : t) (new_id : UUID) (created updated : datetime) : res Task.t :=
  Task.validate
    (Task.mk new_id (name self) (description self) (implementation_guide self)
       (Some (match verification_criteria self with Some s => s | None => "" end))
       PENDING (priority self) (complexity self) (estimated_hours self)
       []   (* Will be resolved during splitting *)
       (related_files self) (category self) (notes self) created updated).
End TaskTemplate.

Module TaskSplitRequest.
Record t : Type := mk {
  update_mode : UpdateMode;
  task_templates : list TaskTemplate.t;
  global_analysis_result : option string;
  granularity_rules : GranularityRules.t
}.

Definition validate_granularity (self : t) : bool :=
  (* Check task count *)
  if negb (GranularityRules.validate_task_count (granularity_rules self)
             (Z.of_nat (length (task_templates self))))
  then false
  else
    (* Check individual task constraints *)
    forallb (fun template =>
               GranularityRules.validate_task_name_length (granularity_rules self)
                 (TaskTemplate.name template) &&
               GranularityRules.validate_description_length (granularity_rules self)
                 (TaskTemplate.description template))
            (task_templates self).
End TaskSplitRequest.

Module SplitOperation.
Record t : Type := mk {
  operation_type : string;
  update_mode : UpdateMode;
  tasks_before_count : nat;
  tasks_after_count : nat;
  tasks_added : nat;
  tasks_updated : nat;
  tasks_removed : nat;
  timestamp : datetime
}.
End SplitOperation.

Module SplitResult.
Record t : Type := mk {
  success : bool;
  created_tasks : list Task.t;
  operation : option SplitOperation.t;
  message : string;
  errors : list string
}.
End SplitResult.

(** ** src/services/task_splitting_service.py *)

Module DependencyResolver.

(* a dict built by a comprehension: the last entry for a key wins *)
Definition dict_by (key : Task.t -> string) (tasks : list Task.t) (k : string)
  : option Task.t :=
  find (fun task => String.eqb k (key task)) (rev tasks).

Definition resolve_ref (existing_tasks : list Task.t) (dep_ref : string)
  : list TaskDependency.t :=
  let name_to_task := dict_by Task.name existing_tasks in
  let id_to_task := dict_by (fun task => uuid_text (Task.id task)) existing_tasks in
  let dep_ref := strip dep_ref in
  (* Try to resolve by UUID first *)
  match id_to_task dep_ref with
  | Some _ => [TaskDependency.mk (mkUUID dep_ref)]
  | None =>
      (* Then try by name *)
      match name_to_task dep_ref with
      | Some task => [TaskDependency.mk (Task.id task)]
      | None => []     (* Skip unresolvable dependencies *)
      end
  end.

Section WithFactories.
(* the values the default factories [uuid4] and [datetime.now] give
   at their n-th call *)
Variable uuid4 : nat -> UUID.
Variable utcnow : nat -> datetime.

Fixpoint resolve_task_dependencies (tick : nat) (templates : list TaskTemplate.t)
    (existing_tasks : list Task.t) : res (list Task.t) :=
  match templates with
  | [] => Ok []
  | template :: rest =>
      (* Convert template to task *)
      match TaskTemplate.to_task template (uuid4 tick) (utcnow (tick + 1))
              (utcnow (tick + 2)) with
      | Raise e => Raise e
      | Ok task =>
          (* Resolve dependencies *)
          let resolved_dependencies :=
            flat_map (resolve_ref existing_tasks) (TaskTemplate.dependencies template) in
          match resolve_task_dependencies (tick + 3) rest existing_tasks with
          | Raise e => Raise e
          | Ok resolved_tasks =>
              Ok (Task.with_dependencies task resolved_dependencies :: resolved_tasks)
          end
      end
  end.
End WithFactories.

(* graph[dep].append(template.name) *)
Definition graph_of (templates : list TaskTemplate.t) (node : string) : list string :=
  flat_map (fun template =>
              flat_map (fun dep => if String.eqb dep node then [TaskTemplate.name template]
                                   else [])
                       (TaskTemplate.dependencies template))
           templates.

Definition discard (x : string) (s : list string) : list string :=
  filter (fun y => negb (String.eqb x y)) s.

(* for neighbor in graph[node]: if has_cycle(neighbor): return True;
   then rec_stack.remove(node); return False *)
Fixpoint visit_all
    (has_cycle : string -> list string -> list string -> option (bool * list string * list string))
    (node : string) (neighbors : list string) (visited rec_stack : list string)
  : option (bool * list string * list string) :=
  match neighbors with
  | [] => Some (false, visited, discard node rec_stack)
  | neighbor :: rest =>
      match has_cycle neighbor visited rec_stack with
      | None => None
      | Some (true, visited', rec_stack') => Some (true, visited', rec_stack')
      | Some (false, visited', rec_stack') => visit_all has_cycle node rest visited' rec_stack'
      end
  end.

(* the nested function [has_cycle]; [visited] and [rec_stack] are the
   two sets it shares with its caller; None when [fuel] runs out *)
Fixpoint has_cycle (fuel : nat) (graph : string -> list string) (node : string)
    (visited rec_stack : list string) : option (bool * list string * list string) :=
  match fuel with
  | 0 => None
  | S fuel' =>
      if mem_str node rec_stack then Some (true, visited, rec_stack)
      else if mem_str node visited then Some (false, visited, rec_stack)
      else visit_all (has_cycle fuel' graph) node (graph node)
             (node :: visited) (node :: rec_stack)
  end.

(* for template in templates: if template.name not in visited: ... *)
Fixpoint check_all (fuel : nat) (graph : string -> list string) (names : list string)
    (visited rec_stack : list string) : option bool :=
  match names with
  | [] => Some false
  | name :: rest =>
      if mem_str name visited then check_all fuel graph rest visited rec_stack
      else match has_cycle fuel graph name visited rec_stack with
           | None => None
           | Some (true, _, _) => Some true
           | Some (false, visited', rec_stack') => check_all fuel graph rest visited' rec_stack'
           end
  end.

Definition detect_circular_dependencies (templates : list TaskTemplate.t) : res bool :=
  match check_all (S (length templates)) (graph_of templates)
          (map TaskTemplate.name templates) [] [] with
  | Some b => Ok b
  | None => Raise OutOfFuel
  end.

End DependencyResolver.




(* str(e) *)
Definition str_of_exn (e : exn) : string :=
  match e with
  | ValueError msg => msg
  | AttributeError msg => msg
  | ValidationError msg => msg
  | NetworkXError => "NetworkXError"
  | NetworkXUnfeasible => "Graph contains a cycle or graph changed during iteration"
  | NetworkXNoPath => "NetworkXNoPath"
  | NodeNotFound => "NodeNotFound"
  | RuntimeError => "Graph changed during iteration"
  | OutOfFuel => "OutOfFuel"
  | Unmodelled => "Unmodelled"
  end.

Module TaskSplittingService.
Import TaskService.

(** The attributes [split_tasks] looks up on [self.task_service].  A
    class that does not define one of them has [None] there, and the
    lookup raises AttributeError. *)
Record TaskServiceLike : Type := mkService {
  class_name : string;
  get_all_tasks : option (M (list Task.t));
  clear_all_tasks : option (M unit);
  create_task : option (Task.t -> M Task.t);
  update_task : option (Task.t -> M Task.t);
  delete_task : option (UUID -> M bool)
}.

(* class TaskService of src/services/task_service.py: it has list_tasks
   and clear_all_data, and neither get_all_tasks nor clear_all_tasks *)
Definition TaskService_class : TaskServiceLike :=
  mkService "TaskService" None None
    (Some TaskServiceImpl.create_task)
    (Some TaskServiceImpl.update_task)
    (Some TaskServiceImpl.delete_task).

Definition getattr {A} (obj : TaskServiceLike) (attr : string) (m : option A) : M A :=
  match m with
  | Some a => ret a
  | None => raise (AttributeError ("'" ++ class_name obj ++ "' object has no attribute '"
                                   ++ attr ++ "'"))
  end.

Fixpoint template_errors (rules : GranularityRules.t) (i : nat)
    (templates : list TaskTemplate.t) : list string :=
  match templates with
  | [] => []
  | template :: rest =>
      (if negb (GranularityRules.validate_task_name_length rules (TaskTemplate.name template))
       then [("Task " ++ str_of_nat (i + 1) ++ ": Name '" ++ TaskTemplate.name template
              ++ "' exceeds maximum length")%string]
       else []) ++
      (if negb (GranularityRules.validate_description_length rules
                  (TaskTemplate.description template))
       then [("Task " ++ str_of_nat (i + 1) ++ ": Description too short (minimum "
              ++ str_of_Z (GranularityRules.min_description_length rules)
              ++ " characters)")%string]
       else []) ++
      template_errors rules (S i) rest
  end.

Definition validate_split_request (request : TaskSplitRequest.t) : res (bool * list string) :=
  (* Check granularity rules *)
  let errors1 :=
    if negb (TaskSplitRequest.validate_granularity request)
    then ["Request violates granularity rules - too many tasks or invalid task constraints"]
    else [] in
  (* Check for circular dependencies *)
  match DependencyResolver.detect_circular_dependencies
          (TaskSplitRequest.task_templates request) with
  | Raise e => Raise e
  | Ok circular =>
      let errors2 :=
        if circular then ["Circular dependencies detected in task templates"] else [] in
      (* Validate individual templates *)
      let errors := errors1 ++ errors2 ++
                    template_errors (TaskSplitRequest.granularity_rules request) 0
                      (TaskSplitRequest.task_templates request) in
      Ok (match errors with [] => true | _ :: _ => false end, errors)
  end.

Section WithService.
Variable uuid4 : nat -> UUID.
Variable utcnow : nat -> datetime.
Variable task_service : TaskServiceLike.

Fixpoint create_each (tasks : list Task.t) : M (list Task.t) :=
  match tasks with
  | [] => ret []
  | task :: rest =>
      create <- getattr task_service "create_task" (create_task task_service) ;;
      created_task <- create task ;;
      created_tasks <- create_each rest ;;
      ret (created_task :: created_tasks)
  end.

Definition _create_tasks_from_templates (tick : nat) (templates : list TaskTemplate.t)
    (existing_tasks : list Task.t) : M (list Task.t) :=
  match DependencyResolver.resolve_task_dependencies uuid4 utcnow tick templates
          existing_tasks with
  | Raise e => raise e
  | Ok resolved_tasks => create_each resolved_tasks
  end.

(* the assignments of _selective_update_tasks; validate_assignment
   checks estimated_hours against the complexity just assigned, and
   the length of category *)
Definition overwrite_fields (existing_task : Task.t) (template : TaskTemplate.t)
  : res Task.t :=
  if Task.hours_ok (TaskTemplate.complexity template) (TaskTemplate.estimated_hours template)
     && Task.category_ok (TaskTemplate.category template)
  then Ok (Task.mk (Task.id existing_task) (Task.name existing_task)
             (TaskTemplate.description template)
             (TaskTemplate.implementation_guide template)
             (Some (match TaskTemplate.verification_criteria template with
                    | Some s => s | None => "" end))
             (Task.status existing_task)
             (TaskTemplate.priority template)
             (TaskTemplate.complexity template)
             (TaskTemplate.estimated_hours template)
             (Task.dependencies existing_task)
             (TaskTemplate.related_files template)
             (TaskTemplate.category template)
             (TaskTemplate.notes template)
             (Task.created_at existing_task) (Task.updated_at existing_task))
  else Raise (ValidationError "Task").

Fixpoint _selective_update_tasks (tick : nat) (templates : list TaskTemplate.t)
    (existing_tasks : list Task.t) : M (list Task.t * nat) :=
  match templates with
  | [] => ret ([], 0)
  | template :: rest =>
      match DependencyResolver.dict_by Task.name existing_tasks (TaskTemplate.name template) with
      | Some existing_task =>
          (* Update existing task *)
          match overwrite_fields existing_task template with
          | Raise e => raise e
          | Ok existing_task1 =>
              match DependencyResolver.resolve_task_dependencies uuid4 utcnow tick
                      [template] existing_tasks with
              | Raise e => raise e
              | Ok resolved_deps =>
                  let existing_task2 :=
                    match resolved_deps with
                    | r :: _ => Task.with_dependencies existing_task1 (Task.dependencies r)
                    | [] => existing_task1
                    end in
                  update <- getattr task_service "update_task" (update_task task_service) ;;
                  updated_task <- update existing_task2 ;;
                  r <- _selective_update_tasks (tick + 3) rest existing_tasks ;;
                  ret (updated_task :: fst r, S (snd r))
              end
          end
      | None =>
          (* Create new task *)
          match DependencyResolver.resolve_task_dependencies uuid4 utcnow tick
                  [template] existing_tasks with
          | Raise e => raise e
          | Ok [] => _selective_update_tasks (tick + 3) rest existing_tasks
          | Ok (r0 :: _) =>
              create <- getattr task_service "create_task" (create_task task_service) ;;
              new_task <- create r0 ;;
              r <- _selective_update_tasks (tick + 3) rest existing_tasks ;;
              ret (new_task :: fst r, snd r)
          end
      end
  end.

Fixpoint remove_unfinished (existing_tasks : list Task.t) : M nat :=
  match existing_tasks with
  | [] => ret 0
  | task :: rest =>
      if negb (status_eqb (Task.status task) COMPLETED)
      then
        delete <- getattr task_service "delete_task" (delete_task task_service) ;;
        _ <- delete (Task.id task) ;;
        n <- remove_unfinished rest ;;
        ret (S n)
      else remove_unfinished rest
  end.

(* the body of the try block, after validation *)
Definition apply_split (tick : nat) (request : TaskSplitRequest.t) : M SplitResult.t :=
  let templates := TaskSplitRequest.task_templates request in
  (* Get current tasks for baseline *)
  get_all <- getattr task_service "get_all_tasks" (get_all_tasks task_service) ;;
  existing_tasks <- get_all ;;
  let tasks_before_count := length existing_tasks in
  (* Handle different update modes *)
  r <- match TaskSplitRequest.update_mode request with
       | CLEAR_ALL_TASKS =>
           clear <- getattr task_service "clear_all_tasks" (clear_all_tasks task_service) ;;
           _ <- clear ;;
           created_tasks <- _create_tasks_from_templates tick templates [] ;;
           ret (created_tasks, 0, tasks_before_count)
       | APPEND =>
           created_tasks <- _create_tasks_from_templates tick templates existing_tasks ;;
           ret (created_tasks, 0, 0)
       | SELECTIVE =>
           cu <- _selective_update_tasks tick templates existing_tasks ;;
           ret (fst cu, snd cu, 0)
       | OVERWRITE =>
           let completed_tasks :=
             filter (fun task => status_eqb (Task.status task) COMPLETED) existing_tasks in
           tasks_removed <- remove_unfinished existing_tasks ;;
           created_tasks <- _create_tasks_from_templates tick templates completed_tasks ;;
           ret (created_tasks, 0, tasks_removed)
       end ;;
  let '(created_tasks, tasks_updated, tasks_removed) := r in
  (* Create operation record *)
  get_all' <- getattr task_service "get_all_tasks" (get_all_tasks task_service) ;;
  after <- get_all' ;;
  let operation :=
    SplitOperation.mk "split_tasks" (TaskSplitRequest.update_mode request)
      tasks_before_count (length after) (length created_tasks) tasks_updated tasks_removed
      (utcnow (tick + 3 * length templates)) in
  ret (SplitResult.mk true created_tasks (Some operation)
         ("Successfully processed " ++ str_of_nat (length created_tasks)
          ++ " tasks using " ++ update_mode_value (TaskSplitRequest.update_mode request)
          ++ " mode")
         []).

Definition failed (e : exn) : SplitResult.t :=
  SplitResult.mk false [] None ("Split operation failed: " ++ str_of_exn e) [str_of_exn e].

(* try: ... except Exception as e: ... *)
Definition split_tasks (tick : nat) (request : TaskSplitRequest.t) (s : TaskService.t)
  : SplitResult.t * TaskService.t :=
  match validate_split_request request with
  | Raise e => (failed e, s)
  | Ok (false, validation_errors) =>
      (SplitResult.mk false [] None "Validation failed" validation_errors, s)
  | Ok (true, _) =>
      match apply_split tick request s with
      | (Ok result, s') => (result, s')
      | (Raise e, s') => (failed e, s')
      end
  end.

End WithService.

End TaskSplittingService.

(** ** Abstraction of the table: the tasks it holds, in insertion order *)

Definition row_of (x : Task.t) : DuckDBTableStorage.row :=
  DuckDBTableStorage.mkRow (uuid_text (Task.id x)) (Task.model_dump x).

Definition holds (tb : DuckDBTableStorage.t) (xs : list Task.t) : Prop :=
  DuckDBTableStorage.rows tb = map row_of xs /\
  (forall x, In x xs -> Task.valid x) /\
  NoDup (map Task.id xs).

(* the record of an identifier, as a list: empty when there is none *)
Definition found (tb : DuckDBTableStorage.t) (i : UUID) : list Task.t :=
  match DuckDBTableStorage.get_by_id i tb with
  | Ok (Some x) => [x]
  | _ => []
  end.

(* the records of the tasks [x] depends on, read through the graph *)
Definition deps_of (s : TaskService.t) (x : Task.t) : list Task.t :=
  flat_map (found (TaskService.table_storage s))
    (NetworkXGraphStorage.get_dependencies (Task.id x) (TaskService.graph_storage s)).

(** ** Sample data, after the repository's tests *)

Module Sample.

Definition uuid_a : UUID := mkUUID "00000000-0000-0000-0000-00000000000a".
Definition uuid_b : UUID := mkUUID "00000000-0000-0000-0000-00000000000b".
Definition uuid_c : UUID := mkUUID "00000000-0000-0000-0000-00000000000c".
Definition uuid_d : UUID := mkUUID "00000000-0000-0000-0000-00000000000d".
Definition invalid_uuid : UUID := mkUUID "00000000-0000-0000-0000-000000000000".

Definition t0 : datetime := mkDatetime "2024-01-01T00:00:00+00:00".

Definition task (i : UUID) (name : string) (status : TaskStatus) (deps : list UUID) : Task.t :=
  Task.mk i name "Task with a long enough description" "Implementation guide for the task"
    None status P2 None None (map TaskDependency.mk deps) [] None None t0 t0.

Definition database_task : Task.t := task uuid_a "Database Schema" PENDING [].
Definition api_task : Task.t := task uuid_b "API Endpoints" PENDING [uuid_a].
Definition database_done : Task.t := task uuid_a "Database Schema" COMPLETED [].
Definition orphan_task : Task.t := task uuid_c "Invalid Dependency Task" PENDING [invalid_uuid].

Definition empty_service : TaskService.t :=
  TaskService.mk DuckDBTableStorage.init NetworkXGraphStorage.init.

(* the service after create_task(database_task), create_task(api_task) *)
Definition two_tasks : TaskService.t :=
  snd (TaskServiceImpl.create_task api_task
         (snd (TaskServiceImpl.create_task database_task empty_service))).

(* nodes A, B, C, D and no edge *)
Definition four_nodes : NetworkXGraphStorage.t :=
  fold_left (fun s u => snd (NetworkXGraphStorage.add_node (GraphNode.mk u []) s))
    [uuid_a; uuid_b; uuid_c; uuid_d] NetworkXGraphStorage.init.

(* C -> D, B -> D, A -> B, A -> C, and then D -> A *)
Definition diamond_edges : list GraphEdge.t :=
  [GraphEdge.depends_on uuid_c uuid_d; GraphEdge.depends_on uuid_b uuid_d;
   GraphEdge.depends_on uuid_a uuid_b; GraphEdge.depends_on uuid_a uuid_c;
   GraphEdge.depends_on uuid_d uuid_a].

Definition template (name : string) (deps : list string) : TaskTemplate.t :=
  TaskTemplate.mk name "Template with a long enough description"
    "Implementation guide for the template" deps None [] None P2 None None None.

Definition uuid4 (n : nat) : UUID := mkUUID ("10000000-0000-4000-8000-" ++ str_of_nat n).
Definition utcnow (n : nat) : datetime := t0.

End Sample.

Module Sample2.
Import Sample.

Definition uuid_e : UUID := mkUUID "00000000-0000-0000-0000-00000000000e".

(* a service holding five tasks *)
Definition five_tasks : TaskService.t :=
  fold_left (fun s x => snd (TaskServiceImpl.create_task x s))
    [task uuid_a "Task one" PENDING []; task uuid_b "Task two" PENDING [uuid_a];
     task uuid_c "Task three" COMPLETED []; task uuid_d "Task four" IN_PROGRESS [];
     task uuid_e "Task five" BLOCKED []]
    empty_service.

(* after tests/services/test_task_splitting_service.py, clear-all mode *)
Definition clear_all_request : TaskSplitRequest.t :=
  TaskSplitRequest.mk CLEAR_ALL_TASKS
    [template "Setup Environment" [];
     template "Implement Authentication" ["Setup Environment"]]
    (Some "Build a secure web application") GranularityRules.default.


End Sample2.



(** ** Walks in a graph, and runs of calls on a graph store *)

(** A walk along [next]: every node of the list is followed by one of
    the nodes [next] gives for it. *)
Inductive walk (next : UUID -> list UUID) : list UUID -> Prop :=
| walk_one v : walk next [v]
| walk_cons u v l : In v (next u) -> walk next (v :: l) -> walk next (u :: v :: l).

(** [reach next a b]: [b] is reached from [a] in one or more steps. *)
Inductive reach (next : UUID -> list UUID) : UUID -> UUID -> Prop :=
| reach_one a b : In b (next a) -> reach next a b
| reach_more a b c : reach next a b -> In c (next b) -> reach next a c.

(** A walk of the graph from [a] to [b], as the list of its nodes. *)
Definition walk_from_to (g : Nx.DiGraph) (a b : UUID) (l : list UUID) : Prop :=
  walk (Nx.successors g) l /\ hd_error l = Some a /\ last l a = b.

(** Loop invariant of [Nx.bfs]: [seen] starts with the source, holds only
    nodes reached from it, and the successors of every node of [seen]
    that has left the frontier are in [seen]. *)
Definition bfs_inv (next : UUID -> list UUID) (universe : list UUID) (source : UUID)
    (frontier seen : list UUID) : Prop :=
  NoDup seen /\ incl seen universe /\ (exists rest, seen = source :: rest) /\
  (forall x, In x seen -> x = source \/ reach next source x) /\
  (forall x, In x seen -> ~ In x frontier -> forall y, In y (next x) -> In y seen).

(* the last nodes of the paths [Nx.bfs_path] holds: its frontier *)
Definition heads (paths : list (list UUID)) : list UUID := flat_map (firstn 1) paths.

Definition hd_next (next : UUID -> list UUID) (p : list UUID) : list UUID :=
  match p with [] => [] | h :: _ => next h end.

(** Loop invariant of [Nx.bfs_path] at round [k]: the paths held are
    walks of [k] steps from the source, [seen] holds every node within
    [k] steps, and the target is not within [k - 1] steps. *)
Definition bfs_path_inv (next : UUID -> list UUID) (universe : list UUID)
    (source target : UUID) (k : nat) (paths : list (list UUID)) (seen : list UUID) : Prop :=
  NoDup seen /\ incl seen universe /\ In source seen /\
  (forall p, In p paths ->
     exists h t, p = h :: t /\ In h seen /\ length p = S k /\
                 walk next (rev p) /\ hd_error (rev p) = Some source) /\
  (forall x, In x seen -> ~ In x (heads paths) -> forall y, In y (next x) -> In y seen) /\
  (forall x, In x seen -> ~ In x (heads paths) -> x <> target) /\
  (forall l, walk next l -> hd_error l = Some source -> length l <= S k ->
             In (last l source) seen) /\
  (forall l, walk next l -> hd_error l = Some source -> last l source = target ->
             k < length l).

(** The mutating methods of NetworkXGraphStorage, as calls. *)
Module GraphCall.

Inductive t : Type :=
| add_node (node : GraphNode.t)
| add_edge (edge : GraphEdge.t)
| remove_node (node_id : UUID)
| remove_edge (edge : GraphEdge.t)
| clear.

(* the call on the store: whether it raised, and the store afterwards *)
Definition call (c : t) (s : NetworkXGraphStorage.t) : res unit * NetworkXGraphStorage.t :=
  let drop (r : res bool * NetworkXGraphStorage.t) :=
    (match fst r with Ok _ => Ok tt | Raise e => Raise e end, snd r) in
  match c with
  | add_node node => drop (NetworkXGraphStorage.add_node node s)
  | add_edge edge => drop (NetworkXGraphStorage.add_edge edge s)
  | remove_node node_id => drop (NetworkXGraphStorage.remove_node node_id s)
  | remove_edge edge => drop (NetworkXGraphStorage.remove_edge edge s)
  | clear => (Ok tt, NetworkXGraphStorage.clear s)
  end.

(* a run of calls, whatever each one returns *)
Fixpoint run (cs : list t) (s : NetworkXGraphStorage.t) : NetworkXGraphStorage.t :=
  match cs with
  | [] => s
  | c :: cs' => run cs' (snd (call c s))
  end.

End GraphCall.

(** ** The table through the tasks it holds *)

(* the text of a scalar field of a task, as [data ->> 'field'] gives it:
   nothing for a field that is null or that the model does not have *)
Definition task_field (k : string) (x : Task.t) : option string :=
  if String.eqb k "id" then Some (uuid_text (Task.id x))
  else if String.eqb k "name" then Some (Task.name x)
  else if String.eqb k "description" then Some (Task.description x)
  else if String.eqb k "implementation_guide" then Some (Task.implementation_guide x)
  else if String.eqb k "verification_criteria" then Task.verification_criteria x
  else if String.eqb k "status" then Some (status_value (Task.status x))
  else if String.eqb k "priority" then Some (priority_value (Task.priority x))
  else if String.eqb k "complexity" then option_map complexity_value (Task.complexity x)
  else if String.eqb k "estimated_hours" then option_map str_of_Z (Task.estimated_hours x)
  else if String.eqb k "category" then Task.category x
  else if String.eqb k "notes" then Task.notes x
  else if String.eqb k "created_at" then Some (isoformat (Task.created_at x))
  else if String.eqb k "updated_at" then Some (isoformat (Task.updated_at x))
  else None.

(* the task has, for every filter, that text in that field *)
Definition task_matches (filters : list (string * option string)) (x : Task.t) : bool :=
  forallb (fun f => match snd f, task_field (fst f) x with
                    | Some expected, Some actual => String.eqb actual expected
                    | _, _ => false
                    end) filters.

(* the two fields of a task that hold a list *)
Definition list_field (k : string) : bool :=
  String.eqb k "dependencies" || String.eqb k "related_files".

(* [xs] with the task of [item]'s identifier replaced by [item] *)
Definition replace_task (item : Task.t) (xs : list Task.t) : list Task.t :=
  map (fun x => if uuid_eqb (Task.id x) (Task.id item) then item else x) xs.

(* [xs] without the task of identifier [i] *)
Definition without_task (i : UUID) (xs : list Task.t) : list Task.t :=
  filter (fun x => negb (uuid_eqb (Task.id x) i)) xs.

(** ** The task service: its two stores together *)

(** The stores of a service agree: the graph is well formed and acyclic,
    the table holds valid tasks with distinct identifiers, and the nodes
    of the graph are the identifiers of the stored tasks. *)
Definition consistent (s : TaskService.t) (xs : list Task.t) : Prop :=
  NetworkXGraphStorage.wf (TaskService.graph_storage s) /\
  NetworkXGraphStorage.has_cycle (TaskService.graph_storage s) = Ok false /\
  holds (TaskService.table_storage s) xs /\
  forall i, In i (map Task.id xs) <->
            NetworkXGraphStorage.in_nodes (TaskService.graph_storage s) i = true.

(** The mutating methods of TaskService, as calls. *)
Module ServiceCall.

Inductive t : Type :=
| create_task (task : Task.t)
| update_task (task : Task.t)
| delete_task (task_id : UUID)
| add_dependency (task_id depends_on_id : UUID)
| remove_dependency (task_id depends_on_id : UUID)
| clear_all_data.

Definition void {A} (m : TaskService.M A) : TaskService.M unit :=
  fun s => match m s with
           | (Ok _, s') => (Ok tt, s')
           | (Raise e, s') => (Raise e, s')
           end.

(* the call on the service: whether it raised, and the service afterwards *)
Definition call (c : t) : TaskService.M unit :=
  match c with
  | create_task task => void (TaskServiceImpl.create_task task)
  | update_task task => void (TaskServiceImpl.update_task task)
  | delete_task task_id => void (TaskServiceImpl.delete_task task_id)
  | add_dependency task_id depends_on_id =>
      void (TaskServiceImpl.add_dependency task_id depends_on_id)
  | remove_dependency task_id depends_on_id =>
      void (TaskServiceImpl.remove_dependency task_id depends_on_id)
  | clear_all_data => TaskServiceImpl.clear_all_data
  end.

(* a task object passed to the service is one its constructor accepted *)
Definition valid (c : t) : Prop :=
  match c with
  | create_task task | update_task task => Task.valid task
  | _ => True
  end.

(* a run of calls, whatever each one returns or raises *)
Fixpoint run (cs : list t) (s : TaskService.t) : TaskService.t :=
  match cs with
  | [] => s
  | c :: cs' => run cs' (snd (call c s))
  end.

End ServiceCall.

(** ** src/models/task_splitting.py: the validator of TaskTemplate.dependencies *)

(* for dep in v: if dep.strip() and dep not in seen:
     seen.add(dep); unique_deps.append(dep.strip()) *)
Fixpoint unique_deps (v seen : list string) : list string :=
  match v with
  | [] => []
  | dep :: rest =>
      if negb (String.eqb (strip dep) "") && negb (mem_str dep seen)
      then strip dep :: unique_deps rest (dep :: seen)
      else unique_deps rest seen
  end.

(* TaskTemplate.validate_dependencies *)
Definition validate_dependencies (v : list string) : list string :=
  match v with
  | [] => v
  | _ :: _ => unique_deps v []
  end.

(** ** More sample data *)

Module Sample3.
Import Sample.

(* a store holding the cycle A -> B -> A; add_edge never builds one *)
Definition cyclic_store : NetworkXGraphStorage.t :=
  NetworkXGraphStorage.mk
    (Nx.mkDiGraph [uuid_a; uuid_b]
       [(uuid_a, uuid_b, "depends_on"); (uuid_b, uuid_a, "depends_on")])
    [(uuid_a, GraphNode.mk uuid_a []); (uuid_b, GraphNode.mk uuid_b [])].

(* two stored tasks, neither depending on the other *)
Definition independent_api_task : Task.t := task uuid_b "API Endpoints" PENDING [].

Definition two_independent : TaskService.t :=
  snd (TaskServiceImpl.create_task independent_api_task
         (snd (TaskServiceImpl.create_task database_task empty_service))).

End Sample3.

(** * Proofs *)

(** * Identifiers and membership *)

Lemma uuid_eqb_eq (a b : UUID) : uuid_eqb a b = true <-> a = b.
Proof.
  unfold uuid_eqb. rewrite String.eqb_eq. destruct a, b; simpl.
  split; [intros ->; reflexivity | intros [=]; assumption].
Qed.

Lemma uuid_eqb_refl (a : UUID) : uuid_eqb a a = true.
Proof. apply uuid_eqb_eq. reflexivity. Qed.

Lemma uuid_eqb_neq (a b : UUID) : uuid_eqb a b = false <-> a <> b.
Proof.
  rewrite <- uuid_eqb_eq. destruct (uuid_eqb a b); split; congruence.
Qed.

Lemma uuid_eqb_sym (a b : UUID) : uuid_eqb a b = uuid_eqb b a.
Proof.
  destruct (uuid_eqb a b) eqn:E.
  - apply uuid_eqb_eq in E. subst. symmetry. apply uuid_eqb_refl.
  - symmetry. apply uuid_eqb_neq. apply uuid_eqb_neq in E. congruence.
Qed.

Lemma UUID_eq_dec (a b : UUID) : {a = b} + {a <> b}.
Proof.
  destruct (uuid_eqb a b) eqn:E.
  - left. apply uuid_eqb_eq. exact E.
  - right. apply uuid_eqb_neq. exact E.
Qed.

Lemma mem_In (x : UUID) (l : list UUID) : mem x l = true <-> In x l.
Proof.
  unfold mem. rewrite existsb_exists. split.
  - intros [y [Hy E]]. apply uuid_eqb_eq in E. subst. exact Hy.
  - intros H. exists x. split; [exact H | apply uuid_eqb_refl].
Qed.

Lemma mem_false (x : UUID) (l : list UUID) : mem x l = false <-> ~ In x l.
Proof.
  rewrite <- mem_In. destruct (mem x l); split; congruence.
Qed.

Ltac uuid_cases a b :=
  let E := fresh "E" in
  destruct (uuid_eqb a b) eqn:E;
  [apply uuid_eqb_eq in E; try subst | apply uuid_eqb_neq in E].

(** * Adjacency *)

Lemma In_predecessors g u v :
  In u (Nx.predecessors g v) <-> exists r, In (u, v, r) (Nx.edges g).
Proof.
  unfold Nx.predecessors. rewrite in_map_iff. split.
  - intros [[[a b] r] [E H]]. simpl in E. subst a.
    apply filter_In in H. destruct H as [H Hb]. simpl in Hb.
    apply uuid_eqb_eq in Hb. subst b. eauto.
  - intros [r H]. exists (u, v, r). split; [reflexivity|].
    apply filter_In. split; [exact H | apply uuid_eqb_refl].
Qed.

Lemma In_successors g u v :
  In v (Nx.successors g u) <-> exists r, In (u, v, r) (Nx.edges g).
Proof.
  unfold Nx.successors. rewrite in_map_iff. split.
  - intros [[[a b] r] [E H]]. simpl in E. subst b.
    apply filter_In in H. destruct H as [H Hb]. simpl in Hb.
    apply uuid_eqb_eq in Hb. subst a. eauto.
  - intros [r H]. exists (u, v, r). split; [reflexivity|].
    apply filter_In. split; [exact H | apply uuid_eqb_refl].
Qed.

Lemma succ_pred g u v : In v (Nx.successors g u) <-> In u (Nx.predecessors g v).
Proof. rewrite In_successors, In_predecessors. reflexivity. Qed.

Lemma In_edge_pair (es : list (UUID * UUID * string)) u v :
  In (u, v) (map fst es) <-> exists r, In (u, v, r) es.
Proof.
  rewrite in_map_iff. split.
  - intros [[[a b] r] [E H]]. simpl in E. inversion E; subst. eauto.
  - intros [r H]. exists (u, v, r). auto.
Qed.

Lemma NoDup_predecessors g v :
  NoDup (map fst (Nx.edges g)) -> NoDup (Nx.predecessors g v).
Proof.
  unfold Nx.predecessors. induction (Nx.edges g) as [|[[a b] r] es IH]; simpl; intros H.
  - constructor.
  - inversion H as [|x l Hn Hd]; subst.
    uuid_cases v b; simpl; [|auto].
    constructor; [|auto].
    intros Hin. apply in_map_iff in Hin. destruct Hin as [[[a' b'] r'] [E Hin]].
    simpl in E. subst a'. apply filter_In in Hin. destruct Hin as [Hin Hb].
    simpl in Hb. apply uuid_eqb_eq in Hb. subst b'.
    apply Hn. apply In_edge_pair. eauto.
Qed.

Lemma NoDup_successors g u :
  NoDup (map fst (Nx.edges g)) -> NoDup (Nx.successors g u).
Proof.
  unfold Nx.successors. induction (Nx.edges g) as [|[[a b] r] es IH]; simpl; intros H.
  - constructor.
  - inversion H as [|x l Hn Hd]; subst.
    uuid_cases u a; simpl; [|auto].
    constructor; [|auto].
    intros Hin. apply in_map_iff in Hin. destruct Hin as [[[a' b'] r'] [E Hin]].
    simpl in E. subst b'. apply filter_In in Hin. destruct Hin as [Hin Hb].
    simpl in Hb. apply uuid_eqb_eq in Hb. subst a'.
    apply Hn. apply In_edge_pair. eauto.
Qed.

(** * The in-degree dict *)

Lemma lookup_In_keys k m : Nx.lookup k m <> None <-> In k (map fst m).
Proof.
  induction m as [|[k' d] m IH]; simpl.
  - split; [congruence | tauto].
  - uuid_cases k k'.
    + split; [auto | congruence].
    + rewrite IH. split; [auto | intros [H|H]; [congruence | exact H]].
Qed.

Lemma lookup_None_keys k m : Nx.lookup k m = None <-> ~ In k (map fst m).
Proof.
  rewrite <- lookup_In_keys. destruct (Nx.lookup k m); split; try congruence.
  intros H. exfalso. apply H. congruence.
Qed.

Lemma lookup_update k d m j :
  Nx.lookup j (Nx.update k d m) =
  if uuid_eqb j k then (match Nx.lookup k m with Some _ => Some d | None => None end)
  else Nx.lookup j m.
Proof.
  induction m as [|[k' d'] m IH]; simpl.
  - destruct (uuid_eqb j k); reflexivity.
  - uuid_cases k k'; simpl.
    + uuid_cases j k'; reflexivity.
    + uuid_cases j k'.
      * assert (uuid_eqb k' k = false) as -> by (apply uuid_eqb_neq; congruence).
        reflexivity.
      * exact IH.
Qed.

Lemma keys_update k d m : map fst (Nx.update k d m) = map fst m.
Proof.
  induction m as [|[k' d'] m IH]; simpl; [reflexivity|].
  destruct (uuid_eqb k k'); simpl; [reflexivity | f_equal; exact IH].
Qed.

Lemma In_keys_delete k m j :
  NoDup (map fst m) -> (In j (map fst (Nx.delete k m)) <-> In j (map fst m) /\ j <> k).
Proof.
  induction m as [|[k' d'] m IH]; simpl; intros H.
  - tauto.
  - inversion H as [|x l Hn Hd]; subst.
    uuid_cases k k'; simpl.
    + split.
      * intros Hj. split; [auto|]. intros ->. contradiction.
      * intros [[Hj|Hj] Hne]; [congruence | exact Hj].
    + rewrite (IH Hd). split.
      * intros [Hj|[Hj Hne]]; [subst; split; auto | split; auto].
      * intros [[Hj|Hj] Hne]; auto.
Qed.

Lemma NoDup_keys_delete k m : NoDup (map fst m) -> NoDup (map fst (Nx.delete k m)).
Proof.
  induction m as [|[k' d'] m IH]; simpl; intros H; [constructor|].
  inversion H as [|x l Hn Hd]; subst.
  uuid_cases k k'; simpl; [exact Hd|].
  constructor; [|auto].
  intros Hin. apply In_keys_delete in Hin; [|exact Hd]. tauto.
Qed.

Lemma lookup_delete k m j :
  NoDup (map fst m) ->
  Nx.lookup j (Nx.delete k m) = if uuid_eqb j k then None else Nx.lookup j m.
Proof.
  induction m as [|[k' d'] m IH]; simpl; intros H.
  - destruct (uuid_eqb j k); reflexivity.
  - inversion H as [|x l Hn Hd]; subst.
    uuid_cases k k'; simpl.
    + uuid_cases j k'; [|reflexivity].
      apply lookup_None_keys. exact Hn.
    + uuid_cases j k'.
      * assert (uuid_eqb k' k = false) as -> by (apply uuid_eqb_neq; congruence).
        reflexivity.
      * apply IH. exact Hd.
Qed.

(** * Counting the predecessors still to come *)

Lemma filter_out_snoc_in (l X : list UUID) (n : UUID) :
  NoDup l -> ~ In n X -> In n l ->
  length (filter (fun u => negb (mem u (X ++ [n]))) l) + 1 =
  length (filter (fun u => negb (mem u X)) l).
Proof.
  intros Hnd HnX. induction l as [|a l IH]; simpl; intros Hin; [contradiction|].
  inversion Hnd as [|x l' Ha Hd]; subst.
  destruct Hin as [->|Hin].
  - assert (mem n (X ++ [n]) = true) as -> by (apply mem_In, in_or_app; right; left; reflexivity).
    assert (mem n X = false) as -> by (apply mem_false; exact HnX).
    simpl. rewrite Nat.add_1_r. f_equal.
    f_equal. apply filter_ext_in. intros u Hu.
    assert (u <> n) by (intros ->; contradiction).
    f_equal. destruct (mem u X) eqn:E.
    + apply mem_In. apply in_or_app. left. apply mem_In. exact E.
    + apply mem_false. intros Hc. apply in_app_or in Hc. destruct Hc as [Hc|[Hc|[]]].
      * apply mem_false in E. contradiction.
      * congruence.
  - assert (a <> n) by (intros ->; contradiction).
    assert (mem a (X ++ [n]) = mem a X) as ->.
    { destruct (mem a X) eqn:E.
      - apply mem_In. apply in_or_app. left. apply mem_In. exact E.
      - apply mem_false. intros Hc. apply in_app_or in Hc. destruct Hc as [Hc|[Hc|[]]].
        + apply mem_false in E. contradiction.
        + congruence. }
    destruct (mem a X); simpl; [auto|]. rewrite <- (IH Hd Hin). reflexivity.
Qed.

Lemma filter_out_snoc_notin (l X : list UUID) (n : UUID) :
  ~ In n l ->
  filter (fun u => negb (mem u (X ++ [n]))) l = filter (fun u => negb (mem u X)) l.
Proof.
  intros Hn. apply filter_ext_in. intros u Hu.
  assert (u <> n) by (intros ->; contradiction).
  f_equal. destruct (mem u X) eqn:E.
  - apply mem_In. apply in_or_app. left. apply mem_In. exact E.
  - apply mem_false. intros Hc. apply in_app_or in Hc. destruct Hc as [Hc|[Hc|[]]].
    + apply mem_false in E. contradiction.
    + congruence.
Qed.

Lemma pending_zero g X v : Nx.pending g X v = 0 <-> incl (Nx.predecessors g v) X.
Proof.
  unfold Nx.pending. rewrite length_zero_iff_nil. split.
  - intros H u Hu. destruct (mem u X) eqn:E; [apply mem_In; exact E|].
    assert (In u (filter (fun u => negb (mem u X)) (Nx.predecessors g v))) as Hin.
    { apply filter_In. split; [exact Hu | rewrite E; reflexivity]. }
    rewrite H in Hin. contradiction.
  - intros H. destruct (filter _ _) as [|a l] eqn:E; [reflexivity|].
    assert (In a (a :: l)) as Hin by (left; reflexivity).
    rewrite <- E in Hin. apply filter_In in Hin. destruct Hin as [Hin Hm].
    apply H in Hin. apply mem_In in Hin. rewrite Hin in Hm. discriminate.
Qed.

Lemma pending_nil g v : Nx.pending g [] v = Nx.in_degree g v.
Proof.
  unfold Nx.pending, Nx.in_degree. f_equal.
  induction (Nx.predecessors g v) as [|a l IH]; simpl; [reflexivity | f_equal; exact IH].
Qed.

Lemma pending_snoc_in g X n v :
  NoDup (map fst (Nx.edges g)) -> ~ In n X -> In n (Nx.predecessors g v) ->
  Nx.pending g (X ++ [n]) v + 1 = Nx.pending g X v.
Proof.
  intros Hnd HnX Hin. unfold Nx.pending.
  apply filter_out_snoc_in; auto. apply NoDup_predecessors. exact Hnd.
Qed.

Lemma pending_snoc_notin g X n v :
  ~ In n (Nx.predecessors g v) -> Nx.pending g (X ++ [n]) v = Nx.pending g X v.
Proof.
  intros Hn. unfold Nx.pending. f_equal. apply filter_out_snoc_notin. exact Hn.
Qed.

Lemma pending_snoc_le g X n v : Nx.pending g (X ++ [n]) v <= Nx.pending g X v.
Proof.
  unfold Nx.pending. induction (Nx.predecessors g v) as [|a l IH]; simpl; [lia|].
  destruct (mem a X) eqn:E.
  - assert (mem a (X ++ [n]) = true) as ->
      by (apply mem_In, in_or_app; left; apply mem_In; exact E).
    simpl. exact IH.
  - destruct (mem a (X ++ [n])); simpl; lia.
Qed.

(** * Kahn's algorithm as networkx runs it *)

Lemma relax_spec cs :
  forall m z,
    NoDup cs -> NoDup (map fst m) ->
    (forall c, In c cs -> exists d, Nx.lookup c m = Some d /\ 1 <= d) ->
    exists m',
      Nx.relax cs m z = Ok (m', z ++ filter (Nx.last_one m) cs) /\
      NoDup (map fst m') /\
      forall v, Nx.lookup v m' =
                if mem v cs
                then match Nx.lookup v m with
                     | Some d => if d - 1 =? 0 then None else Some (d - 1)
                     | None => None
                     end
                else Nx.lookup v m.
Proof.
  induction cs as [|c cs IH]; intros m z Hcs Hm Hall.
  - exists m. simpl. rewrite app_nil_r. auto.
  - inversion Hcs as [|x l Hc Hcs']; subst.
    destruct (Hall c (or_introl eq_refl)) as [d [Hd Hd1]].
    simpl. rewrite Hd.
    assert (Hne : forall c', In c' cs -> uuid_eqb c' c = false).
    { intros c' Hc'. apply uuid_eqb_neq. intros ->. contradiction. }
    destruct (d - 1 =? 0) eqn:E.
    + destruct (IH (Nx.delete c m) (z ++ [c]) Hcs' (NoDup_keys_delete _ _ Hm)) as [m' [Hr [Hk Hl]]].
      { intros c' Hc'. rewrite lookup_delete by exact Hm. rewrite (Hne c' Hc').
        apply Hall. right. exact Hc'. }
      exists m'. split; [|split; [exact Hk|]].
      * rewrite Hr. f_equal. f_equal. unfold Nx.last_one at 2. rewrite Hd, E.
        rewrite <- app_assoc. simpl. f_equal. f_equal.
        apply filter_ext_in. intros c' Hc'. unfold Nx.last_one.
        rewrite lookup_delete by exact Hm. rewrite (Hne c' Hc'). reflexivity.
      * intros v. rewrite Hl. rewrite lookup_delete by exact Hm.
        uuid_cases v c.
        -- assert (mem c cs = false) as -> by (apply mem_false; exact Hc).
           rewrite Hd, E. reflexivity.
        -- simpl. reflexivity.
    + destruct (IH (Nx.update c (d - 1) m) z Hcs') as [m' [Hr [Hk Hl]]].
      { rewrite keys_update. exact Hm. }
      { intros c' Hc'. rewrite lookup_update. rewrite (Hne c' Hc').
        apply Hall. right. exact Hc'. }
      exists m'. split; [|split; [exact Hk|]].
      * rewrite Hr. f_equal. f_equal. unfold Nx.last_one at 2. rewrite Hd, E.
        f_equal. apply filter_ext_in. intros c' Hc'. unfold Nx.last_one.
        rewrite lookup_update. rewrite (Hne c' Hc'). reflexivity.
      * intros v. rewrite Hl. rewrite lookup_update.
        uuid_cases v c.
        -- assert (mem c cs = false) as -> by (apply mem_false; exact Hc).
           rewrite Hd, E. reflexivity.
        -- simpl. reflexivity.
Qed.

Lemma ordered_preds g L :
  Nx.ordered g L -> forall v, In v L -> incl (Nx.predecessors g v) L.
Proof.
  induction 1 as [|L x Hord IH Hx]; intros v Hv; [contradiction|].
  apply in_app_or in Hv. destruct Hv as [Hv|[->|[]]].
  - intros u Hu. apply in_or_app. left. exact (IH v Hv u Hu).
  - intros u Hu. apply in_or_app. left. exact (Hx u Hu).
Qed.

Lemma ordered_before g L :
  Nx.ordered g L ->
  forall u v, In v L -> In u (Nx.predecessors g v) -> before L u v.
Proof.
  induction 1 as [|L x Hord IH Hx]; intros u v Hv Hu; [contradiction|].
  apply in_app_or in Hv. destruct Hv as [Hv|[->|[]]].
  - destruct (IH u v Hv Hu) as [l1 [l2 [l3 E]]].
    exists l1, l2, (l3 ++ [x]). rewrite E.
    repeat (rewrite <- app_assoc; simpl). reflexivity.
  - destruct (in_split u L (Hx u Hu)) as [l1 [l2 E]].
    exists l1, l2, []. rewrite E. rewrite <- app_assoc. reflexivity.
Qed.

Lemma ordered_no_stuck g L (R : UUID -> Prop) :
  Nx.ordered g L ->
  (forall v, R v -> exists u, R u /\ In u (Nx.predecessors g v)) ->
  forall v, In v L -> ~ R v.
Proof.
  intros Hord Hstuck. induction Hord as [|L x Hord IH Hx]; intros v Hv HR; [contradiction|].
  apply in_app_or in Hv. destruct Hv as [Hv|[->|[]]].
  - exact (IH v Hv HR).
  - destruct (Hstuck v HR) as [u [HuR Hu]]. exact (IH u (Hx u Hu) HuR).
Qed.

Lemma pending_pos_witness g X v :
  1 <= Nx.pending g X v -> exists u, In u (Nx.predecessors g v) /\ ~ In u X.
Proof.
  unfold Nx.pending. intros H.
  destruct (filter (fun u => negb (mem u X)) (Nx.predecessors g v)) as [|u l] eqn:E;
    [simpl in H; lia|].
  assert (In u (u :: l)) as Hin by (left; reflexivity).
  rewrite <- E in Hin. apply filter_In in Hin. destruct Hin as [Hin Hm].
  exists u. split; [exact Hin|]. apply mem_false. destruct (mem u X); [discriminate|reflexivity].
Qed.

Lemma relax_node g X n rest z m :
  Nx.wf g ->
  Nx.kahn_inv g X (n :: rest ++ z) m ->
  exists m' z',
    Nx.relax (Nx.successors g n) m z = Ok (m', z') /\
    Nx.kahn_inv g (X ++ [n]) (rest ++ z') m'.
Proof.
  intros [Hwn [Hwe Hwi]] [Hnd [Hincl [Hkeys [Hnone [Hsome [Hzero Hord]]]]]].
  assert (HnX : ~ In n X).
  { intros Hin. apply NoDup_remove_2 in Hnd. apply Hnd. apply in_or_app. left. exact Hin. }
  assert (Hpn : incl (Nx.predecessors g n) X).
  { apply pending_zero. apply Hzero. left. reflexivity. }
  assert (Hchild : forall c, In c (Nx.successors g n) ->
                             exists d, Nx.lookup c m = Some d /\ 1 <= d).
  { intros c Hc. apply succ_pred in Hc.
    assert (Hcn : In c (Nx.nodes g)).
    { apply In_predecessors in Hc. destruct Hc as [r Hc]. apply (Hwi _ _ _ Hc). }
    assert (Hpos : Nx.pending g X c <> 0).
    { intros H0. apply pending_zero in H0. apply HnX. exact (H0 n Hc). }
    destruct (Nx.lookup c m) as [d|] eqn:El.
    - exists d. split; [reflexivity|]. apply (Hsome c d El).
    - exfalso. apply Hnone in El; [|exact Hcn].
      apply in_app_or in El. destruct El as [El|El].
      + apply Hpos. apply pending_zero. exact (ordered_preds g X Hord c El).
      + apply Hpos. apply Hzero. exact El. }
  destruct (relax_spec (Nx.successors g n) m z (NoDup_successors g n Hwe) Hkeys Hchild)
    as [m' [Hr [Hk' Hl]]].
  set (newly := filter (Nx.last_one m) (Nx.successors g n)) in *.
  exists m', (z ++ newly). split; [exact Hr|].
  assert (Hnew : forall c, In c newly ->
             In c (Nx.successors g n) /\ Nx.lookup c m = Some 1).
  { intros c Hc. apply filter_In in Hc. destruct Hc as [Hc Hl1]. split; [exact Hc|].
    unfold Nx.last_one in Hl1. destruct (Hchild c Hc) as [d [Hd Hd1]]. rewrite Hd in *.
    apply Nat.eqb_eq in Hl1. f_equal. lia. }
  assert (Hshape : (X ++ [n]) ++ rest ++ z ++ newly = (X ++ n :: rest ++ z) ++ newly).
  { repeat (rewrite <- app_assoc; simpl). reflexivity. }
  assert (Hmemb : forall v, In v ((X ++ [n]) ++ rest ++ z ++ newly) <->
                            In v (X ++ n :: rest ++ z) \/ In v newly).
  { intros v. rewrite Hshape. rewrite in_app_iff. reflexivity. }
  repeat split.
  - rewrite Hshape. apply NoDup_app; [exact Hnd | apply NoDup_filter, NoDup_successors, Hwe |].
    intros a Ha Hnewa. destruct (Hnew a Hnewa) as [Hs Hl1].
    assert (Han : In a (Nx.nodes g)) by (apply Hincl; exact Ha).
    apply (Hnone a Han) in Ha. congruence.
  - intros v Hv. apply Hmemb in Hv. destruct Hv as [Hv|Hv]; [apply Hincl; exact Hv|].
    destruct (Hnew v Hv) as [Hs _]. apply In_successors in Hs. destruct Hs as [r Hs].
    apply (Hwi _ _ _ Hs).
  - exact Hk'.
  - intros Hv'. rewrite Hl in Hv'. apply Hmemb.
    destruct (mem v (Nx.successors g n)) eqn:Em.
    + apply mem_In in Em. destruct (Hchild v Em) as [d [Hd Hd1]]. rewrite Hd in Hv'.
      destruct (d - 1 =? 0) eqn:E; [|discriminate].
      right. apply filter_In. split; [exact Em|]. unfold Nx.last_one. rewrite Hd. exact E.
    + left. apply Hnone; assumption.
  - intros Hv'. apply Hmemb in Hv'. rewrite Hl.
    destruct Hv' as [Hv'|Hv'].
    + apply (Hnone v H) in Hv'.
      destruct (mem v (Nx.successors g n)); rewrite Hv'; reflexivity.
    + destruct (Hnew v Hv') as [Hs Hl1]. apply mem_In in Hs. rewrite Hs, Hl1. reflexivity.
  - rewrite Hl in H. destruct (mem v (Nx.successors g n)) eqn:Em.
    + apply mem_In in Em. destruct (Hchild v Em) as [d0 [Hd Hd1]]. rewrite Hd in H.
      apply (Hsome v d0 Hd).
    + apply (Hsome v d H).
  - rewrite Hl in H. destruct (mem v (Nx.successors g n)) eqn:Em.
    + apply mem_In in Em. destruct (Hchild v Em) as [d0 [Hd Hd1]]. rewrite Hd in H.
      destruct (d0 - 1 =? 0) eqn:E; [discriminate|]. inversion H; subst.
      destruct (Hsome v d0 Hd) as [_ [Hp _]].
      apply succ_pred in Em.
      pose proof (pending_snoc_in g X n v Hwe HnX Em). lia.
    + apply mem_false in Em. destruct (Hsome v d H) as [_ [Hp _]].
      rewrite pending_snoc_notin; [exact Hp|].
      intros Hc. apply Em. apply succ_pred. exact Hc.
  - rewrite Hl in H. destruct (mem v (Nx.successors g n)) eqn:Em.
    + apply mem_In in Em. destruct (Hchild v Em) as [d0 [Hd Hd1]]. rewrite Hd in H.
      destruct (d0 - 1 =? 0) eqn:E; [discriminate|]. inversion H; subst.
      apply Nat.eqb_neq in E. lia.
    + apply (Hsome v d H).
  - intros v Hv. apply in_app_or in Hv. destruct Hv as [Hv|Hv].
    + assert (Nx.pending g X v = 0) as H0 by (apply Hzero; right; apply in_or_app; left; exact Hv).
      pose proof (pending_snoc_le g X n v). lia.
    + apply in_app_or in Hv. destruct Hv as [Hv|Hv].
      * assert (Nx.pending g X v = 0) as H0
            by (apply Hzero; right; apply in_or_app; right; exact Hv).
        pose proof (pending_snoc_le g X n v). lia.
      * destruct (Hnew v Hv) as [Hs Hl1]. destruct (Hsome v 1 Hl1) as [_ [Hp _]].
        apply succ_pred in Hs.
        pose proof (pending_snoc_in g X n v Hwe HnX Hs). lia.
  - constructor; assumption.
Qed.

Lemma process_generation_inv g :
  Nx.wf g ->
  forall cur X m z,
    Nx.kahn_inv g X (cur ++ z) m ->
    exists m' z',
      Nx.process_generation g cur m z = Ok (m', z') /\
      Nx.kahn_inv g (X ++ cur) z' m'.
Proof.
  intros Hwf. induction cur as [|n rest IH]; intros X m z Hinv.
  - exists m, z. simpl. rewrite app_nil_r. auto.
  - simpl in Hinv. simpl.
    assert (Hn : Nx.has_node g n = true).
    { apply mem_In. destruct Hinv as [_ [Hincl _]]. apply Hincl.
      apply in_or_app. right. left. reflexivity. }
    rewrite Hn. simpl.
    destruct (relax_node g X n rest z m Hwf Hinv) as [m1 [z1 [Hr Hinv1]]].
    rewrite Hr.
    destruct (IH (X ++ [n]) m1 z1 Hinv1) as [m' [z' [Hp Hinv']]].
    exists m', z'. split; [exact Hp|].
    rewrite <- app_assoc in Hinv'. exact Hinv'.
Qed.

Lemma generations_inv g :
  Nx.wf g ->
  forall fuel X W m,
    Nx.kahn_inv g X W m ->
    length (Nx.nodes g) - length X < fuel ->
    (exists out, Nx.generations fuel g m W X = Ok out /\ Nx.kahn_inv g out [] []) \/
    (Nx.generations fuel g m W X = Raise NetworkXUnfeasible /\
     exists X' m', Nx.kahn_inv g X' [] m' /\ m' <> []).
Proof.
  intros Hwf. induction fuel as [|fuel IH]; intros X W m Hinv Hfuel; [lia|].
  destruct W as [|w W].
  - simpl. destruct m as [|p m].
    + left. exists X. auto.
    + right. split; [reflexivity|]. exists X, (p :: m). split; [exact Hinv | discriminate].
  - assert (Hinv0 : Nx.kahn_inv g X ((w :: W) ++ []) m) by (rewrite app_nil_r; exact Hinv).
    destruct (process_generation_inv g Hwf (w :: W) X m [] Hinv0) as [m' [z' [Hp Hinv']]].
    cbn [Nx.generations]. rewrite Hp.
    apply IH; [exact Hinv'|].
    destruct Hinv' as [Hnd [Hincl _]].
    assert (length ((X ++ w :: W) ++ z') <= length (Nx.nodes g))
      by (apply NoDup_incl_length; assumption).
    rewrite !length_app in H. simpl in H. rewrite length_app. simpl. lia.
Qed.

Lemma lookup_indegree_map g (l : list UUID) v d :
  Nx.lookup v (map (fun v => (v, Nx.in_degree g v))
                   (filter (fun v => negb (Nx.in_degree g v =? 0)) l)) = Some d ->
  In v l /\ d = Nx.in_degree g v /\ 1 <= d.
Proof.
  induction l as [|a l IH]; simpl; [discriminate|].
  destruct (Nx.in_degree g a =? 0) eqn:E; simpl.
  - intros H. destruct (IH H) as [H1 H2]. auto.
  - uuid_cases v a.
    + intros [=]. subst. apply Nat.eqb_neq in E. repeat split; auto; lia.
    + intros H. destruct (IH H) as [H1 H2]. auto.
Qed.

Lemma kahn_inv_init g :
  Nx.wf g -> Nx.kahn_inv g [] (Nx.zero_indegree0 g) (Nx.indegree_map0 g).
Proof.
  intros [Hwn [Hwe Hwi]]. unfold Nx.zero_indegree0, Nx.indegree_map0.
  assert (Hkeys : forall v, In v (map fst (map (fun v => (v, Nx.in_degree g v))
                     (filter (fun v => negb (Nx.in_degree g v =? 0)) (Nx.nodes g)))) <->
                   In v (Nx.nodes g) /\ Nx.in_degree g v <> 0).
  { intros v. rewrite map_map. simpl. rewrite map_id. rewrite filter_In.
    rewrite negb_true_iff, Nat.eqb_neq. reflexivity. }
  assert (Hlk : forall v d, Nx.lookup v (map (fun v => (v, Nx.in_degree g v))
                     (filter (fun v => negb (Nx.in_degree g v =? 0)) (Nx.nodes g))) = Some d ->
                   In v (Nx.nodes g) /\ d = Nx.in_degree g v /\ 1 <= d)
    by (intros v d; apply lookup_indegree_map).
  repeat split.
  - simpl. apply NoDup_filter. exact Hwn.
  - simpl. intros v Hv. apply filter_In in Hv. tauto.
  - rewrite map_map. simpl. rewrite map_id. apply NoDup_filter. exact Hwn.
  - intros Hn. simpl. apply filter_In. split; [exact H|].
    apply lookup_None_keys in Hn. rewrite Hkeys in Hn.
    apply Nat.eqb_eq. destruct (Nat.eq_dec (Nx.in_degree g v) 0); tauto.
  - simpl. intros Hv. apply filter_In in Hv. destruct Hv as [_ Hv].
    apply Nat.eqb_eq in Hv. apply lookup_None_keys. rewrite Hkeys. tauto.
  - apply (Hlk v d H).
  - rewrite pending_nil. apply (Hlk v d H).
  - apply (Hlk v d H).
  - intros v Hv. apply filter_In in Hv. destruct Hv as [_ Hv].
    rewrite pending_nil. apply Nat.eqb_eq. exact Hv.
  - constructor.
Qed.

(** The sort either returns an order of all the nodes in which every
    node follows its predecessors, or fails because no such order exists. *)
Lemma topological_sort_spec g :
  Nx.wf g ->
  (exists out, Nx.topological_sort g = Ok out /\
               NoDup out /\ (forall v, In v out <-> In v (Nx.nodes g)) /\
               Nx.ordered g out) \/
  (Nx.topological_sort g = Raise NetworkXUnfeasible /\
   forall L, Nx.ordered g L -> ~ incl (Nx.nodes g) L).
Proof.
  intros Hwf. unfold Nx.topological_sort.
  destruct (generations_inv g Hwf (S (length (Nx.nodes g))) [] _ _ (kahn_inv_init g Hwf))
    as [[out [Hg Hinv]]|[Hg [X [m [Hinv Hm]]]]].
  - simpl. lia.
  - left. exists out. split; [exact Hg|].
    destruct Hinv as [Hnd [Hincl [_ [Hnone [_ [_ Hord]]]]]].
    rewrite app_nil_r in *. repeat split; auto.
    intros Hv. apply (Hnone v Hv). reflexivity.
  - right. split; [exact Hg|]. intros L Hord Hall.
    destruct Hinv as [Hnd [Hincl [Hkeys [Hnone [Hsome [_ HordX]]]]]].
    rewrite app_nil_r in *.
    assert (Hstuck : forall v, In v (map fst m) ->
                     exists u, In u (map fst m) /\ In u (Nx.predecessors g v)).
    { intros v Hv. apply lookup_In_keys in Hv.
      destruct (Nx.lookup v m) as [d|] eqn:El; [|congruence].
      destruct (Hsome v d El) as [Hvn [Hd Hd1]]. subst d.
      destruct (pending_pos_witness g X v Hd1) as [u [Hu HuX]].
      exists u. split; [|exact Hu].
      apply lookup_In_keys. intros Hc.
      assert (In u (Nx.nodes g)).
      { apply In_predecessors in Hu. destruct Hu as [r Hu].
        destruct Hwf as [_ [_ Hwi]]. apply (Hwi _ _ _ Hu). }
      apply Hnone in Hc; auto. }
    destruct m as [|[k d] m]; [congruence|].
    assert (Hk : In k (map fst ((k, d) :: m))) by (left; reflexivity).
    assert (Hkn : In k (Nx.nodes g)).
    { simpl in Hsome. specialize (Hsome k d). rewrite uuid_eqb_refl in Hsome.
      apply Hsome. reflexivity. }
    exact (ordered_no_stuck g L (fun v => In v (map fst ((k, d) :: m))) Hord Hstuck k (Hall k Hkn) Hk).
Qed.

(** * The DiGraph operations keep the representation invariant *)

Lemma edge_is_true u v e : Nx.edge_is u v e = true <-> fst e = (u, v).
Proof.
  unfold Nx.edge_is. rewrite andb_true_iff, !uuid_eqb_eq.
  destruct e as [[a b] r]. simpl. split.
  - intros [-> ->]. reflexivity.
  - intros [=]. subst. auto.
Qed.

Lemma has_edge_In g u v : Nx.has_edge g u v = true <-> In (u, v) (map fst (Nx.edges g)).
Proof.
  unfold Nx.has_edge. rewrite existsb_exists, in_map_iff. split.
  - intros [e [He Hb]]. apply edge_is_true in Hb. eauto.
  - intros [e [Hb He]]. exists e. split; [exact He | apply edge_is_true; exact Hb].
Qed.

Lemma has_edge_false g u v : Nx.has_edge g u v = false <-> ~ In (u, v) (map fst (Nx.edges g)).
Proof.
  rewrite <- has_edge_In. destruct (Nx.has_edge g u v); split; congruence.
Qed.

Lemma add_node_nodes g n x :
  In x (Nx.nodes (Nx.add_node g n)) <-> In x (Nx.nodes g) \/ x = n.
Proof.
  unfold Nx.add_node. destruct (Nx.has_node g n) eqn:E; simpl.
  - apply mem_In in E. split; [auto | intros [H| ->]; auto].
  - rewrite in_app_iff. simpl. split; [intros [H|[H|[]]]; auto | intros [H|H]; auto].
Qed.

Lemma add_node_edges g n : Nx.edges (Nx.add_node g n) = Nx.edges g.
Proof. unfold Nx.add_node. destruct (Nx.has_node g n); reflexivity. Qed.

Lemma add_node_NoDup g n : NoDup (Nx.nodes g) -> NoDup (Nx.nodes (Nx.add_node g n)).
Proof.
  unfold Nx.add_node. destruct (Nx.has_node g n) eqn:E; simpl; [auto|].
  intros H. apply NoDup_app; [exact H | repeat constructor; intros [] |].
  intros a Ha [<-|[]]. apply mem_false in E. contradiction.
Qed.

Lemma add_node_present g n : In n (Nx.nodes g) -> Nx.add_node g n = g.
Proof.
  intros H. unfold Nx.add_node. apply mem_In in H. unfold Nx.has_node. rewrite H. reflexivity.
Qed.

Lemma add_edge_nodes g u v r x :
  In x (Nx.nodes (Nx.add_edge g u v r)) <-> In x (Nx.nodes g) \/ x = u \/ x = v.
Proof.
  unfold Nx.add_edge. simpl. rewrite !add_node_nodes. tauto.
Qed.

Lemma map_fst_retag (es : list (UUID * UUID * string)) u v r :
  map fst (map (fun e => if Nx.edge_is u v e then (u, v, r) else e) es) = map fst es.
Proof.
  induction es as [|e es IH]; simpl; [reflexivity|].
  rewrite IH. f_equal. destruct (Nx.edge_is u v e) eqn:E; [|reflexivity].
  apply edge_is_true in E. simpl. congruence.
Qed.

Lemma add_edge_pairs g u v r p :
  In p (map fst (Nx.edges (Nx.add_edge g u v r))) <->
  In p (map fst (Nx.edges g)) \/ p = (u, v).
Proof.
  unfold Nx.add_edge. simpl. destruct (Nx.has_edge g u v) eqn:E.
  - rewrite map_fst_retag. apply has_edge_In in E.
    split; [auto | intros [H| ->]; auto].
  - rewrite map_app, in_app_iff. simpl.
    split; [intros [H|[H|[]]]; auto | intros [H|H]; auto].
Qed.

Lemma In_edge_endpoints (es : list (UUID * UUID * string)) u v r :
  In (u, v, r) es -> In (u, v) (map fst es).
Proof. intros H. apply In_edge_pair. eauto. Qed.

Lemma wf_add_edge g u v r : Nx.wf g -> Nx.wf (Nx.add_edge g u v r).
Proof.
  intros [Hn [He Hi]]. split; [|split].
  - unfold Nx.add_edge. simpl. apply add_node_NoDup, add_node_NoDup, Hn.
  - unfold Nx.add_edge. simpl. destruct (Nx.has_edge g u v) eqn:E.
    + rewrite map_fst_retag. exact He.
    + rewrite map_app. simpl. apply NoDup_app; [exact He | repeat constructor; intros [] |].
      intros a Ha [<-|[]]. apply has_edge_false in E. contradiction.
  - intros a b rel Hin. apply In_edge_endpoints in Hin. apply add_edge_pairs in Hin.
    rewrite !add_edge_nodes. destruct Hin as [Hin|[=]].
    + apply In_edge_pair in Hin. destruct Hin as [r' Hin]. destruct (Hi _ _ _ Hin). auto.
    + subst. auto.
Qed.

Lemma NoDup_map_fst_filter {A B} (f : A * B -> bool) (l : list (A * B)) :
  NoDup (map fst l) -> NoDup (map fst (filter f l)).
Proof.
  induction l as [|a l IH]; simpl; intros H; [constructor|].
  inversion H as [|x l' Hn Hd]; subst.
  destruct (f a); simpl; [|auto].
  constructor; [|auto].
  intros Hin. apply Hn. apply in_map_iff in Hin. destruct Hin as [e [E Hin]].
  apply filter_In in Hin. apply in_map_iff. exists e. tauto.
Qed.

Lemma remove_edge_ok g u v :
  Nx.has_edge g u v = true ->
  exists g', Nx.remove_edge g u v = Ok g' /\
             Nx.nodes g' = Nx.nodes g /\
             Nx.edges g' = filter (fun e => negb (Nx.edge_is u v e)) (Nx.edges g).
Proof.
  intros H. unfold Nx.remove_edge. rewrite H. eexists. split; [reflexivity|]. auto.
Qed.

Lemma filter_pairs (es : list (UUID * UUID * string)) u v p :
  In p (map fst (filter (fun e => negb (Nx.edge_is u v e)) es)) <->
  In p (map fst es) /\ p <> (u, v).
Proof.
  rewrite !in_map_iff. split.
  - intros [e [E H]]. apply filter_In in H. destruct H as [H Hb]. split; [eauto|].
    intros ->. apply negb_true_iff in Hb.
    assert (Nx.edge_is u v e = true) by (apply edge_is_true; exact E). congruence.
  - intros [[e [E H]] Hne]. exists e. split; [exact E|]. apply filter_In. split; [exact H|].
    apply negb_true_iff. destruct (Nx.edge_is u v e) eqn:Eb; [|reflexivity].
    apply edge_is_true in Eb. congruence.
Qed.

Lemma wf_filter_edges g f :
  Nx.wf g -> Nx.wf (Nx.mkDiGraph (Nx.nodes g) (filter f (Nx.edges g))).
Proof.
  intros [Hn [He Hi]]. split; [|split]; simpl.
  - exact Hn.
  - apply NoDup_map_fst_filter. exact He.
  - intros a b r Hin. apply filter_In in Hin. apply (Hi _ _ _ (proj1 Hin)).
Qed.

Lemma filter_all {A} (f : A -> bool) (l : list A) :
  (forall a, In a l -> f a = true) -> filter f l = l.
Proof.
  induction l as [|a l IH]; simpl; intros H; [reflexivity|].
  rewrite (H a (or_introl eq_refl)). f_equal. apply IH. intros b Hb. apply H. right. exact Hb.
Qed.

(* the speculative edge, taken out again, leaves the graph as it was *)
Lemma remove_added_edge g u v r :
  In u (Nx.nodes g) -> In v (Nx.nodes g) -> Nx.has_edge g u v = false ->
  Nx.remove_edge (Nx.add_edge g u v r) u v = Ok g.
Proof.
  intros Hu Hv He. unfold Nx.remove_edge.
  assert (Nx.has_edge (Nx.add_edge g u v r) u v = true) as ->.
  { apply has_edge_In. apply add_edge_pairs. right. reflexivity. }
  unfold Nx.add_edge. rewrite He. rewrite (add_node_present g u Hu), (add_node_present g v Hv).
  simpl. rewrite filter_app. simpl.
  assert (Nx.edge_is u v (u, v, r) = true) as -> by (apply edge_is_true; reflexivity).
  simpl. rewrite app_nil_r. rewrite filter_all.
  - destruct g; reflexivity.
  - intros e Hin. apply negb_true_iff. destruct (Nx.edge_is u v e) eqn:E; [|reflexivity].
    apply edge_is_true in E. apply has_edge_false in He. exfalso. apply He.
    apply in_map_iff. eauto.
Qed.

(** * Acyclicity does not depend on the order of the adjacency dicts *)

Lemma same_shape_preds g g' u v :
  same_shape g g' -> (In u (Nx.predecessors g v) <-> In u (Nx.predecessors g' v)).
Proof.
  intros [_ H]. rewrite !In_predecessors, <- !In_edge_pair. apply H.
Qed.

Lemma same_shape_ordered g g' L : same_shape g g' -> Nx.ordered g L -> Nx.ordered g' L.
Proof.
  intros Hs. induction 1 as [|L x Hord IH Hx]; constructor; [exact IH|].
  intros u Hu. apply Hx. apply (same_shape_preds g g' u x Hs). exact Hu.
Qed.

Lemma same_shape_sym g g' : same_shape g g' -> same_shape g' g.
Proof. intros [H1 H2]. split; intros x; [rewrite H1 | rewrite H2]; reflexivity. Qed.

Lemma is_dag_spec g :
  Nx.wf g ->
  (Nx.is_directed_acyclic_graph g = Ok true /\
   exists L, Nx.ordered g L /\ incl (Nx.nodes g) L) \/
  (Nx.is_directed_acyclic_graph g = Ok false /\
   forall L, Nx.ordered g L -> ~ incl (Nx.nodes g) L).
Proof.
  intros Hwf. unfold Nx.is_directed_acyclic_graph.
  destruct (topological_sort_spec g Hwf) as [[out [-> [Hnd [Hall Hord]]]]|[-> Hno]].
  - left. split; [reflexivity|]. exists out. split; [exact Hord|].
    intros v Hv. apply Hall. exact Hv.
  - right. auto.
Qed.

Lemma is_dag_same_shape g g' :
  Nx.wf g -> Nx.wf g' -> same_shape g g' ->
  Nx.is_directed_acyclic_graph g = Nx.is_directed_acyclic_graph g'.
Proof.
  intros Hg Hg' Hs.
  destruct (is_dag_spec g Hg) as [[-> [L [Hord Hall]]]|[-> Hno]];
    destruct (is_dag_spec g' Hg') as [[-> [L' [Hord' Hall']]]|[-> Hno']]; try reflexivity.
  - exfalso. apply (Hno' L (same_shape_ordered g g' L Hs Hord)).
    intros v Hv. apply Hall. apply Hs. exact Hv.
  - exfalso. apply (Hno L' (same_shape_ordered g' g L' (same_shape_sym _ _ Hs) Hord')).
    intros v Hv. apply Hall'. apply Hs. exact Hv.
Qed.

(** * A graph the sort accepts has no cycle *)

Lemma path_last g a x :
  path g a x -> exists u, In x (Nx.successors g u) /\ (u = a \/ path g a u).
Proof.
  induction 1 as [u v H|u v w H Hp IH].
  - exists u. auto.
  - destruct IH as [z [Hz [->|Hz']]].
    + exists v. split; [exact Hz|]. right. constructor. exact H.
    + exists z. split; [exact Hz|]. right. eapply path_step; eauto.
Qed.

Lemma path_snoc g a u x : path g a u -> In x (Nx.successors g u) -> path g a x.
Proof.
  induction 1 as [a u H|a v u H Hp IH]; intros Hx.
  - eapply path_step; [exact H|]. constructor. exact Hx.
  - eapply path_step; [exact H|]. apply IH. exact Hx.
Qed.

Lemma path_start_node g a b : Nx.wf g -> path g a b -> In a (Nx.nodes g).
Proof.
  intros [_ [_ Hi]] Hp. destruct Hp as [u v H|u v w H _];
    apply In_successors in H; destruct H as [r H]; apply (Hi _ _ _ H).
Qed.

Lemma ordered_acyclic g L :
  Nx.wf g -> Nx.ordered g L -> incl (Nx.nodes g) L -> forall a, ~ path g a a.
Proof.
  intros Hwf Hord Hall a Hcyc.
  apply (ordered_no_stuck g L (fun x => path g a x /\ path g x a) Hord) with (v := a).
  - intros x [Hax Hxa]. destruct (path_last g a x Hax) as [u [Hu Hau]].
    exists u. split; [|apply succ_pred; exact Hu]. split.
    + destruct Hau as [->|Hau]; [exact Hcyc | exact Hau].
    + eapply path_step; eauto.
  - apply Hall. eapply path_start_node; eauto.
  - auto.
Qed.

Lemma path_mono g g' a b :
  (forall u v, In v (Nx.successors g u) -> In v (Nx.successors g' u)) ->
  path g a b -> path g' a b.
Proof.
  intros Hsub. induction 1 as [u v H|u v w H Hp IH].
  - constructor. auto.
  - eapply path_step; eauto.
Qed.

Lemma is_dag_cycle g a :
  Nx.wf g -> path g a a -> Nx.is_directed_acyclic_graph g = Ok false.
Proof.
  intros Hwf Hcyc. destruct (is_dag_spec g Hwf) as [[_ [L [Hord Hall]]]|[H _]]; [|exact H].
  exfalso. exact (ordered_acyclic g L Hwf Hord Hall a Hcyc).
Qed.

Lemma is_dag_no_cycle g :
  Nx.wf g -> Nx.is_directed_acyclic_graph g = Ok true -> forall a, ~ path g a a.
Proof.
  intros Hwf Hdag a Hcyc. rewrite (is_dag_cycle g a Hwf Hcyc) in Hdag. discriminate.
Qed.

(** * NetworkXGraphStorage.add_edge *)

Lemma in_nodes_In s k :
  NetworkXGraphStorage.in_nodes s k = true <-> In k (map fst (NetworkXGraphStorage._nodes s)).
Proof. apply mem_In. Qed.

Lemma has_cycle_false s :
  NetworkXGraphStorage.has_cycle s = Ok false <->
  Nx.is_directed_acyclic_graph (NetworkXGraphStorage._graph s) = Ok true.
Proof.
  unfold NetworkXGraphStorage.has_cycle.
  destruct (Nx.is_directed_acyclic_graph _) as [[|]|e]; simpl; split; congruence.
Qed.

Lemma add_edge_step s e :
  NetworkXGraphStorage.wf s ->
  NetworkXGraphStorage.has_cycle s = Ok false ->
  exists b s',
    NetworkXGraphStorage.add_edge e s = (Ok b, s') /\
    NetworkXGraphStorage.wf s' /\
    NetworkXGraphStorage.has_cycle s' = Ok false /\
    (b = false -> s' = s) /\
    (b = true ->
     NetworkXGraphStorage._nodes s' = NetworkXGraphStorage._nodes s /\
     same_shape (NetworkXGraphStorage._graph s')
       (Nx.add_edge (NetworkXGraphStorage._graph s) (GraphEdge.from_id e) (GraphEdge.to_id e)
          (GraphEdge.relationship e))) /\
    (b = false <->
     NetworkXGraphStorage.in_nodes s (GraphEdge.from_id e) = false \/
     NetworkXGraphStorage.in_nodes s (GraphEdge.to_id e) = false \/
     Nx.is_directed_acyclic_graph
       (Nx.add_edge (NetworkXGraphStorage._graph s) (GraphEdge.from_id e) (GraphEdge.to_id e)
          (GraphEdge.relationship e)) = Ok false).
Proof.
  intros Hwf Hcyc. destruct s as [g ns]. destruct e as [u v rel].
  pose proof Hwf as Hwf0. pose proof Hcyc as Hcyc0.
  destruct Hwf as [Hg [Hk Hagree]]. simpl in Hg, Hk, Hagree |- *.
  unfold NetworkXGraphStorage.add_edge. simpl.
  destruct (NetworkXGraphStorage.in_nodes _ u) eqn:Eu; simpl.
  2:{ exists false, (NetworkXGraphStorage.mk g ns).
      split; [reflexivity|]. split; [exact Hwf0|]. split; [exact Hcyc0|].
      split; [reflexivity|]. split; [discriminate|]. split; auto. }
  destruct (NetworkXGraphStorage.in_nodes _ v) eqn:Ev; simpl.
  2:{ exists false, (NetworkXGraphStorage.mk g ns).
      split; [reflexivity|]. split; [exact Hwf0|]. split; [exact Hcyc0|].
      split; [reflexivity|]. split; [discriminate|]. split; auto. }
  assert (Hu : In u (Nx.nodes g)) by (apply Hagree; apply in_nodes_In in Eu; exact Eu).
  assert (Hv : In v (Nx.nodes g)) by (apply Hagree; apply in_nodes_In in Ev; exact Ev).
  apply has_cycle_false in Hcyc. simpl in Hcyc.
  set (g1 := Nx.add_edge g u v rel).
  assert (Hg1 : Nx.wf g1) by (apply wf_add_edge; exact Hg).
  assert (Hn1 : forall x, In x (Nx.nodes g1) <-> In x (Nx.nodes g)).
  { intros x. unfold g1. rewrite add_edge_nodes. split; [intros [H|[->| ->]]; auto | auto]. }
  assert (He1 : Nx.has_edge g1 u v = true).
  { apply has_edge_In. apply add_edge_pairs. right. reflexivity. }
  destruct (remove_edge_ok g1 u v He1) as [g2 [Hr [Hn2 He2]]].
  assert (Hg2 : Nx.wf g2).
  { pose proof (wf_filter_edges g1 (fun e => negb (Nx.edge_is u v e)) Hg1) as Hw.
    destruct g2 as [n2 e2]. simpl in *. subst. exact Hw. }
  unfold NetworkXGraphStorage._would_create_cycle. simpl. fold g1.
  destruct (is_dag_spec g1 Hg1) as [[Hdag _]|[Hdag _]]; rewrite Hdag, Hr; simpl.
  - (* accepted *)
    set (g3 := Nx.add_edge g2 u v rel).
    assert (Hs : same_shape g3 g1).
    { split.
      - intros x. unfold g3. rewrite add_edge_nodes, Hn2, Hn1.
        split; [intros [H|[->| ->]]; auto | auto].
      - intros p. unfold g3. rewrite add_edge_pairs, He2, filter_pairs.
        split.
        + intros [[H _]| ->]; [exact H|]. apply has_edge_In. exact He1.
        + intros H. destruct p as [a b].
          destruct (UUID_eq_dec a u) as [->|Ha]; [destruct (UUID_eq_dec b v) as [->|Hb]|];
            [right; reflexivity | left; split; [exact H | congruence]
             | left; split; [exact H | congruence]]. }
    assert (Hg3 : Nx.wf g3) by (apply wf_add_edge; exact Hg2).
    exists true, (NetworkXGraphStorage.mk g3 ns).
    split; [reflexivity|]. split; [|split; [|split; [discriminate|split]]].
    + split; [exact Hg3|]. split; [exact Hk|]. simpl. intros k. rewrite Hagree.
      rewrite <- Hn1. symmetry. apply Hs.
    + apply has_cycle_false. simpl. rewrite (is_dag_same_shape g3 g1 Hg3 Hg1 Hs). exact Hdag.
    + intros _. split; [reflexivity | exact Hs].
    + split; [discriminate|]. intros [H|[H|H]]; congruence.
  - (* rejected: the edge was not there, so taking it out restores the graph *)
    assert (Hne : Nx.has_edge g u v = false).
    { destruct (Nx.has_edge g u v) eqn:E; [|reflexivity]. exfalso.
      assert (Hs : same_shape g1 g).
      { split; [exact Hn1|]. intros p. unfold g1. rewrite add_edge_pairs.
        apply has_edge_In in E. split; [intros [H| ->]; auto | auto]. }
      rewrite (is_dag_same_shape g1 g Hg1 Hg Hs) in Hdag. congruence. }
    pose proof (remove_added_edge g u v rel Hu Hv Hne) as Hback. fold g1 in Hback.
    rewrite Hr in Hback. inversion Hback; subst g2.
    exists false, (NetworkXGraphStorage.mk g ns).
    split; [reflexivity|]. split; [exact Hwf0|]. split; [exact Hcyc0|].
    split; [reflexivity|]. split; [discriminate|]. split; auto.
Qed.

Lemma add_edges_inv es :
  forall s,
    NetworkXGraphStorage.wf s ->
    NetworkXGraphStorage.has_cycle s = Ok false ->
    NetworkXGraphStorage.wf (NetworkXGraphStorage.add_edges es s) /\
    NetworkXGraphStorage.has_cycle (NetworkXGraphStorage.add_edges es s) = Ok false.
Proof.
  induction es as [|e es IH]; intros s Hwf Hcyc; simpl; [auto|].
  destruct (add_edge_step s e Hwf Hcyc) as [b [s' [Hadd [Hwf' [Hcyc' _]]]]].
  rewrite Hadd. simpl. apply IH; assumption.
Qed.

Lemma add_edge_successors_mono g u v r a b :
  In b (Nx.successors g a) -> In b (Nx.successors (Nx.add_edge g u v r) a).
Proof.
  rewrite !In_successors, <- !In_edge_pair, add_edge_pairs. auto.
Qed.

Lemma add_edge_closes_cycle g u v r :
  Nx.wf g -> u = v \/ path g v u ->
  Nx.is_directed_acyclic_graph (Nx.add_edge g u v r) = Ok false.
Proof.
  intros Hwf H. apply is_dag_cycle with (a := u); [apply wf_add_edge; exact Hwf|].
  assert (Hnew : In v (Nx.successors (Nx.add_edge g u v r) u)).
  { apply In_successors. apply In_edge_pair. apply add_edge_pairs. right. reflexivity. }
  destruct H as [->|Hp].
  - constructor. exact Hnew.
  - eapply path_step; [exact Hnew|].
    eapply path_mono; [|exact Hp]. intros a b. apply add_edge_successors_mono.
Qed.

(** C1: on a store whose graph is acyclic, every run of add_edge calls
    leaves has_cycle() false after each call; an edge with an absent
    endpoint, a self-loop or an edge that closes a path back to its
    source is rejected with [false]; a rejected call leaves the store
    exactly as it was, and an accepted call adds the edge and nothing
    else. *)
Theorem add_edge_acyclic :
  forall (s0 : NetworkXGraphStorage.t) (es : list GraphEdge.t),
    NetworkXGraphStorage.wf s0 ->
    NetworkXGraphStorage.has_cycle s0 = Ok false ->
    let s := NetworkXGraphStorage.add_edges es s0 in
    NetworkXGraphStorage.has_cycle s = Ok false /\
    (forall a, ~ path (NetworkXGraphStorage._graph s) a a) /\
    forall e, exists b s',
      NetworkXGraphStorage.add_edge e s = (Ok b, s') /\
      NetworkXGraphStorage.has_cycle s' = Ok false /\
      (NetworkXGraphStorage.in_nodes s (GraphEdge.from_id e) = false \/
       NetworkXGraphStorage.in_nodes s (GraphEdge.to_id e) = false \/
       GraphEdge.from_id e = GraphEdge.to_id e \/
       path (NetworkXGraphStorage._graph s) (GraphEdge.to_id e) (GraphEdge.from_id e) ->
       b = false) /\
      (b = false -> s' = s) /\
      (b = true ->
       NetworkXGraphStorage._nodes s' = NetworkXGraphStorage._nodes s /\
       forall p, In p (map fst (Nx.edges (NetworkXGraphStorage._graph s'))) <->
                 In p (map fst (Nx.edges (NetworkXGraphStorage._graph s))) \/
                 p = (GraphEdge.from_id e, GraphEdge.to_id e)).
Proof.
  intros s0 es Hwf0 Hcyc0 s.
  destruct (add_edges_inv es s0 Hwf0 Hcyc0) as [Hwf Hcyc]. fold s in Hwf, Hcyc.
  split; [exact Hcyc|]. split.
  - apply is_dag_no_cycle; [apply Hwf | apply has_cycle_false; exact Hcyc].
  - intros e. destruct (add_edge_step s e Hwf Hcyc) as [b [s' [Hadd [Hwf' [Hcyc' [Hsame [Hacc Hrej]]]]]]].
    exists b, s'. split; [exact Hadd|]. split; [exact Hcyc'|]. split; [|split; [exact Hsame|]].
    + intros H. apply Hrej. destruct H as [H|[H|H]]; [auto | auto |].
      right. right. apply add_edge_closes_cycle; [apply Hwf | exact H].
    + intros Hb. destruct (Hacc Hb) as [Hn [_ Hp]]. split; [exact Hn|].
      intros p. rewrite Hp. apply add_edge_pairs.
Qed.

(** * Documents: [model_validate] reads back what [model_dump] wrote *)

Lemma status_roundtrip s : status_of_value (status_value s) = Some s.
Proof. destruct s; reflexivity. Qed.

Lemma priority_roundtrip p : priority_of_value (priority_value p) = Some p.
Proof. destruct p; reflexivity. Qed.

Lemma complexity_roundtrip c : complexity_of_value (complexity_value c) = Some c.
Proof. destruct c; reflexivity. Qed.

Lemma file_type_roundtrip t : file_type_of_value (file_type_value t) = Some t.
Proof. destruct t; reflexivity. Qed.

Lemma as_opt_str_roundtrip o : as_opt_str (of_opt_str o) = Some o.
Proof. destruct o; reflexivity. Qed.

Lemma as_opt_int_roundtrip o : as_opt_int (of_opt_int o) = Some o.
Proof. destruct o; reflexivity. Qed.

Lemma related_file_roundtrip f :
  RelatedFile.valid f = true ->
  RelatedFile.model_validate (RelatedFile.model_dump f) = Some f.
Proof.
  intros Hv. destruct f as [p ty d ls le].
  unfold RelatedFile.model_validate, RelatedFile.model_dump. cbn.
  rewrite file_type_roundtrip. cbn. rewrite !as_opt_int_roundtrip. cbn.
  rewrite Hv. reflexivity.
Qed.

Lemma dependency_roundtrip d :
  TaskDependency.model_validate (TaskDependency.model_dump d) = Some d.
Proof. destruct d as [[s]]. reflexivity. Qed.

Lemma traverse_roundtrip {A} (dump : A -> Json) (load : Json -> option A) (l : list A) :
  (forall a, In a l -> load (dump a) = Some a) ->
  traverse load (map dump l) = Some l.
Proof.
  induction l as [|a l IH]; intros H; [reflexivity|].
  simpl. rewrite (H a (or_introl eq_refl)). simpl.
  rewrite IH; [reflexivity|]. intros b Hb. apply H. right. exact Hb.
Qed.

Lemma validate_fields_ok x y : Task.validate x = Ok y -> Task.fields_ok x = true.
Proof. unfold Task.validate. destruct (Task.fields_ok x); [reflexivity | discriminate]. Qed.

Lemma parse_dump x :
  forallb RelatedFile.valid (Task.related_files x) = true ->
  Task.parse (Task.model_dump x) = Some x.
Proof.
  intros Hf.
  destruct x as [[i] n d g v st p c h deps files cat no [ca] [ua]].
  unfold Task.parse, Task.model_dump. cbn in Hf |- *.
  rewrite as_opt_str_roundtrip. cbn.
  rewrite status_roundtrip. cbn. rewrite priority_roundtrip. cbn.
  rewrite as_opt_str_roundtrip. cbn.
  assert (Task.opt_complexity (option_map complexity_value c) = Some c) as ->.
  { destruct c as [c|]; [|reflexivity]. simpl. rewrite complexity_roundtrip. reflexivity. }
  cbn. rewrite as_opt_int_roundtrip. cbn.
  rewrite (traverse_roundtrip TaskDependency.model_dump TaskDependency.model_validate)
    by (intros; apply dependency_roundtrip).
  cbn.
  rewrite (traverse_roundtrip RelatedFile.model_dump RelatedFile.model_validate).
  2:{ intros f Hin. apply related_file_roundtrip.
      rewrite forallb_forall in Hf. apply Hf. exact Hin. }
  cbn. rewrite !as_opt_str_roundtrip. cbn. reflexivity.
Qed.

Lemma model_validate_dump x :
  Task.valid x -> Task.model_validate (Task.model_dump x) = Ok x.
Proof.
  intros Hv. unfold Task.model_validate. rewrite parse_dump; [exact Hv|].
  apply validate_fields_ok in Hv. unfold Task.fields_ok in Hv.
  repeat (apply andb_true_iff in Hv; destruct Hv as [Hv ?]). assumption.
Qed.

(** * The table through its abstraction *)

Lemma has_id_row_of i x : DuckDBTableStorage.has_id i (row_of x) = uuid_eqb (Task.id x) i.
Proof. reflexivity. Qed.

Lemma find_row_of i xs :
  find (DuckDBTableStorage.has_id i) (map row_of xs) =
  option_map row_of (find (fun x => uuid_eqb (Task.id x) i) xs).
Proof.
  induction xs as [|x xs IH]; simpl; [reflexivity|].
  rewrite has_id_row_of. destruct (uuid_eqb (Task.id x) i); [reflexivity | exact IH].
Qed.

Lemma get_by_id_holds tb xs i :
  holds tb xs ->
  DuckDBTableStorage.get_by_id i tb = Ok (find (fun x => uuid_eqb (Task.id x) i) xs).
Proof.
  intros [Hrows [Hvalid _]]. unfold DuckDBTableStorage.get_by_id.
  rewrite Hrows, find_row_of.
  destruct (find _ xs) as [x|] eqn:E; simpl; [|reflexivity].
  apply find_some in E. rewrite model_validate_dump; [reflexivity|].
  apply Hvalid. apply E.
Qed.

Lemma found_holds tb xs i :
  holds tb xs ->
  found tb i = match find (fun x => uuid_eqb (Task.id x) i) xs with
               | Some x => [x] | None => [] end.
Proof. intros H. unfold found. rewrite (get_by_id_holds tb xs i H). reflexivity. Qed.

Lemma validate_all_rows xs :
  (forall x, In x xs -> Task.valid x) ->
  DuckDBTableStorage.validate_all (map DuckDBTableStorage.row_data (map row_of xs)) = Ok xs.
Proof.
  induction xs as [|x xs IH]; intros H; [reflexivity|].
  simpl. rewrite model_validate_dump by (apply H; left; reflexivity).
  rewrite IH; [reflexivity|]. intros y Hy. apply H. right. exact Hy.
Qed.

Lemma list_all_holds tb xs : holds tb xs -> DuckDBTableStorage.list_all tb = Ok xs.
Proof.
  intros [Hrows [Hvalid _]]. unfold DuckDBTableStorage.list_all. rewrite Hrows.
  apply validate_all_rows. exact Hvalid.
Qed.

Lemma json_text_status x :
  json_text "status" (Task.model_dump x) = Some (status_value (Task.status x)).
Proof. destruct x. reflexivity. Qed.

Lemma filter_map_row_of (P : Task.t -> bool) (Q : DuckDBTableStorage.row -> bool) xs :
  (forall x, Q (row_of x) = P x) ->
  filter Q (map row_of xs) = map row_of (filter P xs).
Proof.
  intros H. induction xs as [|x xs IH]; simpl; [reflexivity|].
  rewrite H. destruct (P x); simpl; rewrite IH; reflexivity.
Qed.

Lemma query_status_holds tb xs st :
  holds tb xs ->
  DuckDBTableStorage.query [("status", Some (status_value st))] tb =
  Ok (filter (fun x => status_eqb (Task.status x) st) xs).
Proof.
  intros [Hrows [Hvalid _]]. unfold DuckDBTableStorage.query. rewrite Hrows.
  rewrite (filter_map_row_of (fun x => status_eqb (Task.status x) st)).
  - apply validate_all_rows. intros x Hx. apply filter_In in Hx. apply Hvalid. apply Hx.
  - intros x. unfold DuckDBTableStorage.matches. cbn [forallb fst snd].
    change (DuckDBTableStorage.row_data (row_of x)) with (Task.model_dump x).
    rewrite json_text_status. rewrite andb_true_r. reflexivity.
Qed.

Lemma status_eqb_eq a b : status_eqb a b = true <-> a = b.
Proof. destruct a, b; simpl; split; intros H; try reflexivity; discriminate. Qed.

(** * Reading tasks back by identifier *)

Lemma fetch_tasks_holds s xs ids :
  holds (TaskService.table_storage s) xs ->
  TaskServiceImpl.fetch_tasks ids s =
  (Ok (flat_map (found (TaskService.table_storage s)) ids), s).
Proof.
  intros H. induction ids as [|i ids IH]; [reflexivity|].
  simpl. unfold TaskService.bind, TaskService.read_table at 1.
  unfold found at 1.
  rewrite (get_by_id_holds _ xs i H). rewrite IH.
  destruct (find _ xs); reflexivity.
Qed.

Lemma get_task_dependencies_holds s xs i :
  holds (TaskService.table_storage s) xs ->
  TaskServiceImpl.get_task_dependencies i s =
  (Ok (flat_map (found (TaskService.table_storage s))
         (NetworkXGraphStorage.get_dependencies i (TaskService.graph_storage s))), s).
Proof.
  intros H. unfold TaskServiceImpl.get_task_dependencies, TaskService.bind, TaskService.read_graph.
  apply fetch_tasks_holds with (xs := xs). exact H.
Qed.

Lemma ready_loop_holds s xs all :
  holds (TaskService.table_storage s) xs ->
  TaskServiceImpl.ready_loop all s =
  (Ok (filter (fun x => forallb TaskServiceImpl.is_completed (deps_of s x)) all), s).
Proof.
  intros H. induction all as [|x all IH]; [reflexivity|].
  simpl. unfold TaskService.bind at 1. rewrite (get_task_dependencies_holds s xs _ H).
  unfold TaskService.bind at 1. rewrite IH. fold (deps_of s x).
  destruct (deps_of s x) as [|d ds] eqn:E; [reflexivity|].
  destruct (forallb TaskServiceImpl.is_completed (d :: ds)); reflexivity.
Qed.

(** * Order *)

Lemma before_rev {A} (l : list A) a b : before l a b -> before (rev l) b a.
Proof.
  intros [l1 [l2 [l3 E]]]. exists (rev l3), (rev l2), (rev l1). rewrite E.
  rewrite rev_app_distr. simpl. rewrite rev_app_distr. simpl.
  repeat (rewrite <- app_assoc; simpl). reflexivity.
Qed.

Lemma before_flat_map {A B} (f : A -> list B) (l : list A) a b x y :
  before l a b -> In x (f a) -> In y (f b) -> before (flat_map f l) x y.
Proof.
  intros [l1 [l2 [l3 E]]] Hx Hy.
  destruct (in_split x (f a) Hx) as [p1 [p2 Ea]].
  destruct (in_split y (f b) Hy) as [q1 [q2 Eb]].
  exists (flat_map f l1 ++ p1), (p2 ++ flat_map f l2 ++ q1), (q2 ++ flat_map f l3).
  rewrite E. rewrite flat_map_app. simpl. rewrite flat_map_app. simpl.
  rewrite Ea, Eb. repeat (rewrite <- app_assoc; simpl). reflexivity.
Qed.

Lemma storage_topological_sort_ok gs :
  NetworkXGraphStorage.wf gs ->
  NetworkXGraphStorage.has_cycle gs = Ok false ->
  exists ids,
    NetworkXGraphStorage.topological_sort gs = Ok ids /\
    NoDup ids /\
    (forall v, In v ids <-> In v (Nx.nodes (NetworkXGraphStorage._graph gs))) /\
    Nx.ordered (NetworkXGraphStorage._graph gs) ids.
Proof.
  intros [Hg _] Hcyc. unfold NetworkXGraphStorage.topological_sort. rewrite Hcyc.
  apply has_cycle_false in Hcyc. unfold Nx.is_directed_acyclic_graph in Hcyc.
  destruct (topological_sort_spec _ Hg) as [[out [E [Hnd [Hall Hord]]]]|[E _]].
  - exists out. rewrite E. auto.
  - rewrite E in Hcyc. discriminate.
Qed.

(** * TaskService: what a call leaves in the table *)

Lemma add_task_dependencies_table i deps :
  forall s r s',
    TaskServiceImpl._add_task_dependencies i deps s = (r, s') ->
    TaskService.table_storage s' = TaskService.table_storage s.
Proof.
  induction deps as [|d deps IH]; intros s r s' H.
  - inversion H. reflexivity.
  - simpl in H. unfold TaskService.bind, TaskService.read_table in H.
    destruct (DuckDBTableStorage.get_by_id _ _) as [[x|]|e].
    + unfold TaskService.on_graph in H.
      destruct (NetworkXGraphStorage.add_edge _ _) as [[[|]|e] gr] eqn:Ea; simpl in H.
      * apply IH in H. exact H.
      * inversion H. reflexivity.
      * inversion H. reflexivity.
    + inversion H. reflexivity.
    + inversion H. reflexivity.
Qed.

Lemma add_dependencies_if_any_table task s r s' :
  TaskServiceImpl.add_dependencies_if_any task s = (r, s') ->
  TaskService.table_storage s' = TaskService.table_storage s.
Proof.
  unfold TaskServiceImpl.add_dependencies_if_any.
  destruct (Task.dependencies task) as [|d ds] eqn:E.
  - intros H. inversion H. reflexivity.
  - apply add_task_dependencies_table.
Qed.

Lemma find_app_new {A} (f : A -> bool) (l : list A) (x : A) :
  existsb f l = false -> f x = true -> find f (l ++ [x]) = Some x.
Proof.
  induction l as [|a l IH]; simpl; intros Hl Hx.
  - rewrite Hx. reflexivity.
  - apply orb_false_iff in Hl. destruct Hl as [Ha Hl]. rewrite Ha. auto.
Qed.

Lemma get_after_insert tb x :
  Task.valid x ->
  DuckDBTableStorage.exists_ (Task.id x) tb = false ->
  DuckDBTableStorage.get_by_id (Task.id x)
    (DuckDBTableStorage.mk (DuckDBTableStorage.rows tb ++ [row_of x])) = Ok (Some x).
Proof.
  intros Hv He. unfold DuckDBTableStorage.get_by_id. simpl.
  rewrite find_app_new; [| exact He | apply uuid_eqb_refl].
  simpl. rewrite model_validate_dump by exact Hv. reflexivity.
Qed.

Lemma get_after_update tb x :
  Task.valid x ->
  DuckDBTableStorage.exists_ (Task.id x) tb = true ->
  DuckDBTableStorage.get_by_id (Task.id x)
    (DuckDBTableStorage.mk
       (map (fun r => if DuckDBTableStorage.has_id (Task.id x) r
                      then DuckDBTableStorage.mkRow (DuckDBTableStorage.row_id r)
                             (Task.model_dump x)
                      else r) (DuckDBTableStorage.rows tb))) = Ok (Some x).
Proof.
  intros Hv He. unfold DuckDBTableStorage.get_by_id, DuckDBTableStorage.exists_ in *. simpl.
  induction (DuckDBTableStorage.rows tb) as [|r rows IH]; simpl in *; [discriminate|].
  destruct (DuckDBTableStorage.has_id (Task.id x) r) eqn:E.
  - unfold DuckDBTableStorage.has_id in *. simpl. rewrite E. simpl.
    rewrite model_validate_dump by exact Hv. reflexivity.
  - rewrite E. apply IH. exact He.
Qed.

(** C4: on an acyclic graph topological_sort() returns an order of the
    nodes in which, for every edge u -> v (u depends on v), u comes
    before v; get_execution_order() is the records of the reversed order,
    identifiers without a record left out, so the task of v comes before
    the task of u. *)
Theorem execution_order_dependency_first :
  forall (s : TaskService.t) (xs : list Task.t),
    NetworkXGraphStorage.wf (TaskService.graph_storage s) ->
    NetworkXGraphStorage.has_cycle (TaskService.graph_storage s) = Ok false ->
    holds (TaskService.table_storage s) xs ->
    exists ids tasks,
      NetworkXGraphStorage.topological_sort (TaskService.graph_storage s) = Ok ids /\
      TaskServiceImpl.get_execution_order s = (Ok tasks, s) /\
      tasks = flat_map (found (TaskService.table_storage s)) (rev ids) /\
      (forall i, found (TaskService.table_storage s) i = [] <->
                 DuckDBTableStorage.get_by_id i (TaskService.table_storage s) = Ok None) /\
      forall u v,
        In v (Nx.successors (NetworkXGraphStorage._graph (TaskService.graph_storage s)) u) ->
        before ids u v /\
        forall tu tv,
          DuckDBTableStorage.get_by_id u (TaskService.table_storage s) = Ok (Some tu) ->
          DuckDBTableStorage.get_by_id v (TaskService.table_storage s) = Ok (Some tv) ->
          before tasks tv tu.
Proof.
  intros s xs Hwf Hcyc Hholds.
  destruct (storage_topological_sort_ok _ Hwf Hcyc) as [ids [Hsort [Hnd [Hall Hord]]]].
  exists ids, (flat_map (found (TaskService.table_storage s)) (rev ids)).
  split; [exact Hsort|]. split; [|split; [reflexivity|split]].
  - unfold TaskServiceImpl.get_execution_order, TaskService.bind, TaskService.read_graph.
    rewrite Hsort. apply fetch_tasks_holds with (xs := xs). exact Hholds.
  - intros i. unfold found. rewrite (get_by_id_holds _ xs i Hholds).
    destruct (find _ xs); split; congruence.
  - intros u v Huv.
    assert (Hb : before ids u v).
    { apply (ordered_before _ _ Hord).
      - apply Hall. apply In_successors in Huv. destruct Huv as [r Huv].
        destruct Hwf as [[_ [_ Hi]] _]. apply (Hi _ _ _ Huv).
      - apply succ_pred. exact Huv. }
    split; [exact Hb|]. intros tu tv Hu Hv.
    apply before_flat_map with (a := v) (b := u).
    + apply before_rev. exact Hb.
    + unfold found. rewrite Hv. left. reflexivity.
    + unfold found. rewrite Hu. left. reflexivity.
Qed.

(** get_ready_tasks() reads the dependencies of a task through the
    graph: it returns, in table order, the tasks all of whose successors
    in the graph have a record of status COMPLETED, which includes the
    tasks with no successor; with a status filter, only the tasks of that
    status are considered.  The record of a task is not consulted. *)
Lemma ready_tasks_by_graph :
  forall (s : TaskService.t) (xs : list Task.t) (status_filter : option TaskStatus),
    holds (TaskService.table_storage s) xs ->
    let candidates :=
      match status_filter with
      | None => xs
      | Some st => filter (fun x => status_eqb (Task.status x) st) xs
      end in
    exists ready,
      TaskServiceImpl.get_ready_tasks status_filter s = (Ok ready, s) /\
      ready = filter (fun x => forallb TaskServiceImpl.is_completed (deps_of s x)) candidates /\
      forall t,
        In t ready <->
        In t xs /\
        (forall st, status_filter = Some st -> Task.status t = st) /\
        (deps_of s t = [] \/ forall d, In d (deps_of s t) -> Task.status d = COMPLETED).
Proof.
  intros s xs status_filter Hholds candidates.
  exists (filter (fun x => forallb TaskServiceImpl.is_completed (deps_of s x)) candidates).
  split; [|split; [reflexivity|]].
  - unfold TaskServiceImpl.get_ready_tasks, TaskService.bind at 1.
    unfold TaskServiceImpl.list_tasks, TaskService.bind, TaskService.read_table.
    destruct status_filter as [st|]; cbn [candidates].
    + rewrite (query_status_holds _ xs st Hholds). unfold TaskService.ret.
      apply ready_loop_holds with (xs := xs). exact Hholds.
    + rewrite (list_all_holds _ xs Hholds). unfold TaskService.ret.
      apply ready_loop_holds with (xs := xs). exact Hholds.
  - intros t. rewrite filter_In.
    assert (Hdeps : forallb TaskServiceImpl.is_completed (deps_of s t) = true <->
                    (deps_of s t = [] \/
                     forall d, In d (deps_of s t) -> Task.status d = COMPLETED)).
    { rewrite forallb_forall. unfold TaskServiceImpl.is_completed. split.
      - intros H. right. intros d Hd. apply status_eqb_eq. apply H. exact Hd.
      - intros [H|H] d Hd.
        + rewrite H in Hd. contradiction.
        + apply status_eqb_eq. apply H. exact Hd. }
    rewrite Hdeps. unfold candidates. destruct status_filter as [st|].
    + rewrite filter_In, status_eqb_eq. split.
      * intros [[H1 H2] H3]. split; [exact H1|]. split; [|exact H3].
        intros st' [=]. subst. reflexivity.
      * intros [H1 [H2 H3]]. split; [|exact H3]. split; [exact H1|]. apply H2. reflexivity.
    + split.
      * intros [H1 H3]. split; [exact H1|]. split; [|exact H3]. intros st' [=].
      * intros [H1 [_ H3]]. auto.
Qed.

(** * Queries with an endpoint that is not a node *)

(** C7 (as the code has it): with an endpoint that is not a node,
    get_shortest_path returns None and get_descendants and get_ancestors
    return the empty list, and is_reachable raises NodeNotFound: nx.has_path
    catches NetworkXNoPath only. *)
Theorem absent_endpoint_queries :
  forall (gs : NetworkXGraphStorage.t) (a b : UUID),
    Nx.has_node (NetworkXGraphStorage._graph gs) a = false \/
    Nx.has_node (NetworkXGraphStorage._graph gs) b = false ->
    NetworkXGraphStorage.get_shortest_path a b gs = Ok None /\
    NetworkXGraphStorage.is_reachable a b gs = Raise NodeNotFound /\
    (Nx.has_node (NetworkXGraphStorage._graph gs) a = false ->
     NetworkXGraphStorage.get_descendants a gs = Ok [] /\
     NetworkXGraphStorage.get_ancestors a gs = Ok []).
Proof.
  intros gs a b H.
  assert (Hsp : Nx.shortest_path (NetworkXGraphStorage._graph gs) a b = Raise NodeNotFound).
  { unfold Nx.shortest_path. destruct H as [-> | ->]; simpl; [reflexivity|].
    rewrite orb_true_r. reflexivity. }
  split; [|split].
  - unfold NetworkXGraphStorage.get_shortest_path. rewrite Hsp. reflexivity.
  - unfold NetworkXGraphStorage.is_reachable, Nx.has_path. rewrite Hsp. reflexivity.
  - intros Ha. unfold NetworkXGraphStorage.get_descendants, NetworkXGraphStorage.get_ancestors.
    rewrite Ha. auto.
Qed.

(** * DependencyResolver.resolve_task_dependencies *)






(** * TaskService.create_task with a dependency that has no record *)

Lemma in_nodes_after_add gs node :
  NetworkXGraphStorage.in_nodes
    (NetworkXGraphStorage.mk (Nx.add_node (NetworkXGraphStorage._graph gs) (GraphNode.id node))
       (NetworkXGraphStorage._nodes gs ++ [(GraphNode.id node, node)]))
    (GraphNode.id node) = true.
Proof.
  apply mem_In. simpl. rewrite map_app. apply in_or_app. right. left. reflexivity.
Qed.

(** C2 (as the code has it): create_task on a task whose first
    dependency has no record raises the not-found error after the record
    and the node have been written, and removes neither: get_task
    returns the task and the graph has its node. *)
Theorem create_task_missing_dependency_no_rollback :
  forall (s : TaskService.t) (t : Task.t) (d : TaskDependency.t) (rest : list TaskDependency.t),
    Task.valid t ->
    DuckDBTableStorage.exists_ (Task.id t) (TaskService.table_storage s) = false ->
    NetworkXGraphStorage.in_nodes (TaskService.graph_storage s) (Task.id t) = false ->
    Task.dependencies t = d :: rest ->
    TaskDependency.task_id d <> Task.id t ->
    DuckDBTableStorage.exists_ (TaskDependency.task_id d) (TaskService.table_storage s) = false ->
    exists s',
      TaskServiceImpl.create_task t s =
        (Raise (ValueError ("Dependency task " ++ uuid_text (TaskDependency.task_id d)
                            ++ " not found")), s') /\
      TaskServiceImpl.get_task (Task.id t) s' = (Ok (Some t), s') /\
      NetworkXGraphStorage.in_nodes (TaskService.graph_storage s') (Task.id t) = true.
Proof.
  intros s t d rest Hv Hex Hin Hdeps Hne Hmiss.
  unfold TaskServiceImpl.create_task.
  unfold TaskService.bind, TaskService.on_table, DuckDBTableStorage.create.
  rewrite Hex. unfold TaskService.on_graph, NetworkXGraphStorage.add_node.
  cbn [TaskService.graph_storage TaskService.table_storage TaskServiceImpl.graph_node_of
       GraphNode.id].
  rewrite Hin. cbn [negb]. unfold TaskServiceImpl.add_dependencies_if_any. rewrite Hdeps.
  cbn [TaskServiceImpl._add_task_dependencies].
  unfold TaskService.bind, TaskService.read_table.
  cbn [TaskService.graph_storage TaskService.table_storage].
  assert (Hnone : DuckDBTableStorage.get_by_id (TaskDependency.task_id d)
            (DuckDBTableStorage.mk
               (DuckDBTableStorage.rows (TaskService.table_storage s) ++
                [DuckDBTableStorage.mkRow (uuid_text (Task.id t)) (Task.model_dump t)]))
          = Ok None).
  { unfold DuckDBTableStorage.get_by_id. simpl.
    assert (find (DuckDBTableStorage.has_id (TaskDependency.task_id d))
              (DuckDBTableStorage.rows (TaskService.table_storage s) ++
               [DuckDBTableStorage.mkRow (uuid_text (Task.id t)) (Task.model_dump t)]) = None) as ->;
      [|reflexivity].
    unfold DuckDBTableStorage.exists_ in Hmiss.
    induction (DuckDBTableStorage.rows (TaskService.table_storage s)) as [|r rows IH]; simpl.
    - change (DuckDBTableStorage.has_id (TaskDependency.task_id d)
                (DuckDBTableStorage.mkRow (uuid_text (Task.id t)) (Task.model_dump t)))
        with (uuid_eqb (Task.id t) (TaskDependency.task_id d)).
      assert (uuid_eqb (Task.id t) (TaskDependency.task_id d) = false) as ->
          by (apply uuid_eqb_neq; congruence).
      reflexivity.
    - simpl in Hmiss. apply orb_false_iff in Hmiss. destruct Hmiss as [Hr Hrows].
      rewrite Hr. apply IH. exact Hrows. }
  rewrite Hnone. unfold TaskService.raise. eexists. split; [reflexivity|]. split.
  - unfold TaskServiceImpl.get_task, TaskService.read_table.
    cbn [TaskService.table_storage].
    change (DuckDBTableStorage.mkRow (uuid_text (Task.id t)) (Task.model_dump t))
      with (row_of t).
    rewrite get_after_insert by assumption. reflexivity.
  - cbn [TaskService.graph_storage].
    apply (in_nodes_after_add (TaskService.graph_storage s)
             (TaskServiceImpl.graph_node_of t)).
Qed.

(** * TaskService.update_task and the edges onto the updated task *)

(** After test_full_system.py, phases 2 to 6: with api_task depending on
    database_task, update_task(database_task) removes the node and with it
    the edge api_task -> database_task, and adds back only the node: the
    record of api_task still lists the dependency, the graph has no edge
    for it. *)
Example update_task_drops_edges_of_dependents :
  NetworkXGraphStorage.get_all_edges (TaskService.graph_storage Sample.two_tasks)
    = [GraphEdge.depends_on Sample.uuid_b Sample.uuid_a] /\
  exists s',
    TaskServiceImpl.update_task Sample.database_done Sample.two_tasks
      = (Ok Sample.database_done, s') /\
    TaskServiceImpl.get_task Sample.uuid_b s' = (Ok (Some Sample.api_task), s') /\
    Task.dependencies Sample.api_task = [TaskDependency.mk Sample.uuid_a] /\
    NetworkXGraphStorage.get_all_edges (TaskService.graph_storage s') = [] /\
    NetworkXGraphStorage.get_dependencies Sample.uuid_b (TaskService.graph_storage s') = [].
Proof.
  split; [vm_compute; reflexivity|].
  eexists. split; [vm_compute; reflexivity|].
  split; [vm_compute; reflexivity|].
  split; [reflexivity|]. split; vm_compute; reflexivity.
Qed.

(** * TaskSplittingService.split_tasks on a TaskService *)

(** C8 (as the code has it): on a TaskService, a request that passes
    validation fails at the first use of the service: TaskService has no
    attribute get_all_tasks, the AttributeError is caught and returned as
    an unsuccessful result, and nothing is deleted or created. *)
Theorem split_tasks_on_task_service_fails :
  forall (uuid4 : nat -> UUID) (utcnow : nat -> datetime) (tick : nat)
         (request : TaskSplitRequest.t) (s : TaskService.t) (errors : list string),
    TaskSplittingService.validate_split_request request = Ok (true, errors) ->
    TaskSplittingService.split_tasks uuid4 utcnow TaskSplittingService.TaskService_class
      tick request s =
    (SplitResult.mk false [] None
       "Split operation failed: 'TaskService' object has no attribute 'get_all_tasks'"
       ["'TaskService' object has no attribute 'get_all_tasks'"], s).
Proof.
  intros uuid4 utcnow tick request s errors H.
  unfold TaskSplittingService.split_tasks. rewrite H. reflexivity.
Qed.

(** * DependencyResolver.detect_circular_dependencies *)

Lemma mem_str_In x l : mem_str x l = true <-> In x l.
Proof.
  unfold mem_str. rewrite existsb_exists. split.
  - intros [y [Hy E]]. apply String.eqb_eq in E. subst. exact Hy.
  - intros H. exists x. split; [exact H | apply String.eqb_refl].
Qed.

Lemma mem_str_false x l : mem_str x l = false <-> ~ In x l.
Proof. rewrite <- mem_str_In. destruct (mem_str x l); split; congruence. Qed.


Section Search.
Variable graph : string -> list string.





(* enough fuel: the stack holds distinct names *)
Variable names : list string.
Hypothesis graph_names : forall x y, In y (graph x) -> In y names.



End Search.







(** * TaskSplittingService.validate_split_request and split_tasks *)



(** * The store invariant under add_node *)

Lemma storage_wf_init : NetworkXGraphStorage.wf NetworkXGraphStorage.init.
Proof.
  split; [|split]; simpl.
  - split; [constructor|]. split; [constructor|]. intros u v r [].
  - constructor.
  - intros k. tauto.
Qed.

Lemma wf_add_node g n : Nx.wf g -> Nx.wf (Nx.add_node g n).
Proof.
  intros [Hn [He Hi]]. split; [|split].
  - apply add_node_NoDup. exact Hn.
  - rewrite add_node_edges. exact He.
  - intros u v r Hin. rewrite add_node_edges in Hin. rewrite !add_node_nodes.
    destruct (Hi _ _ _ Hin). auto.
Qed.

Lemma storage_wf_add_node node s :
  NetworkXGraphStorage.wf s -> NetworkXGraphStorage.wf (snd (NetworkXGraphStorage.add_node node s)).
Proof.
  intros Hwf. unfold NetworkXGraphStorage.add_node.
  destruct (NetworkXGraphStorage.in_nodes s (GraphNode.id node)) eqn:E; simpl; [exact Hwf|].
  destruct Hwf as [Hg [Hk Hagree]]. split; [|split]; simpl.
  - apply wf_add_node. exact Hg.
  - rewrite map_app. simpl. apply NoDup_app; [exact Hk | repeat constructor; intros [] |].
    intros a Ha [<-|[]]. apply mem_false in E. contradiction.
  - intros k. rewrite map_app, in_app_iff, add_node_nodes, Hagree. simpl.
    split; [intros [H|[H|[]]]; auto | intros [H|H]; auto].
Qed.

Lemma four_nodes_wf : NetworkXGraphStorage.wf Sample.four_nodes.
Proof.
  unfold Sample.four_nodes. cbn [fold_left].
  repeat apply storage_wf_add_node. apply storage_wf_init.
Qed.

Lemma two_tasks_graph_wf :
  NetworkXGraphStorage.wf (TaskService.graph_storage Sample.two_tasks).
Proof.
  assert (E : TaskService.graph_storage Sample.two_tasks =
              snd (NetworkXGraphStorage.add_edge
                     (GraphEdge.depends_on Sample.uuid_b Sample.uuid_a)
                     (snd (NetworkXGraphStorage.add_node
                             (TaskServiceImpl.graph_node_of Sample.api_task)
                             (snd (NetworkXGraphStorage.add_node
                                     (TaskServiceImpl.graph_node_of Sample.database_task)
                                     NetworkXGraphStorage.init))))))
    by (vm_compute; reflexivity).
  rewrite E.
  set (s := snd (NetworkXGraphStorage.add_node _ (snd (NetworkXGraphStorage.add_node _ _)))).
  assert (Hs : NetworkXGraphStorage.wf s)
    by (unfold s; repeat apply storage_wf_add_node; apply storage_wf_init).
  assert (Hc : NetworkXGraphStorage.has_cycle s = Ok false) by (vm_compute; reflexivity).
  destruct (add_edge_step s (GraphEdge.depends_on Sample.uuid_b Sample.uuid_a) Hs Hc)
    as [b [s' [Hadd [Hwf' _]]]].
  rewrite Hadd. exact Hwf'.
Qed.

Lemma two_tasks_holds :
  holds (TaskService.table_storage Sample.two_tasks) [Sample.database_task; Sample.api_task].
Proof.
  split; [vm_compute; reflexivity|]. split.
  - intros x [<-|[<-|[]]]; vm_compute; reflexivity.
  - repeat constructor; simpl; intuition discriminate.
Qed.

(** * The theorems at sample inputs *)

Lemma add_edge_acyclic_diamond :
  NetworkXGraphStorage.wf Sample.four_nodes /\
  NetworkXGraphStorage.has_cycle Sample.four_nodes = Ok false /\
  NetworkXGraphStorage.has_cycle
    (NetworkXGraphStorage.add_edges Sample.diamond_edges Sample.four_nodes) = Ok false.
Proof.
  assert (Hc : NetworkXGraphStorage.has_cycle Sample.four_nodes = Ok false)
    by (vm_compute; reflexivity).
  split; [exact four_nodes_wf|]. split; [exact Hc|].
  exact (proj1 (add_edge_acyclic Sample.four_nodes Sample.diamond_edges four_nodes_wf Hc)).
Defined.

Lemma execution_order_two_tasks :
  NetworkXGraphStorage.wf (TaskService.graph_storage Sample.two_tasks) /\
  NetworkXGraphStorage.has_cycle (TaskService.graph_storage Sample.two_tasks) = Ok false /\
  holds (TaskService.table_storage Sample.two_tasks) [Sample.database_task; Sample.api_task] /\
  exists ids tasks,
    NetworkXGraphStorage.topological_sort (TaskService.graph_storage Sample.two_tasks) = Ok ids /\
    TaskServiceImpl.get_execution_order Sample.two_tasks = (Ok tasks, Sample.two_tasks) /\
    before ids Sample.uuid_b Sample.uuid_a.
Proof.
  assert (Hc : NetworkXGraphStorage.has_cycle (TaskService.graph_storage Sample.two_tasks)
               = Ok false) by (vm_compute; reflexivity).
  split; [exact two_tasks_graph_wf|]. split; [exact Hc|]. split; [exact two_tasks_holds|].
  destruct (execution_order_dependency_first Sample.two_tasks
              [Sample.database_task; Sample.api_task] two_tasks_graph_wf Hc two_tasks_holds)
    as [ids [tasks [Hsort [Horder [_ [_ Hedges]]]]]].
  exists ids, tasks. split; [exact Hsort|]. split; [exact Horder|].
  apply (Hedges Sample.uuid_b Sample.uuid_a). vm_compute. left. reflexivity.
Defined.



Lemma create_orphan_task_no_rollback :
  Task.valid Sample.orphan_task /\
  exists s',
    TaskServiceImpl.create_task Sample.orphan_task Sample.empty_service =
      (Raise (ValueError ("Dependency task " ++ uuid_text Sample.invalid_uuid ++ " not found")), s') /\
    TaskServiceImpl.get_task Sample.uuid_c s' = (Ok (Some Sample.orphan_task), s') /\
    NetworkXGraphStorage.in_nodes (TaskService.graph_storage s') Sample.uuid_c = true.
Proof.
  assert (Hv : Task.valid Sample.orphan_task) by (vm_compute; reflexivity).
  split; [exact Hv|].
  apply (create_task_missing_dependency_no_rollback Sample.empty_service Sample.orphan_task
           (TaskDependency.mk Sample.invalid_uuid) [] Hv eq_refl eq_refl eq_refl).
  - simpl. discriminate.
  - reflexivity.
Defined.

Lemma absent_endpoint_queries_empty_graph :
  Nx.has_node (NetworkXGraphStorage._graph NetworkXGraphStorage.init) Sample.uuid_a = false /\
  NetworkXGraphStorage.get_shortest_path Sample.uuid_a Sample.uuid_b NetworkXGraphStorage.init
    = Ok None /\
  NetworkXGraphStorage.is_reachable Sample.uuid_a Sample.uuid_b NetworkXGraphStorage.init
    = Raise NodeNotFound.
Proof.
  split; [reflexivity|].
  destruct (absent_endpoint_queries NetworkXGraphStorage.init Sample.uuid_a Sample.uuid_b
              (or_introl eq_refl)) as [Hpath [Hreach _]].
  split; [exact Hpath | exact Hreach].
Defined.

Lemma split_clear_all_five_tasks :
  DuckDBTableStorage.count (TaskService.table_storage Sample2.five_tasks) = 5 /\
  length (TaskSplitRequest.task_templates Sample2.clear_all_request) = 2 /\
  TaskSplittingService.validate_split_request Sample2.clear_all_request = Ok (true, []) /\
  TaskSplittingService.split_tasks Sample.uuid4 Sample.utcnow
    TaskSplittingService.TaskService_class 0 Sample2.clear_all_request Sample2.five_tasks =
  (SplitResult.mk false [] None
     "Split operation failed: 'TaskService' object has no attribute 'get_all_tasks'"
     ["'TaskService' object has no attribute 'get_all_tasks'"], Sample2.five_tasks).
Proof.
  assert (Hv : TaskSplittingService.validate_split_request Sample2.clear_all_request
               = Ok (true, [])) by (vm_compute; reflexivity).
  split; [vm_compute; reflexivity|]. split; [reflexivity|]. split; [exact Hv|].
  apply (split_tasks_on_task_service_fails Sample.uuid4 Sample.utcnow 0
           Sample2.clear_all_request Sample2.five_tasks [] Hv).
Defined.

(** * Which edges a service call can add *)

Lemma storage_add_edge_pairs e s r s' :
  NetworkXGraphStorage.add_edge e s = (r, s') ->
  forall p, In p (map fst (Nx.edges (NetworkXGraphStorage._graph s'))) ->
            In p (map fst (Nx.edges (NetworkXGraphStorage._graph s))) \/
            p = (GraphEdge.from_id e, GraphEdge.to_id e).
Proof.
  destruct e as [u v rel]. destruct s as [g ns]. simpl.
  unfold NetworkXGraphStorage.add_edge. simpl.
  destruct (negb (NetworkXGraphStorage.in_nodes _ u) || negb (NetworkXGraphStorage.in_nodes _ v)).
  { intros [= <- <-] p Hp. left. exact Hp. }
  unfold NetworkXGraphStorage._would_create_cycle. simpl.
  set (g1 := Nx.add_edge g u v rel).
  assert (H1 : forall p, In p (map fst (Nx.edges g1)) ->
                         In p (map fst (Nx.edges g)) \/ p = (u, v)).
  { intros p Hp. apply add_edge_pairs in Hp. exact Hp. }
  destruct (Nx.is_directed_acyclic_graph g1) as [dag|x].
  2:{ intros [= <- <-] p Hp. apply H1. exact Hp. }
  unfold Nx.remove_edge. destruct (Nx.has_edge g1 u v).
  2:{ intros [= <- <-] p Hp. apply H1. exact Hp. }
  destruct dag; simpl.
  - intros [= <- <-] p Hp. simpl in Hp. apply add_edge_pairs in Hp. simpl in Hp.
    destruct Hp as [Hp|Hp]; [|right; exact Hp].
    apply filter_pairs in Hp. apply H1. apply Hp.
  - intros [= <- <-] p Hp. simpl in Hp. apply filter_pairs in Hp. apply H1. apply Hp.
Qed.

Lemma add_task_dependencies_pairs i deps :
  forall s r s',
    TaskServiceImpl._add_task_dependencies i deps s = (r, s') ->
    forall p,
      In p (map fst (Nx.edges (NetworkXGraphStorage._graph (TaskService.graph_storage s')))) ->
      In p (map fst (Nx.edges (NetworkXGraphStorage._graph (TaskService.graph_storage s)))) \/
      fst p = i.
Proof.
  induction deps as [|d deps IH]; intros s r s' H p Hp.
  - inversion H; subst. left. exact Hp.
  - simpl in H. unfold TaskService.bind, TaskService.read_table in H.
    destruct (DuckDBTableStorage.get_by_id _ _) as [[x|]|e].
    + unfold TaskService.on_graph in H.
      destruct (NetworkXGraphStorage.add_edge _ _) as [[[|]|e] gr] eqn:Ea; simpl in H.
      * destruct (IH _ _ _ H p Hp) as [Hin|Hin]; [|right; exact Hin].
        simpl in Hin. destruct (storage_add_edge_pairs _ _ _ _ Ea p Hin) as [Ho| ->]; auto.
      * inversion H; subst. simpl in Hp.
        destruct (storage_add_edge_pairs _ _ _ _ Ea p Hp) as [Ho| ->]; auto.
      * inversion H; subst. simpl in Hp.
        destruct (storage_add_edge_pairs _ _ _ _ Ea p Hp) as [Ho| ->]; auto.
    + inversion H; subst. left. exact Hp.
    + inversion H; subst. left. exact Hp.
Qed.

Lemma touches_false n e :
  Nx.touches n e = false <-> fst (fst e) <> n /\ snd (fst e) <> n.
Proof.
  unfold Nx.touches. rewrite orb_false_iff, !uuid_eqb_neq.
  split; intros [H1 H2]; split; congruence.
Qed.

Lemma storage_remove_node_clears n s r s' :
  NetworkXGraphStorage.wf s ->
  NetworkXGraphStorage.remove_node n s = (r, s') ->
  forall a b, In (a, b) (map fst (Nx.edges (NetworkXGraphStorage._graph s'))) ->
              a <> n /\ b <> n.
Proof.
  intros [[Hn [He Hi]] [Hk Hagree]]. unfold NetworkXGraphStorage.remove_node.
  destruct (NetworkXGraphStorage.in_nodes s n) eqn:E; simpl.
  - unfold Nx.remove_node.
    assert (Nx.has_node (NetworkXGraphStorage._graph s) n = true) as ->.
    { apply mem_In. apply Hagree. apply in_nodes_In. exact E. }
    intros [= <- <-] a b Hin. simpl in Hin.
    apply in_map_iff in Hin. destruct Hin as [e [Hfst Hin]].
    apply filter_In in Hin. destruct Hin as [_ Ht]. apply negb_true_iff in Ht.
    apply touches_false in Ht. rewrite Hfst in Ht. exact Ht.
  - intros [= <- <-] a b Hin. apply In_edge_pair in Hin. destruct Hin as [rel Hin].
    destruct (Hi _ _ _ Hin) as [Ha Hb].
    assert (Hnot : ~ In n (Nx.nodes (NetworkXGraphStorage._graph s))).
    { intros Hc. apply Hagree in Hc. apply in_nodes_In in Hc. congruence. }
    split; intros ->; contradiction.
Qed.

(** C3 (as the code has it): update_task(t) removes the node of t with
    every edge that touches it and adds back the node and the edges from t
    only, so afterwards no other task has t among its dependencies in the
    graph, whatever the records of its dependents list. *)
Theorem update_task_severs_dependents :
  forall (s : TaskService.t) (t r : Task.t) (s' : TaskService.t),
    NetworkXGraphStorage.wf (TaskService.graph_storage s) ->
    TaskServiceImpl.update_task t s = (Ok r, s') ->
    forall u, u <> Task.id t ->
      ~ In (Task.id t) (NetworkXGraphStorage.get_dependencies u (TaskService.graph_storage s')).
Proof.
  intros s t r s' Hwf H u Hu Hin.
  assert (Hpair : In (u, Task.id t)
            (map fst (Nx.edges (NetworkXGraphStorage._graph (TaskService.graph_storage s'))))).
  { unfold NetworkXGraphStorage.get_dependencies in Hin.
    destruct (negb (Nx.has_node _ u)); [contradiction|].
    apply In_successors in Hin. apply In_edge_pair. exact Hin. }
  clear Hin. unfold TaskServiceImpl.update_task in H.
  unfold TaskService.bind at 1 in H. unfold TaskService.on_table at 1 in H.
  destruct (DuckDBTableStorage.update t (TaskService.table_storage s)) as [[x|e] tb];
    [|discriminate].
  unfold TaskService.bind at 1 in H. unfold TaskService.on_graph at 1 in H.
  cbn [TaskService.graph_storage TaskService.table_storage] in H.
  destruct (NetworkXGraphStorage.remove_node _ _) as [[b1|e] gr1] eqn:Er; [|discriminate].
  unfold TaskService.bind at 1 in H. unfold TaskService.on_graph at 1 in H.
  cbn [TaskService.graph_storage TaskService.table_storage] in H.
  destruct (NetworkXGraphStorage.add_node _ gr1) as [[b2|e] gr2] eqn:Ea; [|discriminate].
  unfold TaskService.bind at 1 in H.
  destruct (TaskServiceImpl.add_dependencies_if_any t _) as [[[]|e] s1] eqn:Ed; [|discriminate].
  unfold TaskService.ret in H. inversion H; subst s1 r.
  assert (Hold : In (u, Task.id t)
            (map fst (Nx.edges (NetworkXGraphStorage._graph gr2)))).
  { unfold TaskServiceImpl.add_dependencies_if_any in Ed.
    destruct (Task.dependencies t) as [|d ds].
    - inversion Ed; subst. exact Hpair.
    - destruct (add_task_dependencies_pairs _ _ _ _ _ Ed _ Hpair) as [Ho|Ho];
        [exact Ho | simpl in Ho; contradiction]. }
  assert (Hsame : Nx.edges (NetworkXGraphStorage._graph gr2)
                  = Nx.edges (NetworkXGraphStorage._graph gr1)).
  { unfold NetworkXGraphStorage.add_node in Ea.
    destruct (NetworkXGraphStorage.in_nodes gr1 _); inversion Ea; subst; [reflexivity|].
    simpl. apply add_node_edges. }
  rewrite Hsame in Hold.
  destruct (storage_remove_node_clears _ _ _ _ Hwf Er _ _ Hold) as [_ Hb].
  apply Hb. reflexivity.
Qed.

Lemma update_task_severs_api_task :
  NetworkXGraphStorage.wf (TaskService.graph_storage Sample.two_tasks) /\
  NetworkXGraphStorage.get_dependencies Sample.uuid_b (TaskService.graph_storage Sample.two_tasks)
    = [Sample.uuid_a] /\
  exists s',
    TaskServiceImpl.update_task Sample.database_done Sample.two_tasks
      = (Ok Sample.database_done, s') /\
    TaskServiceImpl.get_task Sample.uuid_b s' = (Ok (Some Sample.api_task), s') /\
    Task.dependencies Sample.api_task = [TaskDependency.mk Sample.uuid_a] /\
    ~ In Sample.uuid_a
        (NetworkXGraphStorage.get_dependencies Sample.uuid_b (TaskService.graph_storage s')).
Proof.
  split; [exact two_tasks_graph_wf|]. split; [vm_compute; reflexivity|].
  destruct (TaskServiceImpl.update_task Sample.database_done Sample.two_tasks)
    as [r s'] eqn:E.
  assert (Hr : r = Ok Sample.database_done).
  { apply (f_equal fst) in E. simpl in E. rewrite <- E. vm_compute. reflexivity. }
  subst r. exists s'. split; [reflexivity|]. split.
  - apply (f_equal snd) in E. simpl in E. rewrite <- E. vm_compute. reflexivity.
  - split; [reflexivity|].
    apply (update_task_severs_dependents Sample.two_tasks Sample.database_done
             Sample.database_done s' two_tasks_graph_wf E Sample.uuid_b).
    discriminate.
Defined.

(** * A graph the sort refuses has a cycle *)

Lemma chain_tail g a l : walk (Nx.successors g) (a :: l) -> l <> [] -> walk (Nx.successors g) l.
Proof.
  intros H Hl. inversion H; subst; [congruence | assumption].
Qed.

Lemma chain_app_r g l1 l2 : walk (Nx.successors g) (l1 ++ l2) -> l2 <> [] -> walk (Nx.successors g) l2.
Proof.
  induction l1 as [|a l1 IH]; intros H Hl; [exact H|].
  apply IH; [|exact Hl]. simpl in H. apply (chain_tail g a); [exact H|].
  destruct l1; simpl; [exact Hl | discriminate].
Qed.

Lemma chain_path g l2 : forall x y l3, walk (Nx.successors g) (x :: l2 ++ y :: l3) -> path g x y.
Proof.
  induction l2 as [|z l2 IH]; intros x y l3 H; simpl in H; inversion H; subst.
  - apply path_edge. assumption.
  - eapply path_step; [eassumption|]. eapply IH. eassumption.
Qed.

Lemma dup_split (w : list UUID) :
  ~ NoDup w -> exists x l1 l2 l3, w = l1 ++ x :: l2 ++ x :: l3.
Proof.
  induction w as [|a w IH]; intros H.
  - exfalso. apply H. constructor.
  - destruct (in_dec UUID_eq_dec a w) as [Hin|Hnin].
    + apply in_split in Hin. destruct Hin as [l2 [l3 ->]].
      exists a, [], l2, l3. reflexivity.
    + destruct IH as [x [l1 [l2 [l3 ->]]]].
      * intros Hnd. apply H. constructor; assumption.
      * exists x, (a :: l1), l2, l3. reflexivity.
Qed.

Lemma chain_grow g (R : list UUID) :
  (forall v, In v R -> exists u, In u R /\ In u (Nx.predecessors g v)) ->
  forall n v, In v R -> exists w, length w = S n /\ walk (Nx.successors g) w /\ incl w R.
Proof.
  intros Hstuck n. induction n as [|n IH]; intros v Hv.
  - exists [v]. split; [reflexivity|]. split; [constructor|].
    intros x [<-|[]]. exact Hv.
  - destruct (IH v Hv) as [w [Hlen [Hch Hincl]]].
    destruct w as [|h t]; [discriminate|].
    destruct (Hstuck h (Hincl h (or_introl eq_refl))) as [u [Hu Hpred]].
    exists (u :: h :: t). split; [simpl in *; lia|]. split.
    + constructor; [apply succ_pred; exact Hpred | exact Hch].
    + intros x [<-|Hx]; [exact Hu | apply Hincl; exact Hx].
Qed.

(** In a non-empty finite set of nodes each of which has a predecessor in
    the set, some node reaches itself. *)
Lemma stuck_cycle g (R : list UUID) v0 :
  In v0 R ->
  (forall v, In v R -> exists u, In u R /\ In u (Nx.predecessors g v)) ->
  exists a, path g a a.
Proof.
  intros Hv0 Hstuck.
  destruct (chain_grow g R Hstuck (length R) v0 Hv0) as [w [Hlen [Hch Hincl]]].
  assert (Hdup : ~ NoDup w).
  { intros Hnd. pose proof (NoDup_incl_length Hnd Hincl). lia. }
  destruct (dup_split w Hdup) as [x [l1 [l2 [l3 ->]]]].
  exists x. apply (chain_path g l2 x x l3).
  apply (chain_app_r g l1); [exact Hch | discriminate].
Qed.

Lemma unfeasible_cycle g :
  Nx.wf g -> Nx.topological_sort g = Raise NetworkXUnfeasible -> exists a, path g a a.
Proof.
  intros Hwf Hts. unfold Nx.topological_sort in Hts.
  destruct (generations_inv g Hwf (S (length (Nx.nodes g))) [] (Nx.zero_indegree0 g)
              (Nx.indegree_map0 g) (kahn_inv_init g Hwf))
    as [[out [Hout _]]|[_ [X [m [Hinv Hm]]]]].
  - simpl. lia.
  - rewrite Hout in Hts. discriminate.
  - destruct Hinv as [_ [_ [_ [Hnone [Hsome _]]]]].
    destruct m as [|[k d] m']; [congruence|].
    apply (stuck_cycle g (map fst ((k, d) :: m')) k); [left; reflexivity|].
    intros v Hv. apply lookup_In_keys in Hv.
    destruct (Nx.lookup v ((k, d) :: m')) as [dv|] eqn:E; [|congruence].
    destruct (Hsome v dv E) as [Hnode [Hd Hpos]]. subst dv.
    destruct (pending_pos_witness g X v Hpos) as [u [Hpred HnX]].
    exists u. split; [|exact Hpred].
    apply lookup_In_keys. intros Hn.
    assert (Hun : In u (Nx.nodes g)).
    { apply In_predecessors in Hpred. destruct Hpred as [r Hr].
      destruct Hwf as [_ [_ Hi]]. apply (Hi _ _ _ Hr). }
    apply (Hnone u Hun) in Hn. rewrite app_nil_r in Hn. contradiction.
Qed.

Lemma is_dag_false_cycle g :
  Nx.wf g -> Nx.is_directed_acyclic_graph g = Ok false -> exists a, path g a a.
Proof.
  intros Hwf H. apply (unfeasible_cycle g Hwf).
  unfold Nx.is_directed_acyclic_graph in H.
  destruct (topological_sort_spec g Hwf) as [[out [Hout _]]|[Hr _]]; [|exact Hr].
  rewrite Hout in H. discriminate.
Qed.

Lemma is_dag_true_iff g :
  Nx.wf g -> (Nx.is_directed_acyclic_graph g = Ok true <-> forall a, ~ path g a a).
Proof.
  intros Hwf. split; [apply is_dag_no_cycle; exact Hwf|].
  intros Hno. destruct (is_dag_spec g Hwf) as [[H _]|[H _]]; [exact H|].
  destruct (is_dag_false_cycle g Hwf H) as [a Ha]. exfalso. exact (Hno a Ha).
Qed.

(** A graph with fewer edges than an acyclic one is acyclic. *)
Lemma is_dag_subgraph g g' :
  Nx.wf g -> Nx.wf g' ->
  (forall a b, In b (Nx.successors g' a) -> In b (Nx.successors g a)) ->
  Nx.is_directed_acyclic_graph g = Ok true ->
  Nx.is_directed_acyclic_graph g' = Ok true.
Proof.
  intros Hwf Hwf' Hsub Hdag. apply (is_dag_true_iff g' Hwf'). intros a Ha.
  apply (is_dag_no_cycle g Hwf Hdag a). apply (path_mono g' g a a Hsub Ha).
Qed.

(** * has_cycle *)

Lemma has_cycle_total s :
  NetworkXGraphStorage.wf s ->
  exists b, NetworkXGraphStorage.has_cycle s = Ok b /\
            Nx.is_directed_acyclic_graph (NetworkXGraphStorage._graph s) = Ok (negb b).
Proof.
  intros [Hg _]. unfold NetworkXGraphStorage.has_cycle.
  destruct (is_dag_spec _ Hg) as [[H _]|[H _]]; rewrite H.
  - exists false. auto.
  - exists true. auto.
Qed.

(** X1: has_cycle() never raises on a well-formed store, and is True
    exactly when some node reaches itself along one or more edges. *)
Theorem has_cycle_iff_cycle :
  forall s : NetworkXGraphStorage.t,
    NetworkXGraphStorage.wf s ->
    exists b,
      NetworkXGraphStorage.has_cycle s = Ok b /\
      (b = true <-> exists a, path (NetworkXGraphStorage._graph s) a a).
Proof.
  intros s Hwf. destruct (has_cycle_total s Hwf) as [b [Hb Hdag]].
  exists b. split; [exact Hb|]. destruct Hwf as [Hg _]. destruct b; simpl in Hdag.
  - split; [intros _|reflexivity]. apply (is_dag_false_cycle _ Hg Hdag).
  - split; [discriminate|]. intros [a Ha]. exfalso.
    exact (is_dag_no_cycle _ Hg Hdag a Ha).
Qed.

Lemma cyclic_store_wf : NetworkXGraphStorage.wf Sample3.cyclic_store.
Proof.
  split; [|split]; simpl.
  - split; [|split]; simpl.
    + repeat constructor; simpl; intuition discriminate.
    + repeat constructor; simpl; intuition discriminate.
    + intros u v r [H|[H|[]]]; inversion H; subst; simpl; auto.
  - repeat constructor; simpl; intuition discriminate.
  - intros k. tauto.
Qed.

Lemma has_cycle_iff_cycle_on_cyclic_store :
  NetworkXGraphStorage.has_cycle Sample3.cyclic_store = Ok true /\
  exists b,
    NetworkXGraphStorage.has_cycle Sample3.cyclic_store = Ok b /\
    (b = true <-> exists a, path (NetworkXGraphStorage._graph Sample3.cyclic_store) a a).
Proof.
  split; [vm_compute; reflexivity|].
  exact (has_cycle_iff_cycle Sample3.cyclic_store cyclic_store_wf).
Defined.

(** * add_edge refuses an edge only for a reason *)

Lemma add_edge_successors g u v r x y :
  In y (Nx.successors (Nx.add_edge g u v r) x) <->
  In y (Nx.successors g x) \/ (x = u /\ y = v).
Proof.
  rewrite !In_successors, <- !In_edge_pair, add_edge_pairs.
  split; (intros [H|H]; [left; exact H | right]).
  - inversion H. auto.
  - destruct H as [-> ->]. reflexivity.
Qed.

Lemma path_trans g a b c : path g a b -> path g b c -> path g a c.
Proof.
  induction 1 as [u v H|u v w H Hp IH]; intros Hc.
  - eapply path_step; eauto.
  - eapply path_step; [exact H|]. apply IH. exact Hc.
Qed.

Lemma path_add_edge_inv g u v r a b :
  path (Nx.add_edge g u v r) a b ->
  path g a b \/ ((a = u \/ path g a u) /\ (v = b \/ path g v b)).
Proof.
  induction 1 as [x y H|x y z H Hp IH].
  - apply add_edge_successors in H. destruct H as [H|[-> ->]].
    + left. apply path_edge. exact H.
    + right. auto.
  - apply add_edge_successors in H. destruct H as [H|[-> ->]].
    + destruct IH as [IH|[[->|Hyu] Hvz]].
      * left. eapply path_step; eauto.
      * right. split; [right; apply path_edge; exact H | exact Hvz].
      * right. split; [right; eapply path_step; eauto | exact Hvz].
    + destruct IH as [IH|[_ Hvz]].
      * right. split; [left; reflexivity | right; exact IH].
      * right. split; [left; reflexivity | exact Hvz].
Qed.

Lemma add_edge_cycle_inv g u v r a :
  (forall x, ~ path g x x) ->
  path (Nx.add_edge g u v r) a a -> u = v \/ path g v u.
Proof.
  intros Hac Hp. destruct (path_add_edge_inv g u v r a a Hp) as [H|[[->|Hau] [Hva|Hva]]].
  - exfalso. exact (Hac a H).
  - left. symmetry. exact Hva.
  - right. exact Hva.
  - subst a. right. exact Hau.
  - right. exact (path_trans g v a u Hva Hau).
Qed.

(** X2: on an acyclic store add_edge returns False exactly when an
    endpoint is not a node, the edge is a self-loop, or its target
    already reaches its source; every other edge is accepted. *)
Theorem add_edge_rejects_iff :
  forall (s : NetworkXGraphStorage.t) (e : GraphEdge.t),
    NetworkXGraphStorage.wf s ->
    NetworkXGraphStorage.has_cycle s = Ok false ->
    exists b s',
      NetworkXGraphStorage.add_edge e s = (Ok b, s') /\
      (b = false <->
       NetworkXGraphStorage.in_nodes s (GraphEdge.from_id e) = false \/
       NetworkXGraphStorage.in_nodes s (GraphEdge.to_id e) = false \/
       GraphEdge.from_id e = GraphEdge.to_id e \/
       path (NetworkXGraphStorage._graph s) (GraphEdge.to_id e) (GraphEdge.from_id e)).
Proof.
  intros s e Hwf Hcyc.
  destruct (add_edge_step s e Hwf Hcyc) as [b [s' [Hadd [_ [_ [_ [_ Hiff]]]]]]].
  exists b, s'. split; [exact Hadd|]. rewrite Hiff. clear Hiff.
  pose proof Hwf as [Hg _]. apply has_cycle_false in Hcyc.
  split.
  - intros [H|[H|H]]; [auto | auto |]. right. right.
    destruct (is_dag_false_cycle _ (wf_add_edge _ _ _ _ Hg) H) as [a Ha].
    apply (add_edge_cycle_inv _ _ _ _ a (is_dag_no_cycle _ Hg Hcyc) Ha).
  - intros [H|[H|H]]; [auto | auto |]. right. right.
    apply add_edge_closes_cycle; [exact Hg | exact H].
Qed.

Lemma add_edge_rejects_iff_four_nodes :
  exists b s',
    NetworkXGraphStorage.add_edge (GraphEdge.depends_on Sample.uuid_a Sample.uuid_b)
      Sample.four_nodes = (Ok b, s') /\
    (b = false <->
     NetworkXGraphStorage.in_nodes Sample.four_nodes Sample.uuid_a = false \/
     NetworkXGraphStorage.in_nodes Sample.four_nodes Sample.uuid_b = false \/
     Sample.uuid_a = Sample.uuid_b \/
     path (NetworkXGraphStorage._graph Sample.four_nodes) Sample.uuid_b Sample.uuid_a).
Proof.
  apply (add_edge_rejects_iff Sample.four_nodes
           (GraphEdge.depends_on Sample.uuid_a Sample.uuid_b) four_nodes_wf).
  vm_compute. reflexivity.
Defined.

(** * Reading a graph store *)

Lemma In_edges_view g e :
  Nx.wf g -> (In e (Nx.edges_view g) <-> In e (Nx.edges g)).
Proof.
  intros [_ [_ Hi]]. unfold Nx.edges_view. rewrite in_flat_map. split.
  - intros [n [_ H]]. apply filter_In in H. apply H.
  - intros H. destruct e as [[u v] r]. exists u. split; [apply (Hi _ _ _ H)|].
    apply filter_In. split; [exact H | apply uuid_eqb_refl].
Qed.

Lemma NoDup_filter_fst (es : list (UUID * UUID * string)) n :
  NoDup (map fst es) -> NoDup (filter (fun e => uuid_eqb n (fst (fst e))) es).
Proof.
  intros H. apply (NoDup_map_inv fst). apply NoDup_map_fst_filter. exact H.
Qed.

Lemma NoDup_flat_map_disjoint {A B} (f : A -> list B) (l : list A) :
  NoDup l ->
  (forall a, In a l -> NoDup (f a)) ->
  (forall a a' b, In a l -> In a' l -> In b (f a) -> In b (f a') -> a = a') ->
  NoDup (flat_map f l).
Proof.
  induction l as [|a l IH]; intros Hnd Hf Hdis; simpl; [constructor|].
  inversion Hnd; subst. apply NoDup_app.
  - apply Hf. left. reflexivity.
  - apply IH; [assumption | intros; apply Hf; right; assumption |].
    intros x x' b Hx Hx'. apply Hdis; right; assumption.
  - intros b Hb Hb'. apply in_flat_map in Hb'. destruct Hb' as [a' [Ha' Hb']].
    assert (a = a') by (apply (Hdis a a' b); [left; reflexivity | right; exact Ha' | exact Hb | exact Hb']).
    subst a'. contradiction.
Qed.

Lemma NoDup_edges_view g : Nx.wf g -> NoDup (Nx.edges_view g).
Proof.
  intros [Hn [He _]]. unfold Nx.edges_view. apply NoDup_flat_map_disjoint.
  - exact Hn.
  - intros a _. apply NoDup_filter_fst. exact He.
  - intros a a' b _ _ Hb Hb'. apply filter_In in Hb, Hb'.
    destruct Hb as [_ Hb]. destruct Hb' as [_ Hb'].
    apply uuid_eqb_eq in Hb, Hb'. congruence.
Qed.

Lemma dict_get_In k d :
  NetworkXGraphStorage.dict_get k d <> None <-> In k (map fst d).
Proof.
  induction d as [|[k' v] d IH]; simpl; [tauto|].
  uuid_cases k k'.
  - split; [auto | discriminate].
  - rewrite IH. split; [auto | intros [H|H]; [congruence | exact H]].
Qed.

Lemma dict_get_None k d :
  NetworkXGraphStorage.dict_get k d = None <-> ~ In k (map fst d).
Proof.
  rewrite <- dict_get_In. destruct (NetworkXGraphStorage.dict_get k d); split; try congruence.
  intros H. exfalso. apply H. discriminate.
Qed.

Lemma dict_get_app k d d' :
  NetworkXGraphStorage.dict_get k (d ++ d') =
  match NetworkXGraphStorage.dict_get k d with
  | Some v => Some v
  | None => NetworkXGraphStorage.dict_get k d'
  end.
Proof.
  induction d as [|[k' v] d IH]; simpl; [reflexivity|].
  destruct (uuid_eqb k k'); [reflexivity | exact IH].
Qed.

Lemma dict_get_del k n d :
  NetworkXGraphStorage.dict_get k (NetworkXGraphStorage.dict_del n d) =
  if uuid_eqb n k then None else NetworkXGraphStorage.dict_get k d.
Proof.
  unfold NetworkXGraphStorage.dict_del.
  induction d as [|[k' v] d IH]; simpl.
  - destruct (uuid_eqb n k); reflexivity.
  - uuid_cases n k'; simpl.
    + rewrite IH. uuid_cases k' k.
      * reflexivity.
      * assert (uuid_eqb k k' = false) as -> by (apply uuid_eqb_neq; congruence).
        reflexivity.
    + uuid_cases k k'.
      * assert (uuid_eqb n k' = false) as -> by (apply uuid_eqb_neq; congruence).
        reflexivity.
      * exact IH.
Qed.

Lemma in_nodes_get_node s k :
  NetworkXGraphStorage.in_nodes s k = false <-> NetworkXGraphStorage.get_node k s = None.
Proof.
  unfold NetworkXGraphStorage.get_node, NetworkXGraphStorage.in_nodes.
  rewrite mem_false, dict_get_None. tauto.
Qed.

(** X3: add_node returns True exactly when the identifier is new; the node
    is then stored last and get_node returns it.  On an identifier already
    present it returns False and changes nothing, so the first node stays.
    No other identifier is affected. *)
Theorem add_node_get_node :
  forall (s : NetworkXGraphStorage.t) (node : GraphNode.t),
    exists b s',
      NetworkXGraphStorage.add_node node s = (Ok b, s') /\
      (b = true <-> NetworkXGraphStorage.get_node (GraphNode.id node) s = None) /\
      (b = false -> s' = s) /\
      (b = true ->
       NetworkXGraphStorage.get_node (GraphNode.id node) s' = Some node /\
       NetworkXGraphStorage.get_all_nodes s' = NetworkXGraphStorage.get_all_nodes s ++ [node]) /\
      (forall k, k <> GraphNode.id node ->
                 NetworkXGraphStorage.get_node k s' = NetworkXGraphStorage.get_node k s).
Proof.
  intros s node. unfold NetworkXGraphStorage.add_node.
  destruct (NetworkXGraphStorage.in_nodes s (GraphNode.id node)) eqn:E.
  - exists false, s. split; [reflexivity|]. split.
    + split; [discriminate|]. intros H. apply in_nodes_get_node in H. congruence.
    + split; [reflexivity|]. split; [discriminate | reflexivity].
  - exists true, (NetworkXGraphStorage.mk
                    (Nx.add_node (NetworkXGraphStorage._graph s) (GraphNode.id node))
                    (NetworkXGraphStorage._nodes s ++ [(GraphNode.id node, node)])).
    split; [reflexivity|]. split.
    + split; [intros _; apply in_nodes_get_node; exact E | reflexivity].
    + split; [discriminate|]. split.
      * intros _. unfold NetworkXGraphStorage.get_node, NetworkXGraphStorage.get_all_nodes.
        simpl. rewrite dict_get_app, map_app. simpl. rewrite uuid_eqb_refl.
        apply in_nodes_get_node in E. unfold NetworkXGraphStorage.get_node in E.
        rewrite E. split; reflexivity.
      * intros k Hk. unfold NetworkXGraphStorage.get_node. simpl.
        rewrite dict_get_app. simpl.
        assert (uuid_eqb k (GraphNode.id node) = false) as -> by (apply uuid_eqb_neq; exact Hk).
        destruct (NetworkXGraphStorage.dict_get k (NetworkXGraphStorage._nodes s)); reflexivity.
Qed.

(** * remove_node and remove_edge *)

Lemma In_get_all_edges s e :
  NetworkXGraphStorage.wf s ->
  (In e (NetworkXGraphStorage.get_all_edges s) <->
   In (GraphEdge.from_id e, GraphEdge.to_id e, GraphEdge.relationship e)
      (Nx.edges (NetworkXGraphStorage._graph s))).
Proof.
  intros [Hg _]. unfold NetworkXGraphStorage.get_all_edges. rewrite in_map_iff. split.
  - intros [[[u v] r] [<- H]]. simpl. apply In_edges_view; assumption.
  - intros H. exists (GraphEdge.from_id e, GraphEdge.to_id e, GraphEdge.relationship e).
    split; [destruct e; reflexivity | apply In_edges_view; assumption].
Qed.

Lemma wf_remove_node g n :
  Nx.wf g ->
  Nx.wf (Nx.mkDiGraph (filter (fun x => negb (uuid_eqb n x)) (Nx.nodes g))
                      (filter (fun e => negb (Nx.touches n e)) (Nx.edges g))).
Proof.
  intros [Hn [He Hi]]. split; [|split]; simpl.
  - apply NoDup_filter. exact Hn.
  - apply NoDup_map_fst_filter. exact He.
  - intros u v r H. apply filter_In in H. destruct H as [H Ht].
    apply negb_true_iff, touches_false in Ht. simpl in Ht. destruct Ht as [Hu Hv].
    destruct (Hi _ _ _ H) as [Hun Hvn].
    split; apply filter_In; (split; [assumption|]); apply negb_true_iff, uuid_eqb_neq; congruence.
Qed.

Lemma storage_remove_node_wf n s :
  NetworkXGraphStorage.wf s ->
  exists b s',
    NetworkXGraphStorage.remove_node n s = (Ok b, s') /\
    b = NetworkXGraphStorage.in_nodes s n /\
    NetworkXGraphStorage.wf s' /\
    (b = false -> s' = s) /\
    (b = true ->
     s' = NetworkXGraphStorage.mk
            (Nx.mkDiGraph
               (filter (fun x => negb (uuid_eqb n x)) (Nx.nodes (NetworkXGraphStorage._graph s)))
               (filter (fun e => negb (Nx.touches n e)) (Nx.edges (NetworkXGraphStorage._graph s))))
            (NetworkXGraphStorage.dict_del n (NetworkXGraphStorage._nodes s))).
Proof.
  intros Hwf. pose proof Hwf as [Hg [Hk Hagree]]. unfold NetworkXGraphStorage.remove_node.
  destruct (NetworkXGraphStorage.in_nodes s n) eqn:E; simpl.
  - unfold Nx.remove_node.
    assert (Nx.has_node (NetworkXGraphStorage._graph s) n = true) as ->.
    { apply mem_In. apply Hagree. apply in_nodes_In. exact E. }
    eexists true, _. split; [reflexivity|]. split; [reflexivity|]. split.
    + split; [|split]; simpl.
      * apply wf_remove_node. exact Hg.
      * unfold NetworkXGraphStorage.dict_del. apply NoDup_map_fst_filter. exact Hk.
      * intros k. unfold NetworkXGraphStorage.dict_del. rewrite filter_In, in_map_iff.
        rewrite <- Hagree, in_map_iff. split.
        -- intros [[k' v] [<- H]]. apply filter_In in H. destruct H as [H Hb]. simpl in *.
           split; [exists (k', v); auto | exact Hb].
        -- intros [[[k' v] [<- H]] Hb]. exists (k', v). split; [reflexivity|].
           apply filter_In. auto.
    + split; [discriminate | reflexivity].
  - exists false, s. split; [reflexivity|]. split; [reflexivity|]. split; [exact Hwf|].
    split; [reflexivity | discriminate].
Qed.

Lemma successors_filter g f a b :
  In b (Nx.successors (Nx.mkDiGraph (Nx.nodes g) (filter f (Nx.edges g))) a) ->
  In b (Nx.successors g a).
Proof.
  rewrite !In_successors. simpl. intros [r H]. apply filter_In in H. exists r. apply H.
Qed.

Lemma successors_filter_any ns g f a b :
  In b (Nx.successors (Nx.mkDiGraph ns (filter f (Nx.edges g))) a) ->
  In b (Nx.successors g a).
Proof.
  rewrite !In_successors. simpl. intros [r H]. apply filter_In in H. exists r. apply H.
Qed.

Lemma storage_remove_node_acyclic n s b s' :
  NetworkXGraphStorage.wf s ->
  NetworkXGraphStorage.has_cycle s = Ok false ->
  NetworkXGraphStorage.remove_node n s = (Ok b, s') ->
  NetworkXGraphStorage.has_cycle s' = Ok false.
Proof.
  intros Hwf Hc H.
  destruct (storage_remove_node_wf n s Hwf) as [b0 [s0 [H0 [_ [Hwf' [Hf Ht]]]]]].
  rewrite H in H0. inversion H0; subst b0 s0. destruct b.
  - apply has_cycle_false. apply has_cycle_false in Hc.
    apply (is_dag_subgraph (NetworkXGraphStorage._graph s)); [apply Hwf | apply Hwf' | | exact Hc].
    rewrite (Ht eq_refl). simpl. intros a c. apply successors_filter_any.
  - rewrite (Hf eq_refl). exact Hc.
Qed.

(** X4: remove_node returns True exactly when the node is present; the
    node and every edge that touches it are then gone and nothing else
    changes.  The store stays well formed, and acyclic if it was. *)
Theorem remove_node_spec :
  forall (s : NetworkXGraphStorage.t) (node_id : UUID),
    NetworkXGraphStorage.wf s ->
    exists b s',
      NetworkXGraphStorage.remove_node node_id s = (Ok b, s') /\
      (b = true <-> NetworkXGraphStorage.get_node node_id s <> None) /\
      (b = false -> s' = s) /\
      NetworkXGraphStorage.wf s' /\
      NetworkXGraphStorage.get_node node_id s' = None /\
      (forall k, k <> node_id ->
                 NetworkXGraphStorage.get_node k s' = NetworkXGraphStorage.get_node k s) /\
      (forall e, In e (NetworkXGraphStorage.get_all_edges s') <->
                 In e (NetworkXGraphStorage.get_all_edges s) /\
                 GraphEdge.from_id e <> node_id /\ GraphEdge.to_id e <> node_id) /\
      (NetworkXGraphStorage.has_cycle s = Ok false ->
       NetworkXGraphStorage.has_cycle s' = Ok false).
Proof.
  intros s n Hwf.
  destruct (storage_remove_node_wf n s Hwf) as [b [s' [H [Hb [Hwf' [Hf Ht]]]]]].
  exists b, s'. split; [exact H|]. split.
  { rewrite Hb. rewrite <- in_nodes_get_node.
    destruct (NetworkXGraphStorage.in_nodes s n); split; congruence. }
  split; [exact Hf|]. split; [exact Hwf'|].
  assert (Habs : b = false -> NetworkXGraphStorage.get_node n s = None).
  { intros ->. apply in_nodes_get_node. congruence. }
  split; [|split; [|split]].
  - destruct b; [|rewrite (Hf eq_refl); auto].
    rewrite (Ht eq_refl). unfold NetworkXGraphStorage.get_node. simpl.
    rewrite dict_get_del, uuid_eqb_refl. reflexivity.
  - intros k Hk. destruct b; [|rewrite (Hf eq_refl); reflexivity].
    rewrite (Ht eq_refl). unfold NetworkXGraphStorage.get_node. simpl.
    rewrite dict_get_del.
    assert (uuid_eqb n k = false) as -> by (apply uuid_eqb_neq; congruence). reflexivity.
  - intros e. rewrite (In_get_all_edges s' e Hwf'), (In_get_all_edges s e Hwf).
    destruct b.
    + rewrite (Ht eq_refl). simpl. rewrite filter_In, negb_true_iff, touches_false. simpl.
      split; intros [H1 [H2 H3]]; auto.
    + rewrite (Hf eq_refl). split; [|tauto]. intros Hin. split; [exact Hin|].
      destruct Hwf as [[_ [_ Hi]] [_ Hagree]]. destruct (Hi _ _ _ Hin) as [Hu Hv].
      assert (Hn : ~ In n (Nx.nodes (NetworkXGraphStorage._graph s))).
      { rewrite <- Hagree. apply dict_get_None. apply Habs. reflexivity. }
      split; intros Heq; rewrite Heq in *; contradiction.
  - intros Hc. apply (storage_remove_node_acyclic n s b s' Hwf Hc H).
Qed.

Lemma remove_node_spec_two_tasks :
  exists b s',
    NetworkXGraphStorage.remove_node Sample.uuid_a (TaskService.graph_storage Sample.two_tasks)
      = (Ok b, s') /\
    b = true /\
    NetworkXGraphStorage.get_all_edges (TaskService.graph_storage Sample.two_tasks)
      = [GraphEdge.depends_on Sample.uuid_b Sample.uuid_a] /\
    NetworkXGraphStorage.get_all_edges s' = [].
Proof.
  destruct (remove_node_spec (TaskService.graph_storage Sample.two_tasks) Sample.uuid_a
              two_tasks_graph_wf) as [b [s' [H _]]].
  exists b, s'. split; [exact H|].
  assert (E : (Ok b, s') = (Ok true,
                snd (NetworkXGraphStorage.remove_node Sample.uuid_a
                       (TaskService.graph_storage Sample.two_tasks)))).
  { rewrite <- H. vm_compute. reflexivity. }
  inversion E; subst. split; [reflexivity|]. split; vm_compute; reflexivity.
Defined.

Lemma get_edge_data_In g u v r :
  NoDup (map fst (Nx.edges g)) ->
  (Nx.get_edge_data g u v = Some r <-> In (u, v, r) (Nx.edges g)).
Proof.
  unfold Nx.get_edge_data. induction (Nx.edges g) as [|e es IH]; simpl; intros Hnd.
  - split; [discriminate | tauto].
  - inversion Hnd; subst. destruct (Nx.edge_is u v e) eqn:E.
    + apply edge_is_true in E. destruct e as [p r']. simpl in *. subst p. split.
      * intros [= ->]. left. reflexivity.
      * intros [[= ->]|Hin]; [reflexivity|]. exfalso. apply H1.
        apply (In_edge_endpoints es u v r Hin).
    + rewrite (IH H2). split; [auto|]. intros [->|Hin]; [|exact Hin].
      assert (Nx.edge_is u v (u, v, r) = true) by (apply edge_is_true; reflexivity).
      congruence.
Qed.

Lemma storage_remove_edge_wf e s :
  NetworkXGraphStorage.wf s ->
  exists b s',
    NetworkXGraphStorage.remove_edge e s = (Ok b, s') /\
    (b = true <->
     In (GraphEdge.from_id e, GraphEdge.to_id e, GraphEdge.relationship e)
        (Nx.edges (NetworkXGraphStorage._graph s))) /\
    NetworkXGraphStorage.wf s' /\
    (b = false -> s' = s) /\
    (b = true ->
     s' = NetworkXGraphStorage.mk
            (Nx.mkDiGraph (Nx.nodes (NetworkXGraphStorage._graph s))
               (filter (fun x => negb (Nx.edge_is (GraphEdge.from_id e) (GraphEdge.to_id e) x))
                  (Nx.edges (NetworkXGraphStorage._graph s))))
            (NetworkXGraphStorage._nodes s)).
Proof.
  intros Hwf. pose proof Hwf as [Hg [Hk Hagree]]. pose proof Hg as [_ [He _]].
  destruct e as [u v rel]. unfold NetworkXGraphStorage.remove_edge. simpl.
  destruct (Nx.has_edge (NetworkXGraphStorage._graph s) u v) eqn:E; simpl.
  - destruct (Nx.get_edge_data (NetworkXGraphStorage._graph s) u v) as [rel'|] eqn:Ed.
    + apply (get_edge_data_In _ u v rel' He) in Ed.
      destruct (String.eqb rel' rel) eqn:Er.
      * apply String.eqb_eq in Er. subst rel'.
        unfold Nx.remove_edge. rewrite E.
        eexists true, _. split; [reflexivity|]. split; [tauto|]. split.
        -- split; [|split]; simpl; [|exact Hk|exact Hagree].
           apply (wf_filter_edges _ _ Hg).
        -- split; [discriminate | reflexivity].
      * apply String.eqb_neq in Er. exists false, s. split; [reflexivity|]. split.
        -- split; [discriminate|]. intros Hin. exfalso. apply Er.
           apply (get_edge_data_In _ u v rel He) in Hin.
           apply (get_edge_data_In _ u v rel' He) in Ed. congruence.
        -- split; [exact Hwf|]. split; [reflexivity | discriminate].
    + exists false, s. split; [reflexivity|]. split.
      * split; [discriminate|]. intros Hin.
        apply (get_edge_data_In _ u v rel He) in Hin. congruence.
      * split; [exact Hwf|]. split; [reflexivity | discriminate].
  - exists false, s. split; [reflexivity|]. split.
    + split; [discriminate|]. intros Hin. apply has_edge_false in E. exfalso. apply E.
      apply (In_edge_endpoints _ u v rel Hin).
    + split; [exact Hwf|]. split; [reflexivity | discriminate].
Qed.

Lemma storage_remove_edge_acyclic e s b s' :
  NetworkXGraphStorage.wf s ->
  NetworkXGraphStorage.has_cycle s = Ok false ->
  NetworkXGraphStorage.remove_edge e s = (Ok b, s') ->
  NetworkXGraphStorage.has_cycle s' = Ok false.
Proof.
  intros Hwf Hc H.
  destruct (storage_remove_edge_wf e s Hwf) as [b0 [s0 [H0 [_ [Hwf' [Hf Ht]]]]]].
  rewrite H in H0. inversion H0; subst b0 s0. destruct b.
  - apply has_cycle_false. apply has_cycle_false in Hc.
    apply (is_dag_subgraph (NetworkXGraphStorage._graph s)); [apply Hwf | apply Hwf' | | exact Hc].
    rewrite (Ht eq_refl). simpl. intros a c. apply successors_filter_any.
  - rewrite (Hf eq_refl). exact Hc.
Qed.

(** X5: remove_edge returns True exactly when the graph has an edge
    between the two endpoints with the same relationship; that edge is
    then gone and every other edge and every node stays.  With another
    relationship, or no such edge, it returns False and changes nothing. *)
Theorem remove_edge_spec :
  forall (s : NetworkXGraphStorage.t) (edge : GraphEdge.t),
    NetworkXGraphStorage.wf s ->
    exists b s',
      NetworkXGraphStorage.remove_edge edge s = (Ok b, s') /\
      (b = true <-> In edge (NetworkXGraphStorage.get_all_edges s)) /\
      (b = false -> s' = s) /\
      NetworkXGraphStorage.wf s' /\
      NetworkXGraphStorage._nodes s' = NetworkXGraphStorage._nodes s /\
      (b = true ->
       forall e, In e (NetworkXGraphStorage.get_all_edges s') <->
                 In e (NetworkXGraphStorage.get_all_edges s) /\
                 (GraphEdge.from_id e, GraphEdge.to_id e)
                 <> (GraphEdge.from_id edge, GraphEdge.to_id edge)) /\
      (NetworkXGraphStorage.has_cycle s = Ok false ->
       NetworkXGraphStorage.has_cycle s' = Ok false).
Proof.
  intros s edge Hwf.
  destruct (storage_remove_edge_wf edge s Hwf) as [b [s' [H [Hb [Hwf' [Hf Ht]]]]]].
  exists b, s'. split; [exact H|]. split.
  { rewrite Hb. symmetry. apply In_get_all_edges. exact Hwf. }
  split; [exact Hf|]. split; [exact Hwf'|]. split.
  { destruct b; [rewrite (Ht eq_refl) | rewrite (Hf eq_refl)]; reflexivity. }
  split.
  - intros ->. intros e.
    rewrite (In_get_all_edges s' e Hwf'), (In_get_all_edges s e Hwf).
    rewrite (Ht eq_refl). simpl. rewrite filter_In, negb_true_iff.
    split; intros [H1 H2]; (split; [exact H1|]).
    + intros Heq. assert (Nx.edge_is (GraphEdge.from_id edge) (GraphEdge.to_id edge)
                            (GraphEdge.from_id e, GraphEdge.to_id e, GraphEdge.relationship e)
                          = true) by (apply edge_is_true; simpl; congruence).
      congruence.
    + destruct (Nx.edge_is _ _ _) eqn:E; [|reflexivity].
      apply edge_is_true in E. simpl in E. exfalso. apply H2. congruence.
  - intros Hc. apply (storage_remove_edge_acyclic edge s b s' Hwf Hc H).
Qed.

Lemma remove_edge_spec_two_tasks :
  exists b s',
    NetworkXGraphStorage.remove_edge (GraphEdge.depends_on Sample.uuid_b Sample.uuid_a)
      (TaskService.graph_storage Sample.two_tasks) = (Ok b, s') /\
    b = true /\
    NetworkXGraphStorage.get_all_edges s' = [] /\
    fst (NetworkXGraphStorage.remove_edge
           (GraphEdge.mk Sample.uuid_b Sample.uuid_a "blocks")
           (TaskService.graph_storage Sample.two_tasks)) = Ok false.
Proof.
  destruct (remove_edge_spec (TaskService.graph_storage Sample.two_tasks)
              (GraphEdge.depends_on Sample.uuid_b Sample.uuid_a)
              two_tasks_graph_wf) as [b [s' [H _]]].
  exists b, s'. split; [exact H|].
  assert (E : (Ok b, s') = (Ok true,
                snd (NetworkXGraphStorage.remove_edge
                       (GraphEdge.depends_on Sample.uuid_b Sample.uuid_a)
                       (TaskService.graph_storage Sample.two_tasks)))).
  { rewrite <- H. vm_compute. reflexivity. }
  inversion E; subst. split; [reflexivity|]. split; vm_compute; reflexivity.
Defined.

(** * Every store built through the methods is acyclic *)

Lemma storage_add_node_acyclic node s :
  NetworkXGraphStorage.wf s ->
  NetworkXGraphStorage.has_cycle s = Ok false ->
  NetworkXGraphStorage.has_cycle (snd (NetworkXGraphStorage.add_node node s)) = Ok false.
Proof.
  intros Hwf Hc. pose proof (storage_wf_add_node node s Hwf) as Hwf'.
  unfold NetworkXGraphStorage.add_node in *.
  destruct (NetworkXGraphStorage.in_nodes s (GraphNode.id node)); simpl in *; [exact Hc|].
  apply has_cycle_false. apply has_cycle_false in Hc. simpl.
  apply (is_dag_subgraph (NetworkXGraphStorage._graph s)); [apply Hwf | apply Hwf' | | exact Hc].
  intros a b. rewrite !In_successors, add_node_edges. tauto.
Qed.

Lemma storage_add_node_ok node gs :
  exists b, NetworkXGraphStorage.add_node node gs
            = (Ok b, snd (NetworkXGraphStorage.add_node node gs)).
Proof.
  unfold NetworkXGraphStorage.add_node.
  destruct (NetworkXGraphStorage.in_nodes gs (GraphNode.id node)); eauto.
Qed.

Lemma graph_call_inv c s :
  NetworkXGraphStorage.wf s ->
  NetworkXGraphStorage.has_cycle s = Ok false ->
  exists s',
    GraphCall.call c s = (Ok tt, s') /\
    NetworkXGraphStorage.wf s' /\
    NetworkXGraphStorage.has_cycle s' = Ok false.
Proof.
  intros Hwf Hc. destruct c as [node|edge|n|edge|]; unfold GraphCall.call.
  - destruct (storage_add_node_ok node s) as [b H].
    pose proof (storage_wf_add_node node s Hwf) as Hwf'.
    pose proof (storage_add_node_acyclic node s Hwf Hc) as Hc'.
    rewrite H. simpl. eauto.
  - destruct (add_edge_step s edge Hwf Hc) as [b [s' [H [Hwf' [Hc' _]]]]].
    rewrite H. simpl. eauto.
  - destruct (storage_remove_node_wf n s Hwf) as [b [s' [H [_ [Hwf' _]]]]].
    pose proof (storage_remove_node_acyclic n s b s' Hwf Hc H) as Hc'.
    rewrite H. simpl. eauto.
  - destruct (storage_remove_edge_wf edge s Hwf) as [b [s' [H [_ [Hwf' _]]]]].
    pose proof (storage_remove_edge_acyclic edge s b s' Hwf Hc H) as Hc'.
    rewrite H. simpl. eauto.
  - eexists. split; [reflexivity|]. split; [apply storage_wf_init | vm_compute; reflexivity].
Qed.

Lemma graph_run_inv cs :
  forall s,
    NetworkXGraphStorage.wf s ->
    NetworkXGraphStorage.has_cycle s = Ok false ->
    NetworkXGraphStorage.wf (GraphCall.run cs s) /\
    NetworkXGraphStorage.has_cycle (GraphCall.run cs s) = Ok false.
Proof.
  induction cs as [|c cs IH]; intros s Hwf Hc; simpl; [auto|].
  destruct (graph_call_inv c s Hwf Hc) as [s' [H [Hwf' Hc']]].
  rewrite H. simpl. apply IH; assumption.
Qed.

(** X6: whatever sequence of add_node, add_edge, remove_node, remove_edge
    and clear calls is made on a new store, no call raises, the store
    never holds a cycle, and topological_sort() returns every node
    exactly once. *)
Theorem graph_store_never_cyclic :
  forall cs : list GraphCall.t,
    let s := GraphCall.run cs NetworkXGraphStorage.init in
    NetworkXGraphStorage.has_cycle s = Ok false /\
    (forall a, ~ path (NetworkXGraphStorage._graph s) a a) /\
    (forall c, exists s', GraphCall.call c s = (Ok tt, s')) /\
    exists ids,
      NetworkXGraphStorage.topological_sort s = Ok ids /\
      NoDup ids /\
      forall v, In v ids <-> NetworkXGraphStorage.get_node v s <> None.
Proof.
  intros cs s.
  assert (H0 : NetworkXGraphStorage.has_cycle NetworkXGraphStorage.init = Ok false)
    by (vm_compute; reflexivity).
  destruct (graph_run_inv cs _ storage_wf_init H0) as [Hwf Hc]. fold s in Hwf, Hc.
  split; [exact Hc|]. split.
  { apply is_dag_no_cycle; [apply Hwf | apply has_cycle_false; exact Hc]. }
  split.
  { intros c. destruct (graph_call_inv c s Hwf Hc) as [s' [H _]]. eauto. }
  destruct (storage_topological_sort_ok s Hwf Hc) as [ids [Hts [Hnd [Hall _]]]].
  exists ids. split; [exact Hts|]. split; [exact Hnd|].
  intros v. rewrite Hall. destruct Hwf as [_ [_ Hagree]]. rewrite <- Hagree.
  unfold NetworkXGraphStorage.get_node. symmetry. apply dict_get_In.
Qed.

(** * Dependencies, dependents and the edge list *)

Lemma get_dependencies_In s u v :
  NetworkXGraphStorage.wf s ->
  (In v (NetworkXGraphStorage.get_dependencies u s) <->
   In (u, v) (map fst (Nx.edges (NetworkXGraphStorage._graph s)))).
Proof.
  intros [[_ [_ Hi]] _]. unfold NetworkXGraphStorage.get_dependencies.
  rewrite In_edge_pair, <- In_successors.
  destruct (Nx.has_node (NetworkXGraphStorage._graph s) u) eqn:E; simpl; [tauto|].
  split; [tauto|]. intros H. apply In_successors in H. destruct H as [r H].
  apply mem_false in E. destruct (Hi _ _ _ H). contradiction.
Qed.

Lemma get_dependents_In s u v :
  NetworkXGraphStorage.wf s ->
  (In u (NetworkXGraphStorage.get_dependents v s) <->
   In (u, v) (map fst (Nx.edges (NetworkXGraphStorage._graph s)))).
Proof.
  intros [[_ [_ Hi]] _]. unfold NetworkXGraphStorage.get_dependents.
  rewrite In_edge_pair, <- In_predecessors.
  destruct (Nx.has_node (NetworkXGraphStorage._graph s) v) eqn:E; simpl; [tauto|].
  split; [tauto|]. intros H. apply In_predecessors in H. destruct H as [r H].
  apply mem_false in E. destruct (Hi _ _ _ H). contradiction.
Qed.

Lemma NoDup_map_injective {A B} (f : A -> B) (l : list A) :
  (forall x y, f x = f y -> x = y) -> NoDup l -> NoDup (map f l).
Proof.
  intros Hinj. induction 1 as [|a l Hnin Hnd IH]; simpl; constructor; [|exact IH].
  intros Hin. apply in_map_iff in Hin. destruct Hin as [x [Hx Hin]].
  apply Hinj in Hx. subst x. contradiction.
Qed.

(** X7: get_dependents is the converse of get_dependencies, and both
    agree with get_all_edges: v is among the dependencies of u exactly
    when u is among the dependents of v, exactly when get_all_edges lists
    an edge from u to v.  None of the three lists repeats an entry. *)
Theorem dependencies_dependents_edges :
  forall (s : NetworkXGraphStorage.t),
    NetworkXGraphStorage.wf s ->
    (forall u v,
       (In v (NetworkXGraphStorage.get_dependencies u s) <->
        In u (NetworkXGraphStorage.get_dependents v s)) /\
       (In v (NetworkXGraphStorage.get_dependencies u s) <->
        exists rel, In (GraphEdge.mk u v rel) (NetworkXGraphStorage.get_all_edges s))) /\
    (forall u, NoDup (NetworkXGraphStorage.get_dependencies u s) /\
               NoDup (NetworkXGraphStorage.get_dependents u s)) /\
    NoDup (NetworkXGraphStorage.get_all_edges s) /\
    length (NetworkXGraphStorage.get_all_edges s)
    = length (Nx.edges (NetworkXGraphStorage._graph s)).
Proof.
  intros s Hwf. split; [|split; [|split]].
  - intros u v. rewrite (get_dependencies_In s u v Hwf), (get_dependents_In s u v Hwf).
    split; [tauto|]. rewrite In_edge_pair. split; intros [r H]; exists r.
    + apply (In_get_all_edges s (GraphEdge.mk u v r) Hwf). exact H.
    + apply (In_get_all_edges s (GraphEdge.mk u v r) Hwf) in H. exact H.
  - intros u. pose proof Hwf as [[_ [He _]] _].
    unfold NetworkXGraphStorage.get_dependencies, NetworkXGraphStorage.get_dependents.
    destruct (negb _); split; try constructor;
      [apply NoDup_successors | apply NoDup_predecessors]; exact He.
  - unfold NetworkXGraphStorage.get_all_edges. apply NoDup_map_injective.
    + intros [[a b] r] [[a' b'] r'] H. simpl in H. congruence.
    + apply NoDup_edges_view. apply Hwf.
  - unfold NetworkXGraphStorage.get_all_edges. rewrite length_map.
    pose proof Hwf as [Hg _]. pose proof Hg as [_ [He _]].
    apply Nat.le_antisymm; apply NoDup_incl_length.
    + apply NoDup_edges_view. exact Hg.
    + intros e He'. apply In_edges_view; assumption.
    + apply (NoDup_map_inv fst). exact He.
    + intros e He'. apply In_edges_view; assumption.
Qed.

Lemma dependencies_dependents_edges_two_tasks :
  NetworkXGraphStorage.get_dependencies Sample.uuid_b (TaskService.graph_storage Sample.two_tasks)
    = [Sample.uuid_a] /\
  NetworkXGraphStorage.get_dependents Sample.uuid_a (TaskService.graph_storage Sample.two_tasks)
    = [Sample.uuid_b] /\
  NoDup (NetworkXGraphStorage.get_all_edges (TaskService.graph_storage Sample.two_tasks)).
Proof.
  split; [vm_compute; reflexivity|]. split; [vm_compute; reflexivity|].
  apply (dependencies_dependents_edges (TaskService.graph_storage Sample.two_tasks)
           two_tasks_graph_wf).
Defined.

(** * topological_sort *)

(** X8: topological_sort() raises ValueError("Graph contains cycles")
    exactly when some node reaches itself; otherwise it returns every
    node exactly once, the source of each edge before its target. *)
Theorem topological_sort_contract :
  forall (s : NetworkXGraphStorage.t),
    NetworkXGraphStorage.wf s ->
    ((exists a, path (NetworkXGraphStorage._graph s) a a) /\
     NetworkXGraphStorage.topological_sort s = Raise (ValueError "Graph contains cycles")) \/
    ((forall a, ~ path (NetworkXGraphStorage._graph s) a a) /\
     exists ids,
       NetworkXGraphStorage.topological_sort s = Ok ids /\
       NoDup ids /\
       (forall v, In v ids <-> NetworkXGraphStorage.get_node v s <> None) /\
       forall u v, In v (NetworkXGraphStorage.get_dependencies u s) -> before ids u v).
Proof.
  intros s Hwf. destruct (has_cycle_total s Hwf) as [b [Hb Hdag]].
  destruct b; simpl in Hdag.
  - left. split; [apply (is_dag_false_cycle _ (proj1 Hwf) Hdag)|].
    unfold NetworkXGraphStorage.topological_sort. rewrite Hb. reflexivity.
  - right. split.
    { intros a Ha. exact (is_dag_no_cycle _ (proj1 Hwf) Hdag a Ha). }
    destruct (storage_topological_sort_ok s Hwf Hb) as [ids [Hts [Hnd [Hall Hord]]]].
    exists ids. split; [exact Hts|]. split; [exact Hnd|]. split.
    + intros v. rewrite Hall. destruct Hwf as [_ [_ Hagree]]. rewrite <- Hagree.
      unfold NetworkXGraphStorage.get_node. symmetry. apply dict_get_In.
    + intros u v Huv. apply (get_dependencies_In s u v Hwf) in Huv.
      apply In_edge_pair in Huv. destruct Huv as [r Huv].
      apply (ordered_before _ _ Hord).
      * apply Hall. destruct Hwf as [[_ [_ Hi]] _]. apply (Hi _ _ _ Huv).
      * apply In_predecessors. eauto.
Qed.

Lemma topological_sort_contract_cyclic_store :
  NetworkXGraphStorage.topological_sort Sample3.cyclic_store
    = Raise (ValueError "Graph contains cycles") /\
  ((exists a, path (NetworkXGraphStorage._graph Sample3.cyclic_store) a a) \/
   (forall a, ~ path (NetworkXGraphStorage._graph Sample3.cyclic_store) a a)).
Proof.
  split; [vm_compute; reflexivity|].
  destruct (topological_sort_contract Sample3.cyclic_store cyclic_store_wf) as [[H _]|[H _]];
    [left | right]; exact H.
Defined.

(** * Breadth-first search *)

Lemma add_new_spec cands :
  forall seen,
    NoDup (Nx.add_new cands seen) /\
    forall x, In x (Nx.add_new cands seen) <-> In x cands /\ ~ In x seen.
Proof.
  induction cands as [|c cs IH]; intros seen; simpl.
  - split; [constructor | intros x; tauto].
  - destruct (mem c seen) eqn:E.
    + apply mem_In in E. destruct (IH seen) as [Hnd Hin]. split; [exact Hnd|].
      intros x. rewrite Hin. split; [tauto|]. intros [[->|H] Hn]; [contradiction | auto].
    + apply mem_false in E. destruct (IH (seen ++ [c])) as [Hnd Hin]. split.
      * constructor; [|exact Hnd]. intros Hc. apply Hin in Hc. destruct Hc as [_ Hc].
        apply Hc. apply in_or_app. right. left. reflexivity.
      * intros x. simpl. rewrite Hin, in_app_iff. simpl. split.
        -- intros [->|[H Hn]]; [auto|]. split; [auto|]. intros Hs. apply Hn. auto.
        -- intros [[->|H] Hn]; [auto|].
           destruct (UUID_eq_dec c x) as [->|Hne]; [auto|]. right. split; [exact H|].
           intros [Hs|[Hs|[]]]; [contradiction | congruence].
Qed.

Lemma add_new_app a :
  forall b seen,
    Nx.add_new (a ++ b) seen = Nx.add_new a seen ++ Nx.add_new b (seen ++ Nx.add_new a seen).
Proof.
  induction a as [|c a IH]; intros b seen; simpl.
  - rewrite app_nil_r. reflexivity.
  - destruct (mem c seen).
    + apply IH.
    + simpl. rewrite IH. rewrite <- app_assoc. reflexivity.
Qed.

Lemma reach_cons next a b c : In b (next a) -> reach next b c -> reach next a c.
Proof.
  intros Hab. induction 1 as [x y H|x y z H IH Hz].
  - eapply reach_more; [apply reach_one; exact Hab | exact H].
  - eapply reach_more; [apply IH; exact Hab | exact Hz].
Qed.

Lemma reach_successors g a b : reach (Nx.successors g) a b <-> path g a b.
Proof.
  split.
  - induction 1 as [x y H|x y z H IH Hz]; [apply path_edge; exact H|].
    eapply path_snoc; eauto.
  - induction 1 as [u v H|u v w H Hp IH]; [apply reach_one; exact H|].
    eapply reach_cons; eauto.
Qed.

Lemma reach_predecessors g a b : reach (Nx.predecessors g) a b <-> path g b a.
Proof.
  split.
  - induction 1 as [x y H|x y z H IH Hz].
    + apply path_edge. apply succ_pred. exact H.
    + eapply path_step; [apply succ_pred; exact Hz | exact IH].
  - induction 1 as [u v H|u v w H Hp IH].
    + apply reach_one. apply succ_pred. exact H.
    + eapply reach_more; [exact IH | apply succ_pred; exact H].
Qed.

Section BFS.
Variable next : UUID -> list UUID.
Variable universe : list UUID.
Hypothesis next_closed : forall x y, In y (next x) -> In y universe.
Variable source : UUID.

Lemma closed_reach (seen : list UUID) :
  In source seen ->
  (forall x, In x seen -> forall y, In y (next x) -> In y seen) ->
  forall x, reach next source x -> In x seen.
Proof.
  intros Hs Hcl x. induction 1 as [a b H|a b c H IH Hc].
  - apply (Hcl a Hs b H).
  - apply (Hcl b (IH Hs) c Hc).
Qed.

Lemma bfs_spec :
  forall fuel frontier seen,
    bfs_inv next universe source frontier seen ->
    incl frontier seen ->
    length universe < fuel + length seen ->
    let r := Nx.bfs fuel next frontier seen in
    NoDup r /\ (exists rest, r = source :: rest) /\
    forall x, In x r <-> x = source \/ reach next source x.
Proof.
  induction fuel as [|fuel IH]; intros frontier seen Hinv Hfr Hfuel.
  - destruct Hinv as [Hnd [Hincl _]]. pose proof (NoDup_incl_length Hnd Hincl). simpl in Hfuel. lia.
  - simpl. destruct (add_new_spec (flat_map next frontier) seen) as [Hfnd Hfin].
    destruct (Nx.add_new (flat_map next frontier) seen) as [|c cs] eqn:E.
    + destruct Hinv as [Hnd [Hincl [[rest Hrest] [Hreach Hclosed]]]].
      split; [exact Hnd|]. split; [exists rest; exact Hrest|].
      assert (Hs : In source seen) by (rewrite Hrest; left; reflexivity).
      assert (Hcl : forall x, In x seen -> forall y, In y (next x) -> In y seen).
      { intros x Hx y Hy. destruct (in_dec UUID_eq_dec x frontier) as [Hf|Hf].
        - destruct (in_dec UUID_eq_dec y seen) as [Hys|Hys]; [exact Hys|].
          exfalso. apply (proj2 (Hfin y)). split; [|exact Hys].
          apply in_flat_map. exists x. auto.
        - apply (Hclosed x Hx Hf y Hy). }
      intros x. split; [apply Hreach|]. intros [->|Hx]; [exact Hs|].
      apply (closed_reach seen Hs Hcl x Hx).
    + assert (Hne : Nx.add_new (flat_map next frontier) seen <> [])
        by (rewrite E; discriminate).
      rewrite <- E in *. clear E c cs.
      set (fresh := Nx.add_new (flat_map next frontier) seen) in *.
      destruct Hinv as [Hnd [Hincl [[rest Hrest] [Hreach Hclosed]]]].
      apply IH.
      * split; [|split; [|split; [|split]]].
        -- apply NoDup_app; [exact Hnd | exact Hfnd |].
           intros a Ha Hf. apply Hfin in Hf. tauto.
        -- intros a Ha. apply in_app_or in Ha. destruct Ha as [Ha|Ha]; [auto|].
           apply Hfin in Ha. destruct Ha as [Ha _]. apply in_flat_map in Ha.
           destruct Ha as [x [_ Hx]]. apply (next_closed x a Hx).
        -- exists (rest ++ fresh). rewrite Hrest. reflexivity.
        -- intros x Hx. apply in_app_or in Hx. destruct Hx as [Hx|Hx]; [auto|].
           apply Hfin in Hx. destruct Hx as [Hx _]. apply in_flat_map in Hx.
           destruct Hx as [f [Hf Hx]]. right.
           destruct (Hreach f (Hfr f Hf)) as [->|Hrf].
           ++ apply reach_one. exact Hx.
           ++ eapply reach_more; eauto.
        -- intros x Hx Hnf y Hy. apply in_or_app.
           apply in_app_or in Hx. destruct Hx as [Hx|Hx]; [|contradiction].
           destruct (in_dec UUID_eq_dec y seen) as [Hys|Hys]; [auto|].
           destruct (in_dec UUID_eq_dec x frontier) as [Hf|Hf].
           ++ right. apply Hfin. split; [|exact Hys]. apply in_flat_map. exists x. auto.
           ++ left. apply (Hclosed x Hx Hf y Hy).
      * intros a Ha. apply in_or_app. auto.
      * rewrite length_app.
        assert (1 <= length fresh).
        { destruct fresh; [congruence | simpl; lia]. }
        lia.
Qed.

End BFS.

Lemma path_end_node g a b : Nx.wf g -> path g a b -> In b (Nx.nodes g).
Proof.
  intros [_ [_ Hi]] Hp. destruct (path_last g a b Hp) as [u [Hu _]].
  apply In_successors in Hu. destruct Hu as [r Hu]. apply (Hi _ _ _ Hu).
Qed.

Lemma bfs_from_source next universe source :
  (forall x y, In y (next x) -> In y universe) ->
  In source universe ->
  exists rest,
    Nx.bfs (length universe) next [source] [source] = source :: rest /\
    NoDup rest /\
    forall v, In v rest <-> v <> source /\ reach next source v.
Proof.
  intros Hcl Hs.
  destruct (bfs_spec next universe Hcl source (length universe) [source] [source])
    as [Hnd [[rest Hrest] Hin]].
  - split; [repeat constructor; intros []|]. split; [intros x [<-|[]]; exact Hs|].
    split; [exists []; reflexivity|]. split; [intros x [<-|[]]; auto|].
    intros x Hx Hn. contradiction.
  - intros x Hx. exact Hx.
  - simpl. lia.
  - exists rest. split; [exact Hrest|]. rewrite Hrest in Hnd, Hin. inversion Hnd; subst.
    split; [assumption|]. intros v. split.
    + intros Hv. assert (Hne : v <> source) by (intros ->; contradiction).
      split; [exact Hne|]. destruct (proj1 (Hin v) (or_intror Hv)) as [->|Hr]; [congruence|exact Hr].
    + intros [Hne Hr]. destruct (proj2 (Hin v) (or_intror Hr)) as [Heq|Hv]; [congruence|exact Hv].
Qed.

(** X9: get_descendants(n) lists, without repetition, exactly the nodes
    other than n that n reaches along one or more edges, and
    get_ancestors(n) exactly the nodes other than n that reach n; for an
    identifier that is not a node both are empty.  (The order within
    the lists is that of the search, which networkx does not fix.) *)
Theorem descendants_ancestors_spec :
  forall (s : NetworkXGraphStorage.t) (node_id : UUID),
    NetworkXGraphStorage.wf s ->
    exists ds ans,
      NetworkXGraphStorage.get_descendants node_id s = Ok ds /\
      NetworkXGraphStorage.get_ancestors node_id s = Ok ans /\
      NoDup ds /\ NoDup ans /\
      (forall v, In v ds <->
                 v <> node_id /\ path (NetworkXGraphStorage._graph s) node_id v) /\
      (forall v, In v ans <->
                 v <> node_id /\ path (NetworkXGraphStorage._graph s) v node_id).
Proof.
  intros s n [Hg _]. pose proof Hg as [_ [_ Hi]].
  unfold NetworkXGraphStorage.get_descendants, NetworkXGraphStorage.get_ancestors,
    Nx.descendants, Nx.ancestors.
  destruct (Nx.has_node (NetworkXGraphStorage._graph s) n) eqn:E; simpl.
  - apply mem_In in E.
    destruct (bfs_from_source (Nx.successors (NetworkXGraphStorage._graph s))
                (Nx.nodes (NetworkXGraphStorage._graph s)) n) as [ds [Hd [Hdn Hdi]]];
      [|exact E|].
    { intros x y Hy. apply In_successors in Hy. destruct Hy as [r Hy]. apply (Hi _ _ _ Hy). }
    destruct (bfs_from_source (Nx.predecessors (NetworkXGraphStorage._graph s))
                (Nx.nodes (NetworkXGraphStorage._graph s)) n) as [ans [Ha [Han Hai]]];
      [|exact E|].
    { intros x y Hy. apply In_predecessors in Hy. destruct Hy as [r Hy]. apply (Hi _ _ _ Hy). }
    rewrite Hd, Ha. simpl. exists ds, ans.
    split; [reflexivity|]. split; [reflexivity|]. split; [exact Hdn|]. split; [exact Han|].
    split; intros v.
    + rewrite Hdi, reach_successors. tauto.
    + rewrite Hai, reach_predecessors. tauto.
  - apply mem_false in E. exists [], [].
    split; [reflexivity|]. split; [reflexivity|]. split; [constructor|]. split; [constructor|].
    split; intros v; (split; [intros []|]); intros [_ Hp]; apply E.
    + apply (path_start_node _ _ _ Hg Hp).
    + apply (path_end_node _ _ _ Hg Hp).
Qed.

Lemma descendants_ancestors_two_tasks :
  NetworkXGraphStorage.get_descendants Sample.uuid_b (TaskService.graph_storage Sample.two_tasks)
    = Ok [Sample.uuid_a] /\
  NetworkXGraphStorage.get_ancestors Sample.uuid_a (TaskService.graph_storage Sample.two_tasks)
    = Ok [Sample.uuid_b] /\
  exists ds ans,
    NetworkXGraphStorage.get_descendants Sample.uuid_b (TaskService.graph_storage Sample.two_tasks)
      = Ok ds /\
    NetworkXGraphStorage.get_ancestors Sample.uuid_b (TaskService.graph_storage Sample.two_tasks)
      = Ok ans /\
    NoDup ds /\ NoDup ans.
Proof.
  split; [vm_compute; reflexivity|]. split; [vm_compute; reflexivity|].
  destruct (descendants_ancestors_spec (TaskService.graph_storage Sample.two_tasks)
              Sample.uuid_b two_tasks_graph_wf) as [ds [ans [H1 [H2 [H3 [H4 _]]]]]].
  exists ds, ans. auto.
Defined.

(** * Shortest paths by breadth-first search *)

Lemma walk_nonempty next l : walk next l -> l <> [].
Proof. destruct 1; discriminate. Qed.

Lemma last_cons_nonempty {A} (a : A) l d : l <> [] -> last (a :: l) d = last l d.
Proof. destruct l; [congruence | reflexivity]. Qed.

Lemma last_any {A} (l : list A) d d' : l <> [] -> last l d = last l d'.
Proof.
  induction l as [|a l IH]; [congruence|]. intros _.
  destruct l as [|b l]; [reflexivity|]. simpl in *. apply IH. discriminate.
Qed.

Lemma walk_snoc next l c d :
  walk next l -> In c (next (last l d)) -> walk next (l ++ [c]).
Proof.
  induction 1 as [v|u v l H Hw IH]; intros Hc.
  - simpl in *. constructor; [exact Hc | constructor].
  - change ((u :: v :: l) ++ [c]) with (u :: (v :: l) ++ [c]).
    simpl app. constructor; [exact H|]. apply IH.
    rewrite last_cons_nonempty in Hc by discriminate. exact Hc.
Qed.

Lemma walk_unsnoc next l x d :
  walk next (l ++ [x]) -> l <> [] -> walk next l /\ In x (next (last l d)).
Proof.
  induction l as [|a l IH]; [congruence|]. intros Hw _.
  destruct l as [|b l].
  - simpl in *. inversion Hw; subst. split; [constructor | assumption].
  - simpl in Hw. inversion Hw; subst. destruct IH as [IH1 IH2]; [assumption | discriminate |].
    split; [constructor; assumption|].
    rewrite last_cons_nonempty by discriminate. exact IH2.
Qed.

Lemma closed_walk next (seen : list UUID) :
  (forall x, In x seen -> forall y, In y (next x) -> In y seen) ->
  forall l d, walk next l -> In (hd d l) seen -> In (last l d) seen.
Proof.
  intros Hcl l d. induction 1 as [v|u v l H Hw IH]; intros Hh; [exact Hh|].
  rewrite last_cons_nonempty by discriminate. apply IH. simpl in *.
  apply (Hcl u Hh v H).
Qed.

Lemma In_heads x paths : In x (heads paths) <-> exists t, In (x :: t) paths.
Proof.
  unfold heads. rewrite in_flat_map. split.
  - intros [p [Hp Hx]]. destruct p as [|h t]; [destruct Hx|].
    simpl in Hx. destruct Hx as [->|[]]. eauto.
  - intros [t Ht]. exists (x :: t). split; [exact Ht | left; reflexivity].
Qed.

Lemma heads_map_cons (p : list UUID) fresh : heads (map (fun c => c :: p) fresh) = fresh.
Proof.
  unfold heads. induction fresh as [|c cs IH]; simpl; [reflexivity|]. f_equal. exact IH.
Qed.

Lemma heads_app a b : heads (a ++ b) = heads a ++ heads b.
Proof. unfold heads. apply flat_map_app. Qed.

Lemma heads_extend next paths :
  forall seen,
    heads (Nx.extend next paths seen) = Nx.add_new (flat_map (hd_next next) paths) seen.
Proof.
  induction paths as [|p ps IH]; intros seen; simpl; [reflexivity|].
  rewrite heads_app, heads_map_cons, IH, add_new_app. reflexivity.
Qed.

Lemma extend_In next paths :
  forall seen q,
    In q (Nx.extend next paths seen) ->
    exists c p, q = c :: p /\ In p paths /\ In c (hd_next next p).
Proof.
  induction paths as [|p ps IH]; intros seen q Hq; simpl in Hq; [destruct Hq|].
  apply in_app_or in Hq. destruct Hq as [Hq|Hq].
  - apply in_map_iff in Hq. destruct Hq as [c [<- Hc]].
    destruct (add_new_spec (hd_next next p) seen) as [_ Hin].
    apply Hin in Hc. exists c, p. split; [reflexivity|]. split; [left; reflexivity|].
    apply Hc.
  - destruct (IH _ _ Hq) as [c [p' [-> [Hp Hc]]]]. exists c, p'.
    split; [reflexivity|]. split; [right; exact Hp | exact Hc].
Qed.

Lemma ends_at_true target p :
  Nx.ends_at target p = true <-> exists t, p = target :: t.
Proof.
  destruct p as [|h t]; simpl.
  - split; [discriminate | intros [t [=]]].
  - rewrite uuid_eqb_eq. split; [intros ->; eauto | intros [t' [= -> _]]; reflexivity].
Qed.

Lemma rev_last_head (h : UUID) t d : last (rev (h :: t)) d = h.
Proof. simpl. apply last_last. Qed.

Lemma hd_error_app_nonempty {A} (l l' : list A) : l <> [] -> hd_error (l ++ l') = hd_error l.
Proof. destruct l; [congruence | reflexivity]. Qed.

Lemma hd_error_hd {A} (l : list A) a d : hd_error l = Some a -> hd d l = a.
Proof. destruct l; [discriminate | intros [= ->]; reflexivity]. Qed.

Section BFSPath.
Variable next : UUID -> list UUID.
Variable universe : list UUID.
Hypothesis next_closed : forall x y, In y (next x) -> In y universe.
Variables source target : UUID.

Lemma bfs_path_spec :
  forall fuel k paths seen,
    bfs_path_inv next universe source target k paths seen ->
    length universe < fuel + length seen ->
    match Nx.bfs_path fuel next target paths seen with
    | Some p =>
        walk next p /\ hd_error p = Some source /\ last p source = target /\
        forall l, walk next l -> hd_error l = Some source -> last l source = target ->
                  length p <= length l
    | None =>
        forall l, walk next l -> hd_error l = Some source -> last l source <> target
    end.
Proof.
  induction fuel as [|fuel IH]; intros k paths seen Hinv Hfuel.
  - exfalso. destruct Hinv as [Hnd [Hincl _]].
    pose proof (NoDup_incl_length Hnd Hincl). simpl in Hfuel. lia.
  - destruct Hinv as [Hnd [Hincl [Hsrc [Hpaths [Hclosed [Hnot [Hnear Hfar]]]]]]].
    cbn [Nx.bfs_path].
    destruct (find (Nx.ends_at target) paths) as [p|] eqn:Ef.
    + apply find_some in Ef. destruct Ef as [Hp He].
      destruct (Hpaths p Hp) as [h [t [-> [Hh [Hlen [Hw Hhd]]]]]].
      apply ends_at_true in He. destruct He as [t' [= -> <-]].
      split; [exact Hw|]. split; [exact Hhd|]. split; [apply rev_last_head|].
      intros l Hl Hs Ht. rewrite length_rev, Hlen. apply (Hfar l Hl Hs Ht).
    + assert (Hnf : forall x, In x (heads paths) -> x <> target).
      { intros x Hx. apply In_heads in Hx. destruct Hx as [t Ht].
        pose proof (find_none _ _ Ef _ Ht) as Hn. intros ->.
        assert (Nx.ends_at target (target :: t) = true) by (apply ends_at_true; eauto).
        congruence. }
      assert (Hnt : ~ In target seen).
      { intros Ht. destruct (in_dec UUID_eq_dec target (heads paths)) as [Hh|Hh].
        - apply (Hnf target Hh). reflexivity.
        - apply (Hnot target Ht Hh). reflexivity. }
      pose proof (heads_extend next paths seen) as Hheads.
      destruct (add_new_spec (flat_map (hd_next next) paths) seen) as [Hfnd Hfin].
      assert (Hsucc : forall x, In x (heads paths) -> forall y, In y (next x) ->
                                In y (flat_map (hd_next next) paths)).
      { intros x Hx y Hy. apply In_heads in Hx. destruct Hx as [t Ht].
        apply in_flat_map. exists (x :: t). split; [exact Ht | exact Hy]. }
      destruct (Nx.extend next paths seen) as [|q qs] eqn:Ee.
      * (* nothing new: [seen] is closed, and the target is not in it *)
        intros l Hl Hs Ht. apply Hnt. rewrite <- Ht.
        apply (closed_walk next seen); [|exact Hl|].
        -- intros x Hx y Hy.
           destruct (in_dec UUID_eq_dec x (heads paths)) as [Hh|Hh]; [|eauto].
           destruct (in_dec UUID_eq_dec y seen) as [Hys|Hys]; [exact Hys|].
           exfalso. cbn [heads flat_map] in Hheads.
           assert (Hy' : In y (Nx.add_new (flat_map (hd_next next) paths) seen))
             by (apply Hfin; split; [eapply Hsucc; eauto | exact Hys]).
           rewrite <- Hheads in Hy'. destruct Hy'.
        -- rewrite (hd_error_hd l source source Hs). exact Hsrc.
      * assert (Hne : exists c, In c (heads (Nx.extend next paths seen))).
        { destruct (extend_In next paths seen q) as [c [p0 [Hq _]]];
            [rewrite Ee; left; reflexivity|].
          exists c. apply In_heads. exists p0. rewrite Ee, Hq. left. reflexivity. }
        rewrite <- Ee in *. clear Ee q qs.
        set (paths' := Nx.extend next paths seen) in *.
        fold (heads paths').
        apply (IH (S k)).
        -- split; [|split; [|split; [|split; [|split; [|split; [|split]]]]]].
           ++ apply NoDup_app; [exact Hnd | rewrite Hheads; exact Hfnd |].
              intros a Ha Hf. rewrite Hheads in Hf. apply Hfin in Hf. tauto.
           ++ intros a Ha. apply in_app_or in Ha. destruct Ha as [Ha|Ha]; [auto|].
              rewrite Hheads in Ha. apply Hfin in Ha. destruct Ha as [Ha _].
              apply in_flat_map in Ha. destruct Ha as [p [_ Hp]].
              destruct p as [|h t]; [destruct Hp|]. apply (next_closed h a Hp).
           ++ apply in_or_app. auto.
           ++ intros q Hq. pose proof Hq as Hq'.
              apply extend_In in Hq. destruct Hq as [c [p [-> [Hp Hc]]]].
              destruct (Hpaths p Hp) as [h [t [-> [Hh [Hlen [Hw Hhd]]]]]].
              exists c, (h :: t). split; [reflexivity|]. split.
              { apply in_or_app. right. apply In_heads. eauto. }
              split; [simpl in *; lia|]. split.
              { change (rev (c :: h :: t)) with (rev (h :: t) ++ [c]).
                apply (walk_snoc next _ c source Hw). rewrite rev_last_head. exact Hc. }
              { change (rev (c :: h :: t)) with (rev (h :: t) ++ [c]).
                rewrite hd_error_app_nonempty; [exact Hhd|].
                apply (walk_nonempty next). exact Hw. }
           ++ intros x Hx Hnh y Hy. apply in_or_app.
              apply in_app_or in Hx. destruct Hx as [Hx|Hx]; [|contradiction].
              destruct (in_dec UUID_eq_dec y seen) as [Hys|Hys]; [auto|].
              destruct (in_dec UUID_eq_dec x (heads paths)) as [Hh|Hh].
              ** right. rewrite Hheads. apply Hfin. split; [eapply Hsucc; eauto | exact Hys].
              ** left. apply (Hclosed x Hx Hh y Hy).
           ++ intros x Hx Hnh. apply in_app_or in Hx. destruct Hx as [Hx|Hx]; [|contradiction].
              intros ->. contradiction.
           ++ intros l Hl Hs Hlen.
              destruct (Nat.le_gt_cases (length l) (S k)) as [Hle|Hgt].
              { apply in_or_app. left. apply (Hnear l Hl Hs Hle). }
              assert (Hex : exists l0 x, l = l0 ++ [x]).
              { destruct (exists_last (walk_nonempty next l Hl)) as [l0 [x ->]]. eauto. }
              destruct Hex as [l0 [x ->]]. rewrite length_app in Hlen, Hgt. simpl in Hlen, Hgt.
              rewrite last_last.
              assert (Hl0 : l0 <> []) by (destruct l0; [simpl in Hgt; lia | discriminate]).
              destruct (walk_unsnoc next l0 x source Hl Hl0) as [Hw0 Hx].
              rewrite hd_error_app_nonempty in Hs by exact Hl0.
              assert (Hu : In (last l0 source) seen) by (apply (Hnear l0 Hw0 Hs); lia).
              apply in_or_app.
              destruct (in_dec UUID_eq_dec x seen) as [Hxs|Hxs]; [auto|].
              destruct (in_dec UUID_eq_dec (last l0 source) (heads paths)) as [Hh|Hh].
              ** right. rewrite Hheads. apply Hfin. split; [eapply Hsucc; eauto | exact Hxs].
              ** left. apply (Hclosed _ Hu Hh x Hx).
           ++ intros l Hl Hs Ht. pose proof (Hfar l Hl Hs Ht) as Hk.
              destruct (Nat.eq_dec (length l) (S k)) as [Heq|Hneq]; [|lia].
              exfalso. apply Hnt. rewrite <- Ht. apply (Hnear l Hl Hs). lia.
        -- rewrite length_app.
           assert (1 <= length (heads paths')).
           { destruct Hne as [c Hc]. destruct (heads paths'); [destruct Hc | simpl; lia]. }
           lia.
Qed.

End BFSPath.

Lemma walk_path g l :
  forall a v d, walk (Nx.successors g) (a :: v :: l) -> path g a (last (v :: l) d).
Proof.
  induction l as [|w l IH]; intros a v d H; inversion H; subst.
  - simpl. apply path_edge. assumption.
  - rewrite last_cons_nonempty by discriminate.
    eapply path_step; [eassumption|]. apply IH. assumption.
Qed.

Lemma path_walk g a b :
  path g a b -> exists l, walk (Nx.successors g) (a :: l) /\ l <> [] /\ last (a :: l) a = b.
Proof.
  induction 1 as [u v H|u v w H Hp IH].
  - exists [v]. split; [constructor; [exact H | constructor]|]. split; [discriminate | reflexivity].
  - destruct IH as [l [Hw [Hl Hlast]]]. exists (v :: l). split; [constructor; assumption|].
    split; [discriminate|]. rewrite last_cons_nonempty by discriminate.
    rewrite (last_any (v :: l) u v) by discriminate. exact Hlast.
Qed.

Lemma walk_from_to_iff g a b :
  (exists l, walk_from_to g a b l) <-> a = b \/ path g a b.
Proof.
  unfold walk_from_to. split.
  - intros [l [Hw [Hh Hl]]]. destruct l as [|x l]; [discriminate|].
    injection Hh as ->. destruct l as [|v l]; [left; exact Hl|].
    right. rewrite <- Hl. rewrite last_cons_nonempty by discriminate.
    apply walk_path. exact Hw.
  - intros [->|Hp].
    + exists [b]. split; [constructor|]. split; reflexivity.
    + destruct (path_walk g a b Hp) as [l [Hw [_ Hl]]]. exists (a :: l).
      split; [exact Hw|]. split; [reflexivity | exact Hl].
Qed.

Lemma shortest_path_spec g a b :
  Nx.wf g -> In a (Nx.nodes g) -> In b (Nx.nodes g) ->
  (exists p, Nx.shortest_path g a b = Ok p /\ walk_from_to g a b p /\
             forall l, walk_from_to g a b l -> length p <= length l) \/
  (Nx.shortest_path g a b = Raise NetworkXNoPath /\ forall l, ~ walk_from_to g a b l).
Proof.
  intros [_ [_ Hi]] Ha Hb. unfold Nx.shortest_path.
  assert (Nx.has_node g a = true) as -> by (apply mem_In; exact Ha).
  assert (Nx.has_node g b = true) as -> by (apply mem_In; exact Hb).
  simpl.
  pose proof (bfs_path_spec (Nx.successors g) (Nx.nodes g)) as Hspec.
  specialize (Hspec (fun x y Hy => match proj1 (In_successors g x y) Hy with
                                   | ex_intro _ r Hr => proj2 (Hi _ _ _ Hr) end)).
  specialize (Hspec a b (length (Nx.nodes g)) 0 [[a]] [a]).
  destruct (Nx.bfs_path (length (Nx.nodes g)) (Nx.successors g) b [[a]] [a]) as [p|].
  - left. exists p. split; [reflexivity|].
    destruct Hspec as [Hw [Hh [Hl Hmin]]]; [| simpl; lia |].
    + split; [repeat constructor; intros []|]. split; [intros x [<-|[]]; exact Ha|].
      split; [left; reflexivity|]. split.
      { intros p0 [<-|[]]. exists a, []. split; [reflexivity|]. split; [left; reflexivity|].
        split; [reflexivity|]. split; [constructor | reflexivity]. }
      split; [intros x [<-|[]] Hn; exfalso; apply Hn; left; reflexivity|].
      split; [intros x [<-|[]] Hn; exfalso; apply Hn; left; reflexivity|].
      split.
      { intros l Hl Hs Hlen. destruct l as [|x [|y l]]; [discriminate | | simpl in Hlen; lia].
        injection Hs as ->. left. reflexivity. }
      { intros l _ Hs _. destruct l; [discriminate | simpl; lia]. }
    + split; [split; [exact Hw | split; [exact Hh | exact Hl]]|].
      intros l [Hlw [Hlh Hll]]. apply Hmin; assumption.
  - right. split; [reflexivity|]. intros l [Hlw [Hlh Hll]].
    revert Hll. apply Hspec; [| simpl; lia | exact Hlw | exact Hlh].
    split; [repeat constructor; intros []|]. split; [intros x [<-|[]]; exact Ha|].
    split; [left; reflexivity|]. split.
    { intros p0 [<-|[]]. exists a, []. split; [reflexivity|]. split; [left; reflexivity|].
      split; [reflexivity|]. split; [constructor | reflexivity]. }
    split; [intros x [<-|[]] Hn; exfalso; apply Hn; left; reflexivity|].
    split; [intros x [<-|[]] Hn; exfalso; apply Hn; left; reflexivity|].
    split.
    { intros l0 Hl Hs Hlen. destruct l0 as [|x [|y l0]]; [discriminate | | simpl in Hlen; lia].
      injection Hs as ->. left. reflexivity. }
    { intros l0 _ Hs _. destruct l0; [discriminate | simpl; lia]. }
Qed.

Lemma get_node_has_node s k :
  NetworkXGraphStorage.wf s ->
  (NetworkXGraphStorage.get_node k s <> None <-> In k (Nx.nodes (NetworkXGraphStorage._graph s))).
Proof.
  intros [_ [_ Hagree]]. rewrite <- Hagree. unfold NetworkXGraphStorage.get_node.
  apply dict_get_In.
Qed.

(** X10: between two nodes of the store, get_shortest_path returns a
    walk of the graph from the first to the second (the one-node list
    when they are equal) that no walk between them is shorter than, or
    None exactly when there is none. *)
Theorem get_shortest_path_spec :
  forall (s : NetworkXGraphStorage.t) (from_id to_id : UUID),
    NetworkXGraphStorage.wf s ->
    NetworkXGraphStorage.get_node from_id s <> None ->
    NetworkXGraphStorage.get_node to_id s <> None ->
    (exists p,
       NetworkXGraphStorage.get_shortest_path from_id to_id s = Ok (Some p) /\
       walk_from_to (NetworkXGraphStorage._graph s) from_id to_id p /\
       forall l, walk_from_to (NetworkXGraphStorage._graph s) from_id to_id l ->
                 length p <= length l) \/
    (NetworkXGraphStorage.get_shortest_path from_id to_id s = Ok None /\
     from_id <> to_id /\
     ~ path (NetworkXGraphStorage._graph s) from_id to_id).
Proof.
  intros s a b Hwf Ha Hb.
  apply (get_node_has_node s a Hwf) in Ha. apply (get_node_has_node s b Hwf) in Hb.
  unfold NetworkXGraphStorage.get_shortest_path.
  destruct (shortest_path_spec _ a b (proj1 Hwf) Ha Hb) as [[p [-> [Hw Hmin]]]|[-> Hno]].
  - left. exists p. auto.
  - right. split; [reflexivity|].
    split; intros H.
    + destruct (proj2 (walk_from_to_iff (NetworkXGraphStorage._graph s) a b) (or_introl H))
        as [l Hl]. exact (Hno l Hl).
    + destruct (proj2 (walk_from_to_iff (NetworkXGraphStorage._graph s) a b) (or_intror H))
        as [l Hl]. exact (Hno l Hl).
Qed.

Lemma get_shortest_path_two_tasks :
  NetworkXGraphStorage.get_shortest_path Sample.uuid_b Sample.uuid_a
    (TaskService.graph_storage Sample.two_tasks) = Ok (Some [Sample.uuid_b; Sample.uuid_a]) /\
  ((exists p,
      NetworkXGraphStorage.get_shortest_path Sample.uuid_a Sample.uuid_b
        (TaskService.graph_storage Sample.two_tasks) = Ok (Some p)) \/
   NetworkXGraphStorage.get_shortest_path Sample.uuid_a Sample.uuid_b
     (TaskService.graph_storage Sample.two_tasks) = Ok None).
Proof.
  split; [vm_compute; reflexivity|].
  destruct (get_shortest_path_spec (TaskService.graph_storage Sample.two_tasks)
              Sample.uuid_a Sample.uuid_b two_tasks_graph_wf) as [[p [H _]]|[H _]].
  - vm_compute. discriminate.
  - vm_compute. discriminate.
  - left. exists p. exact H.
  - right. exact H.
Defined.

(** X11: between two nodes of the store, is_reachable returns True
    exactly when they are equal or the second is reached from the first
    along one or more edges, and never raises. *)
Theorem is_reachable_spec :
  forall (s : NetworkXGraphStorage.t) (from_id to_id : UUID),
    NetworkXGraphStorage.wf s ->
    NetworkXGraphStorage.get_node from_id s <> None ->
    NetworkXGraphStorage.get_node to_id s <> None ->
    exists r,
      NetworkXGraphStorage.is_reachable from_id to_id s = Ok r /\
      (r = true <->
       from_id = to_id \/ path (NetworkXGraphStorage._graph s) from_id to_id).
Proof.
  intros s a b Hwf Ha Hb.
  apply (get_node_has_node s a Hwf) in Ha. apply (get_node_has_node s b Hwf) in Hb.
  unfold NetworkXGraphStorage.is_reachable, Nx.has_path.
  destruct (shortest_path_spec _ a b (proj1 Hwf) Ha Hb) as [[p [-> [Hw Hmin]]]|[-> Hno]].
  - exists true. split; [reflexivity|]. split; [intros _|reflexivity].
    apply walk_from_to_iff. eauto.
  - exists false. split; [reflexivity|]. split; [discriminate|].
    intros H. apply walk_from_to_iff in H. destruct H as [l Hl]. exfalso. exact (Hno l Hl).
Qed.

Lemma is_reachable_two_tasks :
  NetworkXGraphStorage.is_reachable Sample.uuid_b Sample.uuid_a
    (TaskService.graph_storage Sample.two_tasks) = Ok true /\
  NetworkXGraphStorage.is_reachable Sample.uuid_a Sample.uuid_b
    (TaskService.graph_storage Sample.two_tasks) = Ok false /\
  exists r,
    NetworkXGraphStorage.is_reachable Sample.uuid_b Sample.uuid_a
      (TaskService.graph_storage Sample.two_tasks) = Ok r.
Proof.
  split; [vm_compute; reflexivity|]. split; [vm_compute; reflexivity|].
  destruct (is_reachable_spec (TaskService.graph_storage Sample.two_tasks)
              Sample.uuid_b Sample.uuid_a two_tasks_graph_wf) as [r [H _]].
  - vm_compute. discriminate.
  - vm_compute. discriminate.
  - exists r. exact H.
Defined.

(** * The table as an insertion-ordered map from identifier to task *)

Lemma exists_holds tb xs i :
  holds tb xs ->
  DuckDBTableStorage.exists_ i tb = existsb (fun x => uuid_eqb (Task.id x) i) xs.
Proof.
  intros [Hrows _]. unfold DuckDBTableStorage.exists_. rewrite Hrows. clear Hrows.
  induction xs as [|x xs IH]; simpl; [reflexivity|]. rewrite has_id_row_of, IH. reflexivity.
Qed.

Lemma exists_In tb xs i :
  holds tb xs -> (DuckDBTableStorage.exists_ i tb = true <-> In i (map Task.id xs)).
Proof.
  intros H. rewrite (exists_holds tb xs i H), existsb_exists, in_map_iff.
  split; intros [x [H1 H2]]; exists x.
  - apply uuid_eqb_eq in H2. auto.
  - split; [exact H2 | apply uuid_eqb_eq; exact H1].
Qed.

Lemma exists_false_In tb xs i :
  holds tb xs -> (DuckDBTableStorage.exists_ i tb = false <-> ~ In i (map Task.id xs)).
Proof.
  intros H. rewrite <- (exists_In tb xs i H).
  destruct (DuckDBTableStorage.exists_ i tb); split; congruence.
Qed.

Lemma find_id_In xs i x :
  NoDup (map Task.id xs) -> In x xs -> Task.id x = i ->
  find (fun y => uuid_eqb (Task.id y) i) xs = Some x.
Proof.
  induction xs as [|y xs IH]; intros Hnd Hin Hid; [destruct Hin|].
  simpl in *. inversion Hnd; subst. destruct Hin as [->|Hin].
  - rewrite uuid_eqb_refl. reflexivity.
  - uuid_cases (Task.id y) (Task.id x).
    + exfalso. apply H1. rewrite E. apply in_map. exact Hin.
    + apply IH; auto.
Qed.

Lemma find_id_None xs i :
  ~ In i (map Task.id xs) -> find (fun y => uuid_eqb (Task.id y) i) xs = None.
Proof.
  intros H. destruct (find _ xs) as [x|] eqn:E; [|reflexivity].
  apply find_some in E. destruct E as [Hin Heq]. apply uuid_eqb_eq in Heq.
  exfalso. apply H. rewrite <- Heq. apply in_map. exact Hin.
Qed.

Lemma holds_create tb xs item :
  holds tb xs -> Task.valid item -> ~ In (Task.id item) (map Task.id xs) ->
  holds (DuckDBTableStorage.mk (DuckDBTableStorage.rows tb ++ [row_of item])) (xs ++ [item]).
Proof.
  intros [Hrows [Hvalid Hnd]] Hv Hfresh. split; [|split].
  - simpl. rewrite Hrows, map_app. reflexivity.
  - intros x Hx. apply in_app_or in Hx. destruct Hx as [Hx|[<-|[]]]; auto.
  - rewrite map_app. simpl. apply NoDup_app; [exact Hnd | repeat constructor; intros [] |].
    intros a Ha [<-|[]]. contradiction.
Qed.

Lemma map_id_replace item xs : map Task.id (replace_task item xs) = map Task.id xs.
Proof.
  unfold replace_task. rewrite map_map. apply map_ext. intros x.
  uuid_cases (Task.id x) (Task.id item); [symmetry; exact E | reflexivity].
Qed.

Lemma holds_update tb xs item :
  holds tb xs -> Task.valid item ->
  holds (DuckDBTableStorage.mk
           (map (fun r => if DuckDBTableStorage.has_id (Task.id item) r
                          then DuckDBTableStorage.mkRow (DuckDBTableStorage.row_id r)
                                 (Task.model_dump item)
                          else r) (DuckDBTableStorage.rows tb)))
        (replace_task item xs).
Proof.
  intros [Hrows [Hvalid Hnd]] Hv. split; [|split].
  - simpl. rewrite Hrows. unfold replace_task. rewrite !map_map. apply map_ext. intros x.
    rewrite has_id_row_of. uuid_cases (Task.id x) (Task.id item); [|reflexivity].
    unfold row_of. simpl. rewrite E. reflexivity.
  - intros x Hx. unfold replace_task in Hx. apply in_map_iff in Hx.
    destruct Hx as [y [<- Hy]]. destruct (uuid_eqb _ _); auto.
  - rewrite map_id_replace. exact Hnd.
Qed.

Lemma holds_delete tb xs i :
  holds tb xs ->
  holds (DuckDBTableStorage.mk
           (filter (fun r => negb (DuckDBTableStorage.has_id i r)) (DuckDBTableStorage.rows tb)))
        (without_task i xs).
Proof.
  intros [Hrows [Hvalid Hnd]]. split; [|split].
  - simpl. rewrite Hrows. unfold without_task.
    apply filter_map_row_of. intros x. rewrite has_id_row_of. reflexivity.
  - intros x Hx. apply filter_In in Hx. apply Hvalid. apply Hx.
  - unfold without_task. clear Hrows Hvalid.
    induction xs as [|x xs IH]; simpl; [constructor|]. inversion Hnd; subst.
    destruct (negb (uuid_eqb (Task.id x) i)); simpl; [|auto].
    constructor; [|auto]. intros Hin. apply H1. apply in_map_iff in Hin.
    destruct Hin as [y [Hy Hin]]. apply filter_In in Hin. rewrite <- Hy. apply in_map. apply Hin.
Qed.

Lemma length_without_task i xs :
  NoDup (map Task.id xs) ->
  length (without_task i xs) + (if existsb (fun x => uuid_eqb (Task.id x) i) xs then 1 else 0)
  = length xs.
Proof.
  unfold without_task. induction xs as [|x xs IH]; intros Hnd; simpl; [reflexivity|].
  inversion Hnd; subst. specialize (IH H2). uuid_cases (Task.id x) i; simpl.
  - assert (existsb (fun y => uuid_eqb (Task.id y) (Task.id x)) xs = false) as Hf.
    { destruct (existsb _ xs) eqn:E; [|reflexivity]. exfalso. apply H1.
      apply existsb_exists in E. destruct E as [y [Hy Hey]]. apply uuid_eqb_eq in Hey.
      rewrite <- Hey. apply in_map. exact Hy. }
    rewrite Hf in IH. lia.
  - destruct (existsb _ xs); lia.
Qed.

(** X12: create on a new identifier appends the task: list_all() then
    returns the earlier tasks followed by it, get_by_id returns it and
    count grows by one.  On an identifier already stored it raises
    ValueError and the table is unchanged. *)
Theorem table_create_spec :
  forall (tb : DuckDBTableStorage.t) (xs : list Task.t) (item : Task.t),
    holds tb xs ->
    Task.valid item ->
    (In (Task.id item) (map Task.id xs) /\
     DuckDBTableStorage.create item tb =
       (Raise (ValueError ("Item with ID " ++ uuid_text (Task.id item) ++ " already exists")),
        tb)) \/
    (~ In (Task.id item) (map Task.id xs) /\
     exists tb',
       DuckDBTableStorage.create item tb = (Ok item, tb') /\
       holds tb' (xs ++ [item]) /\
       DuckDBTableStorage.list_all tb' = Ok (xs ++ [item]) /\
       DuckDBTableStorage.get_by_id (Task.id item) tb' = Ok (Some item) /\
       DuckDBTableStorage.count tb' = S (DuckDBTableStorage.count tb)).
Proof.
  intros tb xs item H Hv. unfold DuckDBTableStorage.create.
  destruct (DuckDBTableStorage.exists_ (Task.id item) tb) eqn:E.
  - left. split; [apply (exists_In tb xs _ H); exact E | reflexivity].
  - right. pose proof (proj1 (exists_false_In tb xs _ H) E) as Hfresh.
    split; [exact Hfresh|]. eexists. split; [reflexivity|].
    pose proof (holds_create tb xs item H Hv Hfresh) as H'.
    split; [exact H'|]. split; [apply list_all_holds; exact H'|]. split.
    + apply get_after_insert; assumption.
    + unfold DuckDBTableStorage.count. simpl. rewrite length_app. simpl. lia.
Qed.

Lemma table_create_spec_two_tasks :
  DuckDBTableStorage.list_all (TaskService.table_storage Sample.two_tasks)
    = Ok [Sample.database_task; Sample.api_task] /\
  fst (DuckDBTableStorage.create Sample.orphan_task (TaskService.table_storage Sample.two_tasks))
    = Ok Sample.orphan_task /\
  (In Sample.uuid_c (map Task.id [Sample.database_task; Sample.api_task]) \/
   ~ In Sample.uuid_c (map Task.id [Sample.database_task; Sample.api_task])).
Proof.
  split; [vm_compute; reflexivity|]. split; [vm_compute; reflexivity|].
  destruct (table_create_spec (TaskService.table_storage Sample.two_tasks)
              [Sample.database_task; Sample.api_task] Sample.orphan_task two_tasks_holds)
    as [[H _]|[H _]].
  - vm_compute. reflexivity.
  - left. exact H.
  - right. exact H.
Defined.

(** X13: update of a stored identifier replaces that task where it stands:
    list_all() returns the same sequence with the one task replaced, and
    count is unchanged.  On an identifier that is not stored it raises
    ValueError and the table is unchanged. *)
Theorem table_update_spec :
  forall (tb : DuckDBTableStorage.t) (xs : list Task.t) (item : Task.t),
    holds tb xs ->
    Task.valid item ->
    (~ In (Task.id item) (map Task.id xs) /\
     DuckDBTableStorage.update item tb =
       (Raise (ValueError ("Item with ID " ++ uuid_text (Task.id item) ++ " doesn't exist")),
        tb)) \/
    (In (Task.id item) (map Task.id xs) /\
     exists tb',
       DuckDBTableStorage.update item tb = (Ok item, tb') /\
       holds tb' (replace_task item xs) /\
       DuckDBTableStorage.list_all tb' = Ok (replace_task item xs) /\
       DuckDBTableStorage.get_by_id (Task.id item) tb' = Ok (Some item) /\
       (forall i, i <> Task.id item ->
                  DuckDBTableStorage.get_by_id i tb' = DuckDBTableStorage.get_by_id i tb) /\
       DuckDBTableStorage.count tb' = DuckDBTableStorage.count tb).
Proof.
  intros tb xs item H Hv. unfold DuckDBTableStorage.update.
  destruct (DuckDBTableStorage.exists_ (Task.id item) tb) eqn:E; simpl.
  - right. pose proof (proj1 (exists_In tb xs _ H) E) as Hin.
    split; [exact Hin|]. eexists. split; [reflexivity|].
    pose proof (holds_update tb xs item H Hv) as H'.
    split; [exact H'|]. split; [apply list_all_holds; exact H'|]. split; [|split].
    + apply get_after_update; assumption.
    + intros i Hi. rewrite (get_by_id_holds _ _ i H'), (get_by_id_holds _ _ i H).
      f_equal. unfold replace_task. clear -Hi.
      induction xs as [|x xs IH]; simpl; [reflexivity|].
      uuid_cases (Task.id x) (Task.id item).
      * assert (uuid_eqb (Task.id item) i = false) as -> by (apply uuid_eqb_neq; congruence).
        assert (uuid_eqb (Task.id x) i = false) as -> by (apply uuid_eqb_neq; congruence).
        exact IH.
      * destruct (uuid_eqb (Task.id x) i); [reflexivity | exact IH].
    + unfold DuckDBTableStorage.count. simpl. apply length_map.
  - left. split; [apply (exists_false_In tb xs _ H); exact E | reflexivity].
Qed.

Lemma table_update_spec_two_tasks :
  fst (DuckDBTableStorage.update Sample.database_done (TaskService.table_storage Sample.two_tasks))
    = Ok Sample.database_done /\
  DuckDBTableStorage.list_all
    (snd (DuckDBTableStorage.update Sample.database_done
            (TaskService.table_storage Sample.two_tasks)))
    = Ok [Sample.database_done; Sample.api_task] /\
  (In Sample.uuid_a (map Task.id [Sample.database_task; Sample.api_task]) \/
   ~ In Sample.uuid_a (map Task.id [Sample.database_task; Sample.api_task])).
Proof.
  split; [vm_compute; reflexivity|]. split; [vm_compute; reflexivity|].
  destruct (table_update_spec (TaskService.table_storage Sample.two_tasks)
              [Sample.database_task; Sample.api_task] Sample.database_done two_tasks_holds)
    as [[H _]|[H _]].
  - vm_compute. reflexivity.
  - right. exact H.
  - left. exact H.
Defined.

(** X14: delete returns True exactly when the identifier is stored; the
    task is then gone (exists is False, get_by_id returns None, count
    drops by one) and list_all() returns the other tasks in their order.
    On an identifier that is not stored nothing changes. *)
Theorem table_delete_spec :
  forall (tb : DuckDBTableStorage.t) (xs : list Task.t) (item_id : UUID),
    holds tb xs ->
    exists b tb',
      DuckDBTableStorage.delete item_id tb = (b, tb') /\
      (b = true <-> In item_id (map Task.id xs)) /\
      (b = false -> tb' = tb) /\
      holds tb' (without_task item_id xs) /\
      DuckDBTableStorage.list_all tb' = Ok (without_task item_id xs) /\
      DuckDBTableStorage.exists_ item_id tb' = false /\
      DuckDBTableStorage.get_by_id item_id tb' = Ok None /\
      DuckDBTableStorage.count tb' + (if b then 1 else 0) = DuckDBTableStorage.count tb.
Proof.
  intros tb xs i H. unfold DuckDBTableStorage.delete.
  assert (Hgone : ~ In i (map Task.id (without_task i xs))).
  { intros Hin. apply in_map_iff in Hin. destruct Hin as [x [Hx Hin]].
    apply filter_In in Hin. destruct Hin as [_ Hb]. apply negb_true_iff, uuid_eqb_neq in Hb.
    contradiction. }
  destruct (DuckDBTableStorage.exists_ i tb) eqn:E; simpl.
  - eexists true, _. split; [reflexivity|].
    pose proof (holds_delete tb xs i H) as H'.
    split; [split; [intros _; apply (exists_In tb xs i H); exact E | reflexivity]|].
    split; [discriminate|]. split; [exact H'|]. split; [apply list_all_holds; exact H'|].
    split; [apply (exists_false_In _ _ i H'); exact Hgone|]. split.
    + rewrite (get_by_id_holds _ _ i H'). f_equal. apply find_id_None. exact Hgone.
    + pose proof H as [Hrows [_ Hnd]]. pose proof H' as [Hrows' _].
      pose proof (length_without_task i xs Hnd) as Hl.
      rewrite <- (exists_holds tb xs i H), E in Hl.
      apply (f_equal (@length _)) in Hrows, Hrows'. rewrite length_map in Hrows, Hrows'.
      unfold DuckDBTableStorage.count. simpl in *. lia.
  - exists false, tb. split; [reflexivity|].
    pose proof (proj1 (exists_false_In tb xs i H) E) as Hno.
    assert (Hsame : without_task i xs = xs).
    { unfold without_task. apply filter_all. intros x Hx. apply negb_true_iff, uuid_eqb_neq.
      intros Heq. apply Hno. rewrite <- Heq. apply in_map. exact Hx. }
    split; [split; [discriminate | intros Hin; contradiction]|].
    split; [reflexivity|]. rewrite Hsame. split; [exact H|].
    split; [apply list_all_holds; exact H|]. split; [exact E|]. split.
    + rewrite (get_by_id_holds _ _ i H). f_equal. apply find_id_None. exact Hno.
    + lia.
Qed.

Lemma table_delete_spec_two_tasks :
  DuckDBTableStorage.list_all
    (snd (DuckDBTableStorage.delete Sample.uuid_a (TaskService.table_storage Sample.two_tasks)))
    = Ok [Sample.api_task] /\
  exists b tb',
    DuckDBTableStorage.delete Sample.uuid_a (TaskService.table_storage Sample.two_tasks)
      = (b, tb') /\
    (b = true <-> In Sample.uuid_a (map Task.id [Sample.database_task; Sample.api_task])).
Proof.
  split; [vm_compute; reflexivity|].
  destruct (table_delete_spec (TaskService.table_storage Sample.two_tasks)
              [Sample.database_task; Sample.api_task] Sample.uuid_a two_tasks_holds)
    as [b [tb' [H1 [H2 _]]]].
  exists b, tb'. auto.
Defined.

(** * query *)

Lemma json_text_task_field k x :
  list_field k = false -> json_text k (Task.model_dump x) = task_field k x.
Proof.
  intros H. apply orb_false_iff in H. destruct H as [H1 H2].
  unfold json_text, field, Task.model_dump, task_field. cbn [assoc].
  rewrite H1, H2.
  destruct x as [i n d g v st p c h deps files cat no ca ua]. cbn [Task.id Task.name
    Task.description Task.implementation_guide Task.verification_criteria Task.status
    Task.priority Task.complexity Task.estimated_hours Task.category Task.notes
    Task.created_at Task.updated_at].
  repeat match goal with
         | |- context [String.eqb k ?s] => destruct (String.eqb k s)
         end;
    try reflexivity.
  - destruct v; reflexivity.
  - destruct c; reflexivity.
  - destruct h; reflexivity.
  - destruct cat; reflexivity.
  - destruct no; reflexivity.
Qed.

Lemma forallb_ext_In {A} (f g : A -> bool) (l : list A) :
  (forall a, In a l -> f a = g a) -> forallb f l = forallb g l.
Proof.
  induction l as [|a l IH]; intros H; simpl; [reflexivity|].
  rewrite (H a (or_introl eq_refl)), IH; [reflexivity|]. intros b Hb. apply H. right. exact Hb.
Qed.

Lemma matches_task_matches filters x :
  (forall f, In f filters -> list_field (fst f) = false) ->
  DuckDBTableStorage.matches filters (row_of x) = task_matches filters x.
Proof.
  intros H. unfold DuckDBTableStorage.matches, task_matches.
  apply forallb_ext_In. intros f Hf.
  change (DuckDBTableStorage.row_data (row_of x)) with (Task.model_dump x).
  rewrite (json_text_task_field (fst f) x (H f Hf)). reflexivity.
Qed.

(** X15: for filters whose fields are plain names (word characters,
    as every field of a task is) other than the two list fields, query
    returns, in insertion order, exactly the stored tasks whose fields
    have the text of every filter value; a filter on a field that is
    null in a task or that tasks do not have, or whose value is None,
    matches no task; the empty filter returns every task. *)
Theorem table_query_spec :
  forall (tb : DuckDBTableStorage.t) (xs : list Task.t)
         (filters : list (string * option string)),
    holds tb xs ->
    (forall f, In f filters -> DuckDBTableStorage.plain_key (fst f) = true) ->
    (forall f, In f filters -> list_field (fst f) = false) ->
    DuckDBTableStorage.query filters tb = Ok (filter (task_matches filters) xs) /\
    (forall x, In x (filter (task_matches filters) xs) <->
               In x xs /\
               forall k v, In (k, v) filters ->
                           exists text, v = Some text /\ task_field k x = Some text).
Proof.
  intros tb xs filters H Hp Hf. split.
  - unfold DuckDBTableStorage.query. destruct filters as [|f fs].
    + simpl. rewrite filter_all by reflexivity. apply list_all_holds. exact H.
    + replace (forallb (fun f0 => DuckDBTableStorage.plain_key (fst f0)) (f :: fs)) with true
        by (symmetry; apply forallb_forall; exact Hp).
      destruct H as [Hrows [Hvalid _]]. rewrite Hrows.
      rewrite (filter_map_row_of (task_matches (f :: fs))).
      * apply validate_all_rows. intros x Hx. apply filter_In in Hx. apply Hvalid. apply Hx.
      * intros x. apply matches_task_matches. exact Hf.
  - intros x. rewrite filter_In. unfold task_matches. rewrite forallb_forall.
    split; intros [Hx Hall]; (split; [exact Hx|]).
    + intros k v Hin. specialize (Hall (k, v) Hin). simpl in Hall.
      destruct v as [expected|]; [|discriminate].
      destruct (task_field k x) as [actual|]; [|discriminate].
      apply String.eqb_eq in Hall. subst. eauto.
    + intros [k v] Hin. simpl. destruct (Hall k v Hin) as [text [-> ->]].
      apply String.eqb_refl.
Qed.

Lemma table_query_spec_two_tasks :
  DuckDBTableStorage.query [("name", Some "API Endpoints"); ("status", Some "PENDING")]
    (TaskService.table_storage Sample.two_tasks) = Ok [Sample.api_task] /\
  DuckDBTableStorage.query [("category", Some "backend")]
    (TaskService.table_storage Sample.two_tasks) = Ok [] /\
  DuckDBTableStorage.query [("status", None)]
    (TaskService.table_storage Sample.two_tasks) = Ok [].
Proof.
  split; [|split].
  - rewrite (proj1 (table_query_spec (TaskService.table_storage Sample.two_tasks)
              [Sample.database_task; Sample.api_task]
              [("name", Some "API Endpoints"); ("status", Some "PENDING")] two_tasks_holds
              ltac:(intros f [<-|[<-|[]]]; reflexivity)
              ltac:(intros f [<-|[<-|[]]]; reflexivity))).
    vm_compute. reflexivity.
  - vm_compute. reflexivity.
  - vm_compute. reflexivity.
Defined.

(** * The service keeps its two stores in agreement *)

Lemma storage_add_edge_inv e gs r gs' :
  NetworkXGraphStorage.wf gs ->
  NetworkXGraphStorage.has_cycle gs = Ok false ->
  NetworkXGraphStorage.add_edge e gs = (r, gs') ->
  (exists b, r = Ok b) /\
  NetworkXGraphStorage.wf gs' /\
  NetworkXGraphStorage.has_cycle gs' = Ok false /\
  NetworkXGraphStorage._nodes gs' = NetworkXGraphStorage._nodes gs.
Proof.
  intros Hwf Hc H. destruct (add_edge_step gs e Hwf Hc) as [b [s' [Hadd [Hwf' [Hc' [Hf [Ht _]]]]]]].
  rewrite H in Hadd. inversion Hadd; subst. split; [eauto|]. split; [exact Hwf'|].
  split; [exact Hc'|]. destruct b; [apply Ht; reflexivity | rewrite (Hf eq_refl); reflexivity].
Qed.

Lemma add_task_dependencies_inv i deps :
  forall s r s',
    NetworkXGraphStorage.wf (TaskService.graph_storage s) ->
    NetworkXGraphStorage.has_cycle (TaskService.graph_storage s) = Ok false ->
    TaskServiceImpl._add_task_dependencies i deps s = (r, s') ->
    TaskService.table_storage s' = TaskService.table_storage s /\
    NetworkXGraphStorage.wf (TaskService.graph_storage s') /\
    NetworkXGraphStorage.has_cycle (TaskService.graph_storage s') = Ok false /\
    NetworkXGraphStorage._nodes (TaskService.graph_storage s')
    = NetworkXGraphStorage._nodes (TaskService.graph_storage s).
Proof.
  induction deps as [|d deps IH]; intros s r s' Hwf Hc H.
  - inversion H; subst. auto.
  - simpl in H. unfold TaskService.bind, TaskService.read_table in H.
    destruct (DuckDBTableStorage.get_by_id _ _) as [[x|]|e].
    + unfold TaskService.on_graph in H.
      destruct (NetworkXGraphStorage.add_edge _ _) as [r1 gr] eqn:Ea.
      destruct (storage_add_edge_inv _ _ _ _ Hwf Hc Ea) as [[b ->] [Hwf' [Hc' Hn]]].
      destruct b; simpl in H.
      * destruct (IH (TaskService.mk (TaskService.table_storage s) gr) _ _ Hwf' Hc' H)
          as [Ht [Hwf'' [Hc'' Hn']]].
        simpl in *. split; [exact Ht|]. split; [exact Hwf''|]. split; [exact Hc''|]. congruence.
      * inversion H; subst. simpl. auto.
    + inversion H; subst. auto.
    + inversion H; subst. auto.
Qed.

Lemma add_dependencies_if_any_inv task s r s' :
  NetworkXGraphStorage.wf (TaskService.graph_storage s) ->
  NetworkXGraphStorage.has_cycle (TaskService.graph_storage s) = Ok false ->
  TaskServiceImpl.add_dependencies_if_any task s = (r, s') ->
  TaskService.table_storage s' = TaskService.table_storage s /\
  NetworkXGraphStorage.wf (TaskService.graph_storage s') /\
  NetworkXGraphStorage.has_cycle (TaskService.graph_storage s') = Ok false /\
  NetworkXGraphStorage._nodes (TaskService.graph_storage s')
  = NetworkXGraphStorage._nodes (TaskService.graph_storage s).
Proof.
  intros Hwf Hc. unfold TaskServiceImpl.add_dependencies_if_any.
  destruct (Task.dependencies task) as [|d ds].
  - intros H. inversion H; subst. auto.
  - apply add_task_dependencies_inv; assumption.
Qed.

Lemma in_nodes_same gs gs' :
  NetworkXGraphStorage._nodes gs' = NetworkXGraphStorage._nodes gs ->
  forall i, NetworkXGraphStorage.in_nodes gs' i = NetworkXGraphStorage.in_nodes gs i.
Proof. intros H i. unfold NetworkXGraphStorage.in_nodes. rewrite H. reflexivity. Qed.

Lemma in_nodes_add_node node gs i :
  NetworkXGraphStorage.in_nodes (snd (NetworkXGraphStorage.add_node node gs)) i = true <->
  NetworkXGraphStorage.in_nodes gs i = true \/ i = GraphNode.id node.
Proof.
  unfold NetworkXGraphStorage.add_node.
  destruct (NetworkXGraphStorage.in_nodes gs (GraphNode.id node)) eqn:E; simpl.
  - split; [auto | intros [H| ->]; assumption].
  - rewrite !in_nodes_In. simpl. rewrite map_app, in_app_iff. simpl.
    split; [intros [H|[H|[]]]; auto | intros [H|H]; auto].
Qed.

Lemma in_nodes_remove_node n gs b gs' i :
  NetworkXGraphStorage.remove_node n gs = (Ok b, gs') ->
  (NetworkXGraphStorage.in_nodes gs' i = true <->
   NetworkXGraphStorage.in_nodes gs i = true /\ i <> n).
Proof.
  unfold NetworkXGraphStorage.remove_node.
  destruct (NetworkXGraphStorage.in_nodes gs n) eqn:E; simpl.
  - destruct (Nx.remove_node _ _); [|discriminate]. intros [= <- <-].
    rewrite !in_nodes_In. simpl. unfold NetworkXGraphStorage.dict_del.
    rewrite !in_map_iff. split.
    + intros [[k v] [<- H]]. apply filter_In in H. destruct H as [H Hb]. simpl in *.
      apply negb_true_iff, uuid_eqb_neq in Hb. split; [exists (k, v); auto | congruence].
    + intros [[[k v] [<- H]] Hne]. exists (k, v). split; [reflexivity|].
      apply filter_In. split; [exact H|]. apply negb_true_iff, uuid_eqb_neq. simpl in *. congruence.
  - intros [= <- <-]. split; [|tauto]. intros H. split; [exact H|]. intros ->. congruence.
Qed.

Lemma valid_with_dependencies x deps :
  Task.valid x -> Task.valid (Task.with_dependencies x deps).
Proof.
  intros H. unfold Task.valid, Task.validate in *.
  assert (Hf : Task.fields_ok (Task.with_dependencies x deps) = Task.fields_ok x)
    by (destruct x; reflexivity).
  rewrite Hf. destruct (Task.fields_ok x); [|discriminate].
  injection H as H. f_equal.
  destruct x; unfold Task.with_name, Task.with_dependencies in *; simpl in *.
  injection H as Hn. rewrite Hn. reflexivity.
Qed.

Lemma consistent_fresh_node s xs i :
  consistent s xs -> ~ In i (map Task.id xs) ->
  NetworkXGraphStorage.in_nodes (TaskService.graph_storage s) i = false.
Proof.
  intros [_ [_ [_ Hagree]]] Hn.
  destruct (NetworkXGraphStorage.in_nodes _ i) eqn:E; [|reflexivity].
  apply Hagree in E. contradiction.
Qed.

Lemma create_task_consistent s xs t :
  consistent s xs -> Task.valid t ->
  exists r s',
    TaskServiceImpl.create_task t s = (r, s') /\
    ((In (Task.id t) (map Task.id xs) /\
      r = Raise (ValueError ("Item with ID " ++ uuid_text (Task.id t) ++ " already exists")) /\
      s' = s) \/
     (~ In (Task.id t) (map Task.id xs) /\ consistent s' (xs ++ [t]) /\
      TaskService.table_storage s' =
      DuckDBTableStorage.mk (DuckDBTableStorage.rows (TaskService.table_storage s) ++ [row_of t]))).
Proof.
  intros Hcons Hv. pose proof Hcons as [Hwf [Hc [Hh Hagree]]].
  unfold TaskServiceImpl.create_task.
  unfold TaskService.bind at 1. unfold TaskService.on_table at 1.
  unfold DuckDBTableStorage.create.
  destruct (DuckDBTableStorage.exists_ (Task.id t) (TaskService.table_storage s)) eqn:E.
  - eexists _, _. split; [reflexivity|]. left.
    split; [apply (exists_In _ xs _ Hh); exact E|]. split; [reflexivity|].
    destruct s; reflexivity.
  - pose proof (proj1 (exists_false_In _ xs _ Hh) E) as Hfresh.
    pose proof (consistent_fresh_node s xs _ Hcons Hfresh) as Hnode.
    unfold TaskService.bind at 1. unfold TaskService.on_graph at 1.
    cbn [TaskService.graph_storage TaskService.table_storage].
    unfold NetworkXGraphStorage.add_node at 1.
    cbn [TaskServiceImpl.graph_node_of GraphNode.id]. rewrite Hnode. cbn [negb].
    unfold TaskService.bind at 1.
    set (tb1 := DuckDBTableStorage.mk _).
    set (gs1 := NetworkXGraphStorage.mk _ _).
    assert (Hgs1 : gs1 = snd (NetworkXGraphStorage.add_node (TaskServiceImpl.graph_node_of t)
                                (TaskService.graph_storage s))).
    { unfold NetworkXGraphStorage.add_node. cbn [TaskServiceImpl.graph_node_of GraphNode.id].
      rewrite Hnode. reflexivity. }
    assert (Hwf1 : NetworkXGraphStorage.wf gs1)
      by (rewrite Hgs1; apply storage_wf_add_node; exact Hwf).
    assert (Hc1 : NetworkXGraphStorage.has_cycle gs1 = Ok false)
      by (rewrite Hgs1; apply storage_add_node_acyclic; assumption).
    destruct (TaskServiceImpl.add_dependencies_if_any t (TaskService.mk tb1 gs1))
      as [r2 s2] eqn:Ed.
    destruct (add_dependencies_if_any_inv t (TaskService.mk tb1 gs1) _ _ Hwf1 Hc1 Ed)
      as [Ht [Hwf2 [Hc2 Hn2]]].
    cbn [TaskService.graph_storage TaskService.table_storage] in Ht, Hn2.
    exists (match r2 with Ok _ => Ok t | Raise e => Raise e end), s2.
    split; [destruct r2; reflexivity|]. right. split; [exact Hfresh|]. split.
    + split; [exact Hwf2|]. split; [exact Hc2|]. split.
      * rewrite Ht. apply holds_create; assumption.
      * intros i. rewrite (in_nodes_same _ _ Hn2 i), Hgs1, in_nodes_add_node.
        rewrite map_app, in_app_iff, Hagree. simpl. intuition congruence.
    + exact Ht.
Qed.

Lemma update_task_consistent s xs t :
  consistent s xs -> Task.valid t ->
  exists r s',
    TaskServiceImpl.update_task t s = (r, s') /\
    ((~ In (Task.id t) (map Task.id xs) /\
      r = Raise (ValueError ("Item with ID " ++ uuid_text (Task.id t) ++ " doesn't exist")) /\
      s' = s) \/
     (In (Task.id t) (map Task.id xs) /\ consistent s' (replace_task t xs))).
Proof.
  intros Hcons Hv. pose proof Hcons as [Hwf [Hc [Hh Hagree]]].
  unfold TaskServiceImpl.update_task.
  unfold TaskService.bind at 1. unfold TaskService.on_table at 1.
  unfold DuckDBTableStorage.update.
  destruct (DuckDBTableStorage.exists_ (Task.id t) (TaskService.table_storage s)) eqn:E;
    cbn [negb].
  - pose proof (proj1 (exists_In _ xs _ Hh) E) as Hin.
    pose proof (holds_update _ xs t Hh Hv) as Hh1.
    set (tb1 := DuckDBTableStorage.mk _) in *.
    unfold TaskService.bind at 1. unfold TaskService.on_graph at 1.
    cbn [TaskService.graph_storage TaskService.table_storage].
    destruct (storage_remove_node_wf (Task.id t) _ Hwf) as [b1 [gs1 [Er [_ [Hwf1 _]]]]].
    pose proof (storage_remove_node_acyclic _ _ _ _ Hwf Hc Er) as Hc1.
    rewrite Er.
    unfold TaskService.bind at 1. unfold TaskService.on_graph at 1.
    cbn [TaskService.graph_storage TaskService.table_storage].
    destruct (storage_add_node_ok (TaskServiceImpl.graph_node_of t) gs1) as [b2 Ea].
    rewrite Ea.
    set (gs2 := snd (NetworkXGraphStorage.add_node (TaskServiceImpl.graph_node_of t) gs1)) in *.
    assert (Hwf2 : NetworkXGraphStorage.wf gs2) by (apply storage_wf_add_node; exact Hwf1).
    assert (Hc2 : NetworkXGraphStorage.has_cycle gs2 = Ok false)
      by (apply storage_add_node_acyclic; assumption).
    unfold TaskService.bind at 1.
    destruct (TaskServiceImpl.add_dependencies_if_any t (TaskService.mk tb1 gs2))
      as [r3 s3] eqn:Ed.
    destruct (add_dependencies_if_any_inv t (TaskService.mk tb1 gs2) _ _ Hwf2 Hc2 Ed)
      as [Ht [Hwf3 [Hc3 Hn3]]].
    cbn [TaskService.graph_storage TaskService.table_storage] in Ht, Hn3.
    exists (match r3 with Ok _ => Ok t | Raise e => Raise e end), s3.
    split; [destruct r3; reflexivity|]. right. split; [exact Hin|].
    split; [exact Hwf3|]. split; [exact Hc3|]. split.
    + rewrite Ht. exact Hh1.
    + intros i. rewrite (in_nodes_same _ _ Hn3 i). unfold gs2.
      rewrite in_nodes_add_node, (in_nodes_remove_node _ _ _ _ i Er).
      rewrite map_id_replace, Hagree. cbn [TaskServiceImpl.graph_node_of GraphNode.id].
      split.
      * intros H. destruct (UUID_eq_dec i (Task.id t)); auto.
      * intros [[H _]| ->]; [exact H | apply Hagree; exact Hin].
  - eexists _, _. split; [reflexivity|]. left.
    split; [apply (exists_false_In _ xs _ Hh); exact E|]. split; [reflexivity|].
    destruct s; reflexivity.
Qed.

Lemma delete_task_consistent s xs i :
  consistent s xs ->
  exists b s',
    TaskServiceImpl.delete_task i s = (Ok b, s') /\
    (b = true <-> In i (map Task.id xs)) /\
    consistent s' (without_task i xs) /\
    (b = false -> s' = s).
Proof.
  intros Hcons. pose proof Hcons as [Hwf [Hc [Hh Hagree]]].
  unfold TaskServiceImpl.delete_task.
  unfold TaskService.bind at 1. unfold TaskService.on_table at 1.
  unfold DuckDBTableStorage.delete.
  pose proof (holds_delete _ xs i Hh) as Hh1.
  destruct (storage_remove_node_wf i _ Hwf) as [b1 [gs1 [Er [Hb1 [Hwf1 [Hf1 _]]]]]].
  pose proof (storage_remove_node_acyclic _ _ _ _ Hwf Hc Er) as Hc1.
  assert (Hids : forall k, In k (map Task.id (without_task i xs)) <->
                           In k (map Task.id xs) /\ k <> i).
  { intros k. unfold without_task. rewrite !in_map_iff. split.
    - intros [x [<- Hx]]. apply filter_In in Hx. destruct Hx as [Hx Hb].
      apply negb_true_iff, uuid_eqb_neq in Hb. split; [eauto | exact Hb].
    - intros [[x [<- Hx]] Hne]. exists x. split; [reflexivity|].
      apply filter_In. split; [exact Hx|]. apply negb_true_iff, uuid_eqb_neq. exact Hne. }
  destruct (DuckDBTableStorage.exists_ i (TaskService.table_storage s)) eqn:E; cbn [negb].
  - pose proof (proj1 (exists_In _ xs _ Hh) E) as Hin.
    unfold TaskService.bind at 1. unfold TaskService.on_graph at 1.
    cbn [TaskService.graph_storage TaskService.table_storage]. rewrite Er.
    eexists _, _. split; [reflexivity|].
    assert (b1 = true) as -> by (rewrite Hb1; apply Hagree; exact Hin).
    split; [tauto|]. split; [|discriminate].
    split; [exact Hwf1|]. split; [exact Hc1|]. split; [exact Hh1|].
    intros k. cbn [TaskService.graph_storage].
    rewrite (in_nodes_remove_node _ _ _ _ k Er), Hids, Hagree. tauto.
  - pose proof (proj1 (exists_false_In _ xs _ Hh) E) as Hno.
    unfold TaskService.bind at 1. unfold TaskService.on_graph at 1.
    cbn [TaskService.graph_storage TaskService.table_storage]. rewrite Er.
    eexists _, _. split; [reflexivity|].
    assert (b1 = false) as ->.
    { rewrite Hb1. apply (consistent_fresh_node s xs i Hcons Hno). }
    rewrite (Hf1 eq_refl).
    assert (Hsame : without_task i xs = xs).
    { unfold without_task. apply filter_all. intros x Hx. apply negb_true_iff, uuid_eqb_neq.
      intros Heq. apply Hno. rewrite <- Heq. apply in_map. exact Hx. }
    split; [split; [discriminate | intros Hin; contradiction]|].
    rewrite Hsame. split; [|intros _; destruct s; reflexivity].
    destruct s; exact Hcons.
Qed.

(** What add_edge does to an acyclic store, with the reason of a refusal. *)
Lemma storage_add_edge_full e gs :
  NetworkXGraphStorage.wf gs ->
  NetworkXGraphStorage.has_cycle gs = Ok false ->
  exists b gs',
    NetworkXGraphStorage.add_edge e gs = (Ok b, gs') /\
    NetworkXGraphStorage.wf gs' /\
    NetworkXGraphStorage.has_cycle gs' = Ok false /\
    NetworkXGraphStorage._nodes gs' = NetworkXGraphStorage._nodes gs /\
    (b = false -> gs' = gs) /\
    (b = false <->
     NetworkXGraphStorage.in_nodes gs (GraphEdge.from_id e) = false \/
     NetworkXGraphStorage.in_nodes gs (GraphEdge.to_id e) = false \/
     GraphEdge.from_id e = GraphEdge.to_id e \/
     path (NetworkXGraphStorage._graph gs) (GraphEdge.to_id e) (GraphEdge.from_id e)) /\
    (b = true ->
     forall p, In p (map fst (Nx.edges (NetworkXGraphStorage._graph gs'))) <->
               In p (map fst (Nx.edges (NetworkXGraphStorage._graph gs))) \/
               p = (GraphEdge.from_id e, GraphEdge.to_id e)).
Proof.
  intros Hwf Hc.
  destruct (add_edge_step gs e Hwf Hc) as [b [gs' [Hadd [Hwf' [Hc' [Hf [Ht Hiff]]]]]]].
  exists b, gs'. split; [exact Hadd|]. split; [exact Hwf'|]. split; [exact Hc'|].
  split; [destruct b; [apply Ht; reflexivity | rewrite (Hf eq_refl); reflexivity]|].
  split; [exact Hf|]. split.
  - rewrite Hiff. pose proof Hwf as [Hg _]. apply has_cycle_false in Hc. split.
    + intros [H|[H|H]]; [auto | auto |]. right. right.
      destruct (is_dag_false_cycle _ (wf_add_edge _ _ _ _ Hg) H) as [a Ha].
      apply (add_edge_cycle_inv _ _ _ _ a (is_dag_no_cycle _ Hg Hc) Ha).
    + intros [H|[H|H]]; [auto | auto |]. right. right.
      apply add_edge_closes_cycle; [exact Hg | exact H].
  - intros Hb p. destruct (Ht Hb) as [_ [_ Hshape]]. rewrite Hshape. apply add_edge_pairs.
Qed.

Lemma find_id_Some xs i x :
  find (fun y => uuid_eqb (Task.id y) i) xs = Some x -> In x xs /\ Task.id x = i.
Proof.
  intros H. apply find_some in H. destruct H as [H1 H2]. apply uuid_eqb_eq in H2. auto.
Qed.

Lemma find_id_stored xs i :
  In i (map Task.id xs) -> exists x, find (fun y => uuid_eqb (Task.id y) i) xs = Some x.
Proof.
  intros H. destruct (find _ xs) as [x|] eqn:E; [eauto|]. exfalso.
  apply in_map_iff in H. destruct H as [x [Hx Hin]].
  pose proof (find_none _ _ E x Hin) as Hn. simpl in Hn. apply uuid_eqb_neq in Hn. contradiction.
Qed.

Lemma add_dependency_consistent s xs a b :
  consistent s xs ->
  exists r s',
    TaskServiceImpl.add_dependency a b s = (r, s') /\
    ((~ In a (map Task.id xs) /\
      r = Raise (ValueError ("Task " ++ uuid_text a ++ " not found")) /\ s' = s) \/
     (In a (map Task.id xs) /\ ~ In b (map Task.id xs) /\
      r = Raise (ValueError ("Dependency task " ++ uuid_text b ++ " not found")) /\ s' = s) \/
     (In a (map Task.id xs) /\ In b (map Task.id xs) /\
      (a = b \/ path (NetworkXGraphStorage._graph (TaskService.graph_storage s)) b a) /\
      r = Ok false /\ s' = s) \/
     (exists tk,
        In tk xs /\ Task.id tk = a /\ In b (map Task.id xs) /\
        ~ (a = b \/ path (NetworkXGraphStorage._graph (TaskService.graph_storage s)) b a) /\
        r = Ok true /\
        consistent s'
          (replace_task
             (Task.with_dependencies tk (Task.dependencies tk ++ [TaskDependency.mk b])) xs) /\
        forall p,
          In p (map fst (Nx.edges (NetworkXGraphStorage._graph (TaskService.graph_storage s')))) <->
          In p (map fst (Nx.edges (NetworkXGraphStorage._graph (TaskService.graph_storage s)))) \/
          p = (a, b))).
Proof.
  intros Hcons. pose proof Hcons as [Hwf [Hc [Hh Hagree]]].
  unfold TaskServiceImpl.add_dependency.
  unfold TaskService.bind at 1. unfold TaskService.read_table at 1.
  rewrite (get_by_id_holds _ xs a Hh).
  unfold TaskService.bind at 1. unfold TaskService.read_table at 1.
  rewrite (get_by_id_holds _ xs b Hh).
  destruct (find (fun y => uuid_eqb (Task.id y) a) xs) as [tk|] eqn:Ea.
  2:{ eexists _, _. split; [reflexivity|]. left. split; [|split; reflexivity].
      intros Hin. destruct (find_id_stored xs a Hin) as [x Hx]. congruence. }
  apply find_id_Some in Ea. destruct Ea as [Htk Hida].
  assert (Hina : In a (map Task.id xs)) by (rewrite <- Hida; apply in_map; exact Htk).
  destruct (find (fun y => uuid_eqb (Task.id y) b) xs) as [tb|] eqn:Eb.
  2:{ eexists _, _. split; [reflexivity|]. right. left. split; [exact Hina|].
      split; [|split; reflexivity].
      intros Hin. destruct (find_id_stored xs b Hin) as [x Hx]. congruence. }
  apply find_id_Some in Eb. destruct Eb as [Htb Hidb].
  assert (Hinb : In b (map Task.id xs)) by (rewrite <- Hidb; apply in_map; exact Htb).
  unfold TaskService.bind at 1. unfold TaskService.on_graph at 1.
  destruct (storage_add_edge_full (GraphEdge.depends_on a b) _ Hwf Hc)
    as [ok [gs' [Hadd [Hwf' [Hc' [Hn' [Hf [Hiff Hpairs]]]]]]]].
  rewrite Hadd. cbn [GraphEdge.from_id GraphEdge.to_id GraphEdge.depends_on] in Hiff, Hpairs.
  assert (Hreason : ok = false <->
            a = b \/ path (NetworkXGraphStorage._graph (TaskService.graph_storage s)) b a).
  { rewrite Hiff. split; [|auto]. intros [H|[H|H]]; [| |exact H].
    - apply Hagree in Hina. congruence.
    - apply Hagree in Hinb. congruence. }
  destruct ok.
  - unfold TaskService.bind at 1. unfold TaskService.on_table at 1.
    cbn [TaskService.graph_storage TaskService.table_storage].
    set (tk' := Task.with_dependencies tk (Task.dependencies tk ++ [TaskDependency.mk b])).
    assert (Hv' : Task.valid tk').
    { apply valid_with_dependencies. destruct Hh as [_ [Hv _]]. apply Hv. exact Htk. }
    assert (Hid' : Task.id tk' = a) by (destruct tk; exact Hida).
    unfold DuckDBTableStorage.update.
    assert (E : DuckDBTableStorage.exists_ (Task.id tk') (TaskService.table_storage s) = true).
    { apply (exists_In _ xs _ Hh). rewrite Hid'. exact Hina. }
    rewrite E. cbn [negb].
    eexists _, _. split; [reflexivity|]. right. right. right. exists tk.
    split; [exact Htk|]. split; [exact Hida|]. split; [exact Hinb|]. split.
    { intros H. apply Hreason in H. discriminate. }
    split; [reflexivity|]. split.
    + split; [exact Hwf'|]. split; [exact Hc'|]. split.
      * apply (holds_update _ xs tk' Hh Hv').
      * intros i. cbn [TaskService.graph_storage]. rewrite (in_nodes_same _ _ Hn' i).
        rewrite map_id_replace. apply Hagree.
    + apply Hpairs. reflexivity.
  - eexists _, _. split; [reflexivity|]. right. right. left.
    split; [exact Hina|]. split; [exact Hinb|]. split; [apply Hreason; reflexivity|].
    split; [reflexivity|]. rewrite (Hf eq_refl). destruct s; reflexivity.
Qed.

Lemma remove_dependency_consistent s xs a b :
  consistent s xs ->
  exists ok s',
    TaskServiceImpl.remove_dependency a b s = (Ok ok, s') /\
    (ok = true <->
     In (a, b, "depends_on") (Nx.edges (NetworkXGraphStorage._graph (TaskService.graph_storage s)))) /\
    (ok = false -> s' = s) /\
    (ok = true ->
     exists tk,
       In tk xs /\ Task.id tk = a /\
       consistent s'
         (replace_task
            (Task.with_dependencies tk
               (filter (fun dep => negb (uuid_eqb (TaskDependency.task_id dep) b))
                  (Task.dependencies tk))) xs) /\
       TaskService.graph_storage s' =
       NetworkXGraphStorage.mk
         (Nx.mkDiGraph (Nx.nodes (NetworkXGraphStorage._graph (TaskService.graph_storage s)))
            (filter (fun x => negb (Nx.edge_is a b x))
               (Nx.edges (NetworkXGraphStorage._graph (TaskService.graph_storage s)))))
         (NetworkXGraphStorage._nodes (TaskService.graph_storage s))).
Proof.
  intros Hcons. pose proof Hcons as [Hwf [Hc [Hh Hagree]]].
  unfold TaskServiceImpl.remove_dependency.
  unfold TaskService.bind at 1. unfold TaskService.on_graph at 1.
  destruct (storage_remove_edge_wf (GraphEdge.depends_on a b) _ Hwf)
    as [ok [gs' [Hrem [Hiff [Hwf' [Hf Ht]]]]]].
  pose proof (storage_remove_edge_acyclic _ _ _ _ Hwf Hc Hrem) as Hc'.
  rewrite Hrem. cbn [GraphEdge.from_id GraphEdge.to_id GraphEdge.depends_on
                       GraphEdge.relationship] in Hiff, Ht.
  destruct ok.
  - unfold TaskService.bind at 1. unfold TaskService.read_table at 1.
    cbn [TaskService.graph_storage TaskService.table_storage].
    rewrite (get_by_id_holds _ xs a Hh).
    assert (Hina : In a (map Task.id xs)).
    { apply Hagree. apply in_nodes_In. destruct Hwf as [[_ [_ Hi]] [_ Hag]].
      apply Hag. apply (Hi a b "depends_on"). apply Hiff. reflexivity. }
    destruct (find_id_stored xs a Hina) as [tk Ea]. rewrite Ea.
    apply find_id_Some in Ea. destruct Ea as [Htk Hida].
    unfold TaskService.bind at 1. unfold TaskService.on_table at 1.
    cbn [TaskService.graph_storage TaskService.table_storage].
    set (tk' := Task.with_dependencies tk _).
    assert (Hv' : Task.valid tk').
    { apply valid_with_dependencies. destruct Hh as [_ [Hv _]]. apply Hv. exact Htk. }
    assert (Hid' : Task.id tk' = a) by (destruct tk; exact Hida).
    unfold DuckDBTableStorage.update.
    assert (E : DuckDBTableStorage.exists_ (Task.id tk') (TaskService.table_storage s) = true).
    { apply (exists_In _ xs _ Hh). rewrite Hid'. exact Hina. }
    rewrite E. cbn [negb].
    eexists _, _. split; [reflexivity|]. split; [exact Hiff|]. split; [discriminate|].
    intros _. exists tk. split; [exact Htk|]. split; [exact Hida|]. split.
    + split; [exact Hwf'|]. split; [exact Hc'|]. split.
      * apply (holds_update _ xs tk' Hh Hv').
      * intros i. cbn [TaskService.graph_storage].
        rewrite (Ht eq_refl). unfold NetworkXGraphStorage.in_nodes. simpl.
        rewrite map_id_replace. apply Hagree.
    + cbn [TaskService.graph_storage]. rewrite (Ht eq_refl). reflexivity.
  - eexists _, _. split; [reflexivity|]. split; [exact Hiff|].
    split; [|discriminate]. intros _. rewrite (Hf eq_refl). destruct s; reflexivity.
Qed.

Lemma clear_all_data_consistent s :
  consistent (snd (TaskServiceImpl.clear_all_data s)) [].
Proof.
  simpl. split; [apply storage_wf_init|]. split; [vm_compute; reflexivity|]. split.
  - split; [reflexivity|]. split; [intros x []| constructor].
  - intros i. simpl. split; [intros [] | discriminate].
Qed.

Lemma service_call_consistent c s xs :
  consistent s xs -> ServiceCall.valid c ->
  exists xs', consistent (snd (ServiceCall.call c s)) xs'.
Proof.
  intros Hcons Hv. destruct c as [t|t|i|a b|a b|]; simpl in *; unfold ServiceCall.void.
  - destruct (create_task_consistent s xs t Hcons Hv) as [r [s' [-> [[_ [_ ->]]|[_ [H _]]]]]];
      destruct r; simpl; eauto.
  - destruct (update_task_consistent s xs t Hcons Hv) as [r [s' [-> [[_ [_ ->]]|[_ H]]]]];
      destruct r; simpl; eauto.
  - destruct (delete_task_consistent s xs i Hcons) as [b [s' [-> [_ [H _]]]]]. simpl. eauto.
  - destruct (add_dependency_consistent s xs a b Hcons)
      as [r [s' [-> [[_ [_ ->]]|[[_ [_ [_ ->]]]|[[_ [_ [_ [_ ->]]]]|[tk [_ [_ [_ [_ [_ [H _]]]]]]]]]]]]];
      destruct r; simpl; eauto.
  - destruct (remove_dependency_consistent s xs a b Hcons) as [ok [s' [-> [_ [Hf Ht]]]]].
    simpl. destruct ok.
    + destruct (Ht eq_refl) as [tk [_ [_ [H _]]]]. eauto.
    + rewrite (Hf eq_refl). eauto.
  - exists []. apply clear_all_data_consistent.
Qed.

Lemma service_run_consistent cs :
  forall s xs,
    consistent s xs -> Forall ServiceCall.valid cs ->
    exists xs', consistent (ServiceCall.run cs s) xs'.
Proof.
  induction cs as [|c cs IH]; intros s xs Hcons Hv; simpl; [eauto|].
  inversion Hv; subst.
  destruct (service_call_consistent c s xs Hcons H1) as [xs' H']. eauto.
Qed.

Lemma empty_service_consistent : consistent Sample.empty_service [].
Proof.
  split; [apply storage_wf_init|]. split; [vm_compute; reflexivity|]. split.
  - split; [reflexivity|]. split; [intros x []| constructor].
  - intros i. simpl. split; [intros [] | discriminate].
Qed.

(** * What holds in every state the service can be in *)

Lemma In_found tb xs i x :
  holds tb xs -> (In x (found tb i) <-> In x xs /\ Task.id x = i).
Proof.
  intros H. rewrite (found_holds tb xs i H). pose proof H as [_ [_ Hnd]].
  destruct (find (fun y => uuid_eqb (Task.id y) i) xs) as [y|] eqn:E.
  - pose proof (find_id_Some xs i y E) as [Hy Hid]. split.
    + intros [<-|[]]. auto.
    + intros [Hx Hxi]. left.
      pose proof (find_id_In xs i x Hnd Hx Hxi) as E'. congruence.
  - split; [intros []|]. intros [Hx Hxi].
    pose proof (find_id_In xs i x Hnd Hx Hxi) as E'. congruence.
Qed.

Lemma NoDup_found tb xs i : holds tb xs -> NoDup (found tb i).
Proof.
  intros H. rewrite (found_holds tb xs i H).
  destruct (find _ xs); repeat constructor. intros [].
Qed.

Lemma execution_order_consistent s xs :
  consistent s xs ->
  exists tasks,
    TaskServiceImpl.get_execution_order s = (Ok tasks, s) /\
    Permutation tasks xs /\
    forall tu tv,
      In tu xs -> In tv xs ->
      In (Task.id tv)
         (NetworkXGraphStorage.get_dependencies (Task.id tu) (TaskService.graph_storage s)) ->
      before tasks tv tu.
Proof.
  intros [Hwf [Hc [Hh Hagree]]].
  destruct (storage_topological_sort_ok _ Hwf Hc) as [ids [Hts [Hnd [Hall Hord]]]].
  unfold TaskServiceImpl.get_execution_order, TaskService.bind, TaskService.read_graph.
  rewrite Hts, (fetch_tasks_holds s xs (rev ids) Hh).
  eexists. split; [reflexivity|]. split.
  - apply NoDup_Permutation.
    + apply NoDup_flat_map_disjoint.
      * apply NoDup_rev. exact Hnd.
      * intros i _. apply (NoDup_found _ xs i Hh).
      * intros i i' x _ _ Hx Hx'. apply (In_found _ xs i x Hh) in Hx.
        apply (In_found _ xs i' x Hh) in Hx'. destruct Hx, Hx'. congruence.
    + apply (NoDup_map_inv Task.id). apply Hh.
    + intros x. rewrite in_flat_map. split.
      * intros [i [_ Hx]]. apply (In_found _ xs i x Hh) in Hx. apply Hx.
      * intros Hx. exists (Task.id x). split.
        -- apply -> in_rev. apply Hall. destruct Hwf as [_ [_ Hag]]. apply Hag.
           apply in_nodes_In. apply Hagree. apply in_map. exact Hx.
        -- apply (In_found _ xs (Task.id x) x Hh). auto.
  - intros tu tv Htu Htv Hdep.
    apply (get_dependencies_In _ _ _ Hwf) in Hdep. apply In_edge_pair in Hdep.
    destruct Hdep as [r Hedge].
    assert (Hb : before ids (Task.id tu) (Task.id tv)).
    { apply (ordered_before _ _ Hord).
      - apply Hall. destruct Hwf as [[_ [_ Hi]] _]. apply (Hi _ _ _ Hedge).
      - apply In_predecessors. eauto. }
    apply before_flat_map with (a := Task.id tv) (b := Task.id tu).
    + apply before_rev. exact Hb.
    + apply (In_found _ xs _ tv Hh). auto.
    + apply (In_found _ xs _ tu Hh). auto.
Qed.

(** X16: in every state reached from a new service by create_task,
    update_task, delete_task, add_dependency, remove_dependency and
    clear_all_data calls on valid tasks, whatever they returned or
    raised, the nodes of the graph are the identifiers of the stored
    tasks, detect_circular_dependencies() is False, and
    get_execution_order() returns every stored task exactly once, each
    after the tasks it depends on in the graph. *)
Theorem service_state_consistent :
  forall cs : list ServiceCall.t,
    Forall ServiceCall.valid cs ->
    let s := ServiceCall.run cs Sample.empty_service in
    exists xs tasks,
      consistent s xs /\
      TaskServiceImpl.list_tasks [] None s = (Ok xs, s) /\
      TaskServiceImpl.detect_circular_dependencies s = (Ok false, s) /\
      TaskServiceImpl.get_execution_order s = (Ok tasks, s) /\
      Permutation tasks xs /\
      forall tu tv,
        In tu xs -> In tv xs ->
        In (Task.id tv)
           (NetworkXGraphStorage.get_dependencies (Task.id tu) (TaskService.graph_storage s)) ->
        before tasks tv tu.
Proof.
  intros cs Hv s.
  destruct (service_run_consistent cs _ [] empty_service_consistent Hv) as [xs Hcons].
  fold s in Hcons.
  destruct (execution_order_consistent s xs Hcons) as [tasks [Hexec [Hperm Hbefore]]].
  exists xs, tasks. split; [exact Hcons|]. split.
  { unfold TaskServiceImpl.list_tasks, TaskService.bind, TaskService.read_table.
    destruct Hcons as [_ [_ [Hh _]]]. rewrite (list_all_holds _ xs Hh). reflexivity. }
  split.
  { unfold TaskServiceImpl.detect_circular_dependencies, TaskService.read_graph.
    destruct Hcons as [_ [Hc _]]. rewrite Hc. reflexivity. }
  auto.
Qed.

Lemma service_state_consistent_sample :
  ServiceCall.run
    [ServiceCall.create_task Sample.database_task; ServiceCall.create_task Sample.api_task;
     ServiceCall.create_task Sample.orphan_task; ServiceCall.update_task Sample.database_done;
     ServiceCall.add_dependency Sample.uuid_a Sample.uuid_b;
     ServiceCall.add_dependency Sample.uuid_b Sample.uuid_a]
    Sample.empty_service
  = snd (ServiceCall.call (ServiceCall.add_dependency Sample.uuid_b Sample.uuid_a)
           (snd (ServiceCall.call (ServiceCall.add_dependency Sample.uuid_a Sample.uuid_b)
              (snd (TaskServiceImpl.update_task Sample.database_done
                 (snd (TaskServiceImpl.create_task Sample.orphan_task Sample.two_tasks))))))) /\
  exists xs tasks,
    TaskServiceImpl.get_execution_order
      (ServiceCall.run
         [ServiceCall.create_task Sample.database_task; ServiceCall.create_task Sample.api_task;
          ServiceCall.create_task Sample.orphan_task; ServiceCall.update_task Sample.database_done;
          ServiceCall.add_dependency Sample.uuid_a Sample.uuid_b;
          ServiceCall.add_dependency Sample.uuid_b Sample.uuid_a]
         Sample.empty_service)
    = (Ok tasks, ServiceCall.run
         [ServiceCall.create_task Sample.database_task; ServiceCall.create_task Sample.api_task;
          ServiceCall.create_task Sample.orphan_task; ServiceCall.update_task Sample.database_done;
          ServiceCall.add_dependency Sample.uuid_a Sample.uuid_b;
          ServiceCall.add_dependency Sample.uuid_b Sample.uuid_a]
         Sample.empty_service) /\
    Permutation tasks xs.
Proof.
  split; [vm_compute; reflexivity|].
  destruct (service_state_consistent
              [ServiceCall.create_task Sample.database_task; ServiceCall.create_task Sample.api_task;
               ServiceCall.create_task Sample.orphan_task; ServiceCall.update_task Sample.database_done;
               ServiceCall.add_dependency Sample.uuid_a Sample.uuid_b;
               ServiceCall.add_dependency Sample.uuid_b Sample.uuid_a])
    as [xs [tasks [_ [_ [_ [H1 [H2 _]]]]]]].
  - repeat constructor; vm_compute; reflexivity.
  - exists xs, tasks. split; [exact H1 | exact H2].
Defined.

(** * The methods of the service, one by one *)

Lemma two_tasks_consistent :
  consistent Sample.two_tasks [Sample.database_task; Sample.api_task].
Proof.
  split; [exact two_tasks_graph_wf|]. split; [vm_compute; reflexivity|].
  split; [exact two_tasks_holds|].
  intros i. rewrite in_nodes_In.
  assert (E : map fst (NetworkXGraphStorage._nodes (TaskService.graph_storage Sample.two_tasks))
              = [Sample.uuid_a; Sample.uuid_b]) by (vm_compute; reflexivity).
  rewrite E. simpl. tauto.
Qed.

Lemma filter_rows_fresh rows r i :
  existsb (DuckDBTableStorage.has_id i) rows = false ->
  DuckDBTableStorage.has_id i r = true ->
  filter (fun x => negb (DuckDBTableStorage.has_id i x)) (rows ++ [r]) = rows.
Proof.
  intros Hno Hr. rewrite filter_app. simpl. rewrite Hr. simpl. rewrite app_nil_r.
  apply filter_all. intros x Hx. apply negb_true_iff.
  destruct (DuckDBTableStorage.has_id i x) eqn:E; [|reflexivity].
  assert (existsb (DuckDBTableStorage.has_id i) rows = true)
    by (apply existsb_exists; eauto).
  congruence.
Qed.

(** X17: create_task changes nothing when it fails on the identifier:
    on an identifier already in the table it raises "already exists";
    on one that is new to the table but already a node of the graph it
    raises "Failed to create graph node" after deleting the record it
    had just written, so the service is exactly as before. *)
Theorem create_task_identifier_failures :
  forall (s : TaskService.t) (t : Task.t),
    (DuckDBTableStorage.exists_ (Task.id t) (TaskService.table_storage s) = true ->
     TaskServiceImpl.create_task t s =
       (Raise (ValueError ("Item with ID " ++ uuid_text (Task.id t) ++ " already exists")), s)) /\
    (DuckDBTableStorage.exists_ (Task.id t) (TaskService.table_storage s) = false ->
     NetworkXGraphStorage.in_nodes (TaskService.graph_storage s) (Task.id t) = true ->
     TaskServiceImpl.create_task t s =
       (Raise (ValueError ("Failed to create graph node for task " ++ uuid_text (Task.id t))), s)).
Proof.
  intros s t. split; intros E; [|intros Hn];
    unfold TaskServiceImpl.create_task;
    unfold TaskService.bind at 1; unfold TaskService.on_table at 1;
    unfold DuckDBTableStorage.create; rewrite E.
  - destruct s; reflexivity.
  -
    unfold TaskService.bind at 1. unfold TaskService.on_graph at 1.
    cbn [TaskService.graph_storage TaskService.table_storage].
    unfold NetworkXGraphStorage.add_node.
    cbn [TaskServiceImpl.graph_node_of GraphNode.id]. rewrite Hn. cbn [negb].
    unfold TaskService.bind at 1. unfold TaskService.on_table at 1.
    cbn [TaskService.graph_storage TaskService.table_storage].
    unfold DuckDBTableStorage.delete, DuckDBTableStorage.exists_.
    cbn [DuckDBTableStorage.rows].
    rewrite existsb_app. cbn [existsb].
    change (DuckDBTableStorage.has_id (Task.id t)
              (DuckDBTableStorage.mkRow (uuid_text (Task.id t)) (Task.model_dump t)))
      with (String.eqb (uuid_text (Task.id t)) (uuid_text (Task.id t))).
    rewrite String.eqb_refl, orb_true_r. cbn [negb orb].
    rewrite filter_rows_fresh; [| exact E | apply String.eqb_refl].
    unfold TaskService.raise. destruct s as [[rows] gs]. reflexivity.
Qed.

Lemma create_task_identifier_failures_sample :
  TaskServiceImpl.create_task Sample.database_task Sample.two_tasks =
    (Raise (ValueError ("Item with ID " ++ uuid_text Sample.uuid_a ++ " already exists")),
     Sample.two_tasks) /\
  TaskServiceImpl.create_task Sample.database_task
    (TaskService.mk DuckDBTableStorage.init (TaskService.graph_storage Sample.two_tasks)) =
    (Raise (ValueError ("Failed to create graph node for task " ++ uuid_text Sample.uuid_a)),
     TaskService.mk DuckDBTableStorage.init (TaskService.graph_storage Sample.two_tasks)).
Proof.
  split.
  - apply (proj1 (create_task_identifier_failures Sample.two_tasks Sample.database_task)).
    vm_compute. reflexivity.
  - apply (proj2 (create_task_identifier_failures
                    (TaskService.mk DuckDBTableStorage.init
                       (TaskService.graph_storage Sample.two_tasks))
                    Sample.database_task)); vm_compute; reflexivity.
Defined.

Lemma get_task_holds s xs i :
  holds (TaskService.table_storage s) xs ->
  TaskServiceImpl.get_task i s = (Ok (find (fun x => uuid_eqb (Task.id x) i) xs), s).
Proof.
  intros H. unfold TaskServiceImpl.get_task, TaskService.read_table.
  rewrite (get_by_id_holds _ xs i H). reflexivity.
Qed.

Lemma find_without_task i j xs :
  j <> i ->
  find (fun x => uuid_eqb (Task.id x) j) (without_task i xs)
  = find (fun x => uuid_eqb (Task.id x) j) xs.
Proof.
  intros Hne. unfold without_task. induction xs as [|x xs IH]; simpl; [reflexivity|].
  uuid_cases (Task.id x) i; simpl.
  - assert (uuid_eqb (Task.id x) j = false) as -> by (apply uuid_eqb_neq; congruence).
    exact IH.
  - destruct (uuid_eqb (Task.id x) j); [reflexivity | exact IH].
Qed.

Lemma delete_task_graph i s r s' :
  TaskServiceImpl.delete_task i s = (r, s') ->
  TaskService.graph_storage s'
  = snd (NetworkXGraphStorage.remove_node i (TaskService.graph_storage s)).
Proof.
  unfold TaskServiceImpl.delete_task, TaskService.bind, TaskService.on_table,
    TaskService.on_graph, TaskService.ret.
  destruct (DuckDBTableStorage.delete i (TaskService.table_storage s)) as [b0 tb0].
  cbn [TaskService.graph_storage TaskService.table_storage].
  destruct (NetworkXGraphStorage.remove_node i (TaskService.graph_storage s)) as [[b1|e] gs1];
    intros [= <- <-]; reflexivity.
Qed.

(** X18: delete_task returns True exactly when the task is stored.
    Afterwards get_task returns None for it, the graph has neither its
    node nor an edge that touches it, and every other task is returned
    by get_task as before: the record of a task that depended on the
    deleted one still lists it. *)
Theorem delete_task_spec :
  forall (s : TaskService.t) (xs : list Task.t) (task_id : UUID),
    consistent s xs ->
    exists b s',
      TaskServiceImpl.delete_task task_id s = (Ok b, s') /\
      (b = true <-> In task_id (map Task.id xs)) /\
      (b = false -> s' = s) /\
      consistent s' (without_task task_id xs) /\
      TaskServiceImpl.get_task task_id s' = (Ok None, s') /\
      NetworkXGraphStorage.get_node task_id (TaskService.graph_storage s') = None /\
      (forall e, In e (NetworkXGraphStorage.get_all_edges (TaskService.graph_storage s')) <->
                 In e (NetworkXGraphStorage.get_all_edges (TaskService.graph_storage s)) /\
                 GraphEdge.from_id e <> task_id /\ GraphEdge.to_id e <> task_id) /\
      (forall x, In x xs -> Task.id x <> task_id ->
                 TaskServiceImpl.get_task (Task.id x) s' = (Ok (Some x), s')).
Proof.
  intros s xs i Hcons.
  destruct (delete_task_consistent s xs i Hcons) as [b [s' [Hdel [Hb [Hcons' Hf]]]]].
  exists b, s'. split; [exact Hdel|]. split; [exact Hb|]. split; [exact Hf|].
  split; [exact Hcons'|].
  pose proof Hcons as [Hwf [_ [Hh _]]]. pose proof Hcons' as [Hwf' [_ [Hh' Hagree']]].
  assert (Hgone : ~ In i (map Task.id (without_task i xs))).
  { intros Hin. apply in_map_iff in Hin. destruct Hin as [x [Hx Hin]].
    apply filter_In in Hin. destruct Hin as [_ Hn]. apply negb_true_iff, uuid_eqb_neq in Hn.
    contradiction. }
  split; [|split; [|split]].
  - rewrite (get_task_holds s' _ i Hh'). rewrite find_id_None by exact Hgone. reflexivity.
  - apply in_nodes_get_node. destruct (NetworkXGraphStorage.in_nodes _ i) eqn:E; [|reflexivity].
    apply Hagree' in E. contradiction.
  - rewrite (delete_task_graph i s _ _ Hdel).
    destruct (storage_remove_node_wf i _ Hwf) as [b1 [gs1 [Er [Hb1 [Hwf1 [Hf1 Ht1]]]]]].
    rewrite Er. cbn [snd].
    intros e. rewrite (In_get_all_edges gs1 e Hwf1), (In_get_all_edges _ e Hwf).
    destruct b1.
    + rewrite (Ht1 eq_refl). simpl. rewrite filter_In, negb_true_iff, touches_false. simpl.
      split; intros [H1 [H2 H3]]; auto.
    + rewrite (Hf1 eq_refl). split; [|tauto]. intros Hin. split; [exact Hin|].
      destruct Hwf as [[_ [_ Hi]] [_ Hag]]. destruct (Hi _ _ _ Hin) as [Hu Hv].
      assert (Hn : ~ In i (Nx.nodes (NetworkXGraphStorage._graph (TaskService.graph_storage s)))).
      { rewrite <- Hag. rewrite <- in_nodes_In. rewrite <- Hb1. discriminate. }
      split; intros Heq; rewrite Heq in *; contradiction.
  - intros x Hx Hne. rewrite (get_task_holds s' _ (Task.id x) Hh').
    rewrite find_without_task by exact Hne.
    rewrite (find_id_In xs (Task.id x) x); [reflexivity | apply Hh | exact Hx | reflexivity].
Qed.

Lemma delete_task_spec_two_tasks :
  exists b s',
    TaskServiceImpl.delete_task Sample.uuid_a Sample.two_tasks = (Ok b, s') /\
    b = true /\
    TaskServiceImpl.get_task Sample.uuid_a s' = (Ok None, s') /\
    TaskServiceImpl.get_task Sample.uuid_b s' = (Ok (Some Sample.api_task), s') /\
    Task.dependencies Sample.api_task = [TaskDependency.mk Sample.uuid_a].
Proof.
  destruct (delete_task_spec Sample.two_tasks [Sample.database_task; Sample.api_task]
              Sample.uuid_a two_tasks_consistent)
    as [b [s' [H [Hb [_ [_ [Hget [_ [_ Hother]]]]]]]]].
  exists b, s'. split; [exact H|]. split.
  - apply Hb. left. reflexivity.
  - split; [exact Hget|]. split; [|reflexivity].
    apply (Hother Sample.api_task); [right; left; reflexivity | discriminate].
Defined.

(** * add_dependency and remove_dependency *)

Lemma find_replace_same item xs i :
  Task.id item = i ->
  In i (map Task.id xs) ->
  find (fun x => uuid_eqb (Task.id x) i) (replace_task item xs) = Some item.
Proof.
  intros <-.
  unfold replace_task. induction xs as [|x xs IH]; intros Hin; [destruct Hin|].
  simpl. uuid_cases (Task.id x) (Task.id item).
  - rewrite uuid_eqb_refl. reflexivity.
  - assert (uuid_eqb (Task.id x) (Task.id item) = false) as ->
        by (apply uuid_eqb_neq; exact E).
    apply IH. destruct Hin as [Hin|Hin]; [contradiction | exact Hin].
Qed.

Lemma find_replace_other item xs j :
  j <> Task.id item ->
  find (fun x => uuid_eqb (Task.id x) j) (replace_task item xs)
  = find (fun x => uuid_eqb (Task.id x) j) xs.
Proof.
  intros Hne. unfold replace_task. induction xs as [|x xs IH]; simpl; [reflexivity|].
  uuid_cases (Task.id x) (Task.id item).
  - assert (uuid_eqb (Task.id item) j = false) as -> by (apply uuid_eqb_neq; congruence).
    assert (uuid_eqb (Task.id x) j = false) as -> by (apply uuid_eqb_neq; congruence).
    exact IH.
  - destruct (uuid_eqb (Task.id x) j); [reflexivity | exact IH].
Qed.

Lemma id_with_dependencies x deps : Task.id (Task.with_dependencies x deps) = Task.id x.
Proof. destruct x; reflexivity. Qed.

(** X19: add_dependency(a, b) raises ValueError and changes nothing when
    a or b is not stored; returns False and changes nothing when a = b
    or b already depends, directly or not, on a; and otherwise returns
    True, the graph then has the edge a -> b and stays acyclic, and
    the record of a lists b at the end of its dependencies (a second
    time if it was listed already).  No other record changes. *)
Theorem add_dependency_spec :
  forall (s : TaskService.t) (xs : list Task.t) (task_id depends_on_id : UUID),
    consistent s xs ->
    exists r s',
      TaskServiceImpl.add_dependency task_id depends_on_id s = (r, s') /\
      ((~ In task_id (map Task.id xs) /\
        r = Raise (ValueError ("Task " ++ uuid_text task_id ++ " not found")) /\ s' = s) \/
       (In task_id (map Task.id xs) /\ ~ In depends_on_id (map Task.id xs) /\
        r = Raise (ValueError ("Dependency task " ++ uuid_text depends_on_id ++ " not found")) /\
        s' = s) \/
       (In task_id (map Task.id xs) /\ In depends_on_id (map Task.id xs) /\
        (task_id = depends_on_id \/
         path (NetworkXGraphStorage._graph (TaskService.graph_storage s)) depends_on_id task_id) /\
        r = Ok false /\ s' = s) \/
       (exists tk,
          In tk xs /\ Task.id tk = task_id /\ In depends_on_id (map Task.id xs) /\
          ~ (task_id = depends_on_id \/
             path (NetworkXGraphStorage._graph (TaskService.graph_storage s))
               depends_on_id task_id) /\
          r = Ok true /\
          TaskServiceImpl.get_task task_id s' =
            (Ok (Some (Task.with_dependencies tk
                         (Task.dependencies tk ++ [TaskDependency.mk depends_on_id]))), s') /\
          In depends_on_id
             (NetworkXGraphStorage.get_dependencies task_id (TaskService.graph_storage s')) /\
          TaskServiceImpl.detect_circular_dependencies s' = (Ok false, s') /\
          forall x, In x xs -> Task.id x <> task_id ->
                    TaskServiceImpl.get_task (Task.id x) s' = (Ok (Some x), s'))).
Proof.
  intros s xs a b Hcons.
  destruct (add_dependency_consistent s xs a b Hcons) as [r [s' [Hadd Hcases]]].
  exists r, s'. split; [exact Hadd|].
  destruct Hcases as [H|[H|[H|[tk [Htk [Hid [Hinb [Hno [Hr [Hcons' Hpairs]]]]]]]]]]; auto.
  right. right. right. exists tk.
  split; [exact Htk|]. split; [exact Hid|]. split; [exact Hinb|]. split; [exact Hno|].
  split; [exact Hr|].
  pose proof Hcons' as [Hwf' [Hc' [Hh' _]]].
  set (tk' := Task.with_dependencies tk (Task.dependencies tk ++ [TaskDependency.mk b])) in *.
  assert (Hid' : Task.id tk' = a) by (unfold tk'; rewrite id_with_dependencies; exact Hid).
  split; [|split; [|split]].
  - rewrite (get_task_holds s' _ a Hh').
    rewrite (find_replace_same tk' xs a Hid'); [reflexivity|].
    rewrite <- Hid. apply in_map. exact Htk.
  - apply (get_dependencies_In _ _ _ Hwf'). apply Hpairs. right. reflexivity.
  - unfold TaskServiceImpl.detect_circular_dependencies, TaskService.read_graph.
    rewrite Hc'. reflexivity.
  - intros x Hx Hne. rewrite (get_task_holds s' _ (Task.id x) Hh').
    rewrite find_replace_other by (rewrite Hid'; exact Hne).
    rewrite (find_id_In xs (Task.id x) x); [reflexivity | apply Hcons | exact Hx | reflexivity].
Qed.

Lemma add_dependency_spec_two_tasks :
  fst (TaskServiceImpl.add_dependency Sample.uuid_a Sample.uuid_b Sample.two_tasks) = Ok false /\
  fst (TaskServiceImpl.add_dependency Sample.uuid_b Sample.uuid_a Sample.two_tasks) = Ok true /\
  option_map Task.dependencies
    (find (fun x => uuid_eqb (Task.id x) Sample.uuid_b)
       (replace_task
          (Task.with_dependencies Sample.api_task
             (Task.dependencies Sample.api_task ++ [TaskDependency.mk Sample.uuid_a]))
          [Sample.database_task; Sample.api_task]))
  = Some [TaskDependency.mk Sample.uuid_a; TaskDependency.mk Sample.uuid_a] /\
  exists r s',
    TaskServiceImpl.add_dependency Sample.uuid_a Sample.uuid_b Sample.two_tasks = (r, s').
Proof.
  split; [vm_compute; reflexivity|]. split; [vm_compute; reflexivity|].
  split; [vm_compute; reflexivity|].
  destruct (add_dependency_spec Sample.two_tasks [Sample.database_task; Sample.api_task]
              Sample.uuid_a Sample.uuid_b two_tasks_consistent) as [r [s' [H _]]].
  exists r, s'. exact H.
Defined.

(** X20: remove_dependency(a, b) returns True exactly when the graph has
    the edge a -> b with relationship depends_on; the edge is then
    gone, the record of a lists b no more, and no other record
    changes.  Otherwise it returns False and changes nothing. *)
Theorem remove_dependency_spec :
  forall (s : TaskService.t) (xs : list Task.t) (task_id depends_on_id : UUID),
    consistent s xs ->
    exists ok s',
      TaskServiceImpl.remove_dependency task_id depends_on_id s = (Ok ok, s') /\
      (ok = true <->
       In (GraphEdge.depends_on task_id depends_on_id)
          (NetworkXGraphStorage.get_all_edges (TaskService.graph_storage s))) /\
      (ok = false -> s' = s) /\
      (ok = true ->
       exists tk,
         In tk xs /\ Task.id tk = task_id /\
         TaskServiceImpl.get_task task_id s' =
           (Ok (Some (Task.with_dependencies tk
                        (filter (fun dep => negb (uuid_eqb (TaskDependency.task_id dep)
                                                    depends_on_id))
                           (Task.dependencies tk)))), s') /\
         ~ In depends_on_id
             (NetworkXGraphStorage.get_dependencies task_id (TaskService.graph_storage s')) /\
         (forall u v, (u, v) <> (task_id, depends_on_id) ->
                      (In v (NetworkXGraphStorage.get_dependencies u (TaskService.graph_storage s'))
                       <-> In v (NetworkXGraphStorage.get_dependencies u
                                   (TaskService.graph_storage s)))) /\
         forall x, In x xs -> Task.id x <> task_id ->
                   TaskServiceImpl.get_task (Task.id x) s' = (Ok (Some x), s')).
Proof.
  intros s xs a b Hcons.
  destruct (remove_dependency_consistent s xs a b Hcons) as [ok [s' [Hrem [Hiff [Hf Ht]]]]].
  exists ok, s'. split; [exact Hrem|]. pose proof Hcons as [Hwf _]. split.
  { rewrite Hiff. symmetry.
    apply (In_get_all_edges _ (GraphEdge.depends_on a b) Hwf). }
  split; [exact Hf|]. intros Hok.
  destruct (Ht Hok) as [tk [Htk [Hid [Hcons' Hg]]]]. exists tk.
  split; [exact Htk|]. split; [exact Hid|].
  pose proof Hcons' as [Hwf' [_ [Hh' _]]].
  set (tk' := Task.with_dependencies tk _) in *.
  assert (Hid' : Task.id tk' = a) by (unfold tk'; rewrite id_with_dependencies; exact Hid).
  assert (Hedges : forall u v,
            In v (NetworkXGraphStorage.get_dependencies u (TaskService.graph_storage s')) <->
            In v (NetworkXGraphStorage.get_dependencies u (TaskService.graph_storage s)) /\
            (u, v) <> (a, b)).
  { intros u v. rewrite (get_dependencies_In _ u v Hwf'), (get_dependencies_In _ u v Hwf).
    rewrite Hg. simpl. apply filter_pairs. }
  split; [|split; [|split]].
  - rewrite (get_task_holds s' _ a Hh').
    rewrite (find_replace_same tk' xs a Hid'); [reflexivity|].
    rewrite <- Hid. apply in_map. exact Htk.
  - intros Hin. apply Hedges in Hin. destruct Hin as [_ Hne]. apply Hne. reflexivity.
  - intros u v Hne. rewrite Hedges. tauto.
  - intros x Hx Hne. rewrite (get_task_holds s' _ (Task.id x) Hh').
    rewrite find_replace_other by (rewrite Hid'; exact Hne).
    rewrite (find_id_In xs (Task.id x) x); [reflexivity | apply Hcons | exact Hx | reflexivity].
Qed.

Lemma remove_dependency_spec_two_tasks :
  fst (TaskServiceImpl.remove_dependency Sample.uuid_a Sample.uuid_b Sample.two_tasks)
    = Ok false /\
  exists ok s',
    TaskServiceImpl.remove_dependency Sample.uuid_b Sample.uuid_a Sample.two_tasks = (Ok ok, s') /\
    ok = true.
Proof.
  split; [vm_compute; reflexivity|].
  destruct (remove_dependency_spec Sample.two_tasks [Sample.database_task; Sample.api_task]
              Sample.uuid_b Sample.uuid_a two_tasks_consistent) as [ok [s' [H [Hiff _]]]].
  exists ok, s'. split; [exact H|]. apply Hiff. vm_compute. left. reflexivity.
Defined.

(** * Adding a dependency and removing it again *)

Lemma storage_add_edge_fresh e gs gs' :
  NetworkXGraphStorage.wf gs ->
  Nx.has_edge (NetworkXGraphStorage._graph gs) (GraphEdge.from_id e) (GraphEdge.to_id e) = false ->
  NetworkXGraphStorage.add_edge e gs = (Ok true, gs') ->
  gs' = NetworkXGraphStorage.mk
          (Nx.mkDiGraph (Nx.nodes (NetworkXGraphStorage._graph gs))
             (Nx.edges (NetworkXGraphStorage._graph gs)
              ++ [(GraphEdge.from_id e, GraphEdge.to_id e, GraphEdge.relationship e)]))
          (NetworkXGraphStorage._nodes gs).
Proof.
  intros [_ [_ Hagree]] Hne. unfold NetworkXGraphStorage.add_edge.
  destruct (negb (NetworkXGraphStorage.in_nodes gs (GraphEdge.from_id e))
            || negb (NetworkXGraphStorage.in_nodes gs (GraphEdge.to_id e))) eqn:E;
    [intros [=]|].
  apply orb_false_iff in E. destruct E as [E1 E2]. apply negb_false_iff in E1, E2.
  apply in_nodes_In, Hagree in E1. apply in_nodes_In, Hagree in E2.
  unfold NetworkXGraphStorage._would_create_cycle.
  destruct (Nx.is_directed_acyclic_graph _) as [dag|x]; [|intros [=]].
  rewrite (remove_added_edge _ _ _ _ E1 E2 Hne).
  destruct dag; simpl; [|intros [=]]. intros [= <-]. f_equal.
  unfold Nx.add_edge. rewrite Hne. rewrite (add_node_present _ _ E1), (add_node_present _ _ E2).
  reflexivity.
Qed.

Lemma add_dependency_graph a b s s1 :
  TaskServiceImpl.add_dependency a b s = (Ok true, s1) ->
  NetworkXGraphStorage.add_edge (GraphEdge.depends_on a b) (TaskService.graph_storage s)
  = (Ok true, TaskService.graph_storage s1).
Proof.
  unfold TaskServiceImpl.add_dependency.
  unfold TaskService.bind at 1. unfold TaskService.read_table at 1.
  destruct (DuckDBTableStorage.get_by_id a _) as [[tk|]|e];
    try (intros H; discriminate H);
    try (unfold TaskService.bind, TaskService.read_table, TaskService.raise;
         destruct (DuckDBTableStorage.get_by_id b _) as [[tb|]|e'];
         simpl; intros H; discriminate H).
  unfold TaskService.bind at 1. unfold TaskService.read_table at 1.
  destruct (DuckDBTableStorage.get_by_id b _) as [[tb|]|e];
    try (unfold TaskService.raise; simpl; intros H; discriminate H).
  unfold TaskService.bind at 1. unfold TaskService.on_graph at 1.
  destruct (NetworkXGraphStorage.add_edge _ _) as [[[|]|e] gs'];
    try (unfold TaskService.ret; simpl; intros H; discriminate H).
  unfold TaskService.bind, TaskService.on_table, TaskService.ret.
  cbn [TaskService.graph_storage TaskService.table_storage].
  destruct (DuckDBTableStorage.update _ _) as [[u|e] tb']; simpl; intros H;
    inversion H; reflexivity.
Qed.

Lemma same_id_same_task xs x y :
  NoDup (map Task.id xs) -> In x xs -> In y xs -> Task.id x = Task.id y -> x = y.
Proof.
  intros Hnd Hx Hy Hid.
  pose proof (find_id_In xs (Task.id y) x Hnd Hx Hid) as E1.
  pose proof (find_id_In xs (Task.id y) y Hnd Hy eq_refl) as E2. congruence.
Qed.

Lemma replace_replace xs tk tk' :
  NoDup (map Task.id xs) -> In tk xs -> Task.id tk' = Task.id tk ->
  replace_task tk (replace_task tk' xs) = xs.
Proof.
  intros Hnd Htk Hid. unfold replace_task. rewrite map_map.
  rewrite <- (map_id xs) at 2. apply map_ext_in. intros x Hx.
  uuid_cases (Task.id x) (Task.id tk').
  - rewrite Hid, uuid_eqb_refl. symmetry. apply (same_id_same_task xs x tk Hnd Hx Htk). congruence.
  - assert (uuid_eqb (Task.id x) (Task.id tk) = false) as ->
        by (apply uuid_eqb_neq; congruence).
    reflexivity.
Qed.

Lemma holds_same_table tb tb' xs : holds tb xs -> holds tb' xs -> tb' = tb.
Proof.
  intros [H _] [H' _]. destruct tb, tb'. simpl in *. congruence.
Qed.

(** X21: when a does not depend on b, neither in the graph nor on its
    record, an add_dependency(a, b) that returns True followed by
    remove_dependency(a, b) returns True; the graph store is then
    exactly as before the two calls, and the table holds the same
    records as before: the same identifiers and the same documents, in
    the same order.  (The two calls rewrite the record of a, so its
    updated_at column, which is not part of a document, is a new time.) *)
Theorem add_then_remove_dependency :
  forall (s s1 : TaskService.t) (xs : list Task.t) (task_id depends_on_id : UUID),
    consistent s xs ->
    ~ In depends_on_id
        (NetworkXGraphStorage.get_dependencies task_id (TaskService.graph_storage s)) ->
    (forall tk dep, In tk xs -> Task.id tk = task_id -> In dep (Task.dependencies tk) ->
                    TaskDependency.task_id dep <> depends_on_id) ->
    TaskServiceImpl.add_dependency task_id depends_on_id s = (Ok true, s1) ->
    exists s2,
      TaskServiceImpl.remove_dependency task_id depends_on_id s1 = (Ok true, s2) /\
      TaskService.graph_storage s2 = TaskService.graph_storage s /\
      holds (TaskService.table_storage s2) xs /\
      map (fun r => (DuckDBTableStorage.row_id r, DuckDBTableStorage.row_data r))
        (DuckDBTableStorage.rows (TaskService.table_storage s2))
      = map (fun r => (DuckDBTableStorage.row_id r, DuckDBTableStorage.row_data r))
          (DuckDBTableStorage.rows (TaskService.table_storage s)).
Proof.
  intros s s1 xs a b Hcons Hnodep Hnorec Hadd.
  pose proof Hcons as [Hwf [_ [Hh _]]].
  assert (Hne : Nx.has_edge (NetworkXGraphStorage._graph (TaskService.graph_storage s)) a b
                = false).
  { apply has_edge_false. intros Hin. apply Hnodep.
    apply (get_dependencies_In _ a b Hwf). exact Hin. }
  pose proof (storage_add_edge_fresh (GraphEdge.depends_on a b) _ _ Hwf Hne
                (add_dependency_graph a b s s1 Hadd)) as Hg1.
  cbn [GraphEdge.from_id GraphEdge.to_id GraphEdge.relationship GraphEdge.depends_on] in Hg1.
  destruct (add_dependency_consistent s xs a b Hcons) as [r [s1' [Hadd' Hcases]]].
  rewrite Hadd in Hadd'. inversion Hadd'; subst r s1'. clear Hadd'.
  destruct Hcases as [[_ [H _]]|[[_ [_ [H _]]]|[[_ [_ [_ [H _]]]]|
                      [tk [Htk [Hid [_ [_ [_ [Hcons1 _]]]]]]]]]]; try discriminate.
  set (tk' := Task.with_dependencies tk (Task.dependencies tk ++ [TaskDependency.mk b])) in *.
  destruct (remove_dependency_consistent s1 _ a b Hcons1) as [ok [s2 [Hrem [Hiff [_ Ht]]]]].
  assert (ok = true) as ->.
  { apply Hiff. rewrite Hg1. simpl. apply in_or_app. right. left. reflexivity. }
  exists s2. split; [exact Hrem|].
  destruct (Ht eq_refl) as [tk2 [Htk2 [Hid2 [Hcons2 Hg2]]]].
  assert (tk2 = tk') as ->.
  { unfold replace_task in Htk2. apply in_map_iff in Htk2. destruct Htk2 as [x [Hx Hin]].
    uuid_cases (Task.id x) (Task.id tk'); [congruence|].
    exfalso. apply E. unfold tk'. rewrite id_with_dependencies. congruence. }
  assert (Hback : Task.with_dependencies tk'
                    (filter (fun dep => negb (uuid_eqb (TaskDependency.task_id dep) b))
                       (Task.dependencies tk')) = tk).
  { unfold tk'. replace (Task.dependencies (Task.with_dependencies tk _))
      with (Task.dependencies tk ++ [TaskDependency.mk b]) by (destruct tk; reflexivity).
    rewrite filter_app. simpl. rewrite uuid_eqb_refl. simpl. rewrite app_nil_r.
    rewrite filter_all.
    - destruct tk; reflexivity.
    - intros d Hd. apply negb_true_iff, uuid_eqb_neq. apply (Hnorec tk d Htk Hid Hd). }
  rewrite Hback in Hcons2.
  rewrite replace_replace in Hcons2;
    [| apply Hh | exact Htk | unfold tk'; apply id_with_dependencies].
  destruct Hcons2 as [_ [_ [Hh2 _]]].
  pose proof (holds_same_table _ _ xs Hh Hh2) as Htb.
  assert (Hgs : TaskService.graph_storage s2 = TaskService.graph_storage s).
  { rewrite Hg2, Hg1. simpl. rewrite filter_app. simpl.
    assert (Nx.edge_is a b (a, b, "depends_on") = true) as ->
        by (apply edge_is_true; reflexivity).
    simpl. rewrite app_nil_r. rewrite filter_all.
    - destruct (TaskService.graph_storage s) as [[ns es] d]. reflexivity.
    - intros e He. apply negb_true_iff. destruct (Nx.edge_is a b e) eqn:Ee; [|reflexivity].
      exfalso. apply has_edge_false in Hne. apply Hne. apply edge_is_true in Ee.
      rewrite <- Ee. apply in_map. exact He. }
  split; [exact Hgs|]. split; [exact Hh2|]. rewrite Htb. reflexivity.
Qed.

Lemma two_independent_consistent :
  consistent Sample3.two_independent [Sample.database_task; Sample3.independent_api_task].
Proof.
  destruct (create_task_consistent Sample.empty_service [] Sample.database_task
              empty_service_consistent) as [r0 [s0 [H0 [[[] _]|[_ [Hc0 _]]]]]];
    [vm_compute; reflexivity|].
  destruct (create_task_consistent s0 _ Sample3.independent_api_task Hc0)
    as [r1 [s1 [H1 [[Hin _]|[_ [Hc1 _]]]]]]; [vm_compute; reflexivity | |].
  { exfalso. simpl in Hin. destruct Hin as [Hin|[]]. discriminate. }
  unfold Sample3.two_independent. rewrite H0. simpl. rewrite H1. exact Hc1.
Qed.

Lemma add_then_remove_dependency_sample :
  exists s1 s2,
    TaskServiceImpl.add_dependency Sample.uuid_b Sample.uuid_a Sample3.two_independent
    = (Ok true, s1) /\
    TaskServiceImpl.remove_dependency Sample.uuid_b Sample.uuid_a s1 = (Ok true, s2) /\
    TaskService.graph_storage s2 = TaskService.graph_storage Sample3.two_independent /\
    holds (TaskService.table_storage s2) [Sample.database_task; Sample3.independent_api_task].
Proof.
  destruct (TaskServiceImpl.add_dependency Sample.uuid_b Sample.uuid_a Sample3.two_independent)
    as [r s1] eqn:E.
  assert (Hr : r = Ok true).
  { apply (f_equal fst) in E. simpl in E. rewrite <- E. vm_compute. reflexivity. }
  subst r.
  destruct (add_then_remove_dependency Sample3.two_independent s1
              [Sample.database_task; Sample3.independent_api_task] Sample.uuid_b Sample.uuid_a)
    as [s2 [Hrem [Hg [Hh _]]]].
  - exact two_independent_consistent.
  - vm_compute. tauto.
  - simpl. intros tk dep [<-|[<-|[]]] _ Hd; simpl in Hd; destruct Hd.
  - exact E.
  - exists s1, s2. split; [reflexivity|]. split; [exact Hrem|]. split; [exact Hg | exact Hh].
Defined.

(** * Dependents and dependencies of a task *)

Lemma In_flat_map_found tb xs ids x :
  holds tb xs ->
  (In x (flat_map (found tb) ids) <-> In x xs /\ In (Task.id x) ids).
Proof.
  intros H. rewrite in_flat_map. split.
  - intros [i [Hi Hx]]. apply (In_found tb xs i x H) in Hx. destruct Hx as [Hx <-]. auto.
  - intros [Hx Hi]. exists (Task.id x). split; [exact Hi|].
    apply (In_found tb xs _ x H). auto.
Qed.

Lemma dependencies_nodup_aux s :
  NetworkXGraphStorage.wf s ->
  forall u, NoDup (NetworkXGraphStorage.get_dependencies u s) /\
            NoDup (NetworkXGraphStorage.get_dependents u s).
Proof.
  intros [[_ [He _]] _] u.
  unfold NetworkXGraphStorage.get_dependencies, NetworkXGraphStorage.get_dependents.
  destruct (negb _); split; try constructor;
    [apply NoDup_successors | apply NoDup_predecessors]; exact He.
Qed.

(** X22: get_task_dependents(t) returns the stored tasks with an edge to
    t in the graph and get_task_dependencies(t) those t has an edge to,
    each once; so a stored task x is among the dependents of a stored
    task y exactly when y is among the dependencies of x. *)
Theorem dependents_dependencies_converse :
  forall (s : TaskService.t) (xs : list Task.t),
    consistent s xs ->
    forall x y, In x xs -> In y xs ->
      exists dependents dependencies,
        TaskServiceImpl.get_task_dependents (Task.id y) s = (Ok dependents, s) /\
        TaskServiceImpl.get_task_dependencies (Task.id x) s = (Ok dependencies, s) /\
        NoDup dependents /\ NoDup dependencies /\
        incl dependents xs /\ incl dependencies xs /\
        (In x dependents <-> In y dependencies) /\
        (In x dependents <->
         In (Task.id y)
            (NetworkXGraphStorage.get_dependencies (Task.id x) (TaskService.graph_storage s))).
Proof.
  intros s xs [Hwf [_ [Hh _]]] x y Hx Hy.
  unfold TaskServiceImpl.get_task_dependents, TaskServiceImpl.get_task_dependencies,
    TaskService.bind, TaskService.read_graph.
  rewrite !(fetch_tasks_holds s xs _ Hh).
  eexists _, _. split; [reflexivity|]. split; [reflexivity|].
  pose proof (dependencies_nodup_aux (TaskService.graph_storage s) Hwf) as Hnd.
  split; [|split; [|split; [|split; [|split]]]].
  - apply NoDup_flat_map_disjoint.
    + apply Hnd.
    + intros i _. apply (NoDup_found _ xs i Hh).
    + intros i i' z _ _ Hz Hz'. apply (In_found _ xs i z Hh) in Hz.
      apply (In_found _ xs i' z Hh) in Hz'. destruct Hz, Hz'. congruence.
  - apply NoDup_flat_map_disjoint.
    + apply Hnd.
    + intros i _. apply (NoDup_found _ xs i Hh).
    + intros i i' z _ _ Hz Hz'. apply (In_found _ xs i z Hh) in Hz.
      apply (In_found _ xs i' z Hh) in Hz'. destruct Hz, Hz'. congruence.
  - intros z Hz. apply (In_flat_map_found _ xs _ z Hh) in Hz. apply Hz.
  - intros z Hz. apply (In_flat_map_found _ xs _ z Hh) in Hz. apply Hz.
  - rewrite !(In_flat_map_found _ xs _ _ Hh).
    rewrite (get_dependents_In _ (Task.id x) (Task.id y) Hwf).
    rewrite (get_dependencies_In _ (Task.id x) (Task.id y) Hwf). tauto.
  - rewrite (In_flat_map_found _ xs _ _ Hh).
    rewrite (get_dependents_In _ (Task.id x) (Task.id y) Hwf).
    rewrite (get_dependencies_In _ (Task.id x) (Task.id y) Hwf). tauto.
Qed.

Lemma dependents_dependencies_two_tasks :
  exists dependents dependencies,
    TaskServiceImpl.get_task_dependents Sample.uuid_a Sample.two_tasks
      = (Ok dependents, Sample.two_tasks) /\
    TaskServiceImpl.get_task_dependencies Sample.uuid_b Sample.two_tasks
      = (Ok dependencies, Sample.two_tasks) /\
    In Sample.api_task dependents /\ In Sample.database_task dependencies.
Proof.
  destruct (dependents_dependencies_converse Sample.two_tasks
              [Sample.database_task; Sample.api_task] two_tasks_consistent
              Sample.api_task Sample.database_task)
    as [ds [es [H1 [H2 [_ [_ [_ [_ [Hiff Hedge]]]]]]]]].
  - right. left. reflexivity.
  - left. reflexivity.
  - exists ds, es. split; [exact H1|]. split; [exact H2|].
    assert (Hin : In Sample.api_task ds).
    { apply Hedge. vm_compute. left. reflexivity. }
    split; [exact Hin | apply Hiff; exact Hin].
Defined.

(** * list_tasks *)

(** X23: for filters whose fields are plain names (word characters, as
    every field of a task is) other than the two list fields, list_tasks
    returns the stored tasks that match the filters, in insertion order,
    cut to the first [limit] of them.  No limit and the limit 0 both
    return them all, and a negative limit drops that many tasks from the
    end instead. *)
Theorem list_tasks_spec :
  forall (s : TaskService.t) (xs : list Task.t)
         (filters : list (string * option string)) (limit : option Z),
    holds (TaskService.table_storage s) xs ->
    (forall f, In f filters -> DuckDBTableStorage.plain_key (fst f) = true) ->
    (forall f, In f filters -> list_field (fst f) = false) ->
    let matching := filter (task_matches filters) xs in
    exists tasks,
      TaskServiceImpl.list_tasks filters limit s = (Ok tasks, s) /\
      (exists rest, matching = tasks ++ rest) /\
      match limit with
      | None => tasks = matching
      | Some n =>
          if (n =? 0)%Z then tasks = matching
          else if (0 <? n)%Z then length tasks = Nat.min (Z.to_nat n) (length matching)
          else length tasks = length matching - Z.to_nat (- n)
      end.
Proof.
  intros s xs filters limit Hh Hp Hf matching.
  assert (Hq : (match filters with
                | [] => DuckDBTableStorage.list_all
                | _ :: _ => DuckDBTableStorage.query filters
                end) (TaskService.table_storage s) = Ok matching).
  { unfold matching. destruct filters as [|f fs].
    - simpl. rewrite filter_all by reflexivity. apply list_all_holds. exact Hh.
    - unfold DuckDBTableStorage.query.
      replace (forallb (fun f0 => DuckDBTableStorage.plain_key (fst f0)) (f :: fs)) with true
        by (symmetry; apply forallb_forall; exact Hp).
      destruct Hh as [Hrows [Hvalid _]]. rewrite Hrows.
      rewrite (filter_map_row_of (task_matches (f :: fs))).
      + apply validate_all_rows. intros x Hx. apply filter_In in Hx. apply Hvalid. apply Hx.
      + intros x. apply matches_task_matches. exact Hf. }
  unfold TaskServiceImpl.list_tasks, TaskService.bind, TaskService.read_table.
  rewrite Hq. destruct limit as [n|].
  - destruct (n =? 0)%Z eqn:E0.
    + exists matching. split; [reflexivity|]. split; [exists []; apply app_nil_end | reflexivity].
    + unfold TaskService.ret, TaskServiceImpl.slice_to.
      destruct (n <? 0)%Z eqn:En.
      * eexists. split; [reflexivity|]. split.
        -- eexists. symmetry. apply firstn_skipn.
        -- assert ((0 <? n)%Z = false) as -> by lia.
           rewrite length_firstn. lia.
      * eexists. split; [reflexivity|]. split.
        -- eexists. symmetry. apply firstn_skipn.
        -- assert ((0 <? n)%Z = true) as -> by lia.
           apply length_firstn.
  - exists matching. split; [reflexivity|]. split; [exists []; apply app_nil_end | reflexivity].
Qed.

Lemma list_tasks_spec_two_tasks :
  TaskServiceImpl.list_tasks [] (Some 0%Z) Sample.two_tasks
    = (Ok [Sample.database_task; Sample.api_task], Sample.two_tasks) /\
  TaskServiceImpl.list_tasks [] (Some 1%Z) Sample.two_tasks
    = (Ok [Sample.database_task], Sample.two_tasks) /\
  TaskServiceImpl.list_tasks [] (Some (-1)%Z) Sample.two_tasks
    = (Ok [Sample.database_task], Sample.two_tasks) /\
  exists tasks,
    TaskServiceImpl.list_tasks [("status", Some "PENDING")] (Some 5%Z) Sample.two_tasks
      = (Ok tasks, Sample.two_tasks) /\
    length tasks = 2.
Proof.
  split; [vm_compute; reflexivity|]. split; [vm_compute; reflexivity|].
  split; [vm_compute; reflexivity|].
  destruct (list_tasks_spec Sample.two_tasks [Sample.database_task; Sample.api_task]
              [("status", Some "PENDING")] (Some 5%Z) two_tasks_holds)
    as [tasks [H [_ Hlen]]].
  - intros f [<-|[]]. reflexivity.
  - intros f [<-|[]]. reflexivity.
  - exists tasks. split; [exact H|]. simpl in Hlen. exact Hlen.
Defined.

(** * detect_circular_dependencies answers True only on a cycle *)


Section Sound.
Variable templates : list TaskTemplate.t.




End Sound.


(** * strip *)

Lemma lstrip_idem l : lstrip (lstrip l) = lstrip l.
Proof.
  induction l as [|c l IH]; simpl; [reflexivity|].
  destruct (is_space c) eqn:E; [exact IH|]. simpl. rewrite E. reflexivity.
Qed.

Lemma lstrip_head l c l' : lstrip l = c :: l' -> is_space c = false.
Proof.
  induction l as [|a l IH]; simpl; [discriminate|].
  destruct (is_space a) eqn:E; [exact IH|]. intros [= <- _]. exact E.
Qed.

Lemma lstrip_suffix l : exists p, l = p ++ lstrip l.
Proof.
  induction l as [|a l [p IH]]; simpl; [exists []; reflexivity|].
  destruct (is_space a); [|exists []; reflexivity].
  exists (a :: p). simpl. f_equal. exact IH.
Qed.

Lemma lstrip_length l : length (lstrip l) <= length l.
Proof.
  destruct (lstrip_suffix l) as [p Hp]. rewrite Hp at 2. rewrite length_app. lia.
Qed.

Lemma lstrip_clean_head l : lstrip l = l <-> (forall c l', l = c :: l' -> is_space c = false).
Proof.
  split.
  - intros H c l' E. apply (lstrip_head l c l'). rewrite H. exact E.
  - intros H. destruct l as [|c l']; [reflexivity|]. simpl.
    rewrite (H c l' eq_refl). reflexivity.
Qed.

(* the characters of [strip s] *)
Lemma strip_chars s :
  list_ascii_of_string (strip s)
  = rev (lstrip (rev (lstrip (list_ascii_of_string s)))).
Proof. unfold strip. apply list_ascii_of_string_of_list_ascii. Qed.

Lemma last_app_nonempty {A} (p l : list A) d : l <> [] -> last (p ++ l) d = last l d.
Proof.
  intros Hl. induction p as [|a p IH]; [reflexivity|].
  simpl. destruct (p ++ l) eqn:E; [|exact IH].
  apply app_eq_nil in E. destruct E. contradiction.
Qed.

Lemma clean_fixed l :
  let m := rev (lstrip (rev (lstrip l))) in
  lstrip m = m /\ lstrip (rev m) = rev m.
Proof.
  intros m. unfold m. split.
  - apply lstrip_clean_head. intros c l' E.
    set (k := lstrip (rev (lstrip l))) in *.
    destruct (lstrip_suffix (rev (lstrip l))) as [p Hp]. fold k in Hp.
    assert (Hk : k <> []).
    { intros Hk. rewrite Hk in E. discriminate. }
    (* the first character of [rev k] is the last of [k], the last of
       [rev (lstrip l)], the first of [lstrip l] *)
    assert (Hlast : last k c = c).
    { rewrite <- (rev_involutive k), E. simpl. apply last_last. }
    assert (Hlast' : last (rev (lstrip l)) c = c).
    { rewrite Hp. rewrite last_app_nonempty by exact Hk. exact Hlast. }
    destruct (lstrip l) as [|a t] eqn:El.
    + simpl in Hp. destruct p; simpl in Hp; [|discriminate]. congruence.
    + simpl in Hlast'. rewrite last_last in Hlast'. subst a.
      apply (lstrip_head l c t El).
  - rewrite rev_involutive. apply lstrip_idem.
Qed.

Lemma strip_idem s : strip (strip s) = strip s.
Proof.
  unfold strip at 1. rewrite strip_chars.
  destruct (clean_fixed (list_ascii_of_string s)) as [H1 H2]. cbv zeta in H1, H2.
  rewrite H1, H2. rewrite rev_involutive. reflexivity.
Qed.

Lemma length_string_of_list l : String.length (string_of_list_ascii l) = length l.
Proof. induction l as [|c l IH]; simpl; [reflexivity | rewrite IH; reflexivity]. Qed.

Lemma length_list_of_string s : length (list_ascii_of_string s) = String.length s.
Proof. induction s as [|c s IH]; simpl; [reflexivity | rewrite IH; reflexivity]. Qed.

Lemma len_strip_le s : (len (strip s) <= len s)%Z.
Proof.
  unfold len, strip. rewrite length_string_of_list, length_rev.
  pose proof (lstrip_length (rev (lstrip (list_ascii_of_string s)))) as H1.
  rewrite length_rev in H1.
  pose proof (lstrip_length (list_ascii_of_string s)) as H2.
  rewrite length_list_of_string in H2. lia.
Qed.

Lemma len_pos s : s <> "" -> (1 <= len s)%Z.
Proof. destruct s; [congruence|]. intros _. unfold len. simpl. lia. Qed.

(** * A task the constructor accepted is stable *)

Lemma fields_ok_with_name x n :
  Task.fields_ok (Task.with_name x n) =
  (1 <=? len n)%Z && (len n <=? 100)%Z && negb (String.eqb (strip n) "") &&
  (10 <=? len (Task.description x))%Z && (10 <=? len (Task.implementation_guide x))%Z &&
  Task.hours_ok (Task.complexity x) (Task.estimated_hours x) &&
  forallb RelatedFile.valid (Task.related_files x) && Task.category_ok (Task.category x).
Proof. destruct x; reflexivity. Qed.

Lemma validate_stable x y : Task.validate x = Ok y -> Task.valid y.
Proof.
  unfold Task.valid, Task.validate. destruct (Task.fields_ok x) eqn:E; [|discriminate].
  intros [= <-].
  assert (Hn : Task.name (Task.with_name x (strip (Task.name x))) = strip (Task.name x))
    by (destruct x; reflexivity).
  assert (Hw : Task.with_name (Task.with_name x (strip (Task.name x))) (strip (Task.name x))
               = Task.with_name x (strip (Task.name x)))
    by (destruct x; reflexivity).
  rewrite Hn, strip_idem, Hw, fields_ok_with_name.
  unfold Task.fields_ok in E.
  repeat (apply andb_true_iff in E; destruct E as [E ?]).
  assert (Hne : strip (Task.name x) <> "").
  { apply String.eqb_neq. apply negb_true_iff. assumption. }
  assert (Hlo : (1 <=? len (strip (Task.name x)))%Z = true)
    by (apply Z.leb_le; apply len_pos; exact Hne).
  assert (Hhi : (len (strip (Task.name x)) <=? 100)%Z = true).
  { apply Z.leb_le. pose proof (len_strip_le (Task.name x)).
    assert (len (Task.name x) <= 100)%Z by (apply Z.leb_le; assumption). lia. }
  rewrite Hlo, Hhi, strip_idem.
  repeat match goal with H : _ = true |- _ => rewrite H; clear H end.
  reflexivity.
Qed.

(** X25: a task the constructor accepts has the stripped name and
    otherwise the fields given; validating it again changes nothing, and
    the JSON document model_dump_json writes for it is read back by
    model_validate as the same task. *)
Theorem validated_task_is_stable :
  forall x y : Task.t,
    Task.validate x = Ok y ->
    y = Task.with_name x (strip (Task.name x)) /\
    Task.validate y = Ok y /\
    Task.model_validate (Task.model_dump y) = Ok y /\
    forall z, Task.validate z = Ok z -> Task.model_dump z = Task.model_dump y -> z = y.
Proof.
  intros x y H. pose proof (validate_stable x y H) as Hv.
  split.
  { unfold Task.validate in H. destruct (Task.fields_ok x); [|discriminate].
    injection H as <-. reflexivity. }
  split; [exact Hv|]. split; [apply model_validate_dump; exact Hv|].
  intros z Hz Hd. pose proof (model_validate_dump z Hz) as E1.
  pose proof (model_validate_dump y Hv) as E2. rewrite Hd in E1. congruence.
Qed.

Lemma validated_task_is_stable_sample :
  Task.validate (Sample.task Sample.uuid_a "  Database Schema " PENDING [])
    = Ok Sample.database_task /\
  Task.validate Sample.database_task = Ok Sample.database_task /\
  Task.model_validate (Task.model_dump Sample.database_task) = Ok Sample.database_task.
Proof.
  assert (H : Task.validate (Sample.task Sample.uuid_a "  Database Schema " PENDING [])
              = Ok Sample.database_task) by (vm_compute; reflexivity).
  split; [exact H|].
  destruct (validated_task_is_stable _ _ H) as [_ [H1 [H2 _]]]. auto.
Defined.

(** * TaskTemplate.validate_dependencies *)

Lemma unique_deps_from v :
  forall seen d, In d (unique_deps v seen) ->
                 d <> "" /\ strip d = d /\ exists d0, In d0 v /\ ~ In d0 seen /\ d = strip d0.
Proof.
  induction v as [|dep rest IH]; intros seen d H; simpl in H; [destruct H|].
  destruct (negb (String.eqb (strip dep) "")) eqn:E1; simpl in H.
  - destruct (negb (mem_str dep seen)) eqn:E2; simpl in H.
    + destruct H as [<-|H].
      * split; [apply String.eqb_neq, negb_true_iff; exact E1|]. split; [apply strip_idem|].
        exists dep. split; [left; reflexivity|]. split; [|reflexivity].
        apply mem_str_false, negb_true_iff. exact E2.
      * destruct (IH _ _ H) as [H1 [H2 [d0 [H3 [H4 H5]]]]]. split; [exact H1|].
        split; [exact H2|]. exists d0. split; [right; exact H3|]. split; [|exact H5].
        intros Hs. apply H4. right. exact Hs.
    + destruct (IH _ _ H) as [H1 [H2 [d0 [H3 [H4 H5]]]]]. split; [exact H1|].
      split; [exact H2|]. exists d0. auto using in_cons.
  - destruct (IH _ _ H) as [H1 [H2 [d0 [H3 [H4 H5]]]]]. split; [exact H1|].
    split; [exact H2|]. exists d0. auto using in_cons.
Qed.

Lemma unique_deps_stripped v :
  (forall d, In d v -> strip d = d) ->
  forall seen,
    NoDup (unique_deps v seen) /\
    forall d, In d (unique_deps v seen) <-> In d v /\ d <> "" /\ ~ In d seen.
Proof.
  induction v as [|dep rest IH]; intros Hs seen; simpl.
  - split; [constructor | intros d; tauto].
  - assert (Hs' : forall d, In d rest -> strip d = d) by (intros d Hd; apply Hs; right; exact Hd).
    rewrite (Hs dep (or_introl eq_refl)).
    destruct (String.eqb dep "") eqn:E1; simpl.
    + apply String.eqb_eq in E1. destruct (IH Hs' seen) as [Hnd Hin]. split; [exact Hnd|].
      intros d. rewrite Hin. split; [tauto|]. intros [[->|H] [H1 H2]]; [congruence | auto].
    + apply String.eqb_neq in E1. destruct (mem_str dep seen) eqn:E2; simpl.
      * apply mem_str_In in E2. destruct (IH Hs' seen) as [Hnd Hin]. split; [exact Hnd|].
        intros d. rewrite Hin. split; [tauto|]. intros [[->|H] [H1 H2]]; [contradiction | auto].
      * apply mem_str_false in E2. destruct (IH Hs' (dep :: seen)) as [Hnd Hin]. split.
        -- constructor; [|exact Hnd]. intros Hc. apply Hin in Hc.
           destruct Hc as [_ [_ Hc]]. apply Hc. left. reflexivity.
        -- intros d. simpl. rewrite Hin. simpl. split.
           ++ intros [<-|[H1 [H2 H3]]]; [auto|]. split; [auto|]. split; [exact H2|].
              intros Hc. apply H3. right. exact Hc.
           ++ intros [[->|H1] [H2 H3]]; [auto|].
              destruct (string_dec dep d) as [->|Hne]; [auto|]. right.
              split; [exact H1|]. split; [exact H2|]. intros [Hc|Hc]; contradiction.
Qed.

Lemma unique_deps_fixed r :
  forall seen,
    NoDup r ->
    (forall d, In d r -> strip d = d /\ d <> "" /\ ~ In d seen) ->
    unique_deps r seen = r.
Proof.
  induction r as [|d r IH]; intros seen Hnd H; simpl; [reflexivity|].
  destruct (H d (or_introl eq_refl)) as [H1 [H2 H3]]. rewrite H1.
  assert (String.eqb d "" = false) as -> by (apply String.eqb_neq; exact H2).
  assert (mem_str d seen = false) as -> by (apply mem_str_false; exact H3).
  simpl. f_equal. inversion Hnd; subst. apply IH; [assumption|].
  intros x Hx. destruct (H x (or_intror Hx)) as [Hx1 [Hx2 Hx3]].
  split; [exact Hx1|]. split; [exact Hx2|]. intros [<-|Hc]; contradiction.
Qed.

Lemma validate_dependencies_eq v : validate_dependencies v = unique_deps v [].
Proof. destruct v; reflexivity. Qed.

(** X26: TaskTemplate.validate_dependencies returns stripped, non-empty
    names taken from its input.  When the input names carry no outer
    whitespace it returns each non-empty name of the input exactly once,
    and validating its result again changes nothing. *)
Theorem validate_dependencies_spec :
  forall v : list string,
    (forall d, In d (validate_dependencies v) ->
               d <> "" /\ strip d = d /\ exists d0, In d0 v /\ d = strip d0) /\
    ((forall d, In d v -> strip d = d) ->
     NoDup (validate_dependencies v) /\
     (forall d, In d (validate_dependencies v) <-> In d v /\ d <> "") /\
     validate_dependencies (validate_dependencies v) = validate_dependencies v).
Proof.
  intros v. rewrite !validate_dependencies_eq. split.
  - intros d Hd. destruct (unique_deps_from v [] d Hd) as [H1 [H2 [d0 [H3 [_ H4]]]]]. eauto.
  - intros Hs. destruct (unique_deps_stripped v Hs []) as [Hnd Hin].
    split; [exact Hnd|]. split; [intros d; rewrite Hin; tauto|].
    apply unique_deps_fixed; [exact Hnd|].
    intros d Hd. pose proof (proj1 (Hin d) Hd) as [Hv [Hne _]].
    split; [apply Hs; exact Hv|]. split; [exact Hne | intros []].
Qed.

Lemma validate_dependencies_sample :
  validate_dependencies ["Setup"; "Build"; "Setup"; ""; "Build"] = ["Setup"; "Build"] /\
  validate_dependencies [" Setup"; "Setup"] = ["Setup"; "Setup"] /\
  NoDup (validate_dependencies ["Setup"; "Build"; "Setup"; ""; "Build"]).
Proof.
  split; [vm_compute; reflexivity|]. split; [vm_compute; reflexivity|].
  apply (proj2 (validate_dependencies_spec ["Setup"; "Build"; "Setup"; ""; "Build"])).
  intros d [<-|[<-|[<-|[<-|[<-|[]]]]]]; vm_compute; reflexivity.
Defined.

(** * The shape of a split result *)

Lemma bind_ok_inv {A B} (m : TaskService.M A) (k : A -> TaskService.M B) s r s' :
  TaskService.bind m k s = (Ok r, s') ->
  exists a s1, m s = (Ok a, s1) /\ k a s1 = (Ok r, s').
Proof.
  unfold TaskService.bind. destruct (m s) as [[a|e] s1]; [eauto | discriminate].
Qed.

Lemma apply_split_ok uuid4 utcnow task_service tick request s r s' :
  TaskSplittingService.apply_split uuid4 utcnow task_service tick request s = (Ok r, s') ->
  SplitResult.success r = true /\ SplitResult.errors r = [] /\
  SplitResult.message r =
    ("Successfully processed " ++ str_of_nat (length (SplitResult.created_tasks r))
     ++ " tasks using " ++ update_mode_value (TaskSplitRequest.update_mode request)
     ++ " mode")%string /\
  exists op,
    SplitResult.operation r = Some op /\
    SplitOperation.operation_type op = "split_tasks" /\
    SplitOperation.update_mode op = TaskSplitRequest.update_mode request /\
    SplitOperation.tasks_added op = length (SplitResult.created_tasks r).
Proof.
  unfold TaskSplittingService.apply_split. intros H.
  apply bind_ok_inv in H. destruct H as [get_all [s1 [_ H]]].
  apply bind_ok_inv in H. destruct H as [existing [s2 [_ H]]].
  apply bind_ok_inv in H. destruct H as [[[created updated] removed] [s3 [_ H]]].
  apply bind_ok_inv in H. destruct H as [get_all' [s4 [_ H]]].
  apply bind_ok_inv in H. destruct H as [after [s5 [_ H]]].
  unfold TaskService.ret in H. injection H as <- _. simpl.
  split; [reflexivity|]. split; [reflexivity|]. split; [reflexivity|].
  eexists. split; [reflexivity|]. simpl. auto.
Qed.

(** X27: split_tasks never raises, and its result has one of two
    shapes: unsuccessful, with no created task, no operation record and
    at least one error string; or successful, with no error and an
    operation record of type "split_tasks" for the request's update
    mode whose tasks_added is the number of tasks in created_tasks. *)
Theorem split_result_shape :
  forall (uuid4 : nat -> UUID) (utcnow : nat -> datetime)
         (task_service : TaskSplittingService.TaskServiceLike) (tick : nat)
         (request : TaskSplitRequest.t) (s : TaskService.t),
    let r := fst (TaskSplittingService.split_tasks uuid4 utcnow task_service tick request s) in
    (SplitResult.success r = false /\
     SplitResult.created_tasks r = [] /\ SplitResult.operation r = None /\
     SplitResult.errors r <> []) \/
    (SplitResult.success r = true /\ SplitResult.errors r = [] /\
     TaskSplittingService.validate_split_request request = Ok (true, []) /\
     exists op,
       SplitResult.operation r = Some op /\
       SplitOperation.operation_type op = "split_tasks" /\
       SplitOperation.update_mode op = TaskSplitRequest.update_mode request /\
       SplitOperation.tasks_added op = length (SplitResult.created_tasks r)).
Proof.
  intros uuid4 utcnow task_service tick request s r. unfold r.
  unfold TaskSplittingService.split_tasks.
  destruct (TaskSplittingService.validate_split_request request) as [[[|] errors]|e] eqn:Ev.
  - assert (Herr : errors = []).
    { unfold TaskSplittingService.validate_split_request in Ev.
      destruct (DependencyResolver.detect_circular_dependencies _); [|discriminate].
      injection Ev as Hb He. rewrite He in Hb. destruct errors; [reflexivity | discriminate]. }
    subst errors.
    destruct (TaskSplittingService.apply_split uuid4 utcnow task_service tick request s)
      as [[res|e] s'] eqn:Ea.
    + right. simpl. destruct (apply_split_ok _ _ _ _ _ _ _ _ Ea) as [H1 [H2 [_ H3]]]. auto.
    + left. simpl. repeat split; try reflexivity. discriminate.
  - left. simpl. repeat split; try reflexivity.
    unfold TaskSplittingService.validate_split_request in Ev.
    destruct (DependencyResolver.detect_circular_dependencies _); [|discriminate].
    injection Ev as Hb He. rewrite He in Hb. destruct errors; [discriminate | discriminate].
  - left. simpl. repeat split; try reflexivity. discriminate.
Qed.

(** * update_task succeeds on a stored task *)

(** Edges from a node that no edge enters are all accepted: the node is
    reached from nowhere, so none of them closes a cycle. *)
Lemma add_task_dependencies_ok i xs deps :
  forall s,
    NetworkXGraphStorage.wf (TaskService.graph_storage s) ->
    NetworkXGraphStorage.has_cycle (TaskService.graph_storage s) = Ok false ->
    holds (TaskService.table_storage s) xs ->
    NetworkXGraphStorage.in_nodes (TaskService.graph_storage s) i = true ->
    (forall a b, In (a, b) (map fst (Nx.edges (NetworkXGraphStorage._graph
                                                 (TaskService.graph_storage s)))) -> b <> i) ->
    (forall dep, In dep deps ->
                 In (TaskDependency.task_id dep) (map Task.id xs) /\
                 NetworkXGraphStorage.in_nodes (TaskService.graph_storage s)
                   (TaskDependency.task_id dep) = true /\
                 TaskDependency.task_id dep <> i) ->
    exists s',
      TaskServiceImpl._add_task_dependencies i deps s = (Ok tt, s') /\
      TaskService.table_storage s' = TaskService.table_storage s.
Proof.
  induction deps as [|d deps IH]; intros s Hwf Hc Hh Hi Hno Hdeps.
  - exists s. split; reflexivity.
  - destruct (Hdeps d (or_introl eq_refl)) as [Hst [Hnd Hne]].
    simpl. unfold TaskService.bind at 1. unfold TaskService.read_table at 1.
    rewrite (get_by_id_holds _ xs _ Hh).
    destruct (find_id_stored xs _ Hst) as [x ->].
    unfold TaskService.bind at 1. unfold TaskService.on_graph at 1.
    destruct (storage_add_edge_full
                (GraphEdge.depends_on i (TaskDependency.task_id d)) _ Hwf Hc)
      as [b [gs' [Ea [Hwf' [Hc' [Hn' [_ [Hiff Hp]]]]]]]].
    rewrite Ea.
    cbn [GraphEdge.from_id GraphEdge.to_id GraphEdge.depends_on] in Hiff, Hp.
    assert (b = true) as ->.
    { destruct b; [reflexivity|]. exfalso.
      destruct (proj1 Hiff eq_refl) as [H|[H|[H|H]]].
      - congruence.
      - congruence.
      - apply Hne. symmetry. exact H.
      - destruct (path_last _ _ _ H) as [u [Hu _]].
        apply In_successors in Hu. destruct Hu as [r Hu].
        apply (Hno u i); [|reflexivity].
        apply in_map_iff. exists (u, i, r). split; [reflexivity | exact Hu]. }
    cbn [negb].
    destruct (IH (TaskService.mk (TaskService.table_storage s) gs')) as [s' [Hrun Ht]];
      cbn [TaskService.graph_storage TaskService.table_storage].
    + exact Hwf'.
    + exact Hc'.
    + exact Hh.
    + rewrite (in_nodes_same _ _ Hn'). exact Hi.
    + intros a b0 Hab. apply (Hp eq_refl) in Hab. destruct Hab as [Hab|Hab].
      * apply (Hno a b0 Hab).
      * inversion Hab; subst. exact Hne.
    + intros dep Hdep. destruct (Hdeps dep (or_intror Hdep)) as [H1 [H2 H3]].
      split; [exact H1|]. split; [|exact H3]. rewrite (in_nodes_same _ _ Hn'). exact H2.
    + exists s'. split; [exact Hrun | exact Ht].
Qed.

Lemma update_task_succeeds s xs t :
  consistent s xs -> Task.valid t ->
  In (Task.id t) (map Task.id xs) ->
  (forall dep, In dep (Task.dependencies t) ->
               In (TaskDependency.task_id dep) (map Task.id xs) /\
               TaskDependency.task_id dep <> Task.id t) ->
  exists s',
    TaskServiceImpl.update_task t s = (Ok t, s') /\
    holds (TaskService.table_storage s') (replace_task t xs).
Proof.
  intros Hcons Hv Hin Hdeps. pose proof Hcons as [Hwf [Hc [Hh Hagree]]].
  unfold TaskServiceImpl.update_task.
  unfold TaskService.bind at 1. unfold TaskService.on_table at 1.
  unfold DuckDBTableStorage.update.
  rewrite (proj2 (exists_In _ xs _ Hh) Hin). cbn [negb].
  pose proof (holds_update _ xs t Hh Hv) as Hh1.
  set (tb1 := DuckDBTableStorage.mk _) in *.
  unfold TaskService.bind at 1. unfold TaskService.on_graph at 1.
  cbn [TaskService.graph_storage TaskService.table_storage].
  destruct (storage_remove_node_wf (Task.id t) _ Hwf) as [b1 [gs1 [Er [_ [Hwf1 _]]]]].
  pose proof (storage_remove_node_acyclic _ _ _ _ Hwf Hc Er) as Hc1.
  pose proof (storage_remove_node_clears _ _ _ _ Hwf Er) as Hclear.
  rewrite Er.
  unfold TaskService.bind at 1. unfold TaskService.on_graph at 1.
  cbn [TaskService.graph_storage TaskService.table_storage].
  destruct (storage_add_node_ok (TaskServiceImpl.graph_node_of t) gs1) as [b2 Ea].
  rewrite Ea.
  set (gs2 := snd (NetworkXGraphStorage.add_node (TaskServiceImpl.graph_node_of t) gs1)) in *.
  assert (Hwf2 : NetworkXGraphStorage.wf gs2) by (apply storage_wf_add_node; exact Hwf1).
  assert (Hc2 : NetworkXGraphStorage.has_cycle gs2 = Ok false)
    by (apply storage_add_node_acyclic; assumption).
  assert (Hn2 : forall i, NetworkXGraphStorage.in_nodes gs2 i = true <->
                          In i (map Task.id xs)).
  { intros i. unfold gs2.
    rewrite in_nodes_add_node, (in_nodes_remove_node _ _ _ _ i Er), Hagree.
    cbn [TaskServiceImpl.graph_node_of GraphNode.id]. split.
    - intros [[H _]| ->]; [exact H | apply Hagree; exact Hin].
    - intros H. destruct (UUID_eq_dec i (Task.id t)); auto. }
  assert (He2 : Nx.edges (NetworkXGraphStorage._graph gs2)
                = Nx.edges (NetworkXGraphStorage._graph gs1)).
  { unfold gs2, NetworkXGraphStorage.add_node.
    destruct (NetworkXGraphStorage.in_nodes gs1 _); simpl; [reflexivity|].
    apply add_node_edges. }
  destruct (add_task_dependencies_ok (Task.id t) (replace_task t xs) (Task.dependencies t)
              (TaskService.mk tb1 gs2)) as [s' [Hrun Ht]];
    cbn [TaskService.graph_storage TaskService.table_storage].
  - exact Hwf2.
  - exact Hc2.
  - exact Hh1.
  - apply Hn2. exact Hin.
  - intros a b Hab. rewrite He2 in Hab. apply (Hclear a b Hab).
  - intros dep Hdep. destruct (Hdeps dep Hdep) as [H1 H2].
    rewrite map_id_replace. split; [exact H1|]. split; [apply Hn2; exact H1 | exact H2].
  - exists s'. split.
    + unfold TaskService.bind at 1. unfold TaskServiceImpl.add_dependencies_if_any.
      destruct (Task.dependencies t) as [|d ds] eqn:Ed.
      * simpl in Hrun. inversion Hrun; subst. reflexivity.
      * rewrite Hrun. reflexivity.
    + cbn [TaskService.table_storage] in Ht. rewrite Ht. exact Hh1.
Qed.

(** * Create, update and read back *)

(** C9: after a successful create_task(t) of a valid task, get_task(t.id)
    returns t, equal in every field (the code assigns neither identifier
    nor timestamps, so these are equal too), and create_task succeeds on
    a task with a fresh identifier and no dependency.  After a
    successful update_task(t), get_task(t.id) returns t with every
    field as updated, and update_task succeeds in a consistent service
    on every valid task that is stored and whose dependencies are other
    stored tasks. *)
Theorem create_get_roundtrip :
  forall (s : TaskService.t) (t : Task.t),
    Task.valid t ->
    (forall r s', TaskServiceImpl.create_task t s = (Ok r, s') ->
                  r = t /\ TaskServiceImpl.get_task (Task.id t) s' = (Ok (Some t), s')) /\
    (forall r s', TaskServiceImpl.update_task t s = (Ok r, s') ->
                  r = t /\ TaskServiceImpl.get_task (Task.id t) s' = (Ok (Some t), s')) /\
    (DuckDBTableStorage.exists_ (Task.id t) (TaskService.table_storage s) = false ->
     NetworkXGraphStorage.in_nodes (TaskService.graph_storage s) (Task.id t) = false ->
     Task.dependencies t = [] ->
     exists s', TaskServiceImpl.create_task t s = (Ok t, s')) /\
    (forall xs,
       consistent s xs ->
       In (Task.id t) (map Task.id xs) ->
       (forall dep, In dep (Task.dependencies t) ->
                    In (TaskDependency.task_id dep) (map Task.id xs) /\
                    TaskDependency.task_id dep <> Task.id t) ->
       exists s', TaskServiceImpl.update_task t s = (Ok t, s') /\
                  TaskServiceImpl.get_task (Task.id t) s' = (Ok (Some t), s')).
Proof.
  intros s t Hv. split; [|split; [|split]].
  - intros r s' H. unfold TaskServiceImpl.create_task in H.
    unfold TaskService.bind at 1 in H. unfold TaskService.on_table at 1 in H.
    unfold DuckDBTableStorage.create in H.
    destruct (DuckDBTableStorage.exists_ _ _) eqn:Ex; [discriminate|].
    unfold TaskService.bind at 1 in H. unfold TaskService.on_graph at 1 in H.
    cbn [TaskService.graph_storage TaskService.table_storage] in H.
    destruct (NetworkXGraphStorage.add_node _ _) as [[[|]|e] gr] eqn:Ea.
    + cbn [negb] in H. unfold TaskService.bind at 1 in H.
      destruct (TaskServiceImpl.add_dependencies_if_any t _) as [[[]|e] s1] eqn:Ed;
        [|discriminate].
      unfold TaskService.ret in H. inversion H; subst. split; [reflexivity|].
      apply add_dependencies_if_any_table in Ed. simpl in Ed.
      unfold TaskServiceImpl.get_task, TaskService.read_table. rewrite Ed.
      change (DuckDBTableStorage.mkRow (uuid_text (Task.id r)) (Task.model_dump r))
        with (row_of r).
      rewrite get_after_insert by assumption. reflexivity.
    + cbn [negb] in H. unfold TaskService.bind, TaskService.on_table, TaskService.raise in H.
      destruct (DuckDBTableStorage.delete _ _). discriminate.
    + discriminate.
  - intros r s' H. unfold TaskServiceImpl.update_task in H.
    unfold TaskService.bind at 1 in H. unfold TaskService.on_table at 1 in H.
    unfold DuckDBTableStorage.update in H.
    destruct (DuckDBTableStorage.exists_ _ _) eqn:Ex; [|discriminate].
    cbn [negb] in H.
    unfold TaskService.bind at 1 in H. unfold TaskService.on_graph at 1 in H.
    cbn [TaskService.graph_storage TaskService.table_storage] in H.
    destruct (NetworkXGraphStorage.remove_node _ _) as [[b1|e] gr1]; [|discriminate].
    unfold TaskService.bind at 1 in H. unfold TaskService.on_graph at 1 in H.
    cbn [TaskService.graph_storage TaskService.table_storage] in H.
    destruct (NetworkXGraphStorage.add_node _ _) as [[b2|e] gr2]; [|discriminate].
    unfold TaskService.bind at 1 in H.
    destruct (TaskServiceImpl.add_dependencies_if_any t _) as [[[]|e] s1] eqn:Ed;
      [|discriminate].
    unfold TaskService.ret in H. inversion H; subst. split; [reflexivity|].
    apply add_dependencies_if_any_table in Ed. simpl in Ed.
    unfold TaskServiceImpl.get_task, TaskService.read_table. rewrite Ed.
    rewrite get_after_update by assumption. reflexivity.
  - intros Hex Hin Hdeps. unfold TaskServiceImpl.create_task.
    unfold TaskService.bind, TaskService.on_table, DuckDBTableStorage.create.
    rewrite Hex. unfold TaskService.on_graph, NetworkXGraphStorage.add_node.
    cbn [TaskService.graph_storage TaskService.table_storage TaskServiceImpl.graph_node_of
         GraphNode.id].
    rewrite Hin. cbn [negb]. unfold TaskServiceImpl.add_dependencies_if_any. rewrite Hdeps.
    unfold TaskService.ret. eexists. reflexivity.
  - intros xs Hcons Hin Hdeps.
    destruct (update_task_succeeds s xs t Hcons Hv Hin Hdeps) as [s' [Hrun Hh']].
    exists s'. split; [exact Hrun|].
    rewrite (get_task_holds s' _ (Task.id t) Hh'). f_equal. f_equal.
    apply find_id_In.
    + rewrite map_id_replace. destruct Hcons as [_ [_ [[_ [_ Hnd]] _]]]. exact Hnd.
    + unfold replace_task. apply in_map_iff in Hin. destruct Hin as [x [Hx Hin]].
      apply in_map_iff. exists x. split; [|exact Hin].
      rewrite Hx. rewrite uuid_eqb_refl. reflexivity.
    + reflexivity.
Qed.

Lemma create_update_get_sample :
  Task.valid Sample.database_task /\
  Task.valid (Sample.task Sample.uuid_b "API Endpoints" COMPLETED [Sample.uuid_a]) /\
  (exists s',
     TaskServiceImpl.create_task Sample.database_task Sample.empty_service
       = (Ok Sample.database_task, s') /\
     TaskServiceImpl.get_task Sample.uuid_a s' = (Ok (Some Sample.database_task), s')) /\
  (exists s',
     TaskServiceImpl.update_task
       (Sample.task Sample.uuid_b "API Endpoints" COMPLETED [Sample.uuid_a]) Sample.two_tasks
       = (Ok (Sample.task Sample.uuid_b "API Endpoints" COMPLETED [Sample.uuid_a]), s') /\
     TaskServiceImpl.get_task Sample.uuid_b s'
       = (Ok (Some (Sample.task Sample.uuid_b "API Endpoints" COMPLETED [Sample.uuid_a])), s')).
Proof.
  assert (Hv : Task.valid Sample.database_task) by (vm_compute; reflexivity).
  assert (Hv' : Task.valid (Sample.task Sample.uuid_b "API Endpoints" COMPLETED [Sample.uuid_a]))
    by (vm_compute; reflexivity).
  split; [exact Hv|]. split; [exact Hv'|]. split.
  - destruct (create_get_roundtrip Sample.empty_service Sample.database_task Hv)
      as [Hcreate [_ [Hfresh _]]].
    destruct (Hfresh eq_refl eq_refl eq_refl) as [s' Hs'].
    exists s'. split; [exact Hs'|]. apply (Hcreate _ _ Hs').
  - destruct (create_get_roundtrip Sample.two_tasks _ Hv') as [_ [_ [_ Hupdate]]].
    apply (Hupdate [Sample.database_task; Sample.api_task] two_tasks_consistent).
    + simpl. right. left. reflexivity.
    + intros dep [<-|[]]. simpl. split; [left; reflexivity | discriminate].
Defined.

(** * Readiness is read off the graph, not off the records *)

(** The edges update_task leaves: those that did not touch the task, and
    the edges from the task it adds. *)
Lemma update_task_edges s t r s' :
  NetworkXGraphStorage.wf (TaskService.graph_storage s) ->
  TaskServiceImpl.update_task t s = (Ok r, s') ->
  forall a b,
    In (a, b) (map fst (Nx.edges (NetworkXGraphStorage._graph (TaskService.graph_storage s')))) ->
    a = Task.id t \/
    (In (a, b) (map fst (Nx.edges (NetworkXGraphStorage._graph (TaskService.graph_storage s)))) /\
     a <> Task.id t /\ b <> Task.id t).
Proof.
  intros Hwf H a b Hpair. unfold TaskServiceImpl.update_task in H.
  unfold TaskService.bind at 1 in H. unfold TaskService.on_table at 1 in H.
  destruct (DuckDBTableStorage.update t (TaskService.table_storage s)) as [[x|e] tb];
    [|discriminate].
  unfold TaskService.bind at 1 in H. unfold TaskService.on_graph at 1 in H.
  cbn [TaskService.graph_storage TaskService.table_storage] in H.
  destruct (NetworkXGraphStorage.remove_node _ _) as [[b1|e] gr1] eqn:Er; [|discriminate].
  unfold TaskService.bind at 1 in H. unfold TaskService.on_graph at 1 in H.
  cbn [TaskService.graph_storage TaskService.table_storage] in H.
  destruct (NetworkXGraphStorage.add_node _ gr1) as [[b2|e] gr2] eqn:Ea; [|discriminate].
  unfold TaskService.bind at 1 in H.
  destruct (TaskServiceImpl.add_dependencies_if_any t _) as [[[]|e] s1] eqn:Ed; [|discriminate].
  unfold TaskService.ret in H. inversion H; subst s1 r.
  assert (Hold : In (a, b) (map fst (Nx.edges (NetworkXGraphStorage._graph gr2))) \/
                 a = Task.id t).
  { unfold TaskServiceImpl.add_dependencies_if_any in Ed.
    destruct (Task.dependencies t) as [|d ds].
    - inversion Ed; subst. left. exact Hpair.
    - destruct (add_task_dependencies_pairs _ _ _ _ _ Ed _ Hpair) as [Ho|Ho];
        [left; exact Ho | right; exact Ho]. }
  destruct Hold as [Hold|Hold]; [|left; exact Hold]. right.
  assert (Hsame : Nx.edges (NetworkXGraphStorage._graph gr2)
                  = Nx.edges (NetworkXGraphStorage._graph gr1)).
  { unfold NetworkXGraphStorage.add_node in Ea.
    destruct (NetworkXGraphStorage.in_nodes gr1 _); inversion Ea; subst; [reflexivity|].
    simpl. apply add_node_edges. }
  rewrite Hsame in Hold.
  split; [|exact (storage_remove_node_clears _ _ _ _ Hwf Er _ _ Hold)].
  destruct (storage_remove_node_wf (Task.id t) _ Hwf) as [b0 [s0 [H0 [_ [_ [Hf Ht]]]]]].
  rewrite Er in H0. inversion H0; subst b0 s0. destruct b1.
  - rewrite (Ht eq_refl) in Hold. simpl in Hold.
    apply in_map_iff in Hold. destruct Hold as [e [He Hin]].
    apply filter_In in Hin. apply in_map_iff. exists e. split; [exact He | apply Hin].
  - rewrite (Hf eq_refl) in Hold. exact Hold.
Qed.

(** C5 (as the code has it): get_ready_tasks() asks the graph for the
    dependencies of a task, and update_task(d) removes the edges onto d.
    So once a task d that is not COMPLETED has been updated, a task t
    whose record lists d as its dependency, and whose only edge in the
    graph went to d, is returned as ready, while get_task still shows
    the dependency on the record of t and a status other than COMPLETED
    on d. *)
Theorem ready_despite_pending_dependency :
  forall (s : TaskService.t) (xs : list Task.t) (d t : Task.t)
         (status_filter : option TaskStatus),
    consistent s xs ->
    Task.valid d ->
    In (Task.id d) (map Task.id xs) ->
    (forall dep, In dep (Task.dependencies d) ->
                 In (TaskDependency.task_id dep) (map Task.id xs) /\
                 TaskDependency.task_id dep <> Task.id d) ->
    Task.status d <> COMPLETED ->
    In t xs ->
    Task.id t <> Task.id d ->
    In (TaskDependency.mk (Task.id d)) (Task.dependencies t) ->
    (forall v, In v (NetworkXGraphStorage.get_dependencies (Task.id t)
                       (TaskService.graph_storage s)) -> v = Task.id d) ->
    (forall st, status_filter = Some st -> Task.status t = st) ->
    exists s' ready,
      TaskServiceImpl.update_task d s = (Ok d, s') /\
      TaskServiceImpl.get_task (Task.id t) s' = (Ok (Some t), s') /\
      TaskServiceImpl.get_task (Task.id d) s' = (Ok (Some d), s') /\
      TaskServiceImpl.get_ready_tasks status_filter s' = (Ok ready, s') /\
      In t ready.
Proof.
  intros s xs d t status_filter Hcons Hv Hin Hdeps Hst Ht Hne Hrec Honly Hfilter.
  pose proof Hcons as [Hwf [_ [Hh Hagree]]].
  pose proof Hh as [_ [_ Hnd]].
  destruct (update_task_succeeds s xs d Hcons Hv Hin Hdeps) as [s' [Hrun Hh']].
  exists s'.
  destruct (ready_tasks_by_graph s' (replace_task d xs) status_filter Hh')
    as [ready [Hready [_ Hiff]]].
  exists ready. split; [exact Hrun|].
  assert (Ht' : In t (replace_task d xs)).
  { unfold replace_task. apply in_map_iff. exists t. split; [|exact Ht].
    uuid_cases (Task.id t) (Task.id d); [contradiction | reflexivity]. }
  split; [|split; [|split; [exact Hready|]]].
  - rewrite (get_task_holds s' _ (Task.id t) Hh'). f_equal. f_equal.
    rewrite (find_replace_other d xs (Task.id t) Hne).
    apply find_id_In; [exact Hnd | exact Ht | reflexivity].
  - rewrite (get_task_holds s' _ (Task.id d) Hh'). f_equal. f_equal.
    apply find_replace_same; [reflexivity | exact Hin].
  - apply Hiff. split; [exact Ht'|]. split; [exact Hfilter|]. left.
    assert (Hnone : NetworkXGraphStorage.get_dependencies (Task.id t)
                      (TaskService.graph_storage s') = []).
    { unfold NetworkXGraphStorage.get_dependencies.
      destruct (negb (Nx.has_node _ (Task.id t))); [reflexivity|].
      destruct (Nx.successors _ (Task.id t)) as [|b l] eqn:Es; [reflexivity|]. exfalso.
      assert (Hb : In b (Nx.successors
                           (NetworkXGraphStorage._graph (TaskService.graph_storage s'))
                           (Task.id t))) by (rewrite Es; left; reflexivity).
      apply In_successors in Hb. apply In_edge_pair in Hb.
      destruct (update_task_edges s d d s' Hwf Hrun _ _ Hb) as [Ha|[Hold [_ Hbd]]].
      - contradiction.
      - apply Hbd. apply Honly. unfold NetworkXGraphStorage.get_dependencies.
        assert (Nx.has_node (NetworkXGraphStorage._graph (TaskService.graph_storage s))
                  (Task.id t) = true) as ->.
        { apply mem_In. destruct Hwf as [_ [_ Hag]]. apply Hag. apply in_nodes_In.
          apply Hagree. apply in_map. exact Ht. }
        simpl. apply In_successors. apply In_edge_pair. exact Hold. }
    unfold deps_of. rewrite Hnone. reflexivity.
Qed.

Lemma ready_despite_pending_database_task :
  exists s' ready,
    TaskServiceImpl.update_task Sample.database_task Sample.two_tasks
      = (Ok Sample.database_task, s') /\
    TaskServiceImpl.get_task Sample.uuid_b s' = (Ok (Some Sample.api_task), s') /\
    TaskServiceImpl.get_task Sample.uuid_a s' = (Ok (Some Sample.database_task), s') /\
    TaskServiceImpl.get_ready_tasks None s' = (Ok ready, s') /\
    In Sample.api_task ready /\
    Task.dependencies Sample.api_task = [TaskDependency.mk Sample.uuid_a] /\
    Task.status Sample.database_task = PENDING.
Proof.
  destruct (ready_despite_pending_dependency Sample.two_tasks
              [Sample.database_task; Sample.api_task] Sample.database_task Sample.api_task None)
    as [s' [ready [H1 [H2 [H3 [H4 H5]]]]]].
  - exact two_tasks_consistent.
  - vm_compute. reflexivity.
  - simpl. left. reflexivity.
  - simpl. intros dep [].
  - simpl. discriminate.
  - simpl. right. left. reflexivity.
  - simpl. discriminate.
  - simpl. left. reflexivity.
  - vm_compute. intros v [<-|[]]. reflexivity.
  - discriminate.
  - exists s', ready. repeat (split; [assumption|]). split; reflexivity.
Defined.
